(* ===== verification/_CoqProject ===== *)
-Q . S2P
Prelude.v
PyRegex.v
RegexSearch.v
DxlLexer.v
PlyMaster.v
Classifier.v
Checks.v
FuncTable.v
LexerInit.v
NtPath.v
IncludeResolver.v
Duplicates.v
Render.v
Dxl2Html.v
IncludeHtml.v
Menu.v
CmdLine.v
Batch.v
Reports.v
TreePages.v
Template.v
FuncPages.v
Cpd.v
Doit.v
ScanScripts.v
