(* ===== verification/Prelude.v ===== *)
(** * A verification development of dxl-analyzer

    dxl-analyzer checks the DXL scripts of an IBM DOORS installation.  Its
    two sources are [src/dxl_lexer.py], a PLY tokenizer with a pass
    [get_tokens] that collects facts about a file (includes, string
    initialisations, pragmas, system calls, called functions, the
    "executable by DOORS" marker), and [src/dxl-analyzer/dxl_scan.py],
    whose class [StartDoors] snapshots the directory trees of the DOORS
    menus, re-scans each [.dxl] file (and each file it includes) with that
    lexer and records error objects per file in [self.__report], from
    which it writes HTML reports ([template.py] holds their HTML).

    ** How the files of the development correspond to the code

    The files are listed in dependency order; each opens with a comment
    on what it holds, and each component is a [Module] of its own.

    - [Prelude] (this file): the notation scope [dxl_scope], the hint
      databases [dxl] and [dxl_rw], and the generic facts on lists, strings
      and [gmap]s the components share, with the Python string operations
      the code uses ([s.count], [s.split], [in]).
    - [PyRegex]: the Python 2.7 [re] engine the lexer is built on, a
      library the sources only call: the pattern syntax ([sre_parse], with
      [re.VERBOSE]) and the backtracking matcher ([_sre]), with captures,
      lazy and greedy repeats, lookaheads, [^] and [\b].  Proved: every
      match ends inside the data after at least the pattern's minimal
      length, and the matcher's fuel never runs out.
    - [RegexSearch]: what the matcher does on a pattern that is a chain
      of one-character matchers (read them or fail), ended by one more
      character or by a greedy [\d*], and where [pattern.search] then
      stops: the first accepting position, or nowhere when the pattern
      needs a character the text lacks.
    - [DxlLexer]: [class Lexer] of [src/dxl_lexer.py]: token names,
      [reserved_map], the rules with their patterns copied from the source
      in PLY's order, and [lexer.token()] as a step function [lex_step] on
      the state ([lexpos], [lineno], [__last_newline_lexpos]), iterated by
      [lex_loop] and described by the relation [lex_steps].  Proved:
      tokenizing terminates; the final [lineno] is one plus the newlines of
      the file minus those inside tokens whose rule does not count them;
      token lines and positions are sorted; a token's line is never after
      its real line; a lexer whose [lineno] was not reset shifts every line
      by the same amount.
    - [PlyMaster]: the one pattern [lex.lex] in [Lexer.build] joins from
      all the rules ([(?P<t_NAME>...)|...]), parsed by [PyRegex], and the
      rule [lexer.token()] reads from [m.lastindex] through
      [lexindexfunc].  Proved: renumbering the groups of a pattern never
      changes where its matches end, so reading the master pattern's
      match gives exactly the rule-by-rule first match [master_match]
      that [DxlLexer] runs.
    - [Classifier]: [Lexer.get_tokens] as [gt_step] folded over the
      stream.  Proved: each result dict refines a reading over pairs
      (previous token, token), the last assignment to a key winning;
      [func_called] lists the calls not preceded by a type keyword; the
      executable marker is never set.
    - [Checks]: [__check_string_init], [__check_sys_calls] and
      [__check_pragmas] (which can raise, hence [py_result]), Python 2's
      [int()] and the error classes.  Proved: the exact errors each check
      appends and when the pragma check raises instead.
    - [FuncTable]: [Lexer.get_func_declarations] (the declaration pattern
      run by [PyRegex]) and the tables of [StartDoors]: defined, called,
      not called and redefined functions.  Proved: the name-to-lines map,
      the per-file update of the defined table, the redefinition report,
      and that the called names do not depend on the [lineno] the shared
      lexer was left at.
    - [LexerInit]: [Lexer.init], the [Token] objects with escaped values
      and columns [lexpos - __last_newline_lexpos] as Python ints ([Z]).
      Proved: [tok_dict] groups the tokens by line, columns are
      non-negative.
    - [NtPath]: Python 2.7.18's [ntpath] ([splitdrive], [isabs], [join],
      [normpath], [basename], [split], [dirname], [splitext]), a library
      the code calls, on [list ascii].
    - [IncludeResolver]: [__get_valid_includes]; [os.path.exists] and the
      roots are [Section] variables.  Proved: the order in which candidate
      paths are tried, the legal-drive filter of the stored list, and the
      line that the path errors carry.
    - [Duplicates]: [__check_duplicates] ([collections.Counter]) and
      [__check_same_include_content], whose list is shortened through an
      alias while a [for] loop iterates it, modelled by the index-based
      list iterator [iter_remove].  Proved: the errors of each.
    - [IncludeHtml]: [__includes_dxl2html], the recursive visit of the
      includes of a main file that builds the dependency table and the
      pages of the includes, with [__hash_file_content] and
      [__compare_hash_content]; the recursion limit of Python is the
      [depth] argument and [try: ... except: pass] is modelled with the
      state an exception leaves.  Proved: in the complete mode the visits
      are the include paths ([npaths]), so cyclic includes only stop at
      the recursion limit; [hash_content.txt] only ever holds the hashes
      of the current run, which makes the incremental mode skip includes.
    - [Render]: [__syntax_color], the HTML style of a token.
    - [Dxl2Html]: the page [__dxl2html] writes for a file, from the
      column of line numbers on: every [f.write] of the loop over the
      lines of [tok_dict] ([Lexer.init]), the span of each token with the
      links of includes and function calls, the line breaks after a C
      comment, and the exceptions ([HpExc] keeps what was written).
      Proved: when every C comment's breaks fit before the next token,
      the breaks the loop writes plus those the comments carry are one per
      line, so the code stays beside its line numbers; and, on concrete
      files, that a string holding [<br>] breaks this, and that the pages
      of includes link calls to the main file's declaration lines.
    - [Menu]: [__make_list] (the configured roots kept, and the
      [AttributeError] of the call [self.__warn] to a method that does not
      exist, for a root that is missing), [__make_tree],
      [__save_tree], [__dict2list] and [__get_dxl_files], with Python
      dicts as association lists and [os.path.isdir] and [os.walk] as
      parameters.  Proved: on the top-down walk of a directory tree the
      snapshot is that tree, and reading it back lists exactly its [.dxl]
      files; roots off drive [K] give nothing; whatever [os.walk]
      returns, every pickled tree is a dictionary with no key twice at any
      level ([wf_pyval]), as Python dictionaries are.
    - [Batch]: the state of [StartDoors] a run uses ([__new_vars]) and the
      loop of [__check_files] with its include checks; file sizes and
      contents, [os.path.exists] and the roots are [Section] variables;
      Section [Run] adds the global step after the loop ([__check_same_include_content] and the
      menu handed to [__check_dependencies], [check_files_run]).
      Proved: the loop gets through its list, every file counted and
      present in the report, unless one file raises, which ends the loop
      after the files before it; after the loop an oversize file has
      exactly its one error, an exception of
      a pragma check ends the whole run, and in the [-s] mode (a list of
      files) the run never returns normally, since [dxl_menu] is bound
      only for the three list files.
    - [Reports]: [__gen_report] and [__gen_report_category], each page
      the list of strings [f.write] receives, with [Error.__str__], the
      category patterns and the "Go to error" anchor run through
      [PyRegex]; the template, [os.linesep] and [__get_hash] are
      [Section] variables.  Proved: every error the checks create is
      listed on the page of its category; the anchor of an error on line
      [n] is [n] when the text before has no ["at line"]; an oversize
      file is on no category page; and, on concrete errors, that a path
      holding [pragma] or ["at line 7"] puts an include error on the
      pragma page or links it to line 7.
    - [TreePages]: [__file_exec_by_doors], the menu tree pages
      ([__gen_html], [__txt2html]) and the list of files
      ([__list_html_files], [__write_list_files], with the edit batch
      file [__dxl2html] writes), each page the list of its writes.
      Proved: the tree page links exactly the [.dxl] files
      [__get_dxl_files] lists that are small enough and lie under a [-e]
      directory or are named by an [.idx] file (the lexer's marker adds
      none); the path read back from an edit batch file is the file's
      path; [k.rstrip(".dxl")] and [lstrip(dxl_file[:41])] cut more than
      the extension and the hash exactly when the name ends or starts with
      one of their characters; a first row whose batch file names no
      [notepad] leaves [abs_file_path] unbound.
    - [CmdLine]: the command line.  Module [ArgParse] models the part of
      Python 2.7's [argparse] the program uses (a library, written after
      [Lib/argparse.py]: conflicts, classification of the arguments,
      [store], [append], [store_true], [help], [version], the required
      check, the error on left-over arguments); Module [CmdLine] models
      [ArgParser], [StartDoors.__init__], [__define_args] and
      [__parse_args], the attributes [_StartDoors__<key>] being a [gmap].
      Proved: [ArgParser.add_argument] keeps any parser conflict-free
      (the invariant of [_check_conflict]), the new action's option
      strings naming it and its dest being [long_opt] without its suffix;
      rendering any options as a command line and
      parsing it sets exactly those attributes; every successful parse
      binds [__database] to a value.
    - [Template]: [template.py], the style sheet, menu bar and homepage as
      the lists of their source lines.
    - [FuncPages]: the pages of functions not called, redefined and all
      functions, and of dependencies.  Proved: the names announced on a
      page are exactly those the tables of [FuncTable] select.
    - [Cpd]: [__gen_cpd_bat] and [__gen_cpd_report].  Proved: the report
      lists the roots whose XML output exceeds 1024 bytes; a missing XML
      file raises [OSError] inside the [with] block, leaving the page with
      its head and the rows before it ([wres] keeps the writes of a block
      an exception leaves); and the XML names turn every backslash into
      an underscore.
    - [Doit]: [__doit], the run as a composition of the operations above
      on the output directory and the state of [Batch], a raising call
      ending the run ([Crash]) with what was written before.  Proved: the
      removal of the PROD roots never happens (a [NameError] swallowed);
      a missing root of the configuration ends the run at [__make_list]
      with [AttributeError] before anything is written; a missing CPD
      file ends it after the batch file and the head of [report_cpd.html]; after a normal main run every
      link of the menu bar names a file the run wrote.
    - [ScanScripts]: the batch files the output holds ([dxl_scan.bat] of
      the homepage and [scan_bat/*.bat] of each page) composed with the
      command line: the words [cmd] makes of their last line are parsed
      by [CmdLine].  Proved: a per-file scan script starts the [-s] run on
      exactly that file with the database [FBL-SSDD]; a path holding a
      space is refused with exit code 2; the homepage script reads the
      section [FBL_SSDD], a different section of the configuration from
      the [FBL-SSDD] of the per-file scripts.

    Each group also states, as theorems on concrete inputs, the places
    where the code does not do what its comments or the specification say
    (multi-line tokens shift later lines, greedy [FUNCTION] tokens, errors
    carrying a stale line, includes checked twice, roots off drive [K]
    ignored, ...).

    ** Fuel and bounds

    [PlyMaster] and [Dxl2Html] need no fuel: the first is structural over
    the rules, the second a [fold_left] over the lines [1..lines[-1]].
    Nor does [argparse]: [ArgParse.consume] recurses on the classified
    arguments and [ArgParse.chain] on the rest of a chain of short flags.

    The lexer loop runs on fuel [1 + length data]: every step advances
    [lexpos] by at least one character, so [tokenize_total] shows the fuel
    is enough on every input.  The regex matcher's repetitions run on the
    remaining input plus one; [PyRegex.run_total] shows it never runs out.
    [NtPath.normpath]'s loop runs on [1 + 2 * length comps], enough since
    each pass removes a component or advances the index; the aliasing
    iterator [iter_remove] runs on [1 + length l], enough since each pass
    advances the index.  The [depth] of [IncludeHtml.includes_dxl2html]
    is not a fuel but Python's recursion limit (1000 frames by default,
    two per level of the visit): the theorems hold for every depth.
    File sizes are [N] and columns [Z], as the
    Python ints they are; the 500,000-byte cap is compared on [N].

    ** Not modelled

    The reading of the configuration file (its result, the menu paths of
    a database, is a [Section] variable of [Doit]), [_init_from_sys_args],
    logging, e-mail, temporary directories, ClearCase and the PMD/CPD
    program itself (only the size of its output is read), and content
    hashing (only equality of digests matters, so the hash is a
    parameter): they are input and output around the analysis.  The text
    [argparse] prints for [-h], [-v] and errors is not followed, only the
    exit code and the message of an error.  Python 2 dictionaries are
    iterated in the order of the model ([gmap] order, or insertion order
    for association lists), so the theorems whose result depends on that
    order state it up to permutation or per key. *)

From Stdlib Require Export Ascii String List Lia.
From stdpp Require Export base list gmap strings.
Export ListNotations.

(** ** Notation scope of the development *)

Declare Scope dxl_scope.
Delimit Scope dxl_scope with dxl.
Open Scope dxl_scope.
Open Scope bool_scope.

(** ** Automation *)

Create HintDb dxl discriminated.
Create Rewrite HintDb dxl_rw.

(** ** Characters and Python byte strings *)

(** A Python 2 [str] is a sequence of bytes; it is modelled as [list ascii]
    while it is scanned and as [string] when it is stored in a dict. *)
Definition chars := list ascii.

Definition nl : ascii := "010"%char.
Definition dq : ascii := "034"%char.
(** The double quote as a string *)
Definition qt : string := String dq EmptyString.

(** [s.count("\n")] *)
Fixpoint count_char (c : ascii) (l : chars) : nat :=
  match l with
  | [] => 0
  | x :: l' => (if Ascii.eqb x c then 1 else 0) + count_char c l'
  end.

Definition sum_nat (l : list nat) : nat := foldr Nat.add 0 l.

(** ** Python string operations on byte strings *)

(** [s.split(sep)] for a one-character separator *)
Fixpoint split_on (sep : ascii) (s : string) : list string :=
  match s with
  | EmptyString => [EmptyString]
  | String c s' =>
      if Ascii.eqb c sep then EmptyString :: split_on sep s'
      else match split_on sep s' with
           | w :: ws => String c w :: ws
           | [] => [String c EmptyString]
           end
  end.

(** [sub in s] *)
Definition py_in (sub s : string) : bool :=
  match String.index 0 sub s with Some _ => true | None => false end.

(** [s.replace(c, r)] for a one-character [c] *)
Fixpoint replace_char (c : ascii) (r : string) (s : string) : string :=
  match s with
  | EmptyString => EmptyString
  | String d s' => if Ascii.eqb d c then String.append r (replace_char c r s') else String d (replace_char c r s')
  end.

(** [w[len(pre):]] when [w.startswith(pre)] *)
Fixpoint strip_prefix {A} `{EqDecision A} (pre w : list A) : option (list A) :=
  match pre, w with
  | [], _ => Some w
  | c :: p, d :: w' => if decide (c = d) then strip_prefix p w' else None
  | _ :: _, [] => None
  end.

(** The [k] of a string [pre + k + suf]: how a reader of a page takes a
    name out of a line the page writes *)
Definition between (pre suf w : string) : option string :=
  l ← strip_prefix (list_ascii_of_string pre) (list_ascii_of_string w);
  r ← strip_prefix (rev (list_ascii_of_string suf)) (rev l);
  Some (string_of_list_ascii (rev r)).

(** ** Generic lemmas on lists and maps *)

Lemma count_char_app c l1 l2 :
  count_char c (l1 ++ l2) = count_char c l1 + count_char c l2.
Proof. induction l1 as [|x l1 IH]; simpl; [done|]. rewrite IH. lia. Qed.
#[export] Hint Rewrite count_char_app : dxl_rw.

(** A map built by inserting the elements of a list holds only what it
    started with or values of the list. *)
Lemma foldl_insert_lookup {K A} `{Countable K} (f : A -> K) (l : list A) (m : gmap K A) k v :
  foldl (fun m a => <[f a := a]> m) m l !! k = Some v ->
  m !! k = Some v \/ (v ∈ l /\ f v = k).
Proof.
  revert m. induction l as [|a l IH]; intros m Hk; simpl in Hk; [by left|].
  destruct (IH _ Hk) as [Hm|[Hv Hf]]; [|right; split; [by right|done]].
  destruct (decide (f a = k)) as [<-|Hne].
  - rewrite lookup_insert_eq in Hm. injection Hm as <-. right. split; [left|]; done.
  - rewrite lookup_insert_ne in Hm by done. by left.
Qed.

(** [l[:e] = l[:i] + l[i:e]] *)
Lemma list_ascii_of_string_app (s1 s2 : string) :
  list_ascii_of_string (s1 ++ s2) = list_ascii_of_string s1 ++ list_ascii_of_string s2.
Proof. induction s1 as [|c s1 IH]; simpl; [done|]. by rewrite IH. Qed.
#[export] Hint Rewrite list_ascii_of_string_app : dxl_rw.

(** A flag a loop sets and never clears *)
Lemma fold_left_set_true {A} (g : bool -> A -> bool) (p : A -> bool) (l : list A) (e : bool) :
  (forall e x, g e x = if p x then true else e) ->
  fold_left g l e = e || existsb p l.
Proof.
  intros Hg. revert e; induction l as [|x l IH]; intros e; simpl; [by rewrite orb_false_r|].
  rewrite IH, Hg. by destruct (p x), e.
Qed.

Lemma take_slice {A} (l : list A) i e :
  i <= e -> take e l = take i l ++ take (e - i) (drop i l).
Proof. intros Hie. rewrite take_take_drop. f_equal. lia. Qed.

Lemma sum_nat_app l1 l2 : sum_nat (l1 ++ l2) = sum_nat l1 + sum_nat l2.
Proof. induction l1 as [|x l1 IH]; simpl; [done|]. rewrite IH. lia. Qed.
#[export] Hint Rewrite sum_nat_app : dxl_rw.

(** Looking up one key of a string-keyed dict while walking its items *)
Lemma omap_cons {A B} (F : A -> option B) a l : omap F (a :: l) = option_list (F a) ++ omap F l.
Proof. simpl. by destruct (F a). Qed.

Lemma omap_key_map_to_list {V B} (d : gmap string V) (k : string) (f : V -> B) :
  omap (fun kv => if String.eqb kv.1 k then Some (f kv.2) else None) (map_to_list d)
  = option_list (f <$> d !! k).
Proof.
  set (F := fun kv : string * V => if String.eqb kv.1 k then Some (f kv.2) else None).
  induction d as [|i x d Hi IH] using map_ind.
  - by rewrite map_to_list_empty, lookup_empty.
  - pose proof (omap_Permutation F _ _ (map_to_list_insert d i x Hi)) as Hp.
    rewrite omap_cons, IH in Hp.
    destruct (String.eqb_spec i k) as [<-|Hne].
    + rewrite lookup_insert_eq. rewrite Hi in Hp. unfold F in *. simpl in *.
      rewrite String.eqb_refl in Hp. by apply Permutation_singleton_r.
    + rewrite lookup_insert_ne by done. unfold F in *. simpl in *.
      apply String.eqb_neq in Hne. rewrite Hne in Hp.
      destruct (d !! k); simpl in *; [by apply Permutation_singleton_r | by apply Permutation_nil_r].
Qed.

(** [max] and [min] of a non-empty list of naturals are elements of it
    and bound it. *)
Lemma foldr_max_spec v vs :
  foldr Nat.max v vs ∈ v :: vs /\ Forall (fun x => x <= foldr Nat.max v vs) (v :: vs).
Proof.
  induction vs as [|w vs [IHin IHle]]; simpl; [split; [left|]; repeat constructor; lia|].
  inversion IHle as [|? ? Hv Hvs]; subst. split.
  - destruct (Nat.max_spec w (foldr Nat.max v vs)) as [[_ ->]|[_ ->]]; set_solver.
  - constructor; [lia|]. constructor; [lia|]. eapply Forall_impl; [exact Hvs|]. simpl; lia.
Qed.

Lemma foldr_min_spec v vs :
  foldr Nat.min v vs ∈ v :: vs /\ Forall (fun x => foldr Nat.min v vs <= x) (v :: vs).
Proof.
  induction vs as [|w vs [IHin IHle]]; simpl; [split; [left|]; repeat constructor; lia|].
  inversion IHle as [|? ? Hv Hvs]; subst. split.
  - destruct (Nat.min_spec w (foldr Nat.min v vs)) as [[_ ->]|[_ ->]]; set_solver.
  - constructor; [lia|]. constructor; [lia|]. eapply Forall_impl; [exact Hvs|]. simpl; lia.
Qed.

(** The values of a map, as [d.values()] lists them *)
Lemma elem_of_map_values {K V} `{Countable K} (d : gmap K V) v :
  v ∈ map snd (map_to_list d) <-> exists k, d !! k = Some v.
Proof.
  rewrite list_elem_of_fmap. split.
  - intros ([k v'] & -> & Hin). apply elem_of_map_to_list in Hin. by exists k.
  - intros [k Hk]. exists (k, v). split; [done|]. by apply elem_of_map_to_list.
Qed.

(** A [flat_map] over distinct keys where only the key [b] contributes *)
Lemma flat_map_single {A B} `{EqDecision A} (f : A -> list B) (ds : list A) (b : A) :
  NoDup ds -> (forall d, d ∈ ds -> d <> b -> f d = []) ->
  flat_map f ds = if bool_decide (b ∈ ds) then f b else [].
Proof.
  induction ds as [|d ds IH]; intros Hnd Hf; [done|]. simpl.
  apply NoDup_cons in Hnd as [Hd Hnd].
  rewrite IH by (done || set_solver). destruct (decide (d = b)) as [->|Hne].
  - rewrite (bool_decide_true (b ∈ b :: ds)) by set_solver.
    rewrite (bool_decide_false (b ∈ ds)) by done. apply app_nil_r.
  - rewrite Hf by set_solver. simpl.
    by rewrite (bool_decide_ext (b ∈ d :: ds) (b ∈ ds)) by set_solver.
Qed.

(** Two [List.filter]s in a row *)
Lemma filter_filter_andb {A} (p q : A -> bool) (l : list A) :
  List.filter p (List.filter q l) = List.filter (fun x => q x && p x) l.
Proof.
  induction l as [|x l IH]; simpl; [done|].
  destruct (q x); simpl; [destruct (p x)|]; simpl; by rewrite IH.
Qed.

Lemma strip_prefix_Some {A} `{EqDecision A} (pre w r : list A) :
  strip_prefix pre w = Some r <-> w = pre ++ r.
Proof.
  revert w. induction pre as [|c p IH]; intros [|d w]; simpl;
    [naive_solver..|]. case_decide; [subst; rewrite IH|]; naive_solver.
Qed.

Lemma string_app_assoc (s1 s2 s3 : string) : (s1 +:+ s2) +:+ s3 = s1 +:+ s2 +:+ s3.
Proof.
  induction s1 as [|c s1 IH]; [done|].
  change (String c ((s1 +:+ s2) +:+ s3) = String c (s1 +:+ s2 +:+ s3)). by rewrite IH.
Qed.
#[export] Hint Rewrite string_app_assoc : dxl_rw.

Lemma between_app pre k suf : between pre suf (pre +:+ k +:+ suf) = Some k.
Proof.
  unfold between. rewrite !list_ascii_of_string_app.
  assert (Hp : forall a b : chars, strip_prefix a (a ++ b) = Some b) by (intros; by apply strip_prefix_Some).
  rewrite Hp. simpl. rewrite rev_app_distr, Hp. simpl.
  by rewrite rev_involutive, string_of_list_ascii_of_string.
Qed.

Lemma between_Some pre suf w k : between pre suf w = Some k -> w = pre +:+ k +:+ suf.
Proof.
  unfold between. intros H.
  destruct (strip_prefix _ (list_ascii_of_string w)) as [l|] eqn:E1; [|done]; simpl in H.
  destruct (strip_prefix _ (rev l)) as [r|] eqn:E2; [|done]; simpl in H. injection H as <-.
  apply strip_prefix_Some in E1, E2.
  apply (f_equal string_of_list_ascii) in E1. rewrite string_of_list_ascii_of_string in E1. subst w.
  apply (f_equal (@rev ascii)) in E2. rewrite rev_app_distr, rev_involutive in E2. subst l.
  rewrite <- (string_of_list_ascii_of_string (pre +:+ _ +:+ _)). f_equal.
  by rewrite !list_ascii_of_string_app, list_ascii_of_string_of_list_ascii, rev_involutive.
Qed.
#[export] Hint Rewrite between_app : dxl_rw.

(** Strings with different endings differ *)
Lemma string_app_suffix_neq (s suf w : string) :
  ~ (rev (list_ascii_of_string suf) `prefix_of` rev (list_ascii_of_string w)) -> s +:+ suf <> w.
Proof.
  intros Hn <-. apply Hn. rewrite list_ascii_of_string_app, rev_app_distr. by eexists.
Qed.

(** A [concat] of a [map] whose items vanish off a filter *)
Lemma concat_map_filter {A B} (f : A -> list B) (p : A -> bool) (l : list A) :
  (forall x, p x = false -> f x = []) -> concat (map f l) = concat (map f (List.filter p l)).
Proof.
  intros Hf. induction l as [|x l IH]; [done|]. simpl.
  destruct (p x) eqn:E; simpl; [by rewrite IH | by rewrite Hf, IH].
Qed.

Lemma omap_concat {A B} (F : A -> option B) (ls : list (list A)) :
  omap F (concat ls) = concat (map (omap F) ls).
Proof. induction ls as [|l ls IH]; [done|]. simpl. by rewrite omap_app, IH. Qed.
