(* ===== verification/PyRegex.v ===== *)
(** * PyRegex: the part of Python 2.7's [re] module that the analyzer uses

    The tokenizer of [src/dxl_lexer.py] is a PLY lexer: every rule is a
    Python regular expression, and PLY joins them into a master pattern
    compiled with [re.VERBOSE] and matched with [pattern.match(data, pos)].
    [get_func_declarations] runs [re.finditer] over a whole file.  This file
    models the syntax those patterns use (sre_parse) and the backtracking
    matcher that runs them (_sre), so that the lexer rules can be written
    in the development exactly as they are written in the source.

    Matching is continuation-passing: [mt r p c k] tries [r] at position
    [p] with capture list [c] and hands every way of matching, in the
    order sre tries them, to the continuation [k] until one succeeds.
    Repetitions carry a fuel bounded by the remaining input; the theorems
    show that this fuel never runs out and that every match consumes at
    least [minlen r] characters of the input. *)

From Stdlib Require Import Ascii String List Lia Arith.
From S2P Require Import Prelude.
Import ListNotations.

Module PyRegex.

(** ** Character classes of sre without the LOCALE or UNICODE flags *)

Definition ceq (a b : ascii) : bool := Ascii.eqb a b.

Definition is_digit (c : ascii) : bool :=
  let n := nat_of_ascii c in (48 <=? n) && (n <=? 57).

(** [SRE_IS_SPACE]: tab, newline, vertical tab, form feed, carriage return, space *)
Definition is_space (c : ascii) : bool :=
  let n := nat_of_ascii c in ((9 <=? n) && (n <=? 13)) || (n =? 32).

Definition is_alpha (c : ascii) : bool :=
  let n := nat_of_ascii c in ((65 <=? n) && (n <=? 90)) || ((97 <=? n) && (n <=? 122)).

(** [SRE_IS_WORD]: letters, digits and the underscore *)
Definition is_word (c : ascii) : bool := is_alpha c || is_digit c || (nat_of_ascii c =? 95).

(** [SRE_IS_LINEBREAK]: what [.] does not match *)
Definition is_linebreak (c : ascii) : bool := nat_of_ascii c =? 10.

Inductive category := CatDigit | CatNotDigit | CatSpace | CatNotSpace | CatWord | CatNotWord.

Definition in_category (k : category) (c : ascii) : bool :=
  match k with
  | CatDigit => is_digit c | CatNotDigit => negb (is_digit c)
  | CatSpace => is_space c | CatNotSpace => negb (is_space c)
  | CatWord => is_word c | CatNotWord => negb (is_word c)
  end.

(** Items of a character set [[...]] *)
Inductive set_item :=
| SLit (c : ascii)
| SRange (lo hi : ascii)
| SCat (k : category).

Definition in_item (c : ascii) (it : set_item) : bool :=
  match it with
  | SLit a => ceq a c
  | SRange lo hi => (nat_of_ascii lo <=? nat_of_ascii c) && (nat_of_ascii c <=? nat_of_ascii hi)
  | SCat k => in_category k c
  end.

Definition in_set (neg : bool) (items : list set_item) (c : ascii) : bool :=
  xorb neg (existsb (in_item c) items).

(** ** Abstract syntax of a parsed pattern (sre_parse's output) *)

Inductive re :=
| REmpty                                         (** empty sequence *)
| RLit (c : ascii)                               (** LITERAL *)
| RAny                                           (** [.] *)
| RIn (neg : bool) (items : list set_item)       (** IN: [[...]], [\d], [\s], [\w] *)
| RCat (r1 r2 : re)
| RAlt (r1 r2 : re)                              (** BRANCH, tried left to right *)
| RRepeat (lo : nat) (hi : option nat) (greedy : bool) (r : re)
    (** MAX_REPEAT (greedy) and MIN_REPEAT (lazy); [hi = None] is MAXREPEAT *)
| RGroup (idx : nat) (name : option string) (r : re)   (** SUBPATTERN *)
| RNotAhead (r : re)                             (** [(?!...)] *)
| RAhead (r : re)                                (** [(?=...)] *)
| RBeginning                                     (** [^] without MULTILINE *)
| RBoundary                                      (** [\b] *)
| RNotBoundary.                                  (** [\B] *)

(** A lower bound on the length of every match of a pattern *)
Fixpoint minlen (r : re) : nat :=
  match r with
  | REmpty | RBeginning | RBoundary | RNotBoundary | RNotAhead _ | RAhead _ => 0
  | RLit _ | RAny | RIn _ _ => 1
  | RCat r1 r2 => minlen r1 + minlen r2
  | RAlt r1 r2 => Nat.min (minlen r1) (minlen r2)
  | RRepeat lo _ _ r1 => lo * minlen r1
  | RGroup _ _ r1 => minlen r1
  end.

(** ** Matching state *)

(** A position in the subject string: its index, the character before it
    ([None] exactly at the real beginning of the string, which is what [^]
    and [\b] look at) and the characters after it. *)
Record pos := Pos { p_idx : nat; p_prev : option ascii; p_rest : chars }.

(** Group spans as (index, (start, end)); the most recent binding comes first. *)
Definition captures := list (nat * (nat * nat)).

Inductive mres :=
| NoMatch
| Matched (p : pos) (c : captures)
| OutOfFuel.

Notation "a 'orelse' b" := (match a with NoMatch => b | res => res end)
  (at level 51, right associativity) : dxl_scope.

Definition advance (p : pos) : option (ascii * pos) :=
  match p_rest p with
  | [] => None
  | c :: r => Some (c, Pos (S (p_idx p)) (Some c) r)
  end.

Definition word_at (o : option ascii) : bool :=
  match o with Some c => is_word c | None => false end.

(** [SRE_AT_BOUNDARY]: never inside the empty string *)
Definition at_boundary (p : pos) : bool :=
  match p_prev p, p_rest p with
  | None, [] => false
  | pr, r => negb (Bool.eqb (word_at pr) (word_at (head r)))
  end.

Definition at_beginning (p : pos) : bool :=
  match p_prev p with None => true | Some _ => false end.

(** One character matched against a predicate *)
Definition mt_char (f : ascii -> bool) (p : pos) (c : captures)
    (k : pos -> captures -> mres) : mres :=
  match advance p with
  | Some (b, p') => if f b then k p' c else NoMatch
  | None => NoMatch
  end.

(** ** The backtracking matcher *)

(** A repetition [r{lo,hi}]: [rep_need] performs the [lo] mandatory
    iterations and [rep_more] the optional ones, greedy (iterate first, as
    MAX_UNTIL) or lazy (tail first, as MIN_UNTIL).  As in _sre's zero-width
    protection, an optional iteration that matched the empty string does
    not loop again: it goes on with the tail.  [rep_more] runs on a fuel
    larger than the remaining input, which every looping iteration
    shortens; [body] is the matcher of [r]. *)
Section Repeat.
Variable body : pos -> captures -> (pos -> captures -> mres) -> mres.
Variable greedy : bool.
Variable k : pos -> captures -> mres.

Fixpoint rep_more (fuel : nat) (left : option nat) (p : pos) (c : captures) : mres :=
  match fuel with
  | O => OutOfFuel
  | S fuel' =>
      match left with
      | Some O => k p c
      | _ =>
          let step := fun p1 c1 =>
            if p_idx p1 =? p_idx p then k p1 c1
            else rep_more fuel' (option_map pred left) p1 c1 in
          if greedy then body p c step orelse k p c
          else k p c orelse body p c step
      end
  end.

Fixpoint rep_need (n : nat) (left : option nat) (p : pos) (c : captures) : mres :=
  match n with
  | O => rep_more (S (length (p_rest p))) left p c
  | S n' => body p c (fun p1 c1 => rep_need n' left p1 c1)
  end.
End Repeat.

Fixpoint mt (r : re) (p : pos) (c : captures) (k : pos -> captures -> mres) {struct r} : mres :=
  match r with
  | REmpty => k p c
  | RLit a => mt_char (ceq a) p c k
  | RAny => mt_char (fun b => negb (is_linebreak b)) p c k
  | RIn neg items => mt_char (in_set neg items) p c k
  | RCat r1 r2 => mt r1 p c (fun p1 c1 => mt r2 p1 c1 k)
  | RAlt r1 r2 => mt r1 p c k orelse mt r2 p c k
  | RGroup i _ r1 => mt r1 p c (fun p1 c1 => k p1 ((i, (p_idx p, p_idx p1)) :: c1))
  | RNotAhead r1 =>
      match mt r1 p c Matched with
      | NoMatch => k p c
      | Matched _ _ => NoMatch
      | OutOfFuel => OutOfFuel
      end
  | RAhead r1 =>
      match mt r1 p c Matched with
      | NoMatch => NoMatch
      | Matched _ c1 => k p c1
      | OutOfFuel => OutOfFuel
      end
  | RBeginning => if at_beginning p then k p c else NoMatch
  | RBoundary => if at_boundary p then k p c else NoMatch
  | RNotBoundary => if at_boundary p then NoMatch else k p c
  | RRepeat lo hi greedy r1 =>
      rep_need (mt r1) greedy k lo (option_map (fun h => h - lo) hi) p c
  end.

(** [pattern.match(s, i)]: the match starts at index [i] of the whole
    subject, so [^] and [\b] still see the characters before [i]. *)
Definition pos_at (s : chars) (i : nat) : pos :=
  Pos i (match i with O => None | S j => nth_error s j end) (skipn i s).

Definition run (r : re) (s : chars) (i : nat) : mres := mt r (pos_at s i) [] Matched.

(** End index and captures of [pattern.match(s, i)] *)
Definition match_at (r : re) (s : chars) (i : nat) : option (nat * captures) :=
  match run r s i with
  | Matched p c => Some (p_idx p, c)
  | _ => None
  end.

(** [m.group(i)] as a span *)
Definition group_span (c : captures) (i : nat) : option (nat * nat) :=
  match find (fun e => fst e =? i) c with
  | Some (_, sp) => Some sp
  | None => None
  end.

Definition slice (s : chars) (b e : nat) : chars := firstn (e - b) (skipn b s).

(** [pattern.search(s, i)]: the first start position from [i] on where a
    match exists. *)
Fixpoint search_from (fuel : nat) (r : re) (s : chars) (i : nat)
    : option (nat * nat * captures) :=
  match fuel with
  | O => None
  | S f =>
      match match_at r s i with
      | Some (e, c) => Some (i, e, c)
      | None => if length s <=? i then None else search_from f r s (S i)
      end
  end.

(** [pattern.finditer(s)]: successive non-overlapping matches; after an
    empty match the scan moves one character on. *)
Fixpoint finditer_from (fuel : nat) (r : re) (s : chars) (i : nat)
    : list (nat * nat * captures) :=
  match fuel with
  | O => []
  | S f =>
      match search_from (S (length s - i)) r s i with
      | Some (b, e, c) =>
          (b, e, c) :: (if length s <? e then []
                        else finditer_from f r s (if e =? b then S e else e))
      | None => []
      end
  end.

Definition finditer (r : re) (s : chars) : list (nat * nat * captures) :=
  finditer_from (S (length s)) r s 0.

(** ** The pattern syntax (sre_parse) *)

(** Escapes outside a set: categories and anchors first, then the
    character escapes; any other escaped non-alphanumeric character, and in
    Python 2 any other letter, stands for itself.  Digits (back references,
    octal) and [\x] are not used by the analyzer and are rejected. *)
Definition escape (e : ascii) : option re :=
  let n := nat_of_ascii e in
  if ceq e "d" then Some (RIn false [SCat CatDigit])
  else if ceq e "D" then Some (RIn false [SCat CatNotDigit])
  else if ceq e "s" then Some (RIn false [SCat CatSpace])
  else if ceq e "S" then Some (RIn false [SCat CatNotSpace])
  else if ceq e "w" then Some (RIn false [SCat CatWord])
  else if ceq e "W" then Some (RIn false [SCat CatNotWord])
  else if ceq e "b" then Some RBoundary
  else if ceq e "B" then Some RNotBoundary
  else if ceq e "A" then Some RBeginning
  else if ceq e "n" then Some (RLit (ascii_of_nat 10))
  else if ceq e "t" then Some (RLit (ascii_of_nat 9))
  else if ceq e "r" then Some (RLit (ascii_of_nat 13))
  else if ceq e "f" then Some (RLit (ascii_of_nat 12))
  else if ceq e "v" then Some (RLit (ascii_of_nat 11))
  else if ceq e "a" then Some (RLit (ascii_of_nat 7))
  else if is_digit e || ceq e "x" || ceq e "Z" then None
  else Some (RLit e).

(** A set member: a literal or a category *)
Inductive class_atom := CALit (c : ascii) | CACat (k : category).

(** Escapes inside a set: the character escapes first ([\b] is backspace
    there), then the categories. *)
Definition class_escape (e : ascii) : option class_atom :=
  if ceq e "b" then Some (CALit (ascii_of_nat 8))
  else if ceq e "n" then Some (CALit (ascii_of_nat 10))
  else if ceq e "t" then Some (CALit (ascii_of_nat 9))
  else if ceq e "r" then Some (CALit (ascii_of_nat 13))
  else if ceq e "f" then Some (CALit (ascii_of_nat 12))
  else if ceq e "v" then Some (CALit (ascii_of_nat 11))
  else if ceq e "a" then Some (CALit (ascii_of_nat 7))
  else if ceq e "d" then Some (CACat CatDigit)
  else if ceq e "D" then Some (CACat CatNotDigit)
  else if ceq e "s" then Some (CACat CatSpace)
  else if ceq e "S" then Some (CACat CatNotSpace)
  else if ceq e "w" then Some (CACat CatWord)
  else if ceq e "W" then Some (CACat CatNotWord)
  else if is_digit e || ceq e "x" then None
  else Some (CALit e).

Definition class_get (s : chars) : option (class_atom * chars) :=
  match s with
  | [] => None
  | c :: s' =>
      if ceq c "\" then
        match s' with
        | e :: s'' => option_map (fun a => (a, s'')) (class_escape e)
        | [] => None
        end
      else Some (CALit c, s')
  end.

Definition item_of (a : class_atom) : set_item :=
  match a with CALit c => SLit c | CACat k => SCat k end.

(** The body of [[...]] after the optional [^]: a [']'] that comes first
    is a literal; [x-y] is a range of two literals; a [-] before the
    closing bracket is a literal. *)
Fixpoint parse_class (fuel : nat) (s : chars) (first : bool) (acc : list set_item)
    : option (list set_item * chars) :=
  match fuel with
  | O => None
  | S f =>
      match s with
      | c :: s' =>
          if ceq c "]" && negb first then Some (rev acc, s')
          else
            match class_get s with
            | None => None
            | Some (a1, s1) =>
                match s1 with
                | m :: s2 =>
                    if ceq m "-" then
                      match s2 with
                      | e :: s3 =>
                          if ceq e "]" then Some (rev (SLit "-" :: item_of a1 :: acc), s3)
                          else
                            match class_get s2, a1 with
                            | Some (CALit hi, s3'), CALit lo =>
                                if nat_of_ascii hi <? nat_of_ascii lo then None
                                else parse_class f s3' false (SRange lo hi :: acc)
                            | _, _ => None
                            end
                      | [] => None
                      end
                    else parse_class f s1 false (item_of a1 :: acc)
                | [] => None
                end
            end
      | [] => None
      end
  end.

Fixpoint read_digits (s : chars) (acc : nat) (seen : bool) : option nat * chars :=
  match s with
  | c :: s' =>
      if is_digit c then read_digits s' (acc * 10 + (nat_of_ascii c - 48)) true
      else (if seen then Some acc else None, s)
  | [] => (if seen then Some acc else None, s)
  end.

(** [{m,n}], [{m,}], [{,n}], [{m}]; anything else after [{] is a literal [{] *)
Definition parse_brace (s : chars) : option (nat * option nat * chars) :=
  let '(lo, s1) := read_digits s 0 false in
  match s1 with
  | c :: s2 =>
      if ceq c "," then
        let '(hi, s3) := read_digits s2 0 false in
        match s3 with
        | d :: s4 => if ceq d "}" then Some (match lo with Some l => l | None => 0 end, hi, s4) else None
        | [] => None
        end
      else if ceq c "}" then
        match lo with Some l => Some (l, Some l, s2) | None => None end
      else None
  | [] => None
  end.

Definition is_repeat (r : re) : bool :=
  match r with RRepeat _ _ _ _ => true | _ => false end.

Definition is_at (r : re) : bool :=
  match r with RBeginning | RBoundary | RNotBoundary => true | _ => false end.

Fixpoint mk_seq (l : list re) : re :=
  match l with
  | [] => REmpty
  | [r] => r
  | r :: l' => RCat r (mk_seq l')
  end.

Fixpoint mk_alt (l : list re) : re :=
  match l with
  | [] => REmpty
  | [r] => r
  | r :: l' => RAlt r (mk_alt l')
  end.

Fixpoint read_name (s : chars) (acc : chars) : option (string * chars) :=
  match s with
  | c :: s' => if ceq c ">" then Some (string_of_list_ascii (rev acc), s') else read_name s' (c :: acc)
  | [] => None
  end.

Inductive group_kind := GCapture (i : nat) (name : option string) | GPlain | GNotAhead | GAhead.

(** What follows an opening parenthesis; capturing groups are numbered
    in the order of their opening parentheses. *)
Definition group_head (s : chars) (g : nat) : option (group_kind * chars * nat) :=
  match s with
  | q :: s1 =>
      if ceq q "?" then
        match s1 with
        | k :: s2 =>
            if ceq k "P" then
              match s2 with
              | l :: s3 =>
                  if ceq l "<" then
                    match read_name s3 [] with
                    | Some (nm, s4) => Some (GCapture g (Some nm), s4, S g)
                    | None => None
                    end
                  else None
              | [] => None
              end
            else if ceq k "!" then Some (GNotAhead, s2, g)
            else if ceq k "=" then Some (GAhead, s2, g)
            else if ceq k ":" then Some (GPlain, s2, g)
            else None
        | [] => None
        end
      else Some (GCapture g None, s, S g)
  | [] => Some (GCapture g None, s, S g)
  end.

Definition wrap_group (k : group_kind) (r : re) : re :=
  match k with
  | GCapture i nm => RGroup i nm r
  | GPlain => r
  | GNotAhead => RNotAhead r
  | GAhead => RAhead r
  end.

Fixpoint skip_line (s : chars) : chars :=
  match s with
  | c :: s' => if is_linebreak c then s' else skip_line s'
  | [] => []
  end.

(** Apply a repeat to the last item of the current sequence; a [?] right
    after the quantifier makes it lazy. *)
Definition add_repeat (cur : list re) (lo : nat) (hi : option nat) (s : chars)
    : option (list re * chars) :=
  match list.last cur with
  | None => None
  | Some item =>
      if is_repeat item || is_at item then None
      else
        match s with
        | q :: s' =>
            if ceq q "?" then Some (removelast cur ++ [RRepeat lo hi false item], s')
            else Some (removelast cur ++ [RRepeat lo hi true item], s)
        | [] => Some (removelast cur ++ [RRepeat lo hi true item], s)
        end
  end.

(** sre_parse's [_parse_sub]/[_parse]: alternatives [alts] already read,
    the items [cur] of the current one.  With [vb] (re.VERBOSE) blanks and
    [#]-comments outside sets are skipped.  Stops before a [)] or at the
    end and returns the rest and the next group number. *)
Fixpoint parse_seq (fuel : nat) (vb : bool) (s : chars) (g : nat)
    (alts : list re) (cur : list re) : option (re * chars * nat) :=
  match fuel with
  | O => None
  | S f =>
      match s with
      | [] => Some (mk_alt (alts ++ [mk_seq cur]), [], g)
      | c :: s' =>
          if vb && is_space c then parse_seq f vb s' g alts cur
          else if vb && ceq c "#" then parse_seq f vb (skip_line s') g alts cur
          else if ceq c "|" then parse_seq f vb s' g (alts ++ [mk_seq cur]) []
          else if ceq c ")" then Some (mk_alt (alts ++ [mk_seq cur]), s, g)
          else if ceq c "(" then
            match group_head s' g with
            | Some (kd, s1, g1) =>
                match parse_seq f vb s1 g1 [] [] with
                | Some (inner, cl :: s2, g2) =>
                    if ceq cl ")" then parse_seq f vb s2 g2 alts (cur ++ [wrap_group kd inner])
                    else None
                | _ => None
                end
            | None => None
            end
          else if ceq c "[" then
            let '(neg, s1) := match s' with
                              | h :: t => if ceq h "^" then (true, t) else (false, s')
                              | [] => (false, s')
                              end in
            match parse_class f s1 true [] with
            | Some (items, s2) => parse_seq f vb s2 g alts (cur ++ [RIn neg items])
            | None => None
            end
          else if ceq c "*" then
            match add_repeat cur 0 None s' with
            | Some (cur', s1) => parse_seq f vb s1 g alts cur'
            | None => None
            end
          else if ceq c "+" then
            match add_repeat cur 1 None s' with
            | Some (cur', s1) => parse_seq f vb s1 g alts cur'
            | None => None
            end
          else if ceq c "?" then
            match add_repeat cur 0 (Some 1) s' with
            | Some (cur', s1) => parse_seq f vb s1 g alts cur'
            | None => None
            end
          else if ceq c "{" then
            match parse_brace s' with
            | Some (lo, hi, s1) =>
                match add_repeat cur lo hi s1 with
                | Some (cur', s2) => parse_seq f vb s2 g alts cur'
                | None => None
                end
            | None => parse_seq f vb s' g alts (cur ++ [RLit c])
            end
          else if ceq c "." then parse_seq f vb s' g alts (cur ++ [RAny])
          else if ceq c "^" then parse_seq f vb s' g alts (cur ++ [RBeginning])
          else if ceq c "$" then None
          else if ceq c "\" then
            match s' with
            | e :: s1 =>
                match escape e with
                | Some a => parse_seq f vb s1 g alts (cur ++ [a])
                | None => None
                end
            | [] => None
            end
          else parse_seq f vb s' g alts (cur ++ [RLit c])
      end
  end.

(** [re.compile(src, flags)] for the flags used here; [None] is a
    compilation error. *)
Definition compile (vb : bool) (src : chars) : option re :=
  match parse_seq (S (length src)) vb src 1 [] [] with
  | Some (r, [], _) => Some r
  | _ => None
  end.

(** Patterns are written in the development as in the source; a double
    quote, which a Rocq string cannot hold here, is written as a backtick
    (no pattern of the analyzer contains a backtick). *)
Definition py_src (s : string) : chars :=
  map (fun c => if ceq c "`" then dq else c) (list_ascii_of_string s).

(** ** Theorems: the matcher consumes input and never exhausts its fuel *)

(** Positions reachable from [p] by reading [n] characters *)
Fixpoint adv_n (n : nat) (p : pos) : option pos :=
  match n with
  | O => Some p
  | S m => match advance p with Some (_, p') => adv_n m p' | None => None end
  end.

(** A continuation that never runs out of fuel on positions after [p] *)
Definition cont_total (p : pos) (k : pos -> captures -> mres) : Prop :=
  forall n p' c', adv_n n p = Some p' -> k p' c' <> OutOfFuel.

(** [k] produced the final result from a position [n >= m] characters after [p] *)
Definition via_cont (m : nat) (p : pos) (k : pos -> captures -> mres) (q : pos) (c' : captures) : Prop :=
  exists n p1 c1, m <= n /\ adv_n n p = Some p1 /\ k p1 c1 = Matched q c'.

Lemma adv_n_add a b p :
  adv_n (a + b) p = match adv_n a p with Some q => adv_n b q | None => None end.
Proof.
  revert p; induction a as [|a IH]; intros p; simpl; [done|].
  destruct (advance p) as [[? ?]|]; auto.
Qed.

Lemma adv_n_trans a b p q r :
  adv_n a p = Some q -> adv_n b q = Some r -> adv_n (a + b) p = Some r.
Proof. intros H1 H2. rewrite adv_n_add, H1. exact H2. Qed.

Lemma advance_len p b q :
  advance p = Some (b, q) ->
  p_idx q = S (p_idx p) /\ length (p_rest p) = S (length (p_rest q)).
Proof.
  destruct p as [i pr [|x r]]; simpl; [discriminate|].
  intros [= <- <-]. simpl. auto.
Qed.

Lemma adv_n_len n p q :
  adv_n n p = Some q ->
  p_idx q = p_idx p + n /\ length (p_rest p) = length (p_rest q) + n.
Proof.
  revert p; induction n as [|n IH]; intros p H; simpl in H.
  - injection H as <-. lia.
  - destruct (advance p) as [[b p']|] eqn:E; [|discriminate].
    apply advance_len in E. apply IH in H. lia.
Qed.

Lemma cont_total_after n p q k :
  adv_n n p = Some q -> cont_total p k -> cont_total q k.
Proof. intros Hq Hk m p' c' H. apply (Hk (n + m)). eapply adv_n_trans; eauto. Qed.

Lemma via_cont_after m1 m2 n p q k r c' :
  m1 <= n -> adv_n n p = Some q -> via_cont m2 q k r c' -> via_cont (m1 + m2) p k r c'.
Proof.
  intros Hn Hq (n2 & p2 & c2 & Hle & Hadv & Hk).
  exists (n + n2), p2, c2. split; [lia|]. split; [eapply adv_n_trans; eauto | done].
Qed.

Lemma via_cont_weaken m1 m2 p k q c' : m1 <= m2 -> via_cont m2 p k q c' -> via_cont m1 p k q c'.
Proof. intros Hm (n & p1 & c1 & ? & ? & ?). exists n, p1, c1. split; [lia|auto]. Qed.

Lemma via_cont_here p c k q c' : k p c = Matched q c' -> via_cont 0 p k q c'.
Proof. intros H. exists 0, p, c. auto. Qed.

#[export] Hint Resolve via_cont_here cont_total_after : dxl.

Lemma mt_char_result f p c k q c' :
  mt_char f p c k = Matched q c' -> via_cont 1 p k q c'.
Proof.
  unfold mt_char. destruct (advance p) as [[b p1]|] eqn:E; [|discriminate].
  destruct (f b); [|discriminate]. intros H. exists 1, p1, c.
  simpl. rewrite E. auto.
Qed.

Lemma mt_char_total f p c k : cont_total p k -> mt_char f p c k <> OutOfFuel.
Proof.
  intros Hk. unfold mt_char. destruct (advance p) as [[b p1]|] eqn:E; [|discriminate].
  destruct (f b); [|discriminate]. apply (Hk 1). simpl. rewrite E. done.
Qed.

(** Splitting [a orelse b] in a hypothesis *)
Ltac destruct_alt H :=
  match type of H with
  | context [match ?x with NoMatch => _ | _ => _ end] =>
      let E := fresh "E" in destruct x eqn:E; try discriminate
  end.

Section RepeatFacts.
Variable body : pos -> captures -> (pos -> captures -> mres) -> mres.
Variable m : nat.
Hypothesis body_result :
  forall p c k q c', body p c k = Matched q c' -> via_cont m p k q c'.
Hypothesis body_total :
  forall p c k, cont_total p k -> body p c k <> OutOfFuel.
Variables (greedy : bool) (k : pos -> captures -> mres).

Lemma rep_more_result fuel left p c q c' :
  rep_more body greedy k fuel left p c = Matched q c' -> via_cont 0 p k q c'.
Proof.
  revert left p c. induction fuel as [|fuel IH]; intros left p c H; simpl in H; [discriminate|].
  assert (Hb : forall c0, body p c0 (fun p1 c1 => if p_idx p1 =? p_idx p then k p1 c1
                 else rep_more body greedy k fuel (option_map pred left) p1 c1) = Matched q c' ->
               via_cont 0 p k q c').
  { intros c0 Hb. apply body_result in Hb as (n & p1 & c1 & _ & Hadv & Hk).
    destruct (p_idx p1 =? p_idx p).
    - exists n, p1, c1. split; [lia|auto].
    - apply (via_cont_after 0 0 n p p1); [lia|done|]. eapply IH; eauto. }
  destruct left as [[|l]|]; [eauto with dxl| |];
    destruct greedy; destruct_alt H; try (injection H as -> ->); eauto with dxl.
Qed.

Lemma rep_need_result n left p c q c' :
  rep_need body greedy k n left p c = Matched q c' -> via_cont (n * m) p k q c'.
Proof.
  revert p c. induction n as [|n IH]; intros p c H.
  - eapply rep_more_result; exact H.
  - simpl in H. apply body_result in H as (n1 & p1 & c1 & Hle & Hadv & Hk).
    apply IH in Hk. simpl. eapply via_cont_after; eauto.
Qed.

Lemma rep_more_total fuel left p c :
  cont_total p k -> length (p_rest p) < fuel ->
  rep_more body greedy k fuel left p c <> OutOfFuel.
Proof.
  revert left p c. induction fuel as [|fuel IH]; intros left p c Hk Hlen; simpl; [lia|].
  assert (Hb : forall c0, body p c0 (fun p1 c1 => if p_idx p1 =? p_idx p then k p1 c1
                 else rep_more body greedy k fuel (option_map pred left) p1 c1) <> OutOfFuel).
  { intros c0. apply body_total. intros n p1 c1 Hadv.
    destruct (Nat.eqb_spec (p_idx p1) (p_idx p)) as [|Hne]; [eapply Hk; eauto|].
    pose proof (adv_n_len _ _ _ Hadv) as [Hi Hl].
    apply IH; [eapply cont_total_after; eauto|]. destruct n; lia. }
  assert (Hk0 : k p c <> OutOfFuel) by (apply (Hk 0); done).
  destruct left as [[|l]|]; [done| |];
    destruct greedy; [destruct (body p c _) eqn:E | destruct (k p c) eqn:E
                     | destruct (body p c _) eqn:E | destruct (k p c) eqn:E];
    try done; try (exfalso; eapply Hb; eauto).
Qed.

Lemma rep_need_total n left p c :
  cont_total p k -> rep_need body greedy k n left p c <> OutOfFuel.
Proof.
  revert p c. induction n as [|n IH]; intros p c Hk.
  - apply rep_more_total; [done | lia].
  - simpl. apply body_total. intros n1 p1 c1 Hadv. apply IH. eapply cont_total_after; eauto.
Qed.
End RepeatFacts.

(** Every way [mt] succeeds goes through its continuation, at least
    [minlen r] characters further in the input. *)
Lemma mt_result r : forall p c k q c',
  mt r p c k = Matched q c' -> via_cont (minlen r) p k q c'.
Proof.
  induction r as [| a | | neg items | r1 IH1 r2 IH2 | r1 IH1 r2 IH2
                  | lo hi greedy r1 IH | i nm r1 IH | r1 IH | r1 IH | | |];
    intros p c k q c' H; simpl in H |- *.
  - eauto with dxl.
  - eapply mt_char_result; eauto.
  - eapply mt_char_result; eauto.
  - eapply mt_char_result; eauto.
  - apply IH1 in H as (n1 & p1 & c1 & Hle & Hadv & Hk).
    apply IH2 in Hk. eapply via_cont_after; eauto.
  - destruct_alt H.
    + apply IH2 in H. eapply via_cont_weaken; [|exact H]. lia.
    + injection H as -> ->. apply IH1 in E. eapply via_cont_weaken; [|exact E]. lia.
  - eapply rep_need_result; eauto.
  - apply IH in H as (n & p1 & c1 & Hle & Hadv & Hk). exists n, p1, ((i, (p_idx p, p_idx p1)) :: c1). eauto.
  - destruct (mt r1 p c Matched); try discriminate. eauto with dxl.
  - destruct (mt r1 p c Matched); try discriminate. eauto with dxl.
  - destruct (at_beginning p); [eauto with dxl | discriminate].
  - destruct (at_boundary p); [eauto with dxl | discriminate].
  - destruct (at_boundary p); [discriminate | eauto with dxl].
Qed.

(** The matcher never runs out of fuel when its continuation does not. *)
Lemma mt_total r : forall p c k, cont_total p k -> mt r p c k <> OutOfFuel.
Proof.
  induction r as [| a | | neg items | r1 IH1 r2 IH2 | r1 IH1 r2 IH2
                  | lo hi greedy r1 IH | i nm r1 IH | r1 IH | r1 IH | | |];
    intros p c k Hk; simpl.
  - apply (Hk 0). done.
  - by apply mt_char_total.
  - by apply mt_char_total.
  - by apply mt_char_total.
  - apply IH1. intros n p1 c1 Hadv. apply IH2. eapply cont_total_after; eauto.
  - destruct (mt r1 p c k) eqn:E; try done; [apply IH2; done|]. exfalso. eapply IH1; eauto.
  - apply rep_need_total; auto.
  - apply IH. intros n p1 c1 Hadv. eapply Hk; eauto.
  - assert (Hm : mt r1 p c Matched <> OutOfFuel) by (apply IH; discriminate).
    destruct (mt r1 p c Matched); try done. apply (Hk 0). done.
  - assert (Hm : mt r1 p c Matched <> OutOfFuel) by (apply IH; discriminate).
    destruct (mt r1 p c Matched); try done. apply (Hk 0). done.
  - destruct (at_beginning p); [apply (Hk 0); done | done].
  - destruct (at_boundary p); [apply (Hk 0); done | done].
  - destruct (at_boundary p); [done | apply (Hk 0); done].
Qed.

Lemma pos_at_rest s i : length (p_rest (pos_at s i)) = length s - i.
Proof. simpl. apply length_skipn. Qed.

(** [pattern.match(s, i)] always terminates with a match or no match. *)
Lemma run_total r s i : run r s i <> OutOfFuel.
Proof. apply mt_total. discriminate. Qed.

(** A match starting at [i] ends at least [minlen r] characters later and
    not after the end of the subject. *)
Lemma match_at_bounds r s i e cs :
  match_at r s i = Some (e, cs) -> i + minlen r <= e /\ e <= Nat.max i (length s).
Proof.
  unfold match_at, run. destruct (mt r (pos_at s i) [] Matched) eqn:E; try discriminate.
  intros [= <- <-]. apply mt_result in E as (n & p1 & c1 & Hle & Hadv & Hk).
  injection Hk as -> ->. apply adv_n_len in Hadv as [Hi Hl].
  rewrite pos_at_rest in Hl. simpl in Hi. lia.
Qed.

End PyRegex.
