(* ===== verification/RegexSearch.v ===== *)
(** * RegexSearch: searching with patterns made of single characters

    The patterns the reports search for ([when including],
    [[pP]ragma|Execution cycle], [at line \d*], ...) compile to a chain of
    one-character matchers, possibly ended by a repetition.  This file
    states what the matcher of [PyRegex] does on such a chain (it reads
    the characters one by one or fails), what [search_from] returns (the
    first position where the chain is accepted) and when it finds nothing,
    and what the greedy [\d*] consumes. *)

From S2P Require Import Prelude PyRegex.
Import PyRegex.

Module RegexSearch.

(** ** Chains of one-character patterns *)

(** The predicate of a pattern that reads exactly one character *)
Definition char_pred (r : re) : option (ascii -> bool) :=
  match r with
  | RLit a => Some (ceq a)
  | RAny => Some (fun b => negb (is_linebreak b))
  | RIn neg items => Some (in_set neg items)
  | _ => None
  end.

Definition single (r : re) : bool := match char_pred r with Some _ => true | None => false end.

(** [RCat r1 (RCat r2 (... r))], the shape [sre_parse] gives a sequence *)
Fixpoint chain (rs : list re) (r : re) : re :=
  match rs with
  | [] => r
  | r1 :: rs' => RCat r1 (chain rs' r)
  end.

(** The first [length rs] characters of [l] satisfy the predicates of [rs] *)
Fixpoint accepts (rs : list re) (l : chars) : bool :=
  match rs, l with
  | [], _ => true
  | r :: rs', a :: l' => match char_pred r with Some f => f a && accepts rs' l' | None => false end
  | _ :: _, [] => false
  end.

(** A literal text as a chain *)
Definition lit (w : string) : list re := map RLit (list_ascii_of_string w).

(** [w] occurs in [s] *)
Fixpoint occurs (w : list re) (s : chars) : bool :=
  accepts w s || match s with [] => false | _ :: s' => occurs w s' end.

(** The number of leading characters that satisfy [f] *)
Fixpoint run_of (f : ascii -> bool) (l : chars) : nat :=
  match l with
  | a :: l' => if f a then S (run_of f l') else 0
  | [] => 0
  end.

(** [r*], greedy *)
Definition star (r : re) : re := RRepeat 0 None true r.

(** [\d*] *)
Definition digits_star : re := star (RIn false [SCat CatDigit]).

(** ** Lemmas *)

Lemma mt_single r f p c k : char_pred r = Some f -> mt r p c k = mt_char f p c k.
Proof. destruct r; simpl; try discriminate; intros [= <-]; reflexivity. Qed.

Lemma accepts_adv rs p :
  accepts rs (p_rest p) = true -> exists q, adv_n (length rs) p = Some q.
Proof.
  revert p; induction rs as [|r rs IH]; intros [i pr [|a l]]; simpl; eauto; [discriminate|].
  destruct (char_pred r); [|discriminate]. intros [_ H]%andb_prop. exact (IH (Pos (S i) (Some a) l) H).
Qed.

(** The matcher on a chain: read the characters, or fail *)
Lemma mt_chain rs r p c k :
  forallb single rs = true ->
  mt (chain rs r) p c k =
    if accepts rs (p_rest p)
    then match adv_n (length rs) p with Some q => mt r q c k | None => NoMatch end
    else NoMatch.
Proof.
  revert p; induction rs as [|r1 rs IH]; intros p Hs; simpl; [done|].
  apply andb_prop in Hs as [H1 Hs]. unfold single in H1.
  destruct (char_pred r1) as [f|] eqn:Hf; [|discriminate].
  rewrite (mt_single _ _ _ _ _ Hf). unfold mt_char, advance.
  destruct p as [i pr [|a l]]; simpl; [done|].
  destruct (f a); simpl; [apply IH, Hs | done].
Qed.

Lemma accepts_app rs1 rs2 l :
  accepts (rs1 ++ rs2) l = accepts rs1 l && accepts rs2 (drop (length rs1) l).
Proof.
  revert l; induction rs1 as [|r rs1 IH]; intros [|a l]; simpl; [done|done| |].
  - destruct (char_pred r); [|done]. by destruct rs2.
  - destruct (char_pred r); [|done]. rewrite IH. by destruct (_ a).
Qed.

(** Only the first [length rs] characters matter *)
Lemma accepts_app_long rs x y : length rs <= length x -> accepts rs (x ++ y) = accepts rs x.
Proof.
  revert x; induction rs as [|r rs IH]; intros [|a x] Hl; simpl in *; try lia; try done.
  destruct (char_pred r); [|done]. rewrite IH; [done|lia].
Qed.

(** What a chain accepts on a text that ends too early *)
Lemma accepts_app_short rs t u :
  length t < length rs ->
  accepts rs (t ++ u) = accepts (take (length t) rs) t && accepts (drop (length t) rs) u.
Proof.
  revert rs; induction t as [|a t IH]; intros rs Hl; [done|].
  destruct rs as [|r rs]; simpl in *; [lia|].
  destruct (char_pred r); [|done]. rewrite IH by lia. by rewrite andb_assoc.
Qed.

(** Every predicate of an accepted chain holds of a character of the text *)
Lemma accepts_char rs l r :
  accepts rs l = true -> r ∈ rs -> exists f a, char_pred r = Some f /\ f a = true /\ a ∈ l.
Proof.
  revert l; induction rs as [|r1 rs IH]; intros [|a l] H Hin; simpl in H;
    [by apply not_elem_of_nil in Hin | by apply not_elem_of_nil in Hin | discriminate |].
  destruct (char_pred r1) as [f|] eqn:Hf; [|discriminate]. apply andb_prop in H as [Ha H].
  apply elem_of_cons in Hin as [->|Hin].
  - exists f, a. split_and!; [done|done|left].
  - destruct (IH l H Hin) as (g & b & ? & ? & ?). exists g, b. split_and!; [done|done|by right].
Qed.

Lemma occurs_spec w s : occurs w s = true <-> exists j, accepts w (drop j s) = true.
Proof.
  induction s as [|a s IH]; simpl.
  - rewrite orb_false_r. split; [intros H; by exists 0|]. intros [j H]. by rewrite drop_nil in H.
  - rewrite orb_true_iff, IH. split.
    + intros [H|[j H]]; [by exists 0 | by exists (S j)].
    + intros [[|j] H]; [by left | right; by exists j].
Qed.

Lemma adv_n_rest n p q : adv_n n p = Some q -> p_rest q = drop n (p_rest p).
Proof.
  revert p; induction n as [|n IH]; intros [i pr rest] H; simpl in *; [by injection H as <-|].
  destruct rest as [|a l]; [discriminate|]. by apply IH in H.
Qed.

Lemma pos_at_drop s j : p_rest (pos_at s j) = drop j s.
Proof. reflexivity. Qed.

(** [pattern.match] on a chain ended by one more character *)
Lemma match_at_chain_single rs r s j :
  forallb single (rs ++ [r]) = true ->
  match_at (chain rs r) s j = if accepts (rs ++ [r]) (drop j s) then Some (j + length (rs ++ [r]), []) else None.
Proof.
  rewrite forallb_app. intros [Hrs Hr]%andb_prop. simpl in Hr. rewrite andb_true_r in Hr.
  unfold single in Hr. destruct (char_pred r) as [f|] eqn:Hf; [|discriminate].
  unfold match_at, run. rewrite mt_chain by done. rewrite pos_at_drop, accepts_app.
  destruct (accepts rs (drop j s)) eqn:H1; simpl; [|done].
  destruct (accepts_adv rs (pos_at s j)) as [q Hq]; [done|]. rewrite Hq.
  pose proof (adv_n_len _ _ _ Hq) as [Hi _]. apply adv_n_rest in Hq.
  rewrite pos_at_drop in Hq. rewrite <- Hq, (mt_single _ _ _ _ _ Hf).
  unfold mt_char, advance. simpl in Hi. rewrite length_app. simpl.
  destruct (p_rest q) as [|a l]; simpl; [done|]. rewrite Hf, andb_true_r.
  destruct (f a); simpl; [|done]. rewrite Hi. do 3 f_equal. lia.
Qed.

Lemma in_set_digit a : in_set false [SCat CatDigit] a = is_digit a.
Proof. unfold in_set. simpl. by rewrite orb_false_r. Qed.

(** A greedy repetition of a one-character pattern reads every leading
    character it accepts *)
Lemma rep_single r f fuel q c :
  char_pred r = Some f -> length (p_rest q) < fuel ->
  exists q', adv_n (run_of f (p_rest q)) q = Some q' /\
             rep_more (mt r) true Matched fuel None q c = Matched q' c.
Proof.
  intros Hf. revert q; induction fuel as [|fuel IH]; intros q Hl; [lia|].
  assert (Hm : mt r = fun p c k => mt_char f p c k)
    by (destruct r; simpl in Hf; try discriminate; injection Hf as <-; reflexivity).
  rewrite Hm in *.
  destruct q as [i pr [|a l]]; [exists (Pos i pr []); split; reflexivity|].
  cbn [rep_more run_of p_rest]. unfold mt_char at 1. cbn [advance p_rest p_idx].
  destruct (f a); [|exists (Pos i pr (a :: l)); split; reflexivity].
  rewrite (proj2 (Nat.eqb_neq (S i) i)) by lia. simpl in Hl.
  destruct (IH (Pos (S i) (Some a) l)) as (q' & Hq' & Hr); [simpl; lia|].
  cbn [option_map]. rewrite Hr. by exists q'.
Qed.

Lemma run_of_ext f g l : (forall a, f a = g a) -> run_of f l = run_of g l.
Proof. intros H. induction l as [|a l IH]; simpl; [done|]. by rewrite H, IH. Qed.

Lemma run_of_all f l : forallb f l = true <-> run_of f l = length l.
Proof.
  induction l as [|a l IH]; simpl; [done|]. destruct (f a); simpl; [|split; [done|lia]].
  rewrite IH. lia.
Qed.

Lemma mt_star r f q c :
  char_pred r = Some f ->
  exists q', adv_n (run_of f (p_rest q)) q = Some q' /\ mt (star r) q c Matched = Matched q' c.
Proof. intros Hf. by apply rep_single; [|lia]. Qed.

(** [pattern.match] on a chain ended by a greedy repetition *)
Lemma match_at_chain_star rs r f s j :
  forallb single rs = true -> char_pred r = Some f ->
  match_at (chain rs (star r)) s j =
    if accepts rs (drop j s)
    then Some (j + length rs + run_of f (drop (j + length rs) s), []) else None.
Proof.
  intros Hrs Hf. unfold match_at, run. rewrite mt_chain by done. rewrite pos_at_drop.
  destruct (accepts rs (drop j s)) eqn:H1; [|done].
  destruct (accepts_adv rs (pos_at s j)) as [q Hq]; [done|]. rewrite Hq.
  pose proof (adv_n_len _ _ _ Hq) as [Hi _]. apply adv_n_rest in Hq. rewrite pos_at_drop, drop_drop in Hq.
  destruct (mt_star r f q [] Hf) as (q' & Hq' & ->).
  apply adv_n_len in Hq' as [Hi' _]. rewrite Hq in Hi'. simpl in Hi. rewrite Hi', Hi. done.
Qed.

Lemma match_at_chain_digits rs s j :
  forallb single rs = true ->
  match_at (chain rs digits_star) s j =
    if accepts rs (drop j s)
    then Some (j + length rs + run_of is_digit (drop (j + length rs) s), []) else None.
Proof.
  intros Hrs. unfold digits_star. rewrite (match_at_chain_star rs (RIn false [SCat CatDigit]) (in_set false [SCat CatDigit]) s j Hrs eq_refl).
  by rewrite (run_of_ext _ is_digit) by apply in_set_digit.
Qed.

(** [pattern.match] on a lookahead for a chain, then a greedy repetition *)
Lemma match_at_ahead_star rs r1 r f s j :
  forallb single (app rs [r1]) = true -> char_pred r = Some f ->
  match_at (RCat (RAhead (chain rs r1)) (star r)) s j =
    if accepts (app rs [r1]) (drop j s) then Some (j + run_of f (drop j s), []) else None.
Proof.
  intros Hs Hf. pose proof (match_at_chain_single rs r1 s j Hs) as Hm.
  unfold match_at, run in *. cbn [mt].
  destruct (mt (chain rs r1) (pos_at s j) [] Matched) as [|q c|] eqn:E;
    destruct (accepts (app rs [r1]) (drop j s)); try discriminate; [done| |].
  - injection Hm as _ ->. destruct (mt_star r f (pos_at s j) [] Hf) as (q' & Hq' & ->).
    apply adv_n_len in Hq' as [Hi _]. rewrite pos_at_drop in Hi. simpl in Hi. by rewrite Hi.
  - exfalso. by apply (run_total (chain rs r1) s j).
Qed.

(** [pattern.match] on an alternation *)
Lemma match_at_alt_split r1 r2 s j :
  match_at (RAlt r1 r2) s j = match match_at r1 s j with Some m => Some m | None => match_at r2 s j end.
Proof.
  unfold match_at, run. cbn [mt]. pose proof (run_total r1 s j) as H. unfold run in H.
  by destruct (mt r1 (pos_at s j) [] Matched).
Qed.

(** ** [search_from] *)

(** The first position from [i] on where the pattern matches *)
Lemma search_from_first fuel r s i j m :
  i <= j -> j <= length s -> j - i < fuel ->
  (forall j', i <= j' < j -> match_at r s j' = None) ->
  match_at r s j = Some m -> search_from fuel r s i = Some (j, m.1, m.2).
Proof.
  revert i; induction fuel as [|fuel IH]; intros i Hij Hjs Hf Hb Hm; [lia|]. simpl.
  destruct (decide (i = j)) as [->|Hne]; [rewrite Hm; by destruct m|].
  rewrite Hb by lia. destruct (Nat.leb_spec (length s) i); [lia|]. apply IH; auto with lia.
Qed.

Lemma search_from_none fuel r s i :
  i <= length s -> (forall j, i <= j <= length s -> match_at r s j = None) -> search_from fuel r s i = None.
Proof.
  revert i; induction fuel as [|fuel IH]; intros i Hi H; simpl; [done|].
  rewrite H by lia. destruct (Nat.leb_spec (length s) i); [done|]. apply IH; [lia|]. intros; apply H; lia.
Qed.

Lemma search_from_found fuel r s i j :
  i <= j -> j <= length s -> j - i < fuel -> match_at r s j <> None -> search_from fuel r s i <> None.
Proof.
  revert i; induction fuel as [|fuel IH]; intros i Hij Hjs Hf Hm; [lia|]. simpl.
  destruct (match_at r s i) as [[e c]|] eqn:E; [done|].
  destruct (decide (i = j)) as [->|]; [done|].
  destruct (Nat.leb_spec (length s) i); [lia|]. apply IH; auto with lia.
Qed.

(** A chain that needs a character absent from the text matches nowhere *)
Lemma accepts_missing rs l a :
  RLit a ∈ rs -> a ∉ l -> accepts rs l = false.
Proof.
  intros Hin Hna. destruct (accepts rs l) eqn:H; [|done].
  destruct (accepts_char _ _ _ H Hin) as (f & b & Hf & Hb & Hbl). simpl in Hf. injection Hf as <-.
  unfold ceq in Hb. apply Ascii.eqb_eq in Hb as ->. contradiction.
Qed.

Lemma drop_subseteq (l : chars) j a : a ∈ drop j l -> a ∈ l.
Proof. intros H. rewrite <- (take_drop j l). apply elem_of_app. by right. Qed.

Lemma finditer_from_S fuel r s i :
  finditer_from (S fuel) r s i =
    match search_from (S (length s - i)) r s i with
    | Some (b, e, c) => (b, e, c) :: (if length s <? e then [] else finditer_from fuel r s (if e =? b then S e else e))
    | None => []
    end.
Proof. reflexivity. Qed.

(** A chain fails on a text whose known start already fails it *)
Lemma accepts_prefix_fail rs x y : accepts (take (length x) rs) x = false -> accepts rs (app x y) = false.
Proof.
  intros H. destruct (Nat.lt_ge_cases (length x) (length rs)) as [Hl|Hl].
  - rewrite accepts_app_short, H by done. done.
  - rewrite take_ge in H by done. by rewrite accepts_app_long.
Qed.

(** The same at every position of a known text *)
Lemma accepts_fail_concrete rs x y :
  forallb (fun k => negb (accepts (take (length (drop k x)) rs) (drop k x))) (seq 0 (length x)) = true ->
  forall k, k < length x -> accepts rs (app (drop k x) y) = false.
Proof.
  intros H k Hk. apply accepts_prefix_fail. rewrite forallb_forall in H.
  apply negb_true_iff, H, in_seq. lia.
Qed.

End RegexSearch.
