(* ===== verification/DxlLexer.v ===== *)
(** * DxlLexer: the PLY tokenizer of [src/dxl_lexer.py]

    [class Lexer] declares its token names ([tokens]), a reserved-word map
    ([reserved_map]), rules as functions ([t_STRING_INIT] ... [t_newline])
    and as strings ([t_PLUS] ... [t_BR]), the ignored characters
    [t_ANY_ignore] and an error rule [t_ANY_error] that skips one character.
    PLY orders the function rules by their line in the source and the string
    rules by decreasing length of their pattern, and at each position takes
    the first rule whose pattern matches there ([lexer.token()]).

    Here a rule is its pattern, written as in the source and compiled with
    [PyRegex.compile] under [re.VERBOSE] (which PLY always sets), and its
    action.  [lex_step] is one turn of the loop of PLY's [token()]; the
    token stream of a file is what [lex_loop] collects from a fresh lexer
    ([lineno = 1], as every caller in [dxl_scan.py] sets before a scan). *)

From Stdlib Require Import Sorted.
From S2P Require Import Prelude PyRegex.
Import PyRegex.

Module DxlLexer.

(** ** Token names: the [tokens] tuple *)

Inductive tok_type :=
(* reserved_base *)
| AND | BOOL | BREAK | BY | CASE | CHAR | CONST | CONTINUE
| DEFAULT | DO | ELSE | ELSEIF | ENUM | FOR | IF | IN | INT | OR
| REAL | RETURN | SIZEOF | STATIC | STRUCT | STRING
| SWITCH | THEN | UNION | VOID | WHILE
(* reserved_other *)
| MODULE | OBJECT | SKIP | BUFFER | TEMPLATE | MODULE_VERSION
| DATE | LINK | LINK_REF | STREAM | REGEXP | ATTR_DEF | DB | DBE
(* literals and identifiers *)
| ICONST | FCONST | CCONST | SCONST | ID
(* operators *)
| PLUS | MINUS | TIMES | DIVIDE | MOD | NOT | XOR
| LSHIFT | RSHIFT | LOR | LAND | LNOT | TMPC | LT | LE | GT
| GE | EQ | NE
(* assignment *)
| EQUALS | TIMESEQUAL | DIVEQUAL | MODEQUAL | PLUSEQUAL | MINUSEQUAL
| LSHIFTEQUAL | RSHIFTEQUAL | ANDEQUAL | XOREQUAL | OREQUAL | INLINK
| OVRLOAD | DEF
(* delimiters *)
| LPAREN | RPAREN | LBRACKET | RBRACKET | LBRACE | RBRACE
| COMMA | PERIOD | SEMI | COLON | SQUOTE | DQUOTE
(* comments, includes, functions, initializations, misc. *)
| C_COMMENT | CPP_COMMENT
| INCLUDE | INCLUDE_PATH
| SYS_CALL | PRAGMA | FUNCTION
| STRING_INIT | ERR_INIT_VAR | VAR_SINGLE_LINE
| ARRAY_DEF | BR.

(** The name of each token, as the source spells it *)
Definition tok_name (t : tok_type) : string :=
  match t with
  | AND => "AND" | BOOL => "BOOL" | BREAK => "BREAK" | BY => "BY" | CASE => "CASE"
  | CHAR => "CHAR" | CONST => "CONST" | CONTINUE => "CONTINUE" | DEFAULT => "DEFAULT"
  | DO => "DO" | ELSE => "ELSE" | ELSEIF => "ELSEIF" | ENUM => "ENUM" | FOR => "FOR"
  | IF => "IF" | IN => "IN" | INT => "INT" | OR => "OR" | REAL => "REAL"
  | RETURN => "RETURN" | SIZEOF => "SIZEOF" | STATIC => "STATIC" | STRUCT => "STRUCT"
  | STRING => "STRING" | SWITCH => "SWITCH" | THEN => "THEN" | UNION => "UNION"
  | VOID => "VOID" | WHILE => "WHILE"
  | MODULE => "MODULE" | OBJECT => "OBJECT" | SKIP => "SKIP" | BUFFER => "BUFFER"
  | TEMPLATE => "TEMPLATE" | MODULE_VERSION => "MODULE_VERSION" | DATE => "DATE"
  | LINK => "LINK" | LINK_REF => "LINK_REF" | STREAM => "STREAM" | REGEXP => "REGEXP"
  | ATTR_DEF => "ATTR_DEF" | DB => "DB" | DBE => "DBE"
  | ICONST => "ICONST" | FCONST => "FCONST" | CCONST => "CCONST" | SCONST => "SCONST"
  | ID => "ID"
  | PLUS => "PLUS" | MINUS => "MINUS" | TIMES => "TIMES" | DIVIDE => "DIVIDE"
  | MOD => "MOD" | NOT => "NOT" | XOR => "XOR" | LSHIFT => "LSHIFT" | RSHIFT => "RSHIFT"
  | LOR => "LOR" | LAND => "LAND" | LNOT => "LNOT" | TMPC => "TMPC" | LT => "LT"
  | LE => "LE" | GT => "GT" | GE => "GE" | EQ => "EQ" | NE => "NE"
  | EQUALS => "EQUALS" | TIMESEQUAL => "TIMESEQUAL" | DIVEQUAL => "DIVEQUAL"
  | MODEQUAL => "MODEQUAL" | PLUSEQUAL => "PLUSEQUAL" | MINUSEQUAL => "MINUSEQUAL"
  | LSHIFTEQUAL => "LSHIFTEQUAL" | RSHIFTEQUAL => "RSHIFTEQUAL" | ANDEQUAL => "ANDEQUAL"
  | XOREQUAL => "XOREQUAL" | OREQUAL => "OREQUAL" | INLINK => "INLINK"
  | OVRLOAD => "OVRLOAD" | DEF => "DEF"
  | LPAREN => "LPAREN" | RPAREN => "RPAREN" | LBRACKET => "LBRACKET"
  | RBRACKET => "RBRACKET" | LBRACE => "LBRACE" | RBRACE => "RBRACE" | COMMA => "COMMA"
  | PERIOD => "PERIOD" | SEMI => "SEMI" | COLON => "COLON" | SQUOTE => "SQUOTE"
  | DQUOTE => "DQUOTE"
  | C_COMMENT => "C_COMMENT" | CPP_COMMENT => "CPP_COMMENT"
  | INCLUDE => "INCLUDE" | INCLUDE_PATH => "INCLUDE_PATH"
  | SYS_CALL => "SYS_CALL" | PRAGMA => "PRAGMA" | FUNCTION => "FUNCTION"
  | STRING_INIT => "STRING_INIT" | ERR_INIT_VAR => "ERR_INIT_VAR"
  | VAR_SINGLE_LINE => "VAR_SINGLE_LINE" | ARRAY_DEF => "ARRAY_DEF" | BR => "BR"
  end.

Definition reserved_base : list tok_type :=
  [AND; BOOL; BREAK; BY; CASE; CHAR; CONST; CONTINUE;
   DEFAULT; DO; ELSE; ELSEIF; ENUM; FOR; IF; IN; INT; OR;
   REAL; RETURN; SIZEOF; STATIC; STRUCT; STRING;
   SWITCH; THEN; UNION; VOID; WHILE].

Definition reserved_other : list tok_type :=
  [MODULE; OBJECT; SKIP; BUFFER; TEMPLATE; MODULE_VERSION;
   DATE; LINK; LINK_REF; STREAM; REGEXP; ATTR_DEF; DB; DBE].

Definition tokens : list tok_type :=
  reserved_base ++ reserved_other ++
  [ICONST; FCONST; CCONST; SCONST; ID;
   PLUS; MINUS; TIMES; DIVIDE; MOD; NOT; XOR;
   LSHIFT; RSHIFT; LOR; LAND; LNOT; TMPC; LT; LE; GT;
   GE; EQ; NE;
   EQUALS; TIMESEQUAL; DIVEQUAL; MODEQUAL; PLUSEQUAL; MINUSEQUAL;
   LSHIFTEQUAL; RSHIFTEQUAL; ANDEQUAL; XOREQUAL; OREQUAL; INLINK;
   OVRLOAD; DEF;
   LPAREN; RPAREN; LBRACKET; RBRACKET; LBRACE; RBRACE;
   COMMA; PERIOD; SEMI; COLON; SQUOTE; DQUOTE;
   C_COMMENT; CPP_COMMENT;
   INCLUDE; INCLUDE_PATH;
   SYS_CALL; PRAGMA; FUNCTION;
   STRING_INIT; ERR_INIT_VAR; VAR_SINGLE_LINE;
   ARRAY_DEF; BR].

Definition tok_of_name (s : string) : option tok_type :=
  find (fun t => String.eqb (tok_name t) s) tokens.

#[export] Instance tok_type_eq_dec : EqDecision tok_type.
Proof.
  assert (Hinv : forall t, tok_of_name (tok_name t) = Some t) by (intros []; reflexivity).
  intros a b. destruct (decide (tok_name a = tok_name b)) as [H|H].
  - left. apply (f_equal tok_of_name) in H. rewrite !Hinv in H. congruence.
  - right. intros ->. done.
Defined.

(** ** [reserved_map] *)

(** Python's [str.lower()] and [str.capitalize()] on ASCII text *)
Definition ascii_lower (c : ascii) : ascii :=
  let n := nat_of_ascii c in if (65 <=? n) && (n <=? 90) then ascii_of_nat (n + 32) else c.
Definition ascii_upper (c : ascii) : ascii :=
  let n := nat_of_ascii c in if (97 <=? n) && (n <=? 122) then ascii_of_nat (n - 32) else c.

Definition py_lower (s : string) : string :=
  string_of_list_ascii (map ascii_lower (list_ascii_of_string s)).

Definition py_capitalize (s : string) : string :=
  match s with
  | EmptyString => EmptyString
  | String c s' => String (ascii_upper c) (py_lower s')
  end.

Definition reserved_key_other (t : tok_type) : string :=
  let n := tok_name t in
  if String.eqb n "DB" || String.eqb n "DBE" then n
  else match split_on "_" n with
       | [w] => py_capitalize w
       | w1 :: w2 :: _ => py_capitalize w1 ++ py_capitalize w2
       | [] => py_capitalize n
       end.

(** The two loops that fill [reserved_map] *)
Definition reserved_map : gmap string tok_type :=
  let m := foldl (fun m t => <[py_lower (tok_name t) := t]> m) ∅ reserved_base in
  foldl (fun m t => <[reserved_key_other t := t]> m) m reserved_other.

(** ** Rules *)

Inductive action :=
| Emit (t : tok_type)         (** a string rule, or a function rule returning [t] *)
| EmitLines (t : tok_type)    (** [t_CPP_COMMENT], [t_C_COMMENT]: count the newlines *)
| EmitId                      (** [t_ID]: look the value up in [reserved_map] *)
| Newline.                    (** [t_newline]: count, remember the position, no token *)

Record rule := Rule { r_name : string; r_src : string; r_act : action }.

(** The function rules, in the order of their definitions *)
Definition func_rules : list rule :=
  [ Rule "t_STRING_INIT" "string(\s+)\w+(\s+|)=(\s+|)" (Emit STRING_INIT);
    Rule "t_ARRAY_DEF" "(.*)(\s*|)\[\](\s*|)=(\s*|)\{.*\}" (Emit ARRAY_DEF);
    Rule "t_SYS_CALL"
      "^system(\s|)\(.*\)|^system(\s|)\`.*\`|^system\s(.*)|win32SystemWait_ .*|addMenu|allowNetworkMonitor"
      (Emit SYS_CALL);
    Rule "t_PRAGMA" "pragma\s(xflags|runLim|stack|encoding)(,(\s|)[\d\w\`-]*|)" (Emit PRAGMA);
    Rule "t_FUNCTION" "(?!(if|else|for|while)\b)\b\w+\s?\((.*|)\)(?!\s*?\{)" (Emit FUNCTION);
    Rule "t_CPP_COMMENT" "//[^\n\\]*(\\\s*[^\n\\]*)*" (EmitLines CPP_COMMENT);
    Rule "t_C_COMMENT" "/\*(.|\n)*?\*/" (EmitLines C_COMMENT);
    Rule "t_ID" "[A-Za-z_][\w_]*" EmitId;
    Rule "t_newline" "\n+" Newline ].

(** The string rules, in the order of the class body *)
Definition string_rules : list rule :=
  [ Rule "t_PLUS" "\+" (Emit PLUS);
    Rule "t_MINUS" "-" (Emit MINUS);
    Rule "t_TIMES" "\*" (Emit TIMES);
    Rule "t_DIVIDE" "/" (Emit DIVIDE);
    Rule "t_MOD" "%" (Emit MOD);
    Rule "t_OR" "\|" (Emit OR);
    Rule "t_AND" "&" (Emit AND);
    Rule "t_NOT" "~" (Emit NOT);
    Rule "t_XOR" "\^" (Emit XOR);
    Rule "t_LSHIFT" "<<" (Emit LSHIFT);
    Rule "t_RSHIFT" ">>" (Emit RSHIFT);
    Rule "t_LOR" "\|\|" (Emit LOR);
    Rule "t_LAND" "&&" (Emit LAND);
    Rule "t_LNOT" "!" (Emit LNOT);
    Rule "t_TMPC" "<>" (Emit TMPC);
    Rule "t_LT" "<" (Emit LT);
    Rule "t_GT" ">" (Emit GT);
    Rule "t_LE" "<=" (Emit LE);
    Rule "t_GE" ">=" (Emit GE);
    Rule "t_EQ" "==" (Emit EQ);
    Rule "t_NE" "!=" (Emit NE);
    Rule "t_EQUALS" "=" (Emit EQUALS);
    Rule "t_TIMESEQUAL" "\*=" (Emit TIMESEQUAL);
    Rule "t_DIVEQUAL" "/=" (Emit DIVEQUAL);
    Rule "t_MODEQUAL" "%=" (Emit MODEQUAL);
    Rule "t_PLUSEQUAL" "\+=" (Emit PLUSEQUAL);
    Rule "t_MINUSEQUAL" "-=" (Emit MINUSEQUAL);
    Rule "t_LSHIFTEQUAL" "<<=" (Emit LSHIFTEQUAL);
    Rule "t_RSHIFTEQUAL" ">>=" (Emit RSHIFTEQUAL);
    Rule "t_ANDEQUAL" "&=" (Emit ANDEQUAL);
    Rule "t_OREQUAL" "\|=" (Emit OREQUAL);
    Rule "t_XOREQUAL" "\^=" (Emit XOREQUAL);
    Rule "t_INLINK" "<-" (Emit INLINK);
    Rule "t_OVRLOAD" "\.\." (Emit OVRLOAD);
    Rule "t_DEF" "::" (Emit DEF);
    Rule "t_LPAREN" "\(" (Emit LPAREN);
    Rule "t_RPAREN" "\)" (Emit RPAREN);
    Rule "t_LBRACKET" "\[" (Emit LBRACKET);
    Rule "t_RBRACKET" "\]" (Emit RBRACKET);
    Rule "t_LBRACE" "\{" (Emit LBRACE);
    Rule "t_RBRACE" "\}" (Emit RBRACE);
    Rule "t_COMMA" "," (Emit COMMA);
    Rule "t_PERIOD" "\." (Emit PERIOD);
    Rule "t_SEMI" ";" (Emit SEMI);
    Rule "t_COLON" ":" (Emit COLON);
    Rule "t_ICONST" "\d+([uU][lL]|[lL][uU]|[uU]|[lL])?" (Emit ICONST);
    Rule "t_FCONST"
      "((\d*)(\.\d+)([eE](\+|-)?(\d+))? | (\d+)[eE](\+|-)?(\d+) | (\d+\.)([eE](\+|-)?(\d+))?)([lL]|[fF])?"
      (Emit FCONST);
    Rule "t_CCONST" "(L)?\'([^\\\n]|(\\.))*?\'" (Emit CCONST);
    Rule "t_SCONST" "\`([^\\\n]|(\\.))*?\`" (Emit SCONST);
    Rule "t_INCLUDE" "\#include" (Emit INCLUDE);
    Rule "t_INCLUDE_PATH" "<[^0-9][^>;)\+]+>" (Emit INCLUDE_PATH);
    Rule "t_BR" "<br>" (Emit BR) ].

Definition src_len (rl : rule) : nat := length (py_src (r_src rl)).

(** Python's [list.sort(key=..., reverse=True)] on the pattern length: a
    stable insertion by decreasing length. *)
Fixpoint insert_by_len (rl : rule) (l : list rule) : list rule :=
  match l with
  | [] => [rl]
  | x :: l' => if src_len x <? src_len rl then rl :: x :: l' else x :: insert_by_len rl l'
  end.

Definition sort_by_len (l : list rule) : list rule := foldr insert_by_len [] (rev l).

(** The master pattern's alternatives, in order *)
Definition lex_rules : list rule := func_rules ++ sort_by_len string_rules.

Definition rule_re (rl : rule) : re :=
  match compile true (py_src (r_src rl)) with Some r => r | None => REmpty end.

(** [t_ANY_ignore = ' \t'] *)
Definition lex_ignore (c : ascii) : bool := ceq c " " || ceq c (ascii_of_nat 9).

(** [lexre.match(lexdata, lexpos)]: the first rule that matches, with the
    end of its match *)
Fixpoint first_match (rules : list rule) (data : chars) (i : nat) : option (rule * nat) :=
  match rules with
  | [] => None
  | rl :: rest =>
      match match_at (rule_re rl) data i with
      | Some (e, _) => Some (rl, e)
      | None => first_match rest data i
      end
  end.

Definition master_match (data : chars) (i : nat) : option (rule * nat) :=
  first_match lex_rules data i.

(** ** The lexer and its tokens *)

(** The PLY lexer object: [lexpos], [lineno], and the [Lexer]'s private
    [__last_newline_lexpos]. *)
Record lexer := Lexer { lexpos : nat; lineno : nat; last_newline_lexpos : nat }.

(** A [LexToken]; [tk_nl] is [__last_newline_lexpos] at the moment the
    token is returned, which [Lexer.init] subtracts to get a column. *)
Record token := Tok {
  tk_type : tok_type; tk_value : string; tk_line : nat; tk_lexpos : nat; tk_nl : nat }.

Definition id_type (v : string) : tok_type :=
  match reserved_map !! v with Some t => t | None => ID end.

(** One turn of the loop in PLY's [token()]: skip an ignored character,
    apply the first matching rule, or call [t_ANY_error] ([skip(1)]). *)
Definition lex_step (data : chars) (st : lexer) : option token * lexer :=
  let i := lexpos st in
  match nth_error data i with
  | None => (None, st)
  | Some ch =>
      if lex_ignore ch then (None, Lexer (S i) (lineno st) (last_newline_lexpos st))
      else
        match master_match data i with
        | None => (None, Lexer (S i) (lineno st) (last_newline_lexpos st))
        | Some (rl, e) =>
            let seg := slice data i e in
            let v := string_of_list_ascii seg in
            let tok ty := Tok ty v (lineno st) i (last_newline_lexpos st) in
            match r_act rl with
            | Emit ty => (Some (tok ty), Lexer e (lineno st) (last_newline_lexpos st))
            | EmitLines ty =>
                (Some (tok ty), Lexer e (lineno st + count_char nl seg) (last_newline_lexpos st))
            | EmitId => (Some (tok (id_type v)), Lexer e (lineno st) (last_newline_lexpos st))
            | Newline => (None, Lexer e (lineno st + count_char nl seg) e)
            end
        end
  end.

(** Repeated [lexer.token()] calls until it returns [None] *)
Fixpoint lex_loop (fuel : nat) (data : chars) (st : lexer) : option (list token * lexer) :=
  match fuel with
  | O => None
  | S f =>
      if length data <=? lexpos st then Some ([], st)
      else
        let '(ot, st') := lex_step data st in
        match lex_loop f data st' with
        | Some (ts, st'') => Some (option_list ot ++ ts, st'')
        | None => None
        end
  end.

(** [lexer.input(data)] on a lexer whose [lineno] the caller has reset *)
Definition tokenize_from (st : lexer) (data : chars) : option (list token * lexer) :=
  lex_loop (S (length data)) data (Lexer 0 (lineno st) (last_newline_lexpos st)).

Definition fresh_lexer : lexer := Lexer 0 1 0.

Definition tokenize (data : chars) : option (list token * lexer) :=
  tokenize_from fresh_lexer data.

(** The token loop: the states and tokens of successive [token()] calls *)
Inductive lex_steps (data : chars) : lexer -> list token -> lexer -> Prop :=
| ls_done st : length data <= lexpos st -> lex_steps data st [] st
| ls_step st ot st1 ts st2 :
    lexpos st < length data -> lex_step data st = (ot, st1) ->
    lex_steps data st1 ts st2 -> lex_steps data st (option_list ot ++ ts) st2.

(** *** Line numbers *)

(** Only the two comment rules and [t_newline] add to [lineno]. *)
Definition counts_lines (t : tok_type) : bool :=
  match t with C_COMMENT | CPP_COMMENT => true | _ => false end.

(** Newlines inside a token that does not count them *)
Definition uncounted_newlines (t : token) : nat :=
  if counts_lines (tk_type t) then 0 else count_char nl (list_ascii_of_string (tk_value t)).

Definition lost_newlines (ts : list token) : nat := sum_nat (map uncounted_newlines ts).

Definition nl_before (data : chars) (i : nat) : nat := count_char nl (take i data).

Definition action_counts_ok (rl : rule) : bool :=
  match r_act rl with
  | Emit t => negb (counts_lines t)
  | EmitLines t => counts_lines t
  | EmitId | Newline => true
  end.

Definition newline_rule : rule := Rule "t_newline" "\n+" Newline.

(** *** A lexer whose [lineno] is not reset *)

Definition shift_token (d : nat) (t : token) : token :=
  Tok (tk_type t) (tk_value t) (tk_line t + d) (tk_lexpos t) (tk_nl t).

Definition shift_lexer (d : nat) (st : lexer) : lexer :=
  Lexer (lexpos st) (lineno st + d) (last_newline_lexpos st).

Definition shift_result (d : nat) (r : list token * lexer) : list token * lexer :=
  (map (shift_token d) r.1, shift_lexer d r.2).

(** ** Theorems *)


(** PLY's build-time validation succeeds: every rule's pattern compiles
    ([rule_re] falls back to [REmpty], of minimal length 0, only when it
    does not) and no rule can match the empty string. *)
Lemma lex_rules_nonempty : Forall (fun rl => 1 <= minlen (rule_re rl)) lex_rules.
Proof.
  apply Forall_forall. intros rl Hin.
  assert (Hb : forallb (fun rl => 1 <=? minlen (rule_re rl)) lex_rules = true)
    by (vm_compute; reflexivity).
  rewrite forallb_forall in Hb. apply Nat.leb_le, Hb, list_elem_of_In, Hin.
Qed.

Lemma first_match_in rules data i rl e :
  first_match rules data i = Some (rl, e) ->
  In rl rules /\ exists cs, match_at (rule_re rl) data i = Some (e, cs).
Proof.
  induction rules as [|r rules IH]; simpl; [discriminate|].
  destruct (match_at (rule_re r) data i) as [[e' cs]|] eqn:E.
  - intros [= <- <-]. eauto.
  - intros H. destruct (IH H) as [? ?]. eauto.
Qed.

Lemma first_match_complete rules data i rl :
  In rl rules -> match_at (rule_re rl) data i <> None -> first_match rules data i <> None.
Proof.
  induction rules as [|r rules IH]; simpl; [done|].
  intros [->|Hin] Hm.
  - destruct (match_at (rule_re rl) data i) as [[? ?]|]; done.
  - destruct (match_at (rule_re r) data i) as [[? ?]|]; [done|]. by apply IH.
Qed.

(** A rule that matches consumes at least one character and stays in the data. *)
Lemma master_match_advances data i rl e :
  i < length data -> master_match data i = Some (rl, e) -> i < e <= length data.
Proof.
  intros Hi H. apply first_match_in in H as [Hin [cs Hm]].
  apply match_at_bounds in Hm. rewrite Nat.max_r in Hm by lia.
  pose proof (proj1 (Forall_forall _ _) lex_rules_nonempty rl (proj2 (list_elem_of_In _ _) Hin)).
  simpl in *. lia.
Qed.

Lemma lex_step_pos data st ot st' :
  lexpos st < length data -> lex_step data st = (ot, st') ->
  lexpos st < lexpos st' <= length data.
Proof.
  intros Hi. unfold lex_step.
  destruct (nth_error data (lexpos st)) as [ch|] eqn:Hch;
    [|apply nth_error_None in Hch; lia].
  destruct (lex_ignore ch); [intros [= <- <-]; simpl; lia|].
  destruct (master_match data (lexpos st)) as [[rl e]|] eqn:Hm; [|intros [= <- <-]; simpl; lia].
  apply master_match_advances in Hm; [|done].
  destruct (r_act rl); intros [= <- <-]; simpl; lia.
Qed.

Lemma lex_loop_steps fuel data st ts st' :
  lex_loop fuel data st = Some (ts, st') -> lex_steps data st ts st'.
Proof.
  revert st ts. induction fuel as [|f IH]; intros st ts H; simpl in H; [discriminate|].
  destruct (Nat.leb_spec (length data) (lexpos st)).
  - injection H as <- <-. by constructor.
  - destruct (lex_step data st) as [ot st1] eqn:E.
    destruct (lex_loop f data st1) as [[ts' st'']|] eqn:E'; [|discriminate].
    injection H as <- <-. econstructor; eauto.
Qed.

Lemma lex_loop_total fuel data st :
  length data - lexpos st < fuel -> exists ts st', lex_loop fuel data st = Some (ts, st').
Proof.
  revert st. induction fuel as [|f IH]; intros st Hf; [lia|]. simpl.
  destruct (Nat.leb_spec (length data) (lexpos st)); [eauto|].
  destruct (lex_step data st) as [ot st1] eqn:E.
  pose proof (lex_step_pos data st ot st1 ltac:(lia) E).
  destruct (IH st1) as (ts & st' & ->); [lia|]. eauto.
Qed.

(** C2: tokenizing always terminates: the fuel [length data + 1] of
    [tokenize] is never exhausted, whatever the file holds. *)
Theorem tokenize_total data : exists ts st, tokenize data = Some (ts, st).
Proof. unfold tokenize, tokenize_from. apply lex_loop_total. simpl. lia. Qed.

Lemma lost_newlines_none : lost_newlines (option_list None) = 0.
Proof. reflexivity. Qed.

Lemma lost_newlines_some t : lost_newlines (option_list (Some t)) = uncounted_newlines t.
Proof. unfold lost_newlines. simpl. lia. Qed.

#[export] Hint Rewrite lost_newlines_none lost_newlines_some : dxl_rw.

Lemma lex_rules_actions : Forall (fun rl => action_counts_ok rl = true) lex_rules.
Proof.
  apply Forall_forall. intros rl Hin.
  assert (Hb : forallb action_counts_ok lex_rules = true) by (vm_compute; reflexivity).
  rewrite forallb_forall in Hb. apply Hb, list_elem_of_In, Hin.
Qed.

Lemma id_type_no_lines v : counts_lines (id_type v) = false.
Proof.
  unfold id_type, reserved_map.
  destruct (foldl _ _ reserved_other !! v) as [t|] eqn:E; [|done].
  assert (Hall : Forall (fun t => counts_lines t = false) (reserved_base ++ reserved_other))
    by (vm_compute; repeat constructor).
  rewrite Forall_app in Hall. destruct Hall as [Hb Ho].
  apply foldl_insert_lookup in E as [E|[Hin _]].
  - apply foldl_insert_lookup in E as [E|[Hin _]]; [done|].
    exact (proj1 (Forall_forall _ _) Hb t Hin).
  - exact (proj1 (Forall_forall _ _) Ho t Hin).
Qed.

Lemma drop_nth_error (data : chars) i x :
  nth_error data i = Some x -> drop i data = x :: drop (S i) data.
Proof.
  revert i; induction data as [|y data IH]; intros [|i] H; simpl in *; try discriminate.
  - by injection H as ->.
  - by apply IH.
Qed.

(** [t_newline] matches wherever the data holds a newline, so the error
    rule never skips one. *)
Lemma newline_rule_matches data i :
  nth_error data i = Some nl -> match_at (rule_re newline_rule) data i <> None.
Proof.
  intros H. assert (Hr : rule_re newline_rule = RRepeat 1 None true (RLit nl)) by reflexivity.
  unfold match_at. rewrite Hr.
  pose proof (run_total (RRepeat 1 None true (RLit nl)) data i) as Ht.
  assert (Hrun : run (RRepeat 1 None true (RLit nl)) data i <> NoMatch).
  { unfold run, pos_at. cbn [mt rep_need]. unfold mt_char, advance. cbn [p_rest].
    rewrite (drop_nth_error _ _ _ H). cbn.
    match goal with |- match ?x with _ => _ end <> _ => destruct x end; discriminate. }
  destruct (run _ data i); done.
Qed.

Lemma master_match_newline data i :
  nth_error data i = Some nl -> master_match data i <> None.
Proof.
  intros H. apply (first_match_complete _ _ _ newline_rule).
  - apply in_or_app. left. simpl. tauto.
  - by apply newline_rule_matches.
Qed.

Lemma nl_before_step data i e :
  i <= e -> nl_before data e = nl_before data i + count_char nl (slice data i e).
Proof. intros Hie. unfold nl_before, slice. rewrite (take_slice data i e Hie). apply count_char_app. Qed.

Lemma nl_before_skip data i ch :
  nth_error data i = Some ch -> ch <> nl -> nl_before data (S i) = nl_before data i.
Proof.
  intros Hch Hne. unfold nl_before. rewrite (take_slice data i (S i)) by lia.
  rewrite count_char_app, Nat.sub_succ_l, Nat.sub_diag by lia.
  rewrite (drop_nth_error _ _ _ Hch). simpl.
  destruct (Ascii.eqb_spec ch nl); [done|]. lia.
Qed.

(** One step: the counter gains the newlines read, except those inside a
    token that does not count them. *)
Lemma lex_step_lines data st ot st' :
  lexpos st < length data -> lex_step data st = (ot, st') ->
  lineno st' + lost_newlines (option_list ot) + nl_before data (lexpos st)
  = lineno st + nl_before data (lexpos st').
Proof.
  intros Hi. unfold lex_step.
  destruct (nth_error data (lexpos st)) as [ch|] eqn:Hch;
    [|apply nth_error_None in Hch; lia].
  destruct (lex_ignore ch) eqn:Hig.
  { intros [= <- <-]. rewrite lost_newlines_none. simpl. rewrite (nl_before_skip _ _ ch Hch); [lia|].
    intros ->. discriminate. }
  destruct (master_match data (lexpos st)) as [[rl e]|] eqn:Hm.
  2: { intros [= <- <-]. rewrite lost_newlines_none. simpl. rewrite (nl_before_skip _ _ ch Hch); [lia|].
       intros ->. by apply (master_match_newline data (lexpos st)). }
  pose proof (master_match_advances _ _ _ _ Hi Hm) as He.
  apply first_match_in in Hm as [Hin _].
  pose proof (proj1 (Forall_forall _ _) lex_rules_actions rl (proj2 (list_elem_of_In _ _) Hin)) as Hok.
  unfold action_counts_ok in Hok.
  destruct (r_act rl) as [t|t| |]; intros [= <- <-];
    autorewrite with dxl_rw; unfold uncounted_newlines;
    cbn [lineno lexpos tk_type tk_value];
    rewrite (nl_before_step data (lexpos st) e) by lia;
    rewrite ?list_ascii_of_string_of_list_ascii, ?id_type_no_lines.
  - destruct (counts_lines t); simpl in Hok; [discriminate|]. lia.
  - rewrite Hok. lia.
  - lia.
  - lia.
Qed.

Lemma lex_steps_lines data st ts st' :
  lex_steps data st ts st' ->
  lineno st' + lost_newlines ts + nl_before data (lexpos st) = lineno st + nl_before data (lexpos st').
Proof.
  induction 1 as [st Hend | st ot st1 ts st2 Hi Hstep Hsteps IH]; [unfold lost_newlines; simpl; lia|].
  pose proof (lex_step_lines _ _ _ _ Hi Hstep).
  unfold lost_newlines in *. rewrite map_app, sum_nat_app. lia.
Qed.

Lemma lex_steps_end data st ts st' :
  lex_steps data st ts st' -> lexpos st <= length data -> lexpos st' = length data.
Proof.
  induction 1 as [st Hend | st ot st1 ts st2 Hi Hstep Hsteps IH]; [lia|].
  pose proof (lex_step_pos _ _ _ _ Hi Hstep). intros _. apply IH. lia.
Qed.

(** C3: after a whole file, [lineno] is one plus the number of newlines in
    the file minus exactly the newlines that lie inside tokens other than
    comments ([STRING_INIT], [ARRAY_DEF], [PRAGMA], [FUNCTION],
    [INCLUDE_PATH], ... can span lines without counting them). *)
Theorem tokenize_line_count data ts st :
  tokenize data = Some (ts, st) -> lineno st + lost_newlines ts = 1 + count_char nl data.
Proof.
  intros H. apply lex_loop_steps in H.
  pose proof (lex_steps_lines _ _ _ _ H) as Hl.
  rewrite (lex_steps_end _ _ _ _ H) in Hl by (simpl; lia).
  unfold nl_before in Hl. simpl in Hl. rewrite take_ge in Hl by lia. lia.
Qed.

Lemma tokenize_line_count_witness :
  exists ts st, tokenize (py_src "string x =
 null;") = Some (ts, st) /\
  lineno st + lost_newlines ts = 1 + count_char nl (py_src "string x =
 null;").
Proof.
  do 2 eexists. split; [vm_compute; reflexivity|].
  apply tokenize_line_count. vm_compute. reflexivity.
Defined.

Lemma lex_step_token data st t st' :
  lex_step data st = (Some t, st') -> tk_line t = lineno st /\ tk_lexpos t = lexpos st.
Proof.
  unfold lex_step.
  destruct (nth_error data (lexpos st)); [|discriminate].
  destruct (lex_ignore _); [discriminate|].
  destruct (master_match data (lexpos st)) as [[rl e]|]; [|discriminate].
  destruct (r_act rl); intros [= <- <-]; done.
Qed.

Lemma lex_step_mono data st ot st' :
  lex_step data st = (ot, st') -> lineno st <= lineno st'.
Proof.
  unfold lex_step.
  destruct (nth_error data (lexpos st)); [|intros [= <- <-]; lia].
  destruct (lex_ignore _); [intros [= <- <-]; simpl; lia|].
  destruct (master_match data (lexpos st)) as [[rl e]|]; [|intros [= <- <-]; simpl; lia].
  destruct (r_act rl); intros [= <- <-]; simpl; lia.
Qed.

(** Tokens of a run lie between the lines and positions of its end states. *)
Lemma lex_steps_bounds data st ts st' :
  lex_steps data st ts st' ->
  lineno st <= lineno st' /\ lexpos st <= lexpos st' /\
  Forall (fun t => lineno st <= tk_line t <= lineno st' /\ lexpos st <= tk_lexpos t < lexpos st') ts.
Proof.
  induction 1 as [st Hend | st ot st1 ts st2 Hi Hstep Hsteps (IH1 & IH2 & IH3)]; [auto|].
  pose proof (lex_step_mono _ _ _ _ Hstep). pose proof (lex_step_pos _ _ _ _ Hi Hstep).
  split; [lia|]. split; [lia|]. apply Forall_app. split.
  - destruct ot as [t|]; [|constructor]. apply lex_step_token in Hstep as [Hl Hp].
    constructor; [|constructor]. lia.
  - eapply Forall_impl; [exact IH3|]. simpl. lia.
Qed.

(** C5: the lines of a token stream never decrease and its positions
    strictly increase. *)
Theorem tokenize_sorted data ts st :
  tokenize data = Some (ts, st) ->
  StronglySorted le (map tk_line ts) /\ StronglySorted lt (map tk_lexpos ts).
Proof.
  intros H. apply lex_loop_steps in H. clear - H.
  induction H as [st Hend | st ot st1 ts st2 Hi Hstep Hsteps IH]; [split; constructor|].
  destruct ot as [t|]; [|exact IH]. destruct IH as [IH1 IH2].
  pose proof (lex_step_mono _ _ _ _ Hstep). pose proof (lex_step_pos _ _ _ _ Hi Hstep).
  pose proof (lex_steps_bounds _ _ _ _ Hsteps) as (_ & _ & Hb).
  apply lex_step_token in Hstep as [Hl Hp]. simpl.
  split; constructor; try done; apply Forall_map; eapply Forall_impl; try exact Hb; simpl; lia.
Qed.

Lemma tokenize_sorted_witness :
  exists ts st, tokenize (py_src "a = b;
// c
d") = Some (ts, st) /\
  StronglySorted le (map tk_line ts) /\ StronglySorted lt (map tk_lexpos ts).
Proof.
  do 2 eexists. split; [vm_compute; reflexivity|].
  eapply (tokenize_sorted (py_src "a = b;
// c
d")). vm_compute. reflexivity.
Defined.

Lemma lex_steps_token_lines data st ts st' :
  lex_steps data st ts st' ->
  Forall (fun t => tk_line t + nl_before data (lexpos st) <= lineno st + nl_before data (tk_lexpos t)) ts.
Proof.
  induction 1 as [st Hend | st ot st1 ts st2 Hi Hstep Hsteps IH]; [constructor|].
  pose proof (lex_step_lines _ _ _ _ Hi Hstep) as Hl.
  apply Forall_app. split.
  - destruct ot as [t|]; [|constructor]. apply lex_step_token in Hstep as [Ht Hp].
    constructor; [|constructor]. rewrite Ht, Hp. lia.
  - eapply Forall_impl; [exact IH|]. simpl. lia.
Qed.

(** C4: no token is reported on a line after the one it starts on: its
    [lineno] is at most one plus the newlines before it. *)
Theorem tokenize_line_le data ts st :
  tokenize data = Some (ts, st) ->
  Forall (fun t => tk_line t <= 1 + nl_before data (tk_lexpos t)) ts.
Proof.
  intros H. apply lex_loop_steps, lex_steps_token_lines in H.
  eapply Forall_impl; [exact H|]. simpl. unfold nl_before at 1. simpl. lia.
Qed.

Lemma tokenize_line_le_witness :
  exists ts st, tokenize (py_src "string x =
 null;") = Some (ts, st) /\
  Forall (fun t => tk_line t <= 1 + nl_before (py_src "string x =
 null;") (tk_lexpos t)) ts.
Proof.
  do 2 eexists. split; [vm_compute; reflexivity|].
  eapply (tokenize_line_le (py_src "string x =
 null;")). vm_compute. reflexivity.
Defined.

Lemma lex_step_shift data st d :
  lex_step data (shift_lexer d st) =
  (option_map (shift_token d) (lex_step data st).1, shift_lexer d (lex_step data st).2).
Proof.
  destruct st as [p L n]. unfold lex_step, shift_lexer. cbn [lexpos lineno last_newline_lexpos].
  destruct (nth_error data p); [|reflexivity].
  destruct (lex_ignore _); [reflexivity|].
  destruct (master_match data p) as [[rl e]|]; [|reflexivity].
  destruct (r_act rl); cbn -[id_type]; try reflexivity.
  all: f_equal; f_equal; lia.
Qed.

Lemma lex_loop_shift fuel data st d :
  lex_loop fuel data (shift_lexer d st) = option_map (shift_result d) (lex_loop fuel data st).
Proof.
  revert st. induction fuel as [|f IH]; intros st; [done|]. simpl.
  destruct (length data <=? lexpos st); [done|].
  rewrite lex_step_shift. destruct (lex_step data st) as [ot st1]. simpl.
  rewrite IH. destruct (lex_loop f data st1) as [[ts st2]|]; [|done].
  simpl. unfold shift_result. simpl. rewrite map_app. f_equal. f_equal.
  destruct ot; done.
Qed.

(** C6: a lexer whose [lineno] was left at [1 + d] by an earlier scan
    reports every line of the next file [d] lines too far; the same file
    scanned after [lineno = 1] gives the true lines.  Resetting the
    counter, as the callers in [dxl_scan.py] do, is what makes the lines
    right. *)
Theorem tokenize_from_shift data p n d :
  tokenize_from (Lexer p (1 + d) n) data =
  option_map (shift_result d) (tokenize_from (Lexer p 1 n) data).
Proof.
  unfold tokenize_from. cbn [lineno last_newline_lexpos].
  rewrite <- lex_loop_shift. unfold shift_lexer. simpl. do 3 f_equal.
Qed.

(** *** Concrete behaviour *)

(** the newline inside a [STRING_INIT] token is not counted: in
    [string x =], newline, [ null;], newline, [int y], the tokens [int]
    and [y] of line 3 are reported on line 2, and the file ends with
    [lineno = 2]. *)
Example multiline_token_line_drift :
  option_map (fun r => (map tk_line r.1, lineno r.2)) (tokenize (py_src "string x =
 null;
int y")) = Some ([1; 1; 1; 2; 2], 2).
Proof. vm_compute. reflexivity. Qed.

(** [t_INCLUDE_PATH] also matches a comparison: in
    [if (a < b && c > d) x] the text [< b && c >] is one [INCLUDE_PATH]
    token. *)
Example include_path_on_comparison :
  option_map (fun r => map (fun t => (tk_type t, tk_value t)) r.1)
    (tokenize (py_src "if (a < b && c > d) x")) =
  Some [(IF, "if"); (LPAREN, "("); (ID, "a"); (INCLUDE_PATH, "< b && c >");
        (ID, "d"); (RPAREN, ")"); (ID, "x")].
Proof. vm_compute. reflexivity. Qed.

End DxlLexer.
