(* ===== verification/PlyMaster.v ===== *)
(** * PlyMaster: the master regular expression of PLY's lexer

    [lex.lex(module=self)] in [Lexer.build] does not try the rules of
    [src/dxl_lexer.py] one by one: it joins them into one pattern
    ["(?P<t_STRING_INIT>...)|(?P<t_ARRAY_DEF>...)|..."] (function rules in
    the order of their definitions, then string rules by decreasing
    pattern length), compiles it with [re.VERBOSE], and [token()] runs
    [lexre.match(lexdata, lexpos)] and reads the rule from [m.lastindex]
    through [lexindexfunc].  When the pattern has too many groups for
    Python's [re], PLY splits the list into consecutive chunks tried in
    order, which gives the same first match.

    [DxlLexer.master_match] instead runs the rules' patterns one after the
    other.  This file builds PLY's pattern from the same rules, parses it
    with [PyRegex], and shows that reading its match as PLY does gives
    exactly [master_match]: the group numbers of the joined pattern are
    the rules' own shifted ([shift_re]), and renumbering groups never
    changes where a match ends ([mt_shift]). *)

From S2P Require Import Prelude PyRegex RegexSearch DxlLexer.
Import PyRegex RegexSearch DxlLexer.

Module PlyMaster.

(** ** The joined pattern *)

(** The groups of [r] renumbered from [n + 1] on *)
Fixpoint shift_re (n : nat) (r : re) : re :=
  match r with
  | RCat r1 r2 => RCat (shift_re n r1) (shift_re n r2)
  | RAlt r1 r2 => RAlt (shift_re n r1) (shift_re n r2)
  | RRepeat lo hi g r1 => RRepeat lo hi g (shift_re n r1)
  | RGroup i nm r1 => RGroup (i + n) nm (shift_re n r1)
  | RNotAhead r1 => RNotAhead (shift_re n r1)
  | RAhead r1 => RAhead (shift_re n r1)
  | _ => r
  end.

(** The capturing groups of [r] *)
Fixpoint ngroups (r : re) : nat :=
  match r with
  | RCat r1 r2 | RAlt r1 r2 => ngroups r1 + ngroups r2
  | RRepeat _ _ _ r1 | RNotAhead r1 | RAhead r1 => ngroups r1
  | RGroup _ _ r1 => S (ngroups r1)
  | _ => 0
  end.

(** ["(?P<%s>%s)" % (name, regex)] for each rule, joined by ["|"] *)
Definition master_src_of (rls : list rule) : string :=
  String.concat "|" (map (fun rl => "(?P<" ++ r_name rl ++ ">" ++ r_src rl ++ ")")%string rls).

Definition master_src : string := master_src_of lex_rules.

(** The pattern [re.compile(master_src, re.VERBOSE)] *)
Definition master_re : re :=
  match compile true (py_src master_src) with Some r => r | None => REmpty end.

(** The alternatives of the joined pattern when the first rule's group is
    number [g] *)
Fixpoint master_alts (g : nat) (rls : list rule) : list re :=
  match rls with
  | [] => []
  | rl :: rls' => RGroup g (Some (r_name rl)) (shift_re g (rule_re rl))
                  :: master_alts (g + S (ngroups (rule_re rl))) rls'
  end.

(** [lexindexfunc]: the rule whose named group has number [k] *)
Fixpoint lexindex (g : nat) (rls : list rule) (k : nat) : option rule :=
  match rls with
  | [] => None
  | rl :: rls' => if k =? g then Some rl else lexindex (g + S (ngroups (rule_re rl))) rls' k
  end.

(** What [token()] reads from [m = lexre.match(lexdata, lexpos)]: the end
    [m.end()] and the rule of [m.lastindex], the group closed last *)
Definition lexmatch_of (r : re) (g : nat) (rls : list rule) (data : chars) (i : nat) : option (rule * nat) :=
  match match_at r data i with
  | Some (e, (k, _) :: _) => option_map (fun rl => (rl, e)) (lexindex g rls k)
  | _ => None
  end.

Definition ply_master_match (data : chars) (i : nat) : option (rule * nat) :=
  lexmatch_of master_re 1 lex_rules data i.

(** ** Renumbering groups does not change where a match ends *)

Definition same_end (m1 m2 : mres) : Prop :=
  match m1, m2 with
  | NoMatch, NoMatch | OutOfFuel, OutOfFuel => True
  | Matched p1 _, Matched p2 _ => p1 = p2
  | _, _ => False
  end.

Definition cont_rel (k1 k2 : pos -> captures -> mres) : Prop :=
  forall p c1 c2, same_end (k1 p c1) (k2 p c2).

(** ** Lemmas *)

Lemma same_end_orelse a1 a2 b1 b2 :
  same_end a1 a2 -> same_end b1 b2 ->
  same_end (match a1 with NoMatch => b1 | Matched p c => Matched p c | OutOfFuel => OutOfFuel end)
           (match a2 with NoMatch => b2 | Matched p c => Matched p c | OutOfFuel => OutOfFuel end).
Proof. destruct a1, a2; simpl; done. Qed.

Lemma same_end_matched p c1 c2 : same_end (Matched p c1) (Matched p c2).
Proof. done. Qed.

#[local] Hint Resolve same_end_orelse same_end_matched : dxl.

Lemma mt_char_shift f p c1 c2 k1 k2 :
  cont_rel k1 k2 -> same_end (mt_char f p c1 k1) (mt_char f p c2 k2).
Proof.
  intros Hk. unfold mt_char. destruct (advance p) as [[b p']|]; [|done].
  destruct (f b); [apply Hk|done].
Qed.

Section RepeatShift.
Variables body1 body2 : pos -> captures -> (pos -> captures -> mres) -> mres.
Hypothesis Hbody : forall p c1 c2 k1 k2, cont_rel k1 k2 -> same_end (body1 p c1 k1) (body2 p c2 k2).
Variable greedy : bool.

Lemma rep_more_shift fuel left k1 k2 : forall p c1 c2,
  cont_rel k1 k2 -> same_end (rep_more body1 greedy k1 fuel left p c1) (rep_more body2 greedy k2 fuel left p c2).
Proof.
  revert left. induction fuel as [|fuel IH]; intros left p c1 c2 Hk; [done|]. cbn [rep_more].
  assert (Hs : cont_rel (fun p1 c => if p_idx p1 =? p_idx p then k1 p1 c
                                      else rep_more body1 greedy k1 fuel (option_map pred left) p1 c)
                        (fun p1 c => if p_idx p1 =? p_idx p then k2 p1 c
                                      else rep_more body2 greedy k2 fuel (option_map pred left) p1 c)).
  { intros p1 d1 d2. destruct (p_idx p1 =? p_idx p); [apply Hk|by apply IH]. }
  destruct left as [[|l]|]; [apply Hk| |]; destruct greedy;
    refine (same_end_orelse _ _ _ _ _ _); first [apply Hk | by apply Hbody].
Qed.

Lemma rep_need_shift n left k1 k2 : forall p c1 c2,
  cont_rel k1 k2 -> same_end (rep_need body1 greedy k1 n left p c1) (rep_need body2 greedy k2 n left p c2).
Proof.
  induction n as [|n IH]; intros p c1 c2 Hk; cbn [rep_need]; [by apply rep_more_shift|].
  apply Hbody. intros p1 d1 d2. by apply IH.
Qed.
End RepeatShift.

(** The matcher on a renumbered pattern ends where it ends on the
    pattern, whatever the captures. *)
Lemma mt_shift n r : forall p c1 c2 k1 k2,
  cont_rel k1 k2 -> same_end (mt (shift_re n r) p c1 k1) (mt r p c2 k2).
Proof.
  induction r as [| a | | neg items | r1 IH1 r2 IH2 | r1 IH1 r2 IH2
                  | lo hi greedy r1 IH | i nm r1 IH | r1 IH | r1 IH | | |];
    intros p c1 c2 k1 k2 Hk; cbn [mt shift_re].
  - apply Hk.
  - by apply mt_char_shift.
  - by apply mt_char_shift.
  - by apply mt_char_shift.
  - apply IH1. intros p1 d1 d2. by apply IH2.
  - apply same_end_orelse; auto.
  - apply rep_need_shift; [|done]. intros; by apply IH.
  - apply IH. intros p1 d1 d2. apply Hk.
  - pose proof (IH p c1 c2 Matched Matched ltac:(done)) as H.
    destruct (mt (shift_re n r1) p c1 Matched), (mt r1 p c2 Matched); simpl in H; first [done | apply Hk].
  - pose proof (IH p c1 c2 Matched Matched ltac:(done)) as H.
    destruct (mt (shift_re n r1) p c1 Matched), (mt r1 p c2 Matched); simpl in H; first [done | apply Hk].
  - destruct (at_beginning p); [apply Hk|done].
  - destruct (at_boundary p); [apply Hk|done].
  - destruct (at_boundary p); [done|apply Hk].
Qed.

(** ** The joined pattern, alternative by alternative *)

(** A renumbered rule pattern inside its named group matches where the
    rule's pattern matches, and the named group is the one closed last. *)
Lemma match_group_shift g nm r s i :
  match match_at r s i with
  | Some (e, _) => exists c, match_at (RGroup g nm (shift_re g r)) s i = Some (e, (g, (i, e)) :: c)
  | None => match_at (RGroup g nm (shift_re g r)) s i = None
  end.
Proof.
  unfold match_at, run. cbn [mt].
  pose proof (mt_shift g r (pos_at s i) [] []
                (fun p1 c1 => Matched p1 ((g, (p_idx (pos_at s i), p_idx p1)) :: c1)) Matched
                ltac:(done)) as H.
  destruct (mt r (pos_at s i) [] Matched) eqn:E2,
           (mt (shift_re g r) (pos_at s i) [] _) eqn:E1; simpl in H; try done.
  subst. apply mt_result in E1 as (n & p1 & c1 & _ & _ & Hk). injection Hk as -> <-. eauto.
Qed.

(** BRANCH: the second alternative is tried only when the first fails *)
Lemma master_alts_one g rl :
  mk_alt (master_alts g [rl]) = RGroup g (Some (r_name rl)) (shift_re g (rule_re rl)).
Proof. done. Qed.

Lemma master_alts_cons g rl rl' rls :
  mk_alt (master_alts g (rl :: rl' :: rls)) =
  RAlt (RGroup g (Some (r_name rl)) (shift_re g (rule_re rl)))
       (mk_alt (master_alts (g + S (ngroups (rule_re rl))) (rl' :: rls))).
Proof. done. Qed.

Lemma lexindex_ge g rls k rl : lexindex g rls k = Some rl -> g <= k.
Proof.
  revert g. induction rls as [|rl0 rls IH]; intros g; simpl; [done|].
  destruct (Nat.eqb_spec k g); [lia|]. intros H. apply IH in H. lia.
Qed.

(** The group closed last by the joined pattern is the named group of one
    of its rules, numbered from [g] on. *)
Lemma alts_head g rls data i e k sp c :
  match_at (mk_alt (master_alts g rls)) data i = Some (e, (k, sp) :: c) -> g <= k.
Proof.
  revert g. induction rls as [|rl rls IH]; intros g H; [done|].
  pose proof (match_group_shift g (Some (r_name rl)) (rule_re rl) data i) as Hg.
  destruct (match_at (rule_re rl) data i) as [[e0 c0]|], rls as [|rl' rls'];
    [destruct Hg as [c1 Hg]; rewrite master_alts_one, Hg in H
    |destruct Hg as [c1 Hg]; rewrite master_alts_cons, match_at_alt_split, Hg in H
    |rewrite master_alts_one, Hg in H
    |rewrite master_alts_cons, match_at_alt_split, Hg in H; apply IH in H];
    simplify_eq; lia.
Qed.

(** Reading the joined pattern's match through [lexindexfunc] gives the
    first rule that matches, with the end of its match. *)
Lemma alts_lexmatch g rls data i :
  rls <> [] -> lexmatch_of (mk_alt (master_alts g rls)) g rls data i = first_match rls data i.
Proof.
  revert g. induction rls as [|rl rls IH]; intros g Hne; [done|].
  pose proof (match_group_shift g (Some (r_name rl)) (rule_re rl) data i) as Hg.
  unfold lexmatch_of in *. cbn [first_match lexindex].
  destruct (match_at (rule_re rl) data i) as [[e c0]|].
  - destruct Hg as [c Hg]. destruct rls as [|rl' rls'];
      [rewrite master_alts_one | rewrite master_alts_cons, match_at_alt_split];
      rewrite Hg; simpl; by rewrite Nat.eqb_refl.
  - destruct rls as [|rl' rls']; [by rewrite master_alts_one, Hg|].
    rewrite master_alts_cons, match_at_alt_split, Hg, <- (IH (g + S (ngroups (rule_re rl))) ltac:(done)).
    destruct (match_at (mk_alt (master_alts (g + S (ngroups (rule_re rl))) (rl' :: rls'))) data i) as [[e [|[k sp] c]]|] eqn:E; try done.
    apply alts_head in E. destruct (Nat.eqb_spec k g); [lia|done].
Qed.

(** [re.compile] parses the joined pattern into one named group per rule,
    the groups of each rule's pattern numbered after it. *)
Lemma master_re_alts : master_re = mk_alt (master_alts 1 lex_rules).
Proof. vm_compute. reflexivity. Qed.

(** C11: PLY's master pattern is the rule-by-rule first match.  Matching
    the single pattern that PLY joins from all the token rules, and
    reading the rule from [m.lastindex] through [lexindexfunc], gives the
    same rule and the same end as trying each rule's own pattern in
    order, which is how [master_match] models the lexer. *)
Theorem ply_master_match_equiv data i : ply_master_match data i = master_match data i.
Proof.
  unfold ply_master_match, master_match. rewrite master_re_alts.
  by apply alts_lexmatch.
Qed.

End PlyMaster.
