(* ===== verification/Classifier.v ===== *)
(** * Classifier: [Lexer.get_tokens] of [src/dxl_lexer.py]

    One forward pass over the token stream of a file.  Its state is the
    set of attributes [get_tokens] initialises (the result dicts
    [include_dict], [string_init_dict], [string_init_loop_dict],
    [pragma_dict], [sys_call_dict], the list [func_called], the flag
    [is_exec_by_doors]) and its local variables (the four
    [previous_token_is_*] flags, [count_tok], [is_first_token], [has_loop],
    [in_loop], [count_brace]).  [gt_step] is the body of its [while] loop
    with the statements in the source's order; [get_tokens] folds it over
    the tokens of a fresh scan.  Python dicts keyed by token text are
    [gmap string nat] (an assignment [d[v] = l] is an insert: the last
    occurrence wins). *)

From S2P Require Import Prelude PyRegex DxlLexer.
Import PyRegex DxlLexer.

Module Classifier.

Record gt_state := GtState {
  is_exec_by_doors : bool;
  include_dict : gmap string nat;
  string_init_dict : gmap string nat;
  string_init_loop_dict : gmap string nat;
  pragma_dict : gmap string nat;
  sys_call_dict : gmap string nat;
  func_called : list string;
  previous_token_is_include : bool;
  previous_token_is_string_init : bool;
  previous_token_is_cpp_comment : bool;
  previous_token_is_keyword : bool;
  count_tok : nat;
  is_first_token : bool;
  has_loop : bool;
  in_loop : bool;
  count_brace : Z }.

(** The initialisations at the top of [get_tokens] *)
Definition gt_init : gt_state :=
  GtState false ∅ ∅ ∅ ∅ ∅ [] false false false false 0 false false false 0%Z.

(** [keywords = ["BOOL","CHAR","INT","STRING","REAL","VOID","OBJECT","MODULE"]] *)
Definition gt_keyword (t : tok_type) : bool :=
  match t with BOOL | CHAR | INT | STRING | REAL | VOID | OBJECT | MODULE => true | _ => false end.

(** [v[1:-1]] *)
Definition py_strip_ends (v : string) : string :=
  match String.length v with
  | 0 | 1 => EmptyString
  | n => substring 1 (n - 2) v
  end.

(** [v[:6] == "system"] *)
Definition starts_with_system (v : string) : bool :=
  String.eqb (substring 0 6 v) "system".

(** [v.split("(")[0]] *)
Fixpoint before_paren (v : string) : string :=
  match v with
  | EmptyString => EmptyString
  | String c v' => if Ascii.eqb c "(" then EmptyString else String c (before_paren v')
  end.

(** The three loop-tracking variables after a token of type [ty]:
    [for]/[while] arm [has_loop]; with [has_loop] set, [{] enters the loop
    scope and counts, [}] counts down and leaves both when the count is 0. *)
Record loop_vars := LoopVars { lp_has_loop : bool; lp_in_loop : bool; lp_count_brace : Z }.

Definition loop_step (ty : tok_type) (has_loop in_loop : bool) (count_brace : Z) : loop_vars :=
  let has_loop1 := if bool_decide (ty = FOR) || bool_decide (ty = WHILE) then true else has_loop in
  if bool_decide (ty = LBRACE) && has_loop1 then LoopVars has_loop1 true (count_brace + 1)%Z
  else if bool_decide (ty = RBRACE) && has_loop1 then
    let c := (count_brace - 1)%Z in
    if Z.eqb c 0 then LoopVars false false c else LoopVars has_loop1 in_loop c
  else LoopVars has_loop1 in_loop count_brace.

(** The body of the [while True] loop, for one token [tok] *)
Definition gt_step (s : gt_state) (tok : token) : gt_state :=
  let ty := tk_type tok in
  let v := tk_value tok in
  let l := tk_line tok in
  (* Include tokens *)
  let inc := if previous_token_is_include s && (bool_decide (ty = INCLUDE_PATH) || bool_decide (ty = SCONST))
             then <[py_strip_ends v := l]> (include_dict s) else include_dict s in
  (* String initialization tokens *)
  let sinit := if previous_token_is_string_init s then <[v := l]> (string_init_dict s)
               else string_init_dict s in
  (* String initialization in loop *)
  let lp := loop_step ty (has_loop s) (in_loop s) (count_brace s) in
  let sloop := if lp.(lp_in_loop) && bool_decide (ty = STRING_INIT)
               then <[v := l]> (string_init_loop_dict s) else string_init_loop_dict s in
  (* Pragma tokens *)
  let prag := if bool_decide (ty = PRAGMA) then <[v := l]> (pragma_dict s) else pragma_dict s in
  (* System calls tokens *)
  let sys1 := if bool_decide (ty = SYS_CALL) then <[v := l]> (sys_call_dict s) else sys_call_dict s in
  let sys2 := if bool_decide (ty = FUNCTION) && starts_with_system v then <[v := l]> sys1 else sys1 in
  (* File executable by DOORS *)
  let first1 := if bool_decide (ty = CPP_COMMENT) && Nat.eqb (count_tok s) 1 then true
                else is_first_token s in
  let exec := if previous_token_is_cpp_comment s && first1 && bool_decide (ty = C_COMMENT)
              then true else is_exec_by_doors s in
  (* Called functions *)
  let called := if bool_decide (ty = FUNCTION) && negb (previous_token_is_keyword s)
                then func_called s ++ [before_paren v] else func_called s in
  GtState exec inc sinit sloop prag sys2 called
    (bool_decide (ty = INCLUDE)) (bool_decide (ty = STRING_INIT))
    (bool_decide (ty = CPP_COMMENT)) (gt_keyword ty)
    (count_tok s) first1 lp.(lp_has_loop) lp.(lp_in_loop) lp.(lp_count_brace).

Definition classify (ts : list token) : gt_state := foldl gt_step gt_init ts.

(** [get_tokens(data)] after the caller's [lexer.lineno = 1] *)
Definition get_tokens (data : chars) : option gt_state :=
  match tokenize data with
  | Some (ts, _) => Some (classify ts)
  | None => None
  end.

(** ** The pass as a function of adjacent tokens *)

(** Each token paired with the token before it *)
Fixpoint with_prev_from (pr : option token) (ts : list token) : list (option token * token) :=
  match ts with
  | [] => []
  | t :: ts' => (pr, t) :: with_prev_from (Some t) ts'
  end.

Definition with_prev (ts : list token) : list (option token * token) := with_prev_from None ts.

Definition prev_is (pr : option token) (ty : tok_type) : bool :=
  match pr with Some p => bool_decide (tk_type p = ty) | None => false end.

Definition prev_keyword (pr : option token) : bool :=
  match pr with Some p => gt_keyword (tk_type p) | None => false end.

(** The (key, line) assignments a selection of pairs makes to a dict *)
Definition assignments (sel : option token -> token -> bool) (key : token -> string)
    (ts : list token) : list (string * nat) :=
  map (fun pt => (key pt.2, tk_line pt.2)) (List.filter (fun pt => sel pt.1 pt.2) (with_prev ts)).

(** The dict those assignments leave: the last assignment to a key wins. *)
Definition dict_of (l : list (string * nat)) : gmap string nat := list_to_map (reverse l).

(** What [include_dict] records: a path token right after [#include],
    with its delimiters cut off *)
Definition include_sel (pr : option token) (t : token) : bool :=
  prev_is pr INCLUDE && (bool_decide (tk_type t = INCLUDE_PATH) || bool_decide (tk_type t = SCONST)).

Definition include_key (t : token) : string := py_strip_ends (tk_value t).

Definition string_init_sel (pr : option token) (t : token) : bool := prev_is pr STRING_INIT.

Definition sys_call_sel (pr : option token) (t : token) : bool :=
  bool_decide (tk_type t = SYS_CALL) || (bool_decide (tk_type t = FUNCTION) && starts_with_system (tk_value t)).

Definition pragma_sel (pr : option token) (t : token) : bool := bool_decide (tk_type t = PRAGMA).

Definition call_sel (pr : option token) (t : token) : bool :=
  bool_decide (tk_type t = FUNCTION) && negb (prev_keyword pr).

(** The invariant that keeps the executable marker off *)
Definition exec_inv (s : gt_state) : Prop :=
  count_tok s = 0 /\ is_first_token s = false /\ is_exec_by_doors s = false.

Lemma with_prev_from_snoc pr ts t :
  with_prev_from pr (ts ++ [t]) =
  with_prev_from pr ts ++ [(match list.last ts with Some u => Some u | None => pr end, t)].
Proof.
  revert pr; induction ts as [|u ts IH]; intros pr; [done|]. simpl. rewrite IH.
  destruct ts as [|v ts]; [done|]. do 3 f_equal.
  change (list.last (u :: v :: ts)) with (list.last (v :: ts)).
  destruct (list.last (v :: ts)) eqn:E; [done|]. apply last_None in E. discriminate.
Qed.

Lemma with_prev_snoc ts t : with_prev (ts ++ [t]) = with_prev ts ++ [(list.last ts, t)].
Proof. unfold with_prev. rewrite with_prev_from_snoc. by destruct (list.last ts). Qed.

Lemma classify_snoc ts t : classify (ts ++ [t]) = gt_step (classify ts) t.
Proof. unfold classify. by rewrite foldl_app. Qed.

Lemma last_snoc_token (ts : list token) t : list.last (ts ++ [t]) = Some t.
Proof. apply last_snoc. Qed.

#[export] Hint Rewrite with_prev_snoc classify_snoc last_snoc_token : dxl_rw.

(** The four [previous_token_is_*] flags are exactly facts about the
    previous token. *)
Lemma classify_flags ts :
  previous_token_is_include (classify ts) = prev_is (list.last ts) INCLUDE /\
  previous_token_is_string_init (classify ts) = prev_is (list.last ts) STRING_INIT /\
  previous_token_is_cpp_comment (classify ts) = prev_is (list.last ts) CPP_COMMENT /\
  previous_token_is_keyword (classify ts) = prev_keyword (list.last ts).
Proof.
  induction ts as [|t ts _] using rev_ind; [done|].
  autorewrite with dxl_rw. unfold gt_step. cbn -[bool_decide]. done.
Qed.

(** Looking a key up in [dict_of l] gives the line of its last assignment. *)
Lemma dict_of_lookup l k :
  dict_of l !! k = list.last (map snd (List.filter (fun kv => String.eqb kv.1 k) l)).
Proof.
  induction l as [|[k' v] l IH] using rev_ind; [done|].
  unfold dict_of in *. rewrite reverse_snoc, list_to_map_cons, List.filter_app, map_app. simpl.
  destruct (String.eqb_spec k' k) as [<-|Hne]; simpl.
  - by rewrite lookup_insert_eq, last_snoc.
  - by rewrite lookup_insert_ne, app_nil_r.
Qed.

Section DictRefinement.
(** A dict of the state that the pass fills by [d[key(tok)] = tok.lineno]
    for the selected pairs *)
Variable proj : gt_state -> gmap string nat.
Variable sel : option token -> token -> bool.
Variable key : token -> string.
Hypothesis proj_init : proj gt_init = ∅.
Hypothesis proj_step : forall ts t,
  proj (gt_step (classify ts) t) =
  if sel (list.last ts) t then <[key t := tk_line t]> (proj (classify ts)) else proj (classify ts).

Lemma dict_refines ts : proj (classify ts) = dict_of (assignments sel key ts).
Proof.
  induction ts as [|t ts IH] using rev_ind; [exact proj_init|].
  rewrite classify_snoc, proj_step, IH. unfold dict_of, assignments.
  rewrite with_prev_snoc, List.filter_app, map_app. simpl.
  destruct (sel (list.last ts) t); simpl; [|by rewrite ?app_nil_r].
  by rewrite reverse_snoc.
Qed.
End DictRefinement.

(** C7: [include_dict] maps each included path to the line of its last
    [#include]: the flag-driven pass refines the declarative reading over
    adjacent tokens (the open question of the spec: a path included twice
    keeps only its later line). *)
Theorem include_dict_spec ts :
  include_dict (classify ts) = dict_of (assignments include_sel include_key ts).
Proof.
  apply dict_refines; [done|]. intros ts' t.
  destruct (classify_flags ts') as (Hi & _). unfold gt_step. cbn -[bool_decide].
  rewrite Hi. done.
Qed.

(** The same refinement for [string_init_dict], [sys_call_dict] and
    [pragma_dict], which the checks of [Checks] read. *)
Theorem string_init_dict_spec ts :
  string_init_dict (classify ts) = dict_of (assignments string_init_sel tk_value ts).
Proof.
  apply dict_refines; [done|]. intros ts' t.
  destruct (classify_flags ts') as (_ & Hs & _). unfold gt_step. cbn -[bool_decide].
  rewrite Hs. done.
Qed.

Theorem sys_call_dict_spec ts :
  sys_call_dict (classify ts) = dict_of (assignments sys_call_sel tk_value ts).
Proof.
  apply dict_refines; [done|]. intros ts' t. unfold gt_step, sys_call_sel. cbn -[bool_decide].
  destruct (bool_decide (tk_type t = SYS_CALL)) eqn:Hs, (bool_decide (tk_type t = FUNCTION)) eqn:Hf;
    simpl; try done;
    try (apply bool_decide_eq_true in Hs, Hf; congruence);
    destruct (starts_with_system (tk_value t)); try done; by rewrite insert_insert_eq.
Qed.

Theorem pragma_dict_spec ts :
  pragma_dict (classify ts) = dict_of (assignments pragma_sel tk_value ts).
Proof. apply dict_refines; [done|]. intros ts' t. done. Qed.

(** C8: [func_called] lists, in order, the callee text (up to the first
    parenthesis) of every [FUNCTION] token whose previous token is not a
    type keyword. *)
Theorem func_called_spec ts :
  func_called (classify ts) =
  map (fun pt => before_paren (tk_value pt.2)) (List.filter (fun pt => call_sel pt.1 pt.2) (with_prev ts)).
Proof.
  induction ts as [|t ts IH] using rev_ind; [done|].
  rewrite classify_snoc, with_prev_snoc, List.filter_app, map_app, <- IH.
  destruct (classify_flags ts) as (_ & _ & _ & Hk).
  unfold gt_step, call_sel. cbn -[bool_decide]. rewrite Hk.
  destruct (bool_decide (tk_type t = FUNCTION) && negb (prev_keyword (list.last ts))); simpl;
    [done | by rewrite app_nil_r].
Qed.

(** ** The executable marker *)

Lemma gt_step_exec_inv s t : exec_inv s -> exec_inv (gt_step s t).
Proof.
  intros (Hc & Hf & He). unfold exec_inv, gt_step. cbn -[bool_decide].
  rewrite Hc, Hf, He. simpl. rewrite andb_false_r. simpl.
  repeat split; try done. destruct (previous_token_is_cpp_comment s); done.
Qed.

Lemma classify_exec_inv ts s : exec_inv s -> exec_inv (foldl gt_step s ts).
Proof. revert s; induction ts as [|t ts IH]; intros s Hs; [done|]. simpl. by apply IH, gt_step_exec_inv. Qed.

(** C1: [count_tok] is set to 0 and never incremented, so the test
    [count_tok == 1] never holds, [is_first_token] stays [False] and
    [is_exec_by_doors] is [False] for every file: a file that opens with a
    [//] comment followed by a [/* */] comment is not marked executable. *)
Theorem exec_marker_never_set ts : is_exec_by_doors (classify ts) = false.
Proof. by destruct (classify_exec_inv ts gt_init ltac:(done)) as (_ & _ & ?). Qed.

(** ** Loop tracking *)

(** [in_loop] is only ever set while [has_loop] is. *)
Lemma gt_step_loop_inv s t :
  (in_loop s = true -> has_loop s = true) ->
  in_loop (gt_step s t) = true -> has_loop (gt_step s t) = true.
Proof.
  intros Hinv. unfold gt_step, loop_step. cbn -[bool_decide].
  destruct (bool_decide (tk_type t = FOR) || bool_decide (tk_type t = WHILE));
    destruct (bool_decide (tk_type t = LBRACE)), (bool_decide (tk_type t = RBRACE));
    simpl; try destruct (Z.eqb _ _); destruct (has_loop s); simpl; auto.
Qed.

Lemma classify_loop_inv ts : in_loop (classify ts) = true -> has_loop (classify ts) = true.
Proof.
  induction ts as [|t ts IH] using rev_ind; [discriminate|].
  rewrite classify_snoc. by apply gt_step_loop_inv.
Qed.

(** [t_FUNCTION]'s [(.*|)\)] runs to the last closing parenthesis of
    the line, so in [x = foo(a) + bar(b);] one [FUNCTION] token covers
    both calls and only [foo] is recorded as called. *)
Example func_called_greedy :
  option_map func_called (get_tokens (py_src "x = foo(a) + bar(b);")) = Some ["foo"].
Proof. vm_compute. reflexivity. Qed.

End Classifier.
