(* ===== verification/Checks.v ===== *)
(** * Checks: the per-file checks of [src/dxl-analyzer/dxl_scan.py]

    [StartDoors.__check_string_init], [__check_sys_calls] and
    [__check_pragmas] each re-scan a file with [get_tokens] (after
    [lexer.lineno = 1]) unless the file is larger than 500,000 bytes, and
    append error objects to the report of the file through [__add_error].
    Here a check returns the list of errors it appends, in the iteration
    order of the dict it walks (a Python 2 dict has no specified order; the
    model walks the [gmap] in [map_to_list] order and the theorems do not
    depend on it).  [__check_pragmas] can raise: [int(...)] on the argument
    of a [runLim] pragma raises [ValueError] or [IndexError]; the result is
    then [PyRaise]. *)

From S2P Require Import Prelude PyRegex DxlLexer Classifier.
Import PyRegex DxlLexer Classifier.

Module Checks.

(** ** Error objects: [class Error] and its subclasses *)

Inductive error :=
| Error (kind message : string) (line : nat)
| IncludeError (path kind : string) (line : nat)
| FunctionError (token kind : string) (line : nat)
| PragmaError (token kind : string) (line : nat)
| DuplicateFileError (message file_path : string)
| OversizeFileError (message : string).

(** Python exceptions the checks can raise *)
Inductive py_exc := IndexError | ValueError | TypeError | KeyError | IOError | RuntimeError | NameError | OSError
  | AttributeError | ArgumentError.

Inductive py_result (A : Type) := PyOk (a : A) | PyRaise (e : py_exc).
Arguments PyOk {A} a.
Arguments PyRaise {A} e.

(** ** The scan every check starts with *)

(** [fs > 500*1000] *)
Definition oversize (fs : N) : bool := (500 * 1000 <? fs)%N.

(** [self.__lexer.lexer.lineno = 1; self.__lexer.get_tokens(content)];
    [tokenize] always returns ([DxlLexer.tokenize_total]). *)
Definition scan (content : chars) : gt_state :=
  match get_tokens content with Some s => s | None => gt_init end.

(** The tokens of that scan *)
Definition scan_tokens (content : chars) : list token :=
  match tokenize content with Some (ts, _) => ts | None => [] end.

(** ** [__check_string_init] *)

Definition null_str : string := "null".

(** The message of the source: Use, two double-quote characters, instead of null *)
Definition use_empty_msg : string := "Use " ++ String dq (String dq " instead of null").

Definition check_string_init (fs : N) (content : chars) : list error :=
  if oversize fs then []
  else
    let d := string_init_dict (scan content) in
    omap (fun kv => if String.eqb kv.1 null_str
                    then Some (Error "Bad string initialization" use_empty_msg kv.2)
                    else None)
         (map_to_list d).

(** ** [__check_sys_calls] *)

Definition check_sys_calls (fs : N) (content : chars) : list error :=
  if oversize fs then []
  else map (fun kv => FunctionError kv.1 "System Call" kv.2) (map_to_list (sys_call_dict (scan content))).

(** ** [__check_pragmas] *)

(** A small error monad for code that can raise *)
Definition py_bind {A B} (m : py_result A) (k : A -> py_result B) : py_result B :=
  match m with PyOk a => k a | PyRaise e => PyRaise e end.

Notation "'pylet' x := m 'in' k" := (py_bind m (fun x => k))
  (at level 10, x name, m at level 100, k at level 200) : dxl_scope.

Fixpoint skip_ws (l : chars) : chars :=
  match l with
  | c :: l' => if PyRegex.is_space c then skip_ws l' else l
  | [] => []
  end.

Fixpoint span_digits (l : chars) : chars * chars :=
  match l with
  | c :: l' => if PyRegex.is_digit c then let '(ds, r) := span_digits l' in (c :: ds, r) else ([], l)
  | [] => ([], [])
  end.

Definition digits_value (ds : chars) : Z :=
  foldl (fun acc c => acc * 10 + Z.of_nat (nat_of_ascii c - 48))%Z 0%Z ds.

(** Python 2's [int(s)] on a [str] (PyInt_FromString with base 10): blanks,
    an optional sign, blanks (PyOS_strtoul skips them too), at least one
    digit, trailing blanks and nothing else; anything else is a
    [ValueError], modelled as [None]. *)
Definition py_int (s : string) : option Z :=
  let l1 := skip_ws (list_ascii_of_string s) in
  let '(neg, l2) := match l1 with
                    | c :: r => if PyRegex.ceq c "-" then (true, r)
                                else if PyRegex.ceq c "+" then (false, r) else (false, l1)
                    | [] => (false, l1)
                    end in
  let '(ds, rest) := span_digits (skip_ws l2) in
  match ds, skip_ws rest with
  | _ :: _, [] => Some (if neg then (- digits_value ds)%Z else digits_value ds)
  | _, _ => None
  end.

(** The body of [for pragma, line in pragma_dict.iteritems()] *)
Definition check_pragma_arg (p : string) (line : nat) : py_result (list error) :=
  if py_in "xflags" p then PyOk [PragmaError p "Pragma xflags forbidden" line]
  else if py_in "runLim" p then
    match nth_error (split_on "," p) 1 with
    | None => PyRaise IndexError
    | Some a =>
        match py_int a with
        | None => PyRaise ValueError
        | Some n => PyOk (if Z.eqb n 0 then [] else [PragmaError p "Execution cycle not 0" line])
        end
    end
  else PyOk [].

Fixpoint pragma_errors (l : list (string * nat)) : py_result (list error) :=
  match l with
  | [] => PyOk []
  | (p, line) :: l' => pylet es := check_pragma_arg p line in pylet es' := pragma_errors l' in PyOk (es ++ es')
  end.

(** [min(d.values())] and [max(d.values())], or 0 for an empty dict *)
Definition min_values (d : gmap string nat) : nat :=
  match map snd (map_to_list d) with [] => 0 | v :: vs => foldr Nat.min v vs end.
Definition max_values (d : gmap string nat) : nat :=
  match map snd (map_to_list d) with [] => 0 | v :: vs => foldr Nat.max v vs end.

(** [self.__is_error_pragma]: pragma after the first include, or includes
    and no pragma *)
Definition pragma_order_error (first_include_line last_pragma_line : nat) : bool :=
  if negb (first_include_line =? 0) && negb (last_pragma_line =? 0)
  then first_include_line <? last_pragma_line
  else negb (first_include_line =? 0) && (last_pragma_line =? 0).

(** The value of [self.__is_error_pragma] and the errors appended *)
Definition check_pragmas (fs : N) (content : chars) : py_result (bool * list error) :=
  if oversize fs then PyOk (false, [])
  else
    let st := scan content in
    let flag := pragma_order_error (min_values (include_dict st)) (max_values (pragma_dict st)) in
    pylet es := pragma_errors (map_to_list (pragma_dict st)) in PyOk (flag, es).

(** ** The scan and the dicts it leaves *)

Lemma scan_classify content : scan content = classify (scan_tokens content).
Proof. unfold scan, scan_tokens, get_tokens. by destruct (tokenize content) as [[ts st]|]. Qed.

(** ** Lemmas on the pragma pass *)

Lemma check_pragma_arg_ok p line es e :
  check_pragma_arg p line = PyOk es ->
  e ∈ es <->
  (py_in "xflags" p = true /\ e = PragmaError p "Pragma xflags forbidden" line) \/
  (py_in "xflags" p = false /\ py_in "runLim" p = true /\ e = PragmaError p "Execution cycle not 0" line /\
   exists a n, nth_error (split_on "," p) 1 = Some a /\ py_int a = Some n /\ n <> 0%Z).
Proof.
  unfold check_pragma_arg.
  destruct (py_in "xflags" p), (py_in "runLim" p); intros Hok; simplify_eq;
    try (destruct (nth_error _ 1) as [a|] eqn:Ha; [destruct (py_int a) as [n|] eqn:Hn|]; simplify_eq);
    try (destruct (Z.eqb_spec n 0)); set_solver.
Qed.

Lemma check_pragma_arg_raise p line :
  py_in "xflags" p = false -> py_in "runLim" p = true ->
  (nth_error (split_on "," p) 1 = None \/ exists a, nth_error (split_on "," p) 1 = Some a /\ py_int a = None) ->
  exists e, check_pragma_arg p line = PyRaise e.
Proof.
  unfold check_pragma_arg. intros -> -> [-> | (a & -> & ->)]; eauto.
Qed.

Lemma pragma_errors_ok l es e :
  pragma_errors l = PyOk es ->
  e ∈ es <-> exists p line es_p, (p, line) ∈ l /\ check_pragma_arg p line = PyOk es_p /\ e ∈ es_p.
Proof.
  revert es; induction l as [|[p line] l IH]; intros es; simpl.
  - intros [= <-]. set_solver.
  - destruct (check_pragma_arg p line) as [es1|] eqn:H1; [|done]. simpl.
    destruct (pragma_errors l) as [es2|]; [|done]. intros [= <-].
    rewrite elem_of_app, (IH es2) by done. split.
    + intros [He|(p' & l' & es' & ? & ? & ?)]; [exists p, line, es1 | exists p', l', es']; set_solver.
    + intros (p' & l' & es' & Hin & Hc & He). apply elem_of_cons in Hin as [[= -> ->]|Hin].
      * left. congruence.
      * right. eauto 7.
Qed.

Lemma pragma_errors_raise l p line e :
  (p, line) ∈ l -> check_pragma_arg p line = PyRaise e -> exists e', pragma_errors l = PyRaise e'.
Proof.
  induction l as [|[p' l'] l IH]; [set_solver|]. intros Hin Hc. simpl.
  apply elem_of_cons in Hin as [[= -> ->]|Hin].
  - rewrite Hc. eauto.
  - destruct (check_pragma_arg p' l'); simpl; [|eauto].
    destruct (IH Hin Hc) as [e' ->]. eauto.
Qed.

(** [split(',')[1]] raises [IndexError] and [int()] raises [ValueError];
    nothing else in the pragma pass raises *)
Lemma check_pragma_arg_exc p line e :
  check_pragma_arg p line = PyRaise e -> e = IndexError \/ e = ValueError.
Proof.
  unfold check_pragma_arg. destruct (py_in "xflags" p); [done|]. destruct (py_in "runLim" p); [|done].
  destruct (nth_error _ 1) as [a|]; [|intros [= <-]; auto]. destruct (py_int a); [done|]. intros [= <-]; auto.
Qed.

Lemma pragma_errors_exc l e : pragma_errors l = PyRaise e -> e = IndexError \/ e = ValueError.
Proof.
  induction l as [|[p line] l IH]; simpl; [done|].
  destruct (check_pragma_arg p line) as [es1|e1] eqn:H1; simpl.
  - destruct (pragma_errors l) as [es2|e2]; simpl; [done|]. intros [= <-]. by apply IH.
  - intros [= <-]. by apply (check_pragma_arg_exc p line).
Qed.

Lemma pragma_dict_items content p line :
  (p, line) ∈ map_to_list (pragma_dict (scan content)) <-> pragma_dict (scan content) !! p = Some line.
Proof. apply elem_of_map_to_list. Qed.

(** ** Claims *)

(** C9: [__check_string_init] appends exactly one error when the file is
    not oversize and some string was initialised with [null], at the line
    of the LAST such initialisation, and none otherwise: [string_init_dict]
    is keyed by the initialising value, so all null initialisations share
    the key [null]. *)
Theorem check_string_init_spec fs content :
  check_string_init fs content =
  if oversize fs then []
  else option_list (Error "Bad string initialization" use_empty_msg <$>
         list.last (map snd (List.filter (fun kv => String.eqb kv.1 null_str)
                               (assignments string_init_sel tk_value (scan_tokens content))))).
Proof.
  unfold check_string_init. destruct (oversize fs); [done|].
  by rewrite omap_key_map_to_list, scan_classify, string_init_dict_spec, dict_of_lookup.
Qed.

(** two null initialisations on lines 1 and 2 give one error, at line 2. *)
Example check_string_init_two_nulls :
  check_string_init 40 (py_src "string x = null;
string y = null;")
  = [Error "Bad string initialization" use_empty_msg 2].
Proof. vm_compute. reflexivity. Qed.

(** C10: [__check_sys_calls] reports [FunctionError v "System Call" l]
    exactly when the file is not oversize and [l] is the line of the last
    [SYS_CALL] token, or [FUNCTION] token starting with [system], whose
    text is [v]. *)
Theorem check_sys_calls_spec fs content v k l :
  FunctionError v k l ∈ check_sys_calls fs content <->
  oversize fs = false /\ k = "System Call" /\
  list.last (map snd (List.filter (fun kv => String.eqb kv.1 v)
                        (assignments sys_call_sel tk_value (scan_tokens content)))) = Some l.
Proof.
  unfold check_sys_calls. destruct (oversize fs).
  { split; [set_solver|]. by intros (? & _). }
  rewrite scan_classify, sys_call_dict_spec, <- dict_of_lookup, list_elem_of_fmap. split.
  - intros ([v' l'] & [= -> -> ->] & Hin). apply elem_of_map_to_list in Hin. done.
  - intros (_ & -> & H). exists (v, l). split; [done|]. by apply elem_of_map_to_list.
Qed.

(** C19: when [__check_pragmas] returns, [__is_error_pragma] is the
    ordering test on the first include line and the last pragma line, and
    the errors it appends are exactly: [Pragma xflags forbidden] for each
    pragma containing [xflags], and [Execution cycle not 0] for each other
    pragma containing [runLim] whose argument is a non-zero integer.  An
    ordering problem or a missing pragma never produces an error object. *)
Theorem check_pragmas_ok fs content b es :
  check_pragmas fs content = PyOk (b, es) ->
  b = negb (oversize fs) &&
      pragma_order_error (min_values (include_dict (scan content))) (max_values (pragma_dict (scan content))) /\
  forall e, e ∈ es <->
    oversize fs = false /\
    exists p line, pragma_dict (scan content) !! p = Some line /\
      ((py_in "xflags" p = true /\ e = PragmaError p "Pragma xflags forbidden" line) \/
       (py_in "xflags" p = false /\ py_in "runLim" p = true /\ e = PragmaError p "Execution cycle not 0" line /\
        exists a n, nth_error (split_on "," p) 1 = Some a /\ py_int a = Some n /\ n <> 0%Z)).
Proof.
  unfold check_pragmas. destruct (oversize fs).
  { intros [= <- <-]. split; [done|]. set_solver. }
  simpl. destruct (pragma_errors _) as [es'|] eqn:Hp; [|done]. intros [= <- <-].
  split; [done|]. intros e. rewrite (pragma_errors_ok _ _ _ Hp). split.
  - intros (p & line & es_p & Hin & Hc & He). apply pragma_dict_items in Hin.
    split; [done|]. exists p, line. split; [done|]. by apply (check_pragma_arg_ok _ _ _ _ Hc).
  - intros (_ & p & line & Hl & Hcase). apply pragma_dict_items in Hl.
    destruct (check_pragma_arg p line) as [es_p|ex] eqn:Hc.
    + exists p, line, es_p. split; [done|]. split; [done|]. by apply (check_pragma_arg_ok _ _ _ _ Hc).
    + destruct (pragma_errors_raise _ _ _ _ Hl Hc) as [? Hr]. congruence.
Qed.

(** C20: a [runLim] pragma (without [xflags]) that has no argument after a
    comma, or whose argument is not an integer, makes [__check_pragmas]
    raise instead of reporting an error: the exception is the
    [IndexError] of [split(',')[1]] or the [ValueError] of [int()] (of
    this pragma or of one before it in the iteration of the dict). *)
Theorem check_pragmas_raises fs content p line :
  oversize fs = false -> pragma_dict (scan content) !! p = Some line ->
  py_in "xflags" p = false -> py_in "runLim" p = true ->
  (nth_error (split_on "," p) 1 = None \/ exists a, nth_error (split_on "," p) 1 = Some a /\ py_int a = None) ->
  exists e, check_pragmas fs content = PyRaise e /\ (e = IndexError \/ e = ValueError).
Proof.
  intros Hfs Hl Hx Hr Harg. destruct (check_pragma_arg_raise p line Hx Hr Harg) as [e He].
  apply pragma_dict_items in Hl. destruct (pragma_errors_raise _ _ _ _ Hl He) as [e' He'].
  unfold check_pragmas. rewrite Hfs. simpl. rewrite He'. exists e'. split; [done|]. exact (pragma_errors_exc _ e' He').
Qed.

Lemma check_pragmas_raises_witness :
  exists e, check_pragmas 20 (py_src "pragma runLim") = PyRaise e /\ (e = IndexError \/ e = ValueError).
Proof.
  apply (check_pragmas_raises 20 (py_src "pragma runLim") "pragma runLim" 1);
    [reflexivity | vm_compute; reflexivity | reflexivity | reflexivity | left; reflexivity].
Defined.

(** a file with an [#include] and no pragma sets [__is_error_pragma]
    but gets no error object ("Not defined" is never reported). *)
Example check_pragmas_missing_pragma :
  check_pragmas 30 (py_src "#include <a.inc>
int x") = PyOk (true, []).
Proof. vm_compute. reflexivity. Qed.

Lemma check_pragmas_ok_witness :
  exists b es, check_pragmas 30 (py_src "pragma runLim, 5
pragma xflags, 1") = PyOk (b, es) /\
  (b = negb (oversize 30) &&
       pragma_order_error (min_values (include_dict (scan (py_src "pragma runLim, 5
pragma xflags, 1"))))
                          (max_values (pragma_dict (scan (py_src "pragma runLim, 5
pragma xflags, 1")))) /\
   forall e, e ∈ es <->
     oversize 30 = false /\
     exists p line, pragma_dict (scan (py_src "pragma runLim, 5
pragma xflags, 1")) !! p = Some line /\
       ((py_in "xflags" p = true /\ e = PragmaError p "Pragma xflags forbidden" line) \/
        (py_in "xflags" p = false /\ py_in "runLim" p = true /\ e = PragmaError p "Execution cycle not 0" line /\
         exists a n, nth_error (split_on "," p) 1 = Some a /\ py_int a = Some n /\ n <> 0%Z))).
Proof.
  do 2 eexists. split; [vm_compute; reflexivity|].
  apply check_pragmas_ok. vm_compute. reflexivity.
Defined.

(** the [^system] alternatives of [t_SYS_CALL] are anchored at the
    start of the whole file, not of a line: [system "rm -rf";] is reported
    on the first line of a file and missed on its second line. *)
Example sys_call_first_line_only :
  check_sys_calls 20 (py_src "system `rm -rf`;") =
    [FunctionError (string_of_list_ascii (py_src "system `rm -rf`")) "System Call" 1] /\
  check_sys_calls 20 (py_src "x;
system `rm -rf`;") = [].
Proof. split; vm_compute; reflexivity. Qed.

End Checks.
