(* ===== verification/FuncTable.v ===== *)
(** * FuncTable: function declarations and calls

    [Lexer.get_func_declarations] of [src/dxl_lexer.py] finds the names
    of declared functions with a whole-text regular expression
    ([func_re.finditer]) and then walks the tokens, recording for each
    token whose text is one of those names the line of the token.
    [StartDoors] of [src/dxl-analyzer/dxl_scan.py] keeps, across all the
    files of a run, the files declaring each name
    ([__defined_functions_dict], filled by [__get_defined_functions]) and
    the called names ([__called_functions], filled by
    [__get_called_functions] from [func_called]); the reports list the
    names declared but never called ([__get_not_called_functions]) and
    the names declared in more than one file ([__write_list_functions]
    with [report=True]). *)

From S2P Require Import Prelude PyRegex DxlLexer Classifier Checks.
Import PyRegex DxlLexer Classifier Checks.

Module FuncTable.

(** ** [Lexer.get_func_declarations] *)

(** The pattern, compiled without flags *)
Definition func_re_src : string :=
  "(bool|char|int|string|real|void|Object|Module)[ \t]{1,}(?P<func_name>[\w]*)([ \t]|)\(.*\)(\s|){0,}\{([^\}]*|)\}".

Definition func_re : re :=
  match compile false (py_src func_re_src) with Some r => r | None => REmpty end.

(** [match.group('func_name')], the second group of the pattern *)
Definition func_name_of (data : chars) (m : nat * nat * captures) : option string :=
  option_map (fun sp => string_of_list_ascii (slice data sp.1 sp.2)) (group_span m.2 2).

(** [func_names = [match.group('func_name') for match in func_re.finditer(data)]] *)
Definition func_names (data : chars) : list (option string) :=
  map (func_name_of data) (finditer func_re data).

(** [keywords] of [get_func_declarations] (it has [SKIP], unlike the one of
    [get_tokens]) *)
Definition fd_keyword (ty : tok_type) : bool :=
  match ty with BOOL | CHAR | INT | STRING | REAL | VOID | OBJECT | MODULE | SKIP => true | _ => false end.

Record fd_state := FdState { fd_dict : gmap string (list nat); fd_prev_keyword : bool }.

(** The token text after [tok.value = tok.value.split("(")[0]] for a
    [FUNCTION] token after a keyword *)
Definition fd_value (prev_keyword : bool) (t : token) : string :=
  if bool_decide (tk_type t = FUNCTION) && prev_keyword then before_paren (tk_value t) else tk_value t.

(** The body of the [while True] loop *)
Definition fd_step (names : list (option string)) (s : fd_state) (t : token) : fd_state :=
  let v := fd_value (fd_prev_keyword s) t in
  let d := if bool_decide (Some v ∈ names) then
             match fd_dict s !! v with
             | Some ls => <[v := ls ++ [tk_line t]]> (fd_dict s)
             | None => <[v := [tk_line t]]> (fd_dict s)
             end
           else fd_dict s in
  FdState d (fd_keyword (tk_type t)).

(** [get_func_declarations(data)] after the caller's [lineno = 1] *)
Definition get_func_declarations (data : chars) : gmap string (list nat) :=
  fd_dict (foldl (fd_step (func_names data)) (FdState ∅ false) (scan_tokens data)).

(** [StartDoors.__get_func_declarations] *)
Definition get_func_declarations_file (fs : N) (content : chars) : gmap string (list nat) :=
  if oversize fs then ∅ else get_func_declarations content.

(** ** The function tables of [StartDoors] *)

Record fn_state := FnState {
  defined_functions : gmap string (list string);   (** [__defined_functions_dict] *)
  count_functions : nat;                           (** [__count_functions] *)
  called_functions : list string                   (** [__called_functions] *)
}.

(** [__new_vars] *)
Definition fn_init : fn_state := FnState ∅ 0 [].

(** One turn of [for function_def in self.__func_declarations_dict.keys()] *)
Definition defined_step (dxl_file : string) (s : fn_state) (function_def : string) : fn_state :=
  let files := match defined_functions s !! function_def with Some l => l | None => [] end in
  FnState (<[function_def := files ++ [dxl_file]]> (defined_functions s))
          (S (count_functions s)) (called_functions s).

(** [__get_defined_functions]: the file's declarations are those of
    [self.__func_declarations_dict], set just before *)
Definition get_defined_functions (dxl_file : string) (fdd : gmap string (list nat)) (s : fn_state) : fn_state :=
  if bool_decide (fdd = ∅) then s
  else foldl (defined_step dxl_file) s (map fst (map_to_list fdd)).

(** [__get_called_functions]: a scan of the file by the shared lexer,
    whose [lineno] is not reset ([lx] is the lexer the previous scan left;
    [lexer.input] only resets [lexpos]) *)
Definition scan_from (lx : lexer) (content : chars) : list token :=
  match tokenize_from lx content with
  | Some (ts, _) => ts
  | None => []
  end.

Definition get_called_functions (lx : lexer) (content : chars) (s : fn_state) : fn_state :=
  FnState (defined_functions s) (count_functions s)
          (called_functions s ++ func_called (classify (scan_from lx content))).

(** The names of [report_function_not_called.html]: declared, never called *)
Definition not_called_functions (s : fn_state) : list (string * list string) :=
  List.filter (fun kv => negb (bool_decide (kv.1 ∈ called_functions s))) (map_to_list (defined_functions s)).

(** The names of [report_function_global.html]: declared in more than one file *)
Definition redefined_functions (s : fn_state) : list (string * list string) :=
  List.filter (fun kv => 1 <? length kv.2) (map_to_list (defined_functions s)).

(** ** Declarative readings *)

Definition fd_prev (pr : option token) : bool :=
  match pr with Some p => fd_keyword (tk_type p) | None => false end.

(** The lines of the tokens whose (cut) text is [k] *)
Definition decl_lines (k : string) (ts : list token) : list nat :=
  map (fun pt => tk_line pt.2)
      (List.filter (fun pt => String.eqb (fd_value (fd_prev pt.1) pt.2) k) (with_prev ts)).

Definition non_empty {A} (l : list A) : option (list A) :=
  match l with [] => None | _ => Some l end.

(** ** Lemmas *)

Lemma fd_prev_keyword_foldl names ts :
  fd_prev_keyword (foldl (fd_step names) (FdState ∅ false) ts) = fd_prev (list.last ts).
Proof.
  induction ts as [|t ts _] using rev_ind; [done|].
  by rewrite foldl_app, last_snoc_token.
Qed.

Lemma fd_dict_foldl names ts k :
  fd_dict (foldl (fd_step names) (FdState ∅ false) ts) !! k =
  if bool_decide (Some k ∈ names) then non_empty (decl_lines k ts) else None.
Proof.
  destruct (decide (Some k ∈ names)) as [Hin|Hin];
    [rewrite bool_decide_true by done | rewrite bool_decide_false by done];
    induction ts as [|t ts IH] using rev_ind; try done;
    rewrite foldl_app; simpl; unfold fd_step at 1; set (s := foldl _ _ ts) in *.
  2:{ destruct (bool_decide (Some (fd_value _ t) ∈ names)) eqn:Hb; [|done].
      apply bool_decide_eq_true in Hb.
      destruct (decide (fd_value (fd_prev_keyword s) t = k)) as [<-|Hne]; [done|].
      destruct (fd_dict s !! fd_value (fd_prev_keyword s) t); by rewrite lookup_insert_ne. }
  unfold decl_lines. rewrite with_prev_snoc, List.filter_app, map_app.
  fold (decl_lines k ts). simpl. unfold s. rewrite <- fd_prev_keyword_foldl with (names := names). fold s.
  destruct (String.eqb_spec (fd_value (fd_prev_keyword s) t) k) as [<-|Hne]; simpl.
  - rewrite bool_decide_true by done.
    destruct (fd_dict s !! _) eqn:Hd; rewrite lookup_insert_eq; rewrite IH in Hd;
      destruct (decl_lines _ ts); simpl in *; simplify_eq; done.
  - rewrite app_nil_r. destruct (bool_decide _); [|done].
    destruct (fd_dict s !! fd_value (fd_prev_keyword s) t); by rewrite lookup_insert_ne.
Qed.

(** Folding [defined_step] over distinct names *)
Lemma defined_steps f ks s k :
  NoDup ks ->
  defined_functions (foldl (defined_step f) s ks) !! k =
    (if bool_decide (k ∈ ks)
     then Some (match defined_functions s !! k with Some l => l | None => [] end ++ [f])
     else defined_functions s !! k) /\
  count_functions (foldl (defined_step f) s ks) = count_functions s + length ks /\
  called_functions (foldl (defined_step f) s ks) = called_functions s.
Proof.
  revert s. induction ks as [|k' ks IH]; intros s Hnd.
  { rewrite bool_decide_false by set_solver. simpl. split; [done|split; [lia|done]]. }
  apply NoDup_cons in Hnd as [Hk' Hnd]. simpl. destruct (IH (defined_step f s k') Hnd) as (-> & -> & ->).
  simpl. split; [|split; [lia|done]].
  destruct (decide (k = k')) as [->|Hne].
  - rewrite bool_decide_false, bool_decide_true by set_solver. by rewrite lookup_insert_eq.
  - rewrite lookup_insert_ne by done.
    destruct (decide (k ∈ ks)); [rewrite !bool_decide_true by set_solver | rewrite !bool_decide_false by set_solver]; done.
Qed.

Lemma elem_of_keys {V} (d : gmap string V) k : k ∈ map fst (map_to_list d) <-> is_Some (d !! k).
Proof.
  rewrite list_elem_of_fmap. split.
  - intros ([k' v] & -> & Hin). apply elem_of_map_to_list in Hin. by exists v.
  - intros [v Hv]. exists (k, v). split; [done|]. by apply elem_of_map_to_list.
Qed.

Lemma last_map_token (f : token -> token) ts : list.last (map f ts) = option_map f (list.last ts).
Proof. induction ts as [|t ts IH] using rev_ind; [done|]. rewrite map_app. simpl. by rewrite !last_snoc. Qed.

(** [func_called] reads token types and texts only, not lines. *)
Lemma func_called_shift d ts :
  func_called (classify (map (shift_token d) ts)) = func_called (classify ts).
Proof.
  induction ts as [|t ts IH] using rev_ind; [done|].
  rewrite map_app. simpl. rewrite !classify_snoc. unfold gt_step. cbn -[bool_decide].
  destruct (classify_flags (map (shift_token d) ts)) as (_ & _ & _ & H1).
  destruct (classify_flags ts) as (_ & _ & _ & H2).
  rewrite IH, H1, H2, last_map_token. by destruct (list.last ts).
Qed.

(** ** Claims *)

(** [get_func_declarations] maps a name to the lines of ALL tokens
    whose text (cut at [(] after a type keyword) is that name, in order,
    when the name is one the declaration pattern found, and is undefined
    otherwise: the lines are not those of the declarations but of every
    use of the bare name. *)
Theorem get_func_declarations_spec data k :
  get_func_declarations data !! k =
  if bool_decide (Some k ∈ func_names data) then non_empty (decl_lines k (scan_tokens data)) else None.
Proof. apply fd_dict_foldl. Qed.

(** [__get_defined_functions] appends the file to the list of every
    name the file declares, once per name, leaves the other names alone,
    counts one per name and does not touch the called functions. *)
Theorem get_defined_functions_spec f fdd s k :
  defined_functions (get_defined_functions f fdd s) !! k =
    (if bool_decide (is_Some (fdd !! k))
     then Some (match defined_functions s !! k with Some l => l | None => [] end ++ [f])
     else defined_functions s !! k) /\
  count_functions (get_defined_functions f fdd s) = count_functions s + size fdd /\
  called_functions (get_defined_functions f fdd s) = called_functions s.
Proof.
  unfold get_defined_functions. case_bool_decide as He.
  - subst. rewrite lookup_empty, bool_decide_false by (intros [? ?]; done).
    rewrite map_size_empty. split; [done|split; [lia|done]].
  - destruct (defined_steps f (map fst (map_to_list fdd)) s k) as (-> & -> & ->);
      [apply NoDup_fst_map_to_list|].
    rewrite length_map, length_map_to_list, (bool_decide_ext _ _ (elem_of_keys fdd k)). done.
Qed.

(** a name declared in two files (and in none before) is listed by the
    report of functions defined more than once, with both files in scan
    order. *)
Theorem redefined_two_files f1 f2 fd1 fd2 s name :
  defined_functions s !! name = None -> is_Some (fd1 !! name) -> is_Some (fd2 !! name) ->
  (name, [f1; f2]) ∈ redefined_functions (get_defined_functions f2 fd2 (get_defined_functions f1 fd1 s)).
Proof.
  intros H0 H1 H2. unfold redefined_functions.
  apply list_elem_of_In, filter_In. rewrite <- list_elem_of_In, elem_of_map_to_list. split; [|done].
  destruct (get_defined_functions_spec f2 fd2 (get_defined_functions f1 fd1 s) name) as (-> & _).
  destruct (get_defined_functions_spec f1 fd1 s name) as (-> & _).
  by rewrite !bool_decide_true, H0.
Qed.

Lemma redefined_two_files_witness :
  ("foo", ["a.dxl"; "b.dxl"]) ∈
    redefined_functions (get_defined_functions "b.dxl" {[ "foo" := [3] ]}
                           (get_defined_functions "a.dxl" {[ "foo" := [1] ]} fn_init)).
Proof.
  apply redefined_two_files; [reflexivity | rewrite lookup_singleton_eq; eauto | rewrite lookup_singleton_eq; eauto].
Defined.

(** [__get_called_functions] scans with the shared lexer without
    resetting [lineno]; the names it adds do not depend on the line the
    previous scan left. *)
Theorem get_called_functions_lineno lx content s :
  1 <= lineno lx ->
  get_called_functions lx content s = get_called_functions (Lexer (lexpos lx) 1 (last_newline_lexpos lx)) content s.
Proof.
  destruct lx as [p L n]. simpl. intros HL. unfold get_called_functions, scan_from, tokenize_from.
  cbn [lineno last_newline_lexpos]. replace L with (1 + (L - 1)) by lia.
  change (Lexer 0 (1 + (L - 1)) n) with (shift_lexer (L - 1) (Lexer 0 1 n)).
  rewrite lex_loop_shift. destruct (lex_loop _ content (Lexer 0 1 n)) as [[ts st]|]; [|done].
  simpl. by rewrite func_called_shift.
Qed.

Lemma get_called_functions_lineno_witness :
  1 <= lineno (Lexer 7 3 2) /\
  get_called_functions (Lexer 7 3 2) (py_src "f(x);") fn_init =
  get_called_functions (Lexer 7 1 2) (py_src "f(x);") fn_init.
Proof. split; [simpl; lia | apply (get_called_functions_lineno (Lexer 7 3 2)); simpl; lia]. Defined.

(** a function whose body holds a nested block is still found by the
    declaration pattern ([[^\}]*] stops at the first closing brace). *)
Example func_names_nested_body :
  func_names (py_src "int f(int x) {
 if (x) { y; }
}") = [Some "f"].
Proof. vm_compute. reflexivity. Qed.

(** a bare use of a declared name counts as one more declaration
    line: [int f() {}] then [x = f;] gives [f] the lines 1 and 2. *)
Example func_decl_reference_line :
  get_func_declarations (py_src "int f() {}
x = f;") !! "f" = Some [1; 2].
Proof. vm_compute. reflexivity. Qed.

End FuncTable.
