(* ===== verification/LexerInit.v ===== *)
(** * LexerInit: [Lexer.init] of [src/dxl_lexer.py]

    [init(data)] tokenizes a whole file with the fresh lexer [__check_files]
    builds for it and groups the tokens by line in [tok_dict] as [Token]
    objects (value, type, line, column), which [__dxl2html] renders.  The
    value of a comment is HTML-escaped, a [FUNCTION] token starting with
    [system] is retyped [SYS_CALL], and the column is
    [tok.lexpos - self.__last_newline_lexpos], the offset from the end of
    the last newline run that [t_newline] consumed.

    Proved: columns are never negative, and [tok_dict] holds, for each
    line, exactly the tokens reported on that line, in order; a token
    after a multi-line comment gets its column from the newline before the
    comment. *)

From S2P Require Import Prelude PyRegex DxlLexer Classifier Checks.
Import PyRegex DxlLexer Classifier Checks.

Module LexerInit.

(** [s.replace(c, new)] for a one-character [c] *)
Fixpoint replace_char (c : ascii) (new s : string) : string :=
  match s with
  | EmptyString => EmptyString
  | String x s' => if Ascii.eqb x c then new ++ replace_char c new s' else String x (replace_char c new s')
  end.

(** [s * n] *)
Fixpoint repeat_str (n : nat) (s : string) : string :=
  match n with O => EmptyString | S n' => s ++ repeat_str n' s end.

Definition tab : ascii := ascii_of_nat 9.

(** The [if]/[elif] on the token type: comments are escaped for HTML.  The
    third branch, for [NESTEDCODE], is dead: no rule has that type. *)
Definition html_value (ty : tok_type) (v : string) : string :=
  match ty with
  | CPP_COMMENT =>
      if String.prefix "//#include" v || String.prefix "// #include" v
      then replace_char ">" "&gt" (replace_char "<" "&lt" v) else v
  | C_COMMENT =>
      replace_char " " "&nbsp;" (replace_char tab (repeat_str 8 "&nbsp;")
                                  (replace_char nl ("<br>" ++ String nl EmptyString) v))
  | _ => v
  end.

(** [some SYS_CALL tokens are mistaken for FUNCTION ones] *)
Definition html_type (ty : tok_type) (v : string) : tok_type :=
  if bool_decide (ty = FUNCTION) && starts_with_system v then SYS_CALL else ty.

(** [Lexer.Token(value, type, line, column)]; Python's [int] column *)
Record col_token := CTok { ct_value : string; ct_type : tok_type; ct_line : nat; ct_column : Z }.

Definition init_token (t : token) : col_token :=
  let v := html_value (tk_type t) (tk_value t) in
  CTok v (html_type (tk_type t) v) (tk_line t) (Z.of_nat (tk_lexpos t) - Z.of_nat (tk_nl t)).

(** One turn of the [while True] loop: append to [tok_dict[tok.lineno]] *)
Definition init_step (d : gmap nat (list col_token)) (t : token) : gmap nat (list col_token) :=
  let l := tk_line t in
  <[l := match d !! l with Some ts => ts | None => [] end ++ [init_token t]]> d.

(** [init(data)] on the fresh lexer of [__check_files]: [tok_dict] *)
Definition init (data : chars) : gmap nat (list col_token) :=
  foldl init_step ∅ (scan_tokens data).

(** The tokens of a line, in order *)
Definition line_tokens (l : nat) (ts : list token) : list col_token :=
  map init_token (List.filter (fun t => Nat.eqb (tk_line t) l) ts).

Definition non_empty_cols (l : list col_token) : option (list col_token) :=
  match l with [] => None | _ => Some l end.

(** ** Lemmas *)

(** [__last_newline_lexpos] never passes [lexpos], and a token carries the
    value it had when the token was read. *)
Lemma lex_step_nl data st ot st' :
  lexpos st < length data -> lex_step data st = (ot, st') ->
  last_newline_lexpos st <= lexpos st ->
  last_newline_lexpos st' <= lexpos st' /\ (forall t, ot = Some t -> tk_nl t = last_newline_lexpos st).
Proof.
  intros Hi Hs Hle. pose proof (lex_step_pos _ _ _ _ Hi Hs) as Hp. revert Hs. unfold lex_step.
  destruct (nth_error data (lexpos st)); [|intros [= <- <-]; lia].
  destruct (lex_ignore _); [intros [= <- <-]; cbn in *; split; [lia | discriminate]|].
  destruct (master_match data (lexpos st)) as [[rl e]|]; [|intros [= <- <-]; cbn in *; split; [lia | discriminate]].
  destruct (r_act rl); intros [= <- <-]; cbn [lexpos last_newline_lexpos] in *;
    (split; [lia | intros ? [= <-]; reflexivity]) || (split; [lia | discriminate]).
Qed.

Lemma lex_steps_nl data st ts st' :
  lex_steps data st ts st' -> last_newline_lexpos st <= lexpos st ->
  Forall (fun t => tk_nl t <= tk_lexpos t) ts.
Proof.
  induction 1 as [st Hend | st ot st1 ts st2 Hi Hstep Hsteps IH]; intros Hle; [constructor|].
  destruct (lex_step_nl _ _ _ _ Hi Hstep Hle) as [Hle1 Ht].
  apply Forall_app. split; [|by apply IH].
  destruct ot as [t|]; [|constructor]. apply lex_step_token in Hstep as [_ Hp].
  constructor; [|constructor]. rewrite (Ht t eq_refl), Hp. done.
Qed.

Lemma scan_tokens_nl data : Forall (fun t => tk_nl t <= tk_lexpos t) (scan_tokens data).
Proof.
  unfold scan_tokens. destruct (tokenize data) as [[ts st]|] eqn:H; [|constructor].
  apply lex_loop_steps in H. eapply lex_steps_nl; [exact H|]. simpl. lia.
Qed.

Lemma init_foldl ts l :
  foldl init_step ∅ ts !! l = non_empty_cols (line_tokens l ts).
Proof.
  induction ts as [|t ts IH] using rev_ind; [done|].
  rewrite foldl_app. unfold line_tokens. rewrite List.filter_app, map_app. fold (line_tokens l ts).
  simpl. set (d := foldl init_step ∅ ts) in *. unfold init_step.
  destruct (Nat.eqb_spec (tk_line t) l) as [<-|Hne]; simpl.
  - rewrite lookup_insert_eq, IH. by destruct (line_tokens _ ts).
  - rewrite lookup_insert_ne, IH by done. by rewrite app_nil_r.
Qed.

(** ** Claims *)

(** [tok_dict] maps each line to the [Token]s of exactly the tokens
    reported on that line, in stream order, and has no entry for a line
    without tokens. *)
Theorem init_spec data l :
  init data !! l = non_empty_cols (line_tokens l (scan_tokens data)).
Proof. apply init_foldl. Qed.

(** every column [tok.lexpos - self.__last_newline_lexpos] that
    [init] computes is non-negative. *)
Theorem init_columns_nonneg data l cts ct :
  init data !! l = Some cts -> ct ∈ cts -> (0 <= ct_column ct)%Z.
Proof.
  unfold init. rewrite init_foldl. unfold line_tokens.
  destruct (map init_token _) as [|c cs] eqn:Hm; [discriminate|]. intros [= <-]. rewrite <- Hm.
  intros (t & -> & Ht)%list_elem_of_fmap.
  apply list_elem_of_In, filter_In in Ht as [Ht _]. apply list_elem_of_In in Ht.
  pose proof (scan_tokens_nl data) as Hnl. rewrite Forall_forall in Hnl.
  specialize (Hnl t Ht). simpl. lia.
Qed.

Lemma init_columns_nonneg_witness :
  exists cts, init (py_src "/* a
 */ x") !! 2 = Some cts /\
  Forall (fun ct => (0 <= ct_column ct)%Z) cts.
Proof.
  eexists. split; [vm_compute; reflexivity|]. apply Forall_forall. intros ct Hct.
  eapply (init_columns_nonneg (py_src "/* a
 */ x") 2); [|exact Hct]. vm_compute. reflexivity.
Defined.

(** [t_C_COMMENT] does not update [__last_newline_lexpos], so the
    [x] after a two-line comment gets column 9, its offset from the start
    of the comment's first line, instead of 4. *)
Example init_column_after_comment :
  option_map (map ct_column) (init (py_src "/* a
 */ x") !! 2) = Some [9%Z].
Proof. vm_compute. reflexivity. Qed.

End LexerInit.
