(* ===== verification/NtPath.v ===== *)
(** * NtPath: the [ntpath] functions the analyzer calls

    The analyzer runs on Windows, where [os.path] is Python 2.7's
    [ntpath].  [__get_valid_includes] joins the include roots with the
    included path ([os.path.join]), normalises the result
    ([os.path.normpath]), tests it ([os.path.isabs]) and reads its drive
    ([os.path.splitdrive]); [__check_duplicates] compares base names
    ([os.path.basename]).  This file writes those functions as Python
    2.7.18 defines them, on byte strings as [list ascii], so that the
    include resolver can be stated on the paths the code computes.  It is
    a model of a library, not a translation of the repository. *)

From S2P Require Import Prelude DxlLexer.
Import DxlLexer.

Module NtPath.

Definition bs : ascii := "\".
Definition sl : ascii := "/".

Definition is_sep (c : ascii) : bool := Ascii.eqb c bs || Ascii.eqb c sl.

(** [p.replace(altsep, sep)] *)
Definition to_bs (p : chars) : chars := map (fun c => if Ascii.eqb c sl then bs else c) p.

(** [s.find(c, i)] *)
Fixpoint find_from (c : ascii) (l : chars) (i : nat) : option nat :=
  match l with
  | [] => None
  | x :: l' =>
      match i with
      | S i' => option_map S (find_from c l' i')
      | O => if Ascii.eqb x c then Some 0 else option_map S (find_from c l' 0)
      end
  end.

Definition chars_eqb (a b : chars) : bool := bool_decide (a = b).

(** [splitdrive(p)]: a drive letter [X:] or a UNC prefix
    [\\machine\mountpoint] *)
Definition splitdrive (p : chars) : chars * chars :=
  if 1 <? length p then
    let normp := to_bs p in
    if chars_eqb (take 2 normp) [bs; bs] && negb (chars_eqb (take 1 (drop 2 normp)) [bs]) then
      match find_from bs normp 2 with
      | None => ([], p)
      | Some index =>
          let index2 := find_from bs normp (S index) in
          if bool_decide (index2 = Some (S index)) then ([], p)
          else let i2 := match index2 with Some j => j | None => length p end in
               (take i2 p, drop i2 p)
      end
    else if chars_eqb (take 1 (drop 1 normp)) [":"%char] then (take 2 p, drop 2 p)
    else ([], p)
  else ([], p).

(** [isabs(s)] *)
Definition isabs (s : chars) : bool :=
  match (splitdrive s).2 with
  | c :: _ => is_sep c
  | [] => false
  end.

Definition lower (s : chars) : chars := map ascii_lower s.

Definition last_char (l : chars) : option ascii := list.last l.

(** [if result_path and result_path[-1] not in '\\/': result_path += '\\'] *)
Definition add_sep (rp : chars) : chars :=
  match last_char rp with
  | Some c => if is_sep c then rp else rp ++ [bs]
  | None => rp
  end.

(** The branches of [join] for a component that is not absolute *)
Definition join_rel (result_drive result_path p_drive p_path : chars) : chars * chars :=
  if negb (chars_eqb p_drive []) && negb (chars_eqb p_drive result_drive) then
    if negb (chars_eqb (lower p_drive) (lower result_drive)) then (p_drive, p_path)
    else (p_drive, add_sep result_path ++ p_path)
  else (result_drive, add_sep result_path ++ p_path).

(** [join(path, p)] with one component, as [__get_valid_includes] calls it *)
Definition join (path p : chars) : chars :=
  let '(result_drive, result_path) := splitdrive path in
  let '(p_drive, p_path) := splitdrive p in
  let '(rd, rp) :=
    if match p_path with c :: _ => is_sep c | [] => false end
    then ((if negb (chars_eqb p_drive []) || chars_eqb result_drive [] then p_drive else result_drive), p_path)
    else join_rel result_drive result_path p_drive p_path in
  match rp with
  | c :: _ =>
      if negb (is_sep c) && negb (chars_eqb rd []) && negb (bool_decide (last_char rd = Some ":"%char))
      then rd ++ [bs] ++ rp else rd ++ rp
  | [] => rd ++ rp
  end.

(** [s.split(c)] *)
Fixpoint split_sep (c : ascii) (l : chars) : list chars :=
  match l with
  | [] => [[]]
  | x :: l' =>
      if Ascii.eqb x c then [] :: split_sep c l'
      else match split_sep c l' with
           | w :: ws => (x :: w) :: ws
           | [] => [[x]]
           end
  end.

(** [c.join(ws)] *)
Fixpoint join_sep (c : ascii) (ws : list chars) : chars :=
  match ws with
  | [] => []
  | [w] => w
  | w :: ws' => w ++ c :: join_sep c ws'
  end.

Definition is_dot_or_empty (c : chars) : bool := chars_eqb c ["."%char] || chars_eqb c [].
Definition is_dotdot (c : chars) : bool := chars_eqb c ["."%char; "."%char].

(** The [while i < len(comps)] loop of [normpath]; it runs at most
    [2 * len(comps)] times ([normpath_loop_some]). *)
Fixpoint norm_loop (fuel : nat) (prefix_bs : bool) (comps : list chars) (i : nat) : option (list chars) :=
  match fuel with
  | O => None
  | S f =>
      match nth_error comps i with
      | None => Some comps
      | Some c =>
          if is_dot_or_empty c then norm_loop f prefix_bs (take i comps ++ drop (S i) comps) i
          else if is_dotdot c then
            if (0 <? i) && negb (match nth_error comps (i - 1) with Some p => is_dotdot p | None => false end)
            then norm_loop f prefix_bs (take (i - 1) comps ++ drop (S i) comps) (i - 1)
            else if (i =? 0) && prefix_bs then norm_loop f prefix_bs (take i comps ++ drop (S i) comps) i
            else norm_loop f prefix_bs comps (S i)
          else norm_loop f prefix_bs comps (S i)
      end
  end.

Fixpoint lstrip (c : ascii) (l : chars) : chars :=
  match l with x :: l' => if Ascii.eqb x c then lstrip c l' else l | [] => [] end.

(** [normpath(path)] *)
Definition normpath (path0 : chars) : chars :=
  if chars_eqb (take 4 path0) [bs; bs; "."%char; bs] || chars_eqb (take 4 path0) [bs; bs; "?"%char; bs]
  then path0
  else
    let path1 := to_bs path0 in
    let '(prefix0, path2) := splitdrive path1 in
    let '(prefix, path) :=
      if chars_eqb prefix0 [] then
        (* [while path[:1] == "\\"] moves the leading backslashes *)
        (take (length path2 - length (lstrip bs path2)) path2, lstrip bs path2)
      else match path2 with
           | c :: _ => if Ascii.eqb c bs then (prefix0 ++ [bs], lstrip bs path2) else (prefix0, path2)
           | [] => (prefix0, path2)
           end in
    let comps0 := split_sep bs path in
    let comps1 := match norm_loop (S (2 * length comps0)) (bool_decide (last_char prefix = Some bs)) comps0 0 with
                  | Some cs => cs
                  | None => comps0
                  end in
    let comps := match comps1 with [] => if chars_eqb prefix [] then [["."%char]] else [] | _ => comps1 end in
    prefix ++ join_sep bs comps.

(** [basename(p)]: what follows the last separator after the drive *)
Definition basename (p : chars) : chars :=
  fold_left (fun tail c => if is_sep c then [] else tail ++ [c]) (splitdrive p).2 [].

(** [while i and p[i-1] not in '/\\']] and the like *)
Fixpoint take_while (f : ascii -> bool) (l : chars) : chars :=
  match l with [] => [] | c :: l' => if f c then c :: take_while f l' else [] end.
Fixpoint drop_while (f : ascii -> bool) (l : chars) : chars :=
  match l with [] => [] | c :: l' => if f c then drop_while f l' else l end.

(** [split(p)]: the head up to the last separator, trailing separators
    removed unless it is all separators, and the tail *)
Definition split (p : chars) : chars * chars :=
  let d := (splitdrive p).1 in
  let p' := (splitdrive p).2 in
  let tail := rev (take_while (fun c => negb (is_sep c)) (rev p')) in
  let head := take (length p' - length tail) p' in
  let head2 := rev (drop_while is_sep (rev head)) in
  (d ++ match head2 with [] => head | _ => head2 end, tail).

(** [dirname(p)] *)
Definition dirname (p : chars) : chars := (split p).1.

(** [p.rfind(c)], [-1] when [c] does not occur *)
Definition rfind (c : ascii) (p : chars) : Z :=
  fold_left (fun acc ic => if Ascii.eqb ic.2 c then Z.of_nat ic.1 else acc) (zip (seq 0 (length p)) p) (-1)%Z.

(** [splitext(p)] ([genericpath._splitext] with [sep='\\'],
    [altsep='/'], [extsep='.']): the extension starts at the last dot
    after the last separator, unless only dots precede it in the base
    name *)
Definition splitext (p : chars) : chars * chars :=
  let sepIndex := Z.max (rfind bs p) (rfind sl p) in
  let dotIndex := rfind "."%char p in
  if (sepIndex <? dotIndex)%Z
     && existsb (fun c => negb (Ascii.eqb c "."%char))
                (firstn (Z.to_nat dotIndex - Z.to_nat (sepIndex + 1)) (skipn (Z.to_nat (sepIndex + 1)) p))
  then (take (Z.to_nat dotIndex) p, drop (Z.to_nat dotIndex) p)
  else (p, []).

(** ** Lemmas *)

(** The loop of [normpath] ends on a fuel above twice the number of
    components minus the index: each pass removes one or two components or
    advances the index. *)
Lemma normpath_loop_total fuel b comps i :
  i <= length comps -> 2 * length comps - i < fuel -> exists r, norm_loop fuel b comps i = Some r.
Proof.
  revert comps i. induction fuel as [|f IH]; intros comps i Hi Hf; [lia|]. simpl.
  destruct (nth_error comps i) as [c|] eqn:E; [|eauto].
  assert (i < length comps) by (apply nth_error_Some; congruence).
  repeat case_match; apply IH; rewrite ?length_app, ?length_take, ?length_drop; lia.
Qed.

Lemma normpath_loop_some b comps : exists r, norm_loop (S (2 * length comps)) b comps 0 = Some r.
Proof. apply normpath_loop_total; lia. Qed.

End NtPath.
