(* ===== verification/IncludeResolver.v ===== *)
(** * IncludeResolver: [StartDoors.__get_valid_includes]

    For each path of [include_dict] (the file is re-scanned with
    [lineno = 1]), the code strips leading backslashes, and looks the path
    up: an absolute path must exist as it is; a relative one is joined to
    each root of [self.__addin_dirs + self.__project_dirs] in turn, and
    after each root that does not hold it, to the DOORS library directory
    [D:/AppX64/IBM/Rational/DOORS/9.6/lib/dxl].  A path found nowhere gets
    [Path not found or not valid] unless it starts with [utils],
    [%%Path%%] or [%%templatePath%%].  The found paths form a set; each of
    them is checked for a double backslash and for its drive: [K:] and
    [D:] are legal, [R:] is kept for the HTML links but illegal, any
    other drive is illegal.  Those last errors use the variable [line]
    left over from the first loop.

    The file system is a [Section] variable [path_exists] ([os.path.exists])
    and the roots another; dict and set iteration follow [map_to_list] and
    [elements], and the theorems do not depend on that order. *)

From S2P Require Import Prelude PyRegex DxlLexer Classifier Checks NtPath.
Import PyRegex DxlLexer Classifier Checks NtPath.

Module IncludeResolver.

Definition doors_includes_path : chars := list_ascii_of_string "D:/AppX64/IBM/Rational/DOORS/9.6/lib/dxl".

(** [if path.startswith("\\"): path = path.lstrip("\\")] *)
Definition strip_path (path : chars) : chars :=
  match path with
  | c :: _ => if Ascii.eqb c bs then lstrip bs path else path
  | [] => path
  end.

(** [path.startswith(("utils","%%Path%%","%%templatePath%%"))] *)
Definition doors_relative (path : chars) : bool :=
  let p := string_of_list_ascii path in
  String.prefix "utils" p || String.prefix "%%Path%%" p || String.prefix "%%templatePath%%" p.

Definition legal_drive (drive : chars) : bool :=
  chars_eqb drive (list_ascii_of_string "K:") || chars_eqb drive (list_ascii_of_string "D:").

Definition r_drive (drive : chars) : bool := chars_eqb drive (list_ascii_of_string "R:").

(** An [os.path.exists] that holds exactly for the paths of a list, as
    written *)
Definition listed_exists (fsys : list string) (p : chars) : bool :=
  existsb (String.eqb (string_of_list_ascii p)) fsys.

Section Resolver.

(** [os.path.exists] *)
Variable path_exists : chars -> bool.
(** [start_doors_ini_paths = self.__addin_dirs + self.__project_dirs] *)
Variable start_paths : list chars.

Definition root_candidate (path start_path : chars) : chars := normpath (join start_path path).
Definition lib_candidate (path : chars) : chars := normpath (join doors_includes_path path).

(** [for start_path in start_doors_ini_paths: ...]: a root, and after a
    root that fails, the library directory *)
Fixpoint search_roots (path : chars) (rs : list chars) : option chars :=
  match rs with
  | [] => None
  | start_path :: rs' =>
      let fp := root_candidate path start_path in
      if path_exists fp then Some fp
      else let c_path := lib_candidate path in
           if path_exists c_path then Some c_path else search_roots path rs'
  end.

(** Where the (stripped) path is found, if anywhere *)
Definition resolve (path : chars) : option chars :=
  if isabs path then (if path_exists path then Some path else None)
  else search_roots path start_paths.

Record vi_state := VI { vi_exists : gset string; vi_errors : list error; vi_line : option nat }.

(** One turn of [for path, line in include_dict.iteritems()] *)
Definition vi_step (log_error : bool) (s : vi_state) (kv : string * nat) : vi_state :=
  let path := strip_path (list_ascii_of_string kv.1) in
  match resolve path with
  | Some fp => VI ({[string_of_list_ascii fp]} ∪ vi_exists s) (vi_errors s) (Some kv.2)
  | None =>
      VI (vi_exists s)
         (vi_errors s ++ (if negb (doors_relative path) && log_error
                          then [IncludeError (string_of_list_ascii path) "Path not found or not valid" kv.2]
                          else []))
         (Some kv.2)
  end.

(** One turn of [for path in exists_path_list], with the leaked [line] *)
Definition illegal_step (log_error : bool) (line : nat) (acc : list string * list error) (path : string)
    : list string * list error :=
  let errs1 := acc.2 ++ (if py_in "\\" path && log_error then [IncludeError path "Double Backslash" line] else []) in
  let illegal := if log_error then [IncludeError path "Illegal path" line] else [] in
  let drive := (splitdrive (list_ascii_of_string path)).1 in
  if legal_drive drive then (acc.1 ++ [path], errs1)
  else if r_drive drive then (acc.1 ++ [path], errs1 ++ illegal)
  else (acc.1, errs1 ++ illegal).

(** [__get_valid_includes(dxl_file, dxl_content, log_error)]: the list it
    stores in [__valid_includes_dict[dxl_file]] and the errors it adds;
    [None] for an oversize file, where nothing is stored. *)
Definition get_valid_includes (fs : N) (content : chars) (log_error : bool) : option (list string * list error) :=
  if oversize fs then None
  else
    let s := foldl (vi_step log_error) (VI ∅ [] None) (map_to_list (include_dict (scan content))) in
    let line := match vi_line s with Some l => l | None => 0 end in
    let r := foldl (illegal_step log_error line) ([], []) (elements (vi_exists s)) in
    Some (r.1, vi_errors s ++ r.2).

(** ** Lemmas *)

Lemma search_roots_no_lib path rs :
  path_exists (lib_candidate path) = false ->
  search_roots path rs = option_map (root_candidate path) (List.find (fun r => path_exists (root_candidate path r)) rs).
Proof.
  intros Hlib. induction rs as [|r rs IH]; [done|]. simpl.
  destruct (path_exists (root_candidate path r)); [done|]. by rewrite Hlib.
Qed.

Definition drive_kept (p : string) : bool :=
  let d := (splitdrive (list_ascii_of_string p)).1 in legal_drive d || r_drive d.

Definition second_loop_error (line : nat) (e : error) : Prop :=
  exists p k, e = IncludeError p k line /\ (k = "Double Backslash" \/ k = "Illegal path").

Definition not_found_error (e : error) : Prop :=
  exists p l, e = IncludeError p "Path not found or not valid" l.

Lemma illegal_step_spec le line acc p :
  (illegal_step le line acc p).1 = acc.1 ++ (if drive_kept p then [p] else []) /\
  exists es, (illegal_step le line acc p).2 = acc.2 ++ es /\ Forall (second_loop_error line) es.
Proof.
  unfold illegal_step, drive_kept.
  set (e1 := if py_in _ _ && le then _ else _). set (e2 := if le then _ else _).
  assert (H1 : Forall (second_loop_error line) e1)
    by (subst e1; destruct (_ && le); repeat constructor; eexists _, _; eauto).
  assert (H2 : Forall (second_loop_error line) e2)
    by (subst e2; destruct le; repeat constructor; eexists _, _; eauto).
  destruct (legal_drive _), (r_drive _); simpl; (split; [by rewrite ?app_nil_r|]);
    [exists e1 | exists e1 | exists (e1 ++ e2) | exists (e1 ++ e2)];
    rewrite ?app_assoc; split; try done; by apply Forall_app.
Qed.

Lemma illegal_foldl le line acc ps :
  (foldl (illegal_step le line) acc ps).1 = acc.1 ++ List.filter drive_kept ps /\
  exists es, (foldl (illegal_step le line) acc ps).2 = acc.2 ++ es /\ Forall (second_loop_error line) es.
Proof.
  revert acc. induction ps as [|p ps IH]; intros acc; simpl.
  { rewrite !app_nil_r. split; [done|]. exists []. by rewrite app_nil_r. }
  destruct (IH (illegal_step le line acc p)) as [-> (es & -> & Hes)].
  destruct (illegal_step_spec le line acc p) as [-> (es1 & -> & Hes1)].
  split; [by destruct (drive_kept p); rewrite <- app_assoc|].
  exists (es1 ++ es). rewrite app_assoc. split; [done|]. by apply Forall_app.
Qed.

Lemma vi_step_spec le s kv :
  (forall p, p ∈ vi_exists (vi_step le s kv) <->
     p ∈ vi_exists s \/ exists fp, resolve (strip_path (list_ascii_of_string kv.1)) = Some fp /\ p = string_of_list_ascii fp) /\
  exists es, vi_errors (vi_step le s kv) = vi_errors s ++ es /\ Forall not_found_error es.
Proof.
  unfold vi_step. destruct (resolve _) as [fp|]; simpl.
  - split; [|exists []; by rewrite app_nil_r]. intros p. set_solver.
  - split; [naive_solver|]. eexists. split; [reflexivity|].
    destruct (_ && le); repeat constructor. eexists _, _. reflexivity.
Qed.

Lemma vi_foldl le kvs s :
  (forall p, p ∈ vi_exists (foldl (vi_step le) s kvs) <->
     p ∈ vi_exists s \/
     exists kv fp, kv ∈ kvs /\ resolve (strip_path (list_ascii_of_string kv.1)) = Some fp /\ p = string_of_list_ascii fp) /\
  exists es, vi_errors (foldl (vi_step le) s kvs) = vi_errors s ++ es /\ Forall not_found_error es.
Proof.
  revert s. induction kvs as [|kv kvs IH]; intros s; simpl.
  { split; [set_solver|]. exists []. by rewrite app_nil_r. }
  destruct (IH (vi_step le s kv)) as [Hm (es & -> & Hes)].
  destruct (vi_step_spec le s kv) as [Hm1 (es1 & -> & Hes1)]. split.
  - intros p. rewrite Hm, Hm1. setoid_rewrite elem_of_cons. naive_solver.
  - exists (es1 ++ es). rewrite app_assoc. split; [done|]. by apply Forall_app.
Qed.

(** ** Claims *)

(** a relative include is looked up under the first root, then in the
    DOORS library directory, and only then under the later roots, in
    order: the library directory shadows every root but the first, and is
    never tried when there is no root. *)
Theorem search_roots_spec path rs :
  search_roots path rs =
  match rs with
  | [] => None
  | r :: rs' =>
      if path_exists (root_candidate path r) then Some (root_candidate path r)
      else if path_exists (lib_candidate path) then Some (lib_candidate path)
      else option_map (root_candidate path) (List.find (fun r => path_exists (root_candidate path r)) rs')
  end.
Proof.
  destruct rs as [|r rs]; [done|]. simpl.
  destruct (path_exists (root_candidate path r)); [done|].
  destruct (path_exists (lib_candidate path)) eqn:Hlib; [done|]. by apply search_roots_no_lib.
Qed.

(** C39: the list stored in [__valid_includes_dict] holds exactly the
    paths at which an include of the file was found, once each, whose drive
    is [K:], [D:] or [R:]. *)
Theorem valid_includes_spec fs content le valid errs p :
  get_valid_includes fs content le = Some (valid, errs) ->
  p ∈ valid <->
  drive_kept p = true /\
  exists k l fp, include_dict (scan content) !! k = Some l /\
    resolve (strip_path (list_ascii_of_string k)) = Some fp /\ p = string_of_list_ascii fp.
Proof.
  unfold get_valid_includes. destruct (oversize fs); [done|].
  set (s := foldl (vi_step le) (VI ∅ [] None) (map_to_list (include_dict (scan content)))).
  intros [= <- _].
  destruct (illegal_foldl le (match vi_line s with Some l => l | None => 0 end) ([], []) (elements (vi_exists s))) as [-> _].
  simpl. rewrite list_elem_of_In, filter_In, <- list_elem_of_In, elem_of_elements.
  destruct (vi_foldl le (map_to_list (include_dict (scan content))) (VI ∅ [] None)) as [Hm _].
  fold s in Hm. rewrite Hm. simpl. split.
  - intros [[Hin|((k, l) & fp & Hkv & Hr & ->)] Hd]; [set_solver|].
    split; [done|]. apply elem_of_map_to_list in Hkv. eauto 6.
  - intros [Hd (k & l & fp & Hk & Hr & ->)]. split; [|done].
    right. exists (k, l), fp. split; [by apply elem_of_map_to_list|done].
Qed.

(** all the [Double Backslash] and [Illegal path] errors of one call
    carry the same line: the loop variable [line] left by the loop over
    [include_dict], not the line of their own include. *)
Theorem illegal_errors_share_line fs content le valid errs p1 k1 l1 p2 k2 l2 :
  get_valid_includes fs content le = Some (valid, errs) ->
  IncludeError p1 k1 l1 ∈ errs -> IncludeError p2 k2 l2 ∈ errs ->
  k1 <> "Path not found or not valid" -> k2 <> "Path not found or not valid" -> l1 = l2.
Proof.
  unfold get_valid_includes. destruct (oversize fs); [done|].
  set (s := foldl (vi_step le) (VI ∅ [] None) (map_to_list (include_dict (scan content)))).
  intros [= _ <-].
  set (line := match vi_line s with Some l => l | None => 0 end).
  destruct (illegal_foldl le line ([], []) (elements (vi_exists s))) as [_ (es2 & -> & Hes2)].
  destruct (vi_foldl le (map_to_list (include_dict (scan content))) (VI ∅ [] None)) as [_ (es1 & He & Hes1)].
  fold s in He. rewrite He. simpl. rewrite Forall_forall in Hes1, Hes2.
  assert (Hl : forall p k l, IncludeError p k l ∈ es1 ++ es2 -> k <> "Path not found or not valid" -> l = line).
  { intros p k l Hin Hk. apply elem_of_app in Hin as [Hin|Hin].
    - destruct (Hes1 _ Hin) as (? & ? & [= _ Hk' _]). congruence.
    - by destruct (Hes2 _ Hin) as (? & ? & [= <- <- <-] & _). }
  intros H1 H2 Hk1 Hk2. rewrite (Hl _ _ _ H1 Hk1), (Hl _ _ _ H2 Hk2). done.
Qed.

End Resolver.

(** ** Witnesses and examples on small file systems *)

Lemma valid_includes_spec_witness :
  let pe := listed_exists ["K:\b\x.inc"] in
  let rs := [list_ascii_of_string "K:/a"; list_ascii_of_string "K:/b"] in
  let content := py_src "#include <x.inc>" in
  exists valid errs, get_valid_includes pe rs 10 content true = Some (valid, errs) /\
  ("K:\b\x.inc" ∈ valid <->
   drive_kept "K:\b\x.inc" = true /\
   exists k l fp, include_dict (scan content) !! k = Some l /\
     resolve pe rs (strip_path (list_ascii_of_string k)) = Some fp /\ "K:\b\x.inc" = string_of_list_ascii fp).
Proof.
  intros pe rs content. do 2 eexists. split; [vm_compute; reflexivity|].
  eapply (valid_includes_spec pe rs 10 content true). vm_compute. reflexivity.
Defined.

Lemma illegal_errors_share_line_witness :
  let pe := listed_exists ["C:/y.inc"; "E:/z.inc"] in
  let content := py_src "#include <a.inc>
#include <C:/y.inc>
#include <E:/z.inc>" in
  exists valid errs, get_valid_includes pe [] 10 content true = Some (valid, errs) /\
  forall p1 k1 l1 p2 k2 l2,
    IncludeError p1 k1 l1 ∈ errs -> IncludeError p2 k2 l2 ∈ errs ->
    k1 <> "Path not found or not valid" -> k2 <> "Path not found or not valid" -> l1 = l2.
Proof.
  intros pe content. do 2 eexists. split; [vm_compute; reflexivity|].
  intros p1 k1 l1 p2 k2 l2. eapply (illegal_errors_share_line pe [] 10 content true). vm_compute. reflexivity.
Defined.

(** two includes on drives [C:] and [E:], on lines 2 and 3, both get
    their [Illegal path] error at line 1, the line of the include the dict
    loop visited last. *)
Example illegal_errors_leaked_line :
  get_valid_includes (listed_exists ["C:/y.inc"; "E:/z.inc"]) [] 10 (py_src "#include <a.inc>
#include <C:/y.inc>
#include <E:/z.inc>") true =
  Some ([], [IncludeError "a.inc" "Path not found or not valid" 1;
             IncludeError "C:/y.inc" "Illegal path" 1;
             IncludeError "E:/z.inc" "Illegal path" 1]).
Proof. vm_compute. reflexivity. Qed.

(** [x.inc] missing under the first root [K:/a] but present under the
    second root [K:/b] resolves to the library copy when there is one; and
    with no root at all, the library copy is never found. *)
Example lib_dir_shadows_second_root :
  option_map string_of_list_ascii
    (resolve (listed_exists ["K:\b\x.inc"; "D:\AppX64\IBM\Rational\DOORS\9.6\lib\dxl\x.inc"])
             [list_ascii_of_string "K:/a"; list_ascii_of_string "K:/b"] (list_ascii_of_string "x.inc"))
  = Some "D:\AppX64\IBM\Rational\DOORS\9.6\lib\dxl\x.inc" /\
  resolve (listed_exists ["D:\AppX64\IBM\Rational\DOORS\9.6\lib\dxl\x.inc"]) [] (list_ascii_of_string "x.inc") = None.
Proof. split; vm_compute; reflexivity. Qed.

(** [lstrip] removes every leading backslash, so an existing UNC
    include [\\srv\share\q.inc] becomes the relative [srv\share\q.inc] and
    is reported as not found. *)
Example unc_include_not_found :
  get_valid_includes (listed_exists ["\\srv\share\q.inc"]) [list_ascii_of_string "K:/a"] 10
    (py_src "#include `\\srv\share\q.inc`") true =
  Some ([], [IncludeError "srv\share\q.inc" "Path not found or not valid" 1]).
Proof. vm_compute. reflexivity. Qed.

End IncludeResolver.
