(* ===== verification/Duplicates.v ===== *)
(** * Duplicates: [__check_duplicates] and [__check_same_include_content]

    [__check_duplicates(dxl_file_checking, dxl_files_list)] counts the base
    names of all files of the run ([collections.Counter]) and, for the base
    name of the checked file when it occurs more than once, adds a
    [DuplicateFileError("Same filename", other)] for every other file with
    that base name.

    [__check_same_include_content()] groups the includes by the hash of
    their content and reports, for each include of a group, the other
    includes of the group.  It walks each group list with [for include in
    v_include_list] while removing [include] from that same list through
    the alias [other_includes_list = v_include_list]: Python's list
    iterator advances an index over the shrinking list, so it visits only
    every other element.  [iter_remove] models that iterator and the
    removal on the one shared list.

    The link list of the message ([str(include_links_list)], built with
    SHA-1 names of the HTML pages) is a parameter [links] of the others. *)

From S2P Require Import Prelude DxlLexer Checks NtPath.
Import Checks NtPath.

Module Duplicates.

(** [os.path.basename] on a [str] *)
Definition py_basename (p : string) : string :=
  string_of_list_ascii (NtPath.basename (list_ascii_of_string p)).

(** [collections.Counter(l)] *)
Definition counter (l : list string) : gmap string nat :=
  foldl (fun m k => <[k := S (match m !! k with Some n => n | None => 0 end)]> m) ∅ l.

(** [[k for k, v in Counter(l).items() if v > 1]] *)
Definition repeated (l : list string) : list string :=
  map fst (List.filter (fun kv => 1 <? kv.2) (map_to_list (counter l))).

(** The body of [for dup_file in dup_file_list] *)
Definition dup_errors (checking : string) (files : list string) (dup_file : string) : list error :=
  let dup_file_path_list := List.filter (fun f => String.eqb dup_file (py_basename f)) files in
  if bool_decide (checking ∈ dup_file_path_list)
  then map (DuplicateFileError "Same filename")
           (List.filter (fun dup_path => negb (String.eqb dup_path checking)) dup_file_path_list)
  else [].

(** [__check_duplicates(dxl_file_checking, dxl_files_list)]: the errors
    added to the report of the checked file *)
Definition check_duplicates (checking : string) (files : list string) : list error :=
  flat_map (dup_errors checking files) (repeated (map py_basename files)).

(** [list.remove(x)]: the first occurrence *)
Fixpoint remove_first (x : string) (l : list string) : list string :=
  match l with
  | [] => []
  | y :: l' => if String.eqb x y then l' else y :: remove_first x l'
  end.

(** [for include in v_include_list: other_includes_list = v_include_list;
    other_includes_list.remove(include); ...]: the index [i] of the list
    iterator over the shared list, which loses an element at each turn.
    Each turn yields the include and the list after the removal. *)
Fixpoint iter_remove (fuel : nat) (i : nat) (lst : list string) : list (string * list string) :=
  match fuel with
  | O => []
  | S f =>
      match nth_error lst i with
      | None => []
      | Some include =>
          let lst' := remove_first include lst in
          (include, lst') :: iter_remove f (S i) lst'
      end
  end.

(** [hash_duplicate_dict]: for every include whose hash is shared, the
    includes with that hash, in the order of [hash_content_dict.items()] *)
Definition hash_groups (hash_content : gmap string string) : gmap string (list string) :=
  let same := repeated (map snd (map_to_list hash_content)) in
  foldl (fun d kv =>
           foldl (fun d same_include_hash =>
                    if String.eqb kv.2 same_include_hash
                    then <[kv.2 := match d !! kv.2 with Some l => l | None => [] end ++ [kv.1]]> d
                    else d) d same)
        ∅ (map_to_list hash_content).

Section SameContent.

(** [str(include_links_list).strip("[]").replace("'","")] of the other
    includes *)
Variable links : list string -> string.

(** The errors of one group: (file, error) as [__add_error(include, ...)] *)
Definition group_errors (grp : list string) : list (string * error) :=
  map (fun io => (io.1, DuplicateFileError "Identical content" (links io.2)))
      (iter_remove (S (length grp)) 0 grp).

(** [__check_same_include_content()] on the loaded [hash_content.txt] *)
Definition check_same_include_content (hash_content : gmap string string) : list (string * error) :=
  flat_map group_errors (map snd (map_to_list (hash_groups hash_content))).

End SameContent.

(** ** Reference readings *)

(** The number of occurrences of [k] *)
Definition occ (k : string) (l : list string) : nat := length (List.filter (String.eqb k) l).

(** What the aliasing loop visits: the include and the list after its
    removal, for the includes at even positions of the group *)
Fixpoint remove_pairs (pre l : list string) : list (string * list string) :=
  match l with
  | x :: y :: rest => (x, pre ++ y :: rest) :: remove_pairs (pre ++ [y]) rest
  | [x] => [(x, pre)]
  | [] => []
  end.

Fixpoint evens {A} (l : list A) : list A :=
  match l with
  | x :: _ :: rest => x :: evens rest
  | [x] => [x]
  | [] => []
  end.

(** ** Lemmas *)

Lemma counter_lookup l k : counter l !! k = match occ k l with O => None | n => Some n end.
Proof.
  induction l as [|x l IH] using rev_ind; [done|].
  unfold counter in *. rewrite foldl_app. simpl. unfold occ in *. rewrite List.filter_app, length_app.
  simpl. destruct (String.eqb_spec k x) as [<-|Hne]; simpl.
  - rewrite lookup_insert_eq, IH. destruct (length _) as [|n]; simpl; [done|]. f_equal. lia.
  - rewrite lookup_insert_ne by congruence. by rewrite IH, Nat.add_0_r.
Qed.

Lemma elem_of_repeated l b : b ∈ repeated l <-> 1 < occ b l.
Proof.
  unfold repeated. rewrite list_elem_of_fmap. split.
  - intros ([k n] & -> & Hin). apply list_elem_of_In, filter_In in Hin as [Hin Hn].
    apply list_elem_of_In, elem_of_map_to_list in Hin. rewrite counter_lookup in Hin.
    simpl in *. apply Nat.ltb_lt in Hn. destruct (occ k l); congruence.
  - intros Hb. exists (b, occ b l). split; [done|]. apply list_elem_of_In, filter_In.
    split; [|simpl; by apply Nat.ltb_lt]. apply list_elem_of_In, elem_of_map_to_list.
    rewrite counter_lookup. destruct (occ b l); [lia|done].
Qed.

Lemma NoDup_repeated l : NoDup (repeated l).
Proof.
  unfold repeated. apply NoDup_fmap_fst; [|apply NoDup_ListNoDup, List.NoDup_filter, NoDup_ListNoDup, NoDup_map_to_list].
  intros k v1 v2 H1 H2. apply list_elem_of_In, filter_In in H1 as [H1 _], H2 as [H2 _].
  apply list_elem_of_In, elem_of_map_to_list in H1, H2. congruence.
Qed.

Lemma remove_first_app x pre rest :
  x ∉ pre -> remove_first x (pre ++ x :: rest) = pre ++ rest.
Proof.
  induction pre as [|y pre IH]; intros Hx; simpl; [by rewrite String.eqb_refl|].
  destruct (String.eqb_spec x y) as [->|_]; [set_solver|]. rewrite IH by set_solver. done.
Qed.

Lemma iter_remove_pairs fuel pre l :
  NoDup (pre ++ l) -> length l < fuel ->
  iter_remove fuel (length pre) (pre ++ l) = remove_pairs pre l.
Proof.
  revert pre l. induction fuel as [|f IH]; intros pre l Hnd Hf; [lia|]. simpl.
  rewrite nth_error_app2, Nat.sub_diag by lia.
  destruct l as [|x [|y rest]]; simpl; [done| |].
  - apply NoDup_app in Hnd as (_ & Hx & _). rewrite remove_first_app by (intros ?; by apply (Hx x); [|left]).
    rewrite app_nil_r. destruct f; [done|]. cbn [iter_remove].
    by rewrite (proj2 (nth_error_None pre (S (length pre)))) by lia.
  - pose proof Hnd as Hnd'. apply NoDup_app in Hnd as (_ & Hx & _).
    rewrite remove_first_app by (intros ?; by apply (Hx x); [|left]). f_equal.
    replace (S (length pre)) with (length (pre ++ [y])) by (rewrite length_app; simpl; lia).
    replace (pre ++ y :: rest) with ((pre ++ [y]) ++ rest) by (by rewrite <- app_assoc).
    apply IH; [|simpl in Hf; lia].
    rewrite <- app_assoc. simpl. apply NoDup_app in Hnd' as (Hpre & Hdis & Hl).
    apply NoDup_app. split; [done|]. split; [intros z Hz Hz'; apply (Hdis z Hz); set_solver|].
    by apply NoDup_cons in Hl as [_ Hl].
Qed.

Lemma remove_pairs_fst : forall l pre, map fst (remove_pairs pre l) = evens l.
Proof.
  fix IH 1. intros l pre. destruct l as [|x [|y rest]]; [done|done|].
  simpl. f_equal. apply IH.
Qed.

Lemma evens_length {A} : forall l : list A, length (evens l) = Nat.div2 (S (length l)).
Proof. fix IH 1. intros [|x [|y rest]]; [done|done|]. simpl. rewrite IH. done. Qed.

(** ** Claims *)

(** [__check_duplicates] reports, for a checked file of the list
    whose base name occurs more than once, every other file of the list
    with the same base name, in list order, and nothing otherwise. *)
Theorem check_duplicates_spec checking files :
  check_duplicates checking files =
  if bool_decide (checking ∈ files) && bool_decide (1 < occ (py_basename checking) (map py_basename files))
  then map (DuplicateFileError "Same filename")
         (List.filter (fun p => String.eqb (py_basename checking) (py_basename p) && negb (String.eqb p checking)) files)
  else [].
Proof.
  unfold check_duplicates.
  rewrite (flat_map_single _ _ (py_basename checking)); [|apply NoDup_repeated|].
  2:{ intros d _ Hd. unfold dup_errors. rewrite bool_decide_false; [done|].
      intros Hin%list_elem_of_In. apply filter_In in Hin as [_ Heq].
      apply String.eqb_eq in Heq. congruence. }
  rewrite (bool_decide_ext _ _ (elem_of_repeated _ _)). unfold dup_errors. rewrite filter_filter_andb.
  rewrite (bool_decide_ext (checking ∈ List.filter _ files) (checking ∈ files)).
  2:{ rewrite !list_elem_of_In, filter_In, String.eqb_refl. tauto. }
  by destruct (bool_decide (1 < _)), (bool_decide (checking ∈ files)).
Qed.

(** on a group of distinct includes, the aliasing loop yields, for the
    1st, 3rd, 5th... include, the group without the includes removed so
    far: the include itself and the ones visited before it are missing. *)
Theorem group_errors_spec links grp :
  NoDup grp ->
  group_errors links grp =
  map (fun io => (io.1, DuplicateFileError "Identical content" (links io.2))) (remove_pairs [] grp).
Proof.
  intros Hnd. unfold group_errors. f_equal.
  apply (iter_remove_pairs (S (length grp)) [] grp); [done|lia].
Qed.

Lemma group_errors_spec_witness :
  NoDup ["a.inc"; "b.inc"; "c.inc"] /\
  group_errors (String.concat ", ") ["a.inc"; "b.inc"; "c.inc"] =
  map (fun io => (io.1, DuplicateFileError "Identical content" (String.concat ", " io.2)))
      (remove_pairs [] ["a.inc"; "b.inc"; "c.inc"]).
Proof.
  assert (H : NoDup ["a.inc"; "b.inc"; "c.inc"]) by (apply (bool_decide_unpack _); vm_compute; reflexivity).
  split; [exact H | apply group_errors_spec, H].
Defined.

(** of a group of [n] distinct includes with the same content only
    those at even positions (1st, 3rd, ...), [(n + 1) / 2] of them, get an
    [Identical content] error; the 2nd, 4th, ... never do. *)
Theorem group_errors_files links grp :
  NoDup grp ->
  map fst (group_errors links grp) = evens grp /\ length (group_errors links grp) = Nat.div2 (S (length grp)).
Proof.
  intros Hnd. unfold group_errors.
  assert (Hp : iter_remove (S (length grp)) 0 grp = remove_pairs [] grp)
    by (apply (iter_remove_pairs _ [] grp); [done|lia]).
  rewrite Hp, map_map, length_map, <- evens_length, <- (remove_pairs_fst grp []). split; [|by rewrite length_map].
  apply map_ext. done.
Qed.

Lemma group_errors_files_witness :
  NoDup ["a.inc"; "b.inc"] /\
  map fst (group_errors (String.concat ", ") ["a.inc"; "b.inc"]) = evens ["a.inc"; "b.inc"] /\
  length (group_errors (String.concat ", ") ["a.inc"; "b.inc"]) = Nat.div2 (S (length ["a.inc"; "b.inc"])).
Proof.
  assert (H : NoDup ["a.inc"; "b.inc"]) by (apply (bool_decide_unpack _); vm_compute; reflexivity).
  split; [exact H | apply group_errors_files, H].
Defined.

(** two includes with the same content give one error, to the first
    of them; the second is never reported. *)
Example same_content_two_includes :
  check_same_include_content (String.concat ", ") {[ "a.inc" := "h1"; "b.inc" := "h1" ]} =
  [("a.inc", DuplicateFileError "Identical content" "b.inc")].
Proof. vm_compute. reflexivity. Qed.

End Duplicates.
