(* ===== verification/Render.v ===== *)
(** * Render: [StartDoors.__syntax_color]

    [__dxl2html] writes each token of a file as an HTML span whose style
    [__syntax_color(token.type, token.value)] chooses from the token type
    name and text: reserved words, operators, braces, the keyword lists
    read from [kw2.txt], [kw3.txt] and [kw4.txt] (here [Section]
    variables), comments and literals.  Token types are compared by their
    names, as the strings [tok.type] holds. *)

From S2P Require Import Prelude DxlLexer Classifier.
Import DxlLexer Classifier.

Module Render.

Definition res_base_ids : list string :=
  ["AND"; "BOOL"; "BREAK"; "BY"; "CASE"; "CHAR"; "CONST"; "CONTINUE";
   "DEFAULT"; "DO"; "ELSE"; "ELSEIF"; "ENUM"; "FOR"; "IF"; "IN"; "INT";
   "OR"; "PRAGMA"; "REAL"; "RETURN"; "SIZEOF"; "STATIC"; "STRUCT"; "SWITCH";
   "THEN"; "UNION"; "VOID"; "WHILE"; "INCLUDE"].

(** Defined in the source and never used *)
Definition res_other_ids : list string :=
  ["MODULE"; "OBJECT"; "SKIP"; "BUFFER"; "TEMPLATE"; "MODULE_VERSION";
   "DATE"; "LINK"; "LINK_REF"; "STREAM"; "REGEXP"; "ATTR_DEF"; "DB"; "DBE"].

Definition operators : list string :=
  ["PLUS"; "MINUS"; "TIMES"; "DIVIDE"; "MOD"; "NOT"; "XOR"; "LSHIFT"; "RSHIFT";
   "LOR"; "LAND"; "LNOT"; "TMPC"; "LT"; "LE"; "GT"; "GE"; "EQ"; "NE"; "EQUALS";
   "TIMESEQUAL"; "DIVEQUAL"; "MODEQUAL"; "PLUSEQUAL"; "MINUSEQUAL"; "LSHIFTEQUAL";
   "RSHIFTEQUAL"; "ANDEQUAL"; "XOREQUAL"; "OREQUAL"; "INLINK"; "OVRLOAD"; "DEF";
   "LPAREN"; "RPAREN"; "LBRACKET"; "RBRACKET"; "COMMA"; "PERIOD"; "SEMICOLON";
   "COLON"; "SQUOTE"; "DQUOTE"].

Definition braces : list string := ["{"; "}"].
Definition comments : list string := ["C_COMMENT"; "CPP_COMMENT"].
Definition literals : list string := ["ICONST"; "FCONST"; "CCONST"; "SCONST"].

(** [x in l] for a list of strings *)
Definition in_list (x : string) (l : list string) : bool := existsb (String.eqb x) l.

(** The style strings of the source, with their double quotes *)
Definition quoted (s : string) : string := String dq (s ++ String dq EmptyString).

Section SyntaxColor.

(** [python_lacks.read_file(.../kw2.txt)] and the two others *)
Variables keywords2 keywords3 keywords4 : list string.

Definition syntax_color (token_type token_value0 : string) : string :=
  let token_value := if String.eqb token_type "FUNCTION" then before_paren token_value0 else token_value0 in
  let both l := in_list token_type l || in_list token_value l in
  if both res_base_ids then quoted "color:#0404B5;"
  else if in_list token_type operators then quoted "color:#000080;"
  else if both braces then quoted "color:#000080;"
  else if both keywords2 then quoted "color:#0080FF;"
  else if both keywords3 then quoted "color:#8080FF;"
  else if both keywords4 then quoted "color:#0000FF;"
  else if in_list token_type comments then quoted "color:#008000;"
  else if in_list token_type literals then quoted "color:#FF0000;"
  else quoted "color:#000000;".

End SyntaxColor.

(** ** Lemmas *)

(** [SEMICOLON] is the one name of the operator list that no token of the
    lexer has (the semicolon token is [SEMI]). *)
Lemma operators_not_tokens :
  List.filter (fun o => match List.find (fun t => String.eqb (tok_name t) o) tokens with
                        | Some _ => false | None => true end) operators
  = ["SEMICOLON"].
Proof. vm_compute. reflexivity. Qed.

(** The semicolon token ([SEMI] in [dxl_lexer.py]) is not in the
    operator list, which names [SEMICOLON] instead: unless a keyword file
    lists it, a semicolon is rendered in the default black style, not in
    the operators' colour. *)
Theorem semicolon_default_color kw2 kw3 kw4 :
  Forall (fun kw => in_list "SEMI" kw = false /\ in_list ";" kw = false) [kw2; kw3; kw4] ->
  syntax_color kw2 kw3 kw4 (tok_name SEMI) ";" = quoted "color:#000000;".
Proof.
  intros Hkw. apply Forall_cons in Hkw as [[H2 H2'] Hkw]. apply Forall_cons in Hkw as [[H3 H3'] Hkw].
  apply Forall_cons in Hkw as [[H4 H4'] _].
  unfold syntax_color. change (tok_name SEMI) with "SEMI". cbv zeta.
  change (if String.eqb "SEMI" "FUNCTION" then before_paren ";" else ";") with ";".
  rewrite H2, H2', H3, H3', H4, H4'. reflexivity.
Qed.

End Render.

Import Render.

Lemma semicolon_default_color_witness :
  syntax_color [] [] [] (tok_name SEMI) ";" = quoted "color:#000000;".
Proof. apply semicolon_default_color. repeat constructor. Defined.
