(* ===== verification/Dxl2Html.v ===== *)
(** * Dxl2Html: the code of a file's page ([StartDoors.__dxl2html])

    After its header (links to batch files, the file size), the page that
    [__dxl2html] writes for a DXL file has a column of line numbers, one
    per line of the file, and beside it the code: for each line [l] from 1
    to the last line that holds a token, the tokens of [tok_dict[l]] (from
    [Lexer.init], file [LexerInit]), each as an HTML span preceded by the
    spaces of its column, then a line break.  A span depends on the token
    and on flags left by the previous token: the path after [#include]
    becomes a link to the include's page, a call to a function declared
    once becomes a link to its line, [null] after a string declaration and
    erroneous pragmas are highlighted.  A C comment carries its own line
    breaks ([Lexer.init] turned its newlines into [<br>]), so after it the
    loop counts the lines it has already written and writes a break only
    for the lines after the comment.

    Every [f.write] is an element of the list [hp_writes], in order.  The
    dictionaries and files the page reads ([__valid_includes_dict],
    [__func_declarations_dict], [__builtin_fcts_dict], the contents of the
    includes), [__get_hash] and [os.path.exists] are [Section] variables.
    An exception leaves what was written: [HpExc] carries the state, the
    [except IndexError: pass] around the loop keeps the page without its
    closing tags. *)

From S2P Require Import Prelude PyRegex DxlLexer Classifier Checks FuncTable LexerInit NtPath IncludeResolver Duplicates Render.
From stdpp Require Import pretty.
Import PyRegex DxlLexer Classifier Checks FuncTable LexerInit NtPath IncludeResolver Duplicates Render.

Module Dxl2Html.

Local Open Scope string_scope.
#[local] Set Warnings "-abstract-large-number".

(** ** Strings of the page *)

(** [%d] and [str(i)] *)
Definition str_int (n : nat) : string := pretty n.

(** ["<br>\n"] *)
Definition br_nl : string := "<br>" ++ String nl EmptyString.

(** [s.count("<br>")] *)
Fixpoint count_br (s : string) : nat :=
  match s with
  | String "<" (String "b" (String "r" (String ">" s'))) => S (count_br s')
  | String _ s' => count_br s'
  | EmptyString => 0
  end.

(** [s.rstrip(" ")] *)
Fixpoint rstrip_space (s : string) : string :=
  match s with
  | EmptyString => EmptyString
  | String c s' =>
      let r := rstrip_space s' in
      if String.eqb r EmptyString && Ascii.eqb c " " then EmptyString else String c r
  end.

(** [s.split("(", 1)[1]]: what follows the first ["("], if there is one *)
Fixpoint after_paren (s : string) : option string :=
  match s with
  | EmptyString => None
  | String c s' => if Ascii.eqb c "(" then Some s' else after_paren s'
  end.

(** [s.split("(", 1)[-1]] *)
Definition last_split (s : string) : string :=
  match after_paren s with Some r => r | None => s end.

(** ** The two columns *)

(** [width_left] and [width_right], from [total_lines] *)
Definition widths (total_lines : nat) : string * string :=
  if Nat.ltb total_lines 100 then ("30", "90")
  else if Nat.leb 100 total_lines && Nat.ltb total_lines 1000 then ("35", "90")
  else if Nat.leb 1000 total_lines && Nat.ltb total_lines 10000 then ("40", "89")
  else ("45", "88").

(** The [div] of line numbers: [str(i)+"<br>\n"] for [i] from 1 to
    [total_lines] *)
Definition line_numbers (total_lines : nat) (width_left : string) : list string :=
  ("<div style=" ++ qt ++ "width:" ++ width_left ++ "px; float:left; text-align: right; color:#666666; background-color:#E1E1E3; padding-right:5px; margin-right:10px;" ++ qt ++ ">")
  :: app (map (fun i => str_int i ++ br_nl) (seq 1 total_lines)) ["</div>"].

(** ** The state of the loop over the lines *)

Record hp_state := HP {
  hp_writes : list string;
  hp_prev_include : bool;
  hp_prev_sys_call : bool;
  hp_prev_comment : bool;
  hp_prev_keyword : bool;
  hp_prev_string_init : bool;
  hp_style : option string;           (** [style], unbound at first *)
  hp_v : option string;               (** [v], unbound at first *)
  hp_token : option col_token;        (** [token], the last token seen *)
  hp_current_column : Z;
  hp_nb_br_after_comment : Z;
  hp_actual_line : option nat }.      (** [actual_line], unbound at first *)

Inductive hp_out := HpOk (s : hp_state) | HpExc (s : hp_state) (e : py_exc).

Definition hp_init : hp_state := HP [] false false false false false None None None 0 0 None.

(** [keywords = ["BOOL", ..., "SKIP"]], token type names *)
Definition keywords : list string :=
  ["BOOL"; "CHAR"; "INT"; "STRING"; "REAL"; "VOID"; "OBJECT"; "MODULE"; "SKIP"].

Definition doors_help_pdf : string :=
  "R:\AMS_afr_A400M\ESPACE_TRAVAIL_COMMON\WP5_SupportMultiLoad\DOC\DOORS\dxl_reference_manual_96.pdf".

(** ** Measures of the page *)

(** The line breaks the loop writes itself *)
Definition nbr (ws : list string) : nat := length (List.filter (String.eqb br_nl) ws).

(** The line breaks a C comment carries in its value *)
Definition comment_br (t : col_token) : nat :=
  if bool_decide (ct_type t = C_COMMENT) then count_br (ct_value t) else 0.

(** The tokens of lines [1] to [n], in the order of the page *)
Definition page_tokens (d : gmap nat (list col_token)) (n : nat) : list col_token :=
  flat_map (fun l => default [] (d !! l)) (seq 1 n).

(** Every C comment fits in the lines before the next token: its breaks
    do not run past that token's line *)
Fixpoint comments_fit (ts : list col_token) : bool :=
  match ts with
  | t :: ((t' :: _) as ts') => Nat.leb (ct_line t + comment_br t) (ct_line t') && comments_fit ts'
  | _ => true
  end.

(** The shape of [tok_dict] that [Lexer.init] builds: non-empty lists, of
    tokens of their line, on lines from 1 *)
Definition tok_dict_wf (d : gmap nat (list col_token)) : bool :=
  forallb (fun lts => negb (Nat.eqb (length lts.2) 0) && Nat.leb 1 lts.1 && forallb (fun t => Nat.eqb (ct_line t) lts.1) lts.2)
    (map_to_list d).

(** No [v] that can be written again is a bare line break *)
Definition v_ok (s : hp_state) : Prop := forall v, hp_v s = Some v -> String.eqb br_nl v = false.

(** The breaks of the comments among [ts] *)
Definition csum (ts : list col_token) : nat := sum_nat (map comment_br ts).

(** The state after the lines [1] to [l], whose tokens are [toks]: the
    breaks written so far are [l], or, after a comment [T] whose breaks run
    past line [l], the lines up to [T]'s line and its breaks *)
Definition br_inv (l : nat) (toks : list col_token) (s : hp_state) : Prop :=
  v_ok s /\ hp_token s = last toks /\
  hp_prev_comment s = match hp_token s with Some t => bool_decide (ct_type t = C_COMMENT) | None => false end /\
  (hp_actual_line s = None -> hp_nb_br_after_comment s = 0%Z) /\
  (forall a, hp_actual_line s = Some a -> a <= l) /\
  if hp_prev_comment s then
    exists T, hp_token s = Some T /\ ct_type T = C_COMMENT /\ 1 <= ct_line T <= l /\
      hp_actual_line s = Some (ct_line T) /\
      hp_nb_br_after_comment s = Z.of_nat (l + 1 - ct_line T) /\
      nbr (hp_writes s) + csum toks = ct_line T - 1 + Nat.max (count_br (ct_value T)) (l + 1 - ct_line T)
  else nbr (hp_writes s) + csum toks = l.


(** ** Example files *)

(** A null initialisation, a two-line comment, a call *)
Definition ex_page : chars := py_src "string s = null
/* a
 b */
x = f(1)
".

(** A main file that declares [f] on its line 3, and one of its includes
    that calls [f] on its own line 3 *)
Definition ex_main : chars := py_src "int a = 1

void f(int x) { return }
".

Definition ex_include : chars := py_src "int b = 2
x = 1
f(1)
".

(** A string constant holding an HTML line break *)
Definition ex_br_string : chars := py_src "s = `<br>`
x = 1
".

Section Page.

Variables keywords2 keywords3 keywords4 : list string.
(** [__get_hash] *)
Variable get_hash : chars -> string.
(** [os.path.exists] *)
Variable path_exists : chars -> bool.
(** [os.path.getsize] and the content of a file *)
Variable file_size : string -> N.
Variable read : string -> chars.
(** [self.__addin_dirs + self.__project_dirs] *)
Variable start_doors_ini_paths : list chars.
(** [self.__valid_includes_dict[dxl_file]], [None] when the key is missing *)
Variable valid_includes : option (list string).
Variable func_declarations_dict : gmap string (list nat).
Variable builtin_fcts_dict : gmap string nat.
Variable is_error_pragma : bool.

Definition style_of (ty value : string) : string := syntax_color keywords2 keywords3 keywords4 ty value.

Definition styled_span (L style value : string) : string :=
  "<span id=" ++ L ++ " style=" ++ style ++ ">" ++ value ++ "</span>".

(** [# INCLUDES]: a link to the page of the include, from the path
    written or from a start path, or a highlighted path *)
Definition include_link_span (L html_include_link include_link : string) : string :=
  "<span id=" ++ L ++ "><a href='" ++ html_include_link ++ ".html'>&lt" ++ include_link ++ "&gt</a></span>".

(** The [else] branch of [for start_path in start_doors_ini_paths]; it
    does not depend on the start path *)
Definition doors_include_span (L include_link : string) : string :=
  if String.prefix "utils" include_link then
    "<span id=" ++ L ++ "><font color='green'>&lt" ++ include_link ++ "&gt</font></span>"
  else if String.prefix "%%Path%%" include_link || String.prefix "%%templatePath%%" include_link then
    "<span id=" ++ L ++ "><span style='background-color:orange;'>&lt" ++ include_link ++ "&gt</span> <span style='color:#008000; font-family:helvetica'> // DXL Scanner Exception : &#37;&#37;Path&#37;&#37; not interpreted, include should be valid</span></span>"
  else
    let c_path := normpath (join doors_includes_path (list_ascii_of_string include_link)) in
    if path_exists c_path then
      let html_include_link := get_hash (normpath c_path) ++ "_" ++ py_basename include_link in
      "<span id=" ++ L ++ "><span style='background-color:red;'><a href='" ++ html_include_link ++ ".html'>&lt" ++ include_link ++ "&gt</a></span> <span style='color:#008000; font-family:helvetica'> // DXL Scanner : path found but not valid</span></span>"
    else "<span id=" ++ L ++ "><span style='background-color:red;'>&lt" ++ include_link ++ "&gt</span></span>".

(** [for start_path in start_doors_ini_paths: ...], [break] on the first
    start path under which the include is valid *)
Fixpoint include_loop (valid : list string) (L include_link : string) (paths : list chars) (v : option string) : option string :=
  match paths with
  | [] => v
  | start_path :: paths' =>
      let abs_include_link := join start_path (list_ascii_of_string include_link) in
      if in_list (string_of_list_ascii (normpath abs_include_link)) valid then
        Some (include_link_span L (get_hash (normpath abs_include_link) ++ "_" ++ py_basename include_link) include_link)
      else include_loop valid L include_link paths' (Some (doors_include_span L include_link))
  end.

(** The [try:] block: the new [v], or the old one when the lookup raises
    [KeyError] ([except KeyError: pass]) or the loop has no start path *)
Definition include_v (L include_link : string) (v : option string) : option string :=
  match valid_includes with
  | None => v
  | Some valid =>
      if in_list include_link valid then
        let html_include_link := get_hash (list_ascii_of_string include_link) ++ "_" ++ py_basename include_link in
        if r_drive (splitdrive (list_ascii_of_string include_link)).1 then
          Some ("<span id=" ++ L ++ "><a href='" ++ html_include_link ++ ".html'><span style='background-color:red;'>&lt" ++ include_link ++ "&gt</span></a></span>")
        else Some (include_link_span L html_include_link include_link)
      else include_loop valid L include_link start_doors_ini_paths v
  end.

(** [# FUNCTION CALLS]: a link to the declaration when the name is declared
    once in the file, to the manual for a builtin, or to the first include
    that declares it *)
Fixpoint function_loop (func_called L style name rest : string) (includes : list string) (v : string) : py_result string :=
  match includes with
  | [] => PyOk v
  | include :: includes' =>
      let func_def_dict := get_func_declarations_file (file_size include) (read include) in
      match func_def_dict !! func_called with
      | Some lines =>
          match lines with
          | line :: _ =>
              let html_include_link := get_hash (list_ascii_of_string include) ++ "_" ++ replace_char bs "/" (py_basename include) in
              PyOk ("<span id=" ++ L ++ "><span style=" ++ style ++ "><a href='" ++ html_include_link ++ ".html#" ++ str_int line ++ "'>" ++ name ++ "</a></span>(" ++ rest ++ "</span>")
          | [] => PyRaise IndexError
          end
      | None =>
          function_loop func_called L style name rest includes'
            ("<span id=" ++ L ++ "><span style=" ++ style ++ ">" ++ name ++ "</span>(" ++ rest ++ "</span>")
      end
  end.

Definition function_v (L style value : string) : py_result string :=
  let func_called := rstrip_space (before_paren value) in
  let name := before_paren value in
  match func_declarations_dict !! func_called with
  | Some lines =>
      if Nat.eqb (length lines) 1 then
        match lines with
        | func_def_line :: _ =>
            PyOk ("<span id=" ++ L ++ "><span style=" ++ style ++ "><a href=#" ++ str_int func_def_line ++ ">" ++ name ++ "</a></span>(" ++ last_split value ++ "</span>")
        | [] => PyRaise IndexError
        end
      else PyOk ("<span id=" ++ L ++ "><span style=" ++ style ++ ">" ++ value ++ "</span></span>")
  | None =>
      match builtin_fcts_dict !! func_called with
      | Some func_def_line =>
          PyOk ("<span id=" ++ L ++ "><span style=" ++ style ++ "><a href=file:///" ++ doors_help_pdf ++ "#page=" ++ str_int func_def_line ++ ">" ++ name ++ "</a></span>(" ++ last_split value ++ "</span>")
      | None =>
          match after_paren value with
          | None => PyRaise IndexError
          | Some rest1 =>
              let v := "<span id=" ++ L ++ "><span style=" ++ style ++ ">" ++ name ++ "</span>(" ++ rest1 ++ "</span>" in
              match valid_includes with
              | None => PyRaise KeyError
              | Some includes => function_loop func_called L style name (last_split value) includes v
              end
          end
      end
  end.

(** The [if]/[elif] chain from [# INCLUDES] to the final [else]: the new
    [style] and [v] *)
Definition token_chain (s : hp_state) (prev_sys_call : bool) (style : option string) (v : option string)
    (token : col_token) : py_result (option string * option string) :=
  let ty := tok_name (ct_type token) in
  let value := ct_value token in
  let L := str_int (ct_line token) in
  if hp_prev_include s then PyOk (style, include_v L (py_strip_ends value) v)
  else if prev_sys_call then
    PyOk (style, Some ("<span id=" ++ L ++ "><span style=" ++ qt ++ "background-color:orange;" ++ qt ++ ">" ++ value ++ "</span></span>"))
  else if hp_prev_string_init s then
    match style with
    | None => PyRaise NameError
    | Some st =>
        if String.eqb value "null" then
          PyOk (style, Some ("<span id=" ++ L ++ " style=" ++ st ++ "><span style='border-bottom: 1px dotted red;'>" ++ value ++ "</span> <span style='color:#008000; font-family:helvetica'> // DXL Scanner : Bad initialization, use " ++ qt ++ qt ++ " instead of null</span></span>"))
        else PyOk (style, Some (styled_span L st value))
    end
  else if String.eqb ty "PRAGMA" then
    if is_error_pragma then
      if py_in "runLim, 0" value || py_in "encoding" value || py_in "stack" value then
        PyOk (style, Some ("<span id=" ++ L ++ "><span style='background-color:orange;'>" ++ value ++ "</span> <span style='color:#008000; font-family:helvetica'> // DXL Scanner Exception : Pragma is OK</span></span>"))
      else PyOk (style, Some ("<span id=" ++ L ++ "><span style='background-color:red;'>" ++ value ++ "</span></span>"))
    else let st := style_of ty value in PyOk (Some st, Some (styled_span L st value))
  else if String.eqb ty "FUNCTION" && negb (hp_prev_keyword s) then
    let st := style_of ty value in
    match function_v L st value with
    | PyOk v' => PyOk (Some st, Some v')
    | PyRaise e => PyRaise e
    end
  else let st := style_of ty value in PyOk (Some st, Some (styled_span L st value)).

(** One turn of [for token in line_toks] *)
Definition token_step (s : hp_state) (token : col_token) : hp_out :=
  let ty := tok_name (ct_type token) in
  let value := ct_value token in
  let prev_sys_call := String.eqb ty "SYS_CALL" in
  let nb_space := (ct_column token - hp_current_column s)%Z in
  let spaces :=
    if Z.ltb 0 nb_space then
      if Z.eqb (hp_current_column s) 0 then [repeat_str (Z.to_nat nb_space * 2) "&emsp;"]
      else [repeat_str (Z.to_nat nb_space) "&nbsp;"]
    else [] in
  let column := if Z.ltb 0 nb_space then (hp_current_column s + nb_space)%Z else hp_current_column s in
  let '(style, v) :=
    if hp_prev_comment s && negb (String.eqb ty "FUNCTION") then
      let st := style_of ty value in
      (Some st, Some (styled_span (str_int (ct_line token)) st value))
    else (hp_style s, hp_v s) in
  let s1 := HP (app (hp_writes s) spaces) (hp_prev_include s) prev_sys_call (hp_prev_comment s)
               (hp_prev_keyword s) (hp_prev_string_init s) style v (Some token) column
               (hp_nb_br_after_comment s) (hp_actual_line s) in
  match token_chain s prev_sys_call style v token with
  | PyRaise e => HpExc s1 e
  | PyOk (style', v') =>
      match v' with
      | None => HpExc s1 NameError
      | Some w =>
          HpOk (HP (app (hp_writes s1) [w])
                   (String.eqb ty "INCLUDE") prev_sys_call (String.eqb ty "C_COMMENT")
                   (in_list ty keywords) (String.eqb ty "STRING_INIT") style' v' (Some token)
                   (column + Z.of_nat (String.length value))%Z
                   (hp_nb_br_after_comment s) (hp_actual_line s))
      end
  end.

(** [for token in line_toks] *)
Fixpoint tokens_step (s : hp_state) (ts : list col_token) : hp_out :=
  match ts with
  | [] => HpOk s
  | t :: ts' => match token_step s t with HpOk s' => tokens_step s' ts' | o => o end
  end.

(** After the tokens of a line.  After a C comment, [nb_br_after_comment]
    counts the lines since the comment's line (reset when the last token is
    a new comment; the first time [actual_line] is unbound and the
    [UnboundLocalError] is caught), and a break is written only once the
    breaks of the comment are used up; [n/n] is [1]. *)
Definition line_end (s : hp_state) : hp_state :=
  if hp_prev_comment s then
    match hp_token s with
    | None => s
    | Some token =>
        let nb0 := match hp_actual_line s with
                   | Some actual_line =>
                       if Nat.eqb (ct_line token) actual_line then hp_nb_br_after_comment s else 0%Z
                   | None => hp_nb_br_after_comment s
                   end in
        let nb_br_after_comment := (nb0 + 1)%Z in
        let nb_br_in_comment := Z.of_nat (count_br (ct_value token)) in
        let real_nb_br_after_comment := (nb_br_after_comment - nb_br_in_comment - 1)%Z in
        let ws := if Z.ltb 0 real_nb_br_after_comment
                  then [repeat_str (Z.to_nat (real_nb_br_after_comment / real_nb_br_after_comment)) br_nl]
                  else if Z.eqb real_nb_br_after_comment 0 then [br_nl] else [] in
        HP (app (hp_writes s) ws) (hp_prev_include s) (hp_prev_sys_call s) (hp_prev_comment s)
           (hp_prev_keyword s) (hp_prev_string_init s) (hp_style s) (hp_v s) (hp_token s)
           (hp_current_column s) nb_br_after_comment (Some (ct_line token))
    end
  else
    HP (app (hp_writes s) [br_nl]) (hp_prev_include s) (hp_prev_sys_call s) (hp_prev_comment s)
       (hp_prev_keyword s) (hp_prev_string_init s) (hp_style s) (hp_v s) (hp_token s)
       (hp_current_column s) (hp_nb_br_after_comment s) (hp_actual_line s).

(** [current_column = 0] before the tokens of a line *)
Definition reset_column (s : hp_state) : hp_state :=
  HP (hp_writes s) (hp_prev_include s) (hp_prev_sys_call s) (hp_prev_comment s)
     (hp_prev_keyword s) (hp_prev_string_init s) (hp_style s) (hp_v s) (hp_token s)
     0 (hp_nb_br_after_comment s) (hp_actual_line s).

(** One turn of [for l in xrange(1, lines[-1]+1)]; the lists of
    [tok_dict] are never empty, so [token] is the last token of the line
    and the [Token()] it is first set to is not modelled *)
Definition line_step (tok_dict : gmap nat (list col_token)) (o : hp_out) (l : nat) : hp_out :=
  match o with
  | HpExc _ _ => o
  | HpOk s =>
      match tok_dict !! l with
      | Some line_toks =>
          match tokens_step (reset_column s) line_toks with
          | HpOk s' => HpOk (line_end s')
          | o' => o'
          end
      | None => HpOk (line_end s)
      end
  end.

(** The loop over the lines, inside [try:] *)
Definition code_loop (tok_dict : gmap nat (list col_token)) (n : nat) : hp_out :=
  fold_left (line_step tok_dict) (seq 1 n) (HpOk hp_init).

(** [sorted(tok_dict.keys())[-1]], [None] when it raises [IndexError] *)
Definition last_line (tok_dict : gmap nat (list col_token)) : option nat :=
  match map_to_list tok_dict with
  | [] => None
  | kv :: kvs => Some (foldr Nat.max kv.1 (map fst kvs))
  end.

(** The code [div] after its opening tag, and the exception that leaves
    [__dxl2html]: [except IndexError: pass] ends the page without its
    closing tags *)
Definition code_writes (tok_dict : gmap nat (list col_token)) : list string * option py_exc :=
  match last_line tok_dict with
  | None => ([], None)
  | Some n =>
      match code_loop tok_dict n with
      | HpOk s => (app (hp_writes s) ["</div></body></font></html>"], None)
      | HpExc s IndexError => (hp_writes s, None)
      | HpExc s e => (hp_writes s, Some e)
      end
  end.

(** The page from the line numbers on, for the content of a file *)
Definition page_body (dxl_content : chars) : list string * option py_exc :=
  let total_lines := count_char nl dxl_content + 1 in
  let '(width_left, width_right) := widths total_lines in
  let '(ws, e) := code_writes (init dxl_content) in
  (app (line_numbers total_lines width_left)
       (("<div style='width:" ++ width_right ++ "%; float:left; white-space: nowrap;'>") :: ws), e).

(** ** Lemmas *)

Lemma tok_name_c_comment ty : String.eqb (tok_name ty) "C_COMMENT" = bool_decide (ty = C_COMMENT).
Proof. destruct ty; reflexivity. Qed.

Lemma nbr_app a b : nbr (app a b) = nbr a + nbr b.
Proof. unfold nbr. by rewrite List.filter_app, length_app. Qed.

Lemma nbr_one w : nbr [w] = if String.eqb br_nl w then 1 else 0.
Proof. unfold nbr. cbn [List.filter]. by destruct (String.eqb br_nl w). Qed.

Lemma repeat_not_br k : String.eqb br_nl (repeat_str k "&emsp;") = false /\ String.eqb br_nl (repeat_str k "&nbsp;") = false.
Proof. destruct k; split; reflexivity. Qed.

Lemma doors_span_not_br L link : String.eqb br_nl (doors_include_span L link) = false.
Proof. unfold doors_include_span. cbv zeta. repeat case_match; reflexivity. Qed.

Lemma include_loop_not_br valid L link paths v w :
  include_loop valid L link paths v = Some w -> v = Some w \/ String.eqb br_nl w = false.
Proof.
  revert v. induction paths as [|p paths IH]; intros v; simpl; [by left|].
  case_match; [intros [= <-]; right; reflexivity|].
  intros Hl. destruct (IH _ Hl) as [[= <-]|]; right; [apply doors_span_not_br|done].
Qed.

Lemma include_v_not_br L link v w : include_v L link v = Some w -> v = Some w \/ String.eqb br_nl w = false.
Proof.
  unfold include_v. destruct valid_includes as [valid|]; [|by left].
  repeat case_match; try (intros [= <-]; right; reflexivity). apply include_loop_not_br.
Qed.

Lemma function_loop_not_br f L st name rest incs v w :
  function_loop f L st name rest incs v = PyOk w -> String.eqb br_nl v = false -> String.eqb br_nl w = false.
Proof.
  revert v. induction incs as [|i incs IH]; intros v; cbn [function_loop]; [by intros [= <-]|].
  destruct (_ !! f) as [[|line lines]|]; [discriminate|intros [= <-]; reflexivity|].
  intros Hl _. apply (IH _ Hl). reflexivity.
Qed.

Lemma function_v_not_br L st value w : function_v L st value = PyOk w -> String.eqb br_nl w = false.
Proof.
  unfold function_v. repeat case_match; try discriminate; try (intros [= <-]; reflexivity).
  intros Hl. apply (function_loop_not_br _ _ _ _ _ _ _ _ Hl). reflexivity.
Qed.

Lemma token_chain_not_br s psc st v t st' w :
  token_chain s psc st v t = PyOk (st', Some w) -> v = Some w \/ String.eqb br_nl w = false.
Proof.
  unfold token_chain. cbv zeta.
  destruct (hp_prev_include s).
  { intros Heq. injection Heq as _ Hv. apply include_v_not_br in Hv. exact Hv. }
  repeat case_match; intros Heq; simplify_eq; try (right; reflexivity).
  right. by eapply function_v_not_br.
Qed.

Lemma spaces_nbr c nb : nbr (if Z.ltb 0 nb then if Z.eqb c 0 then [repeat_str (Z.to_nat nb * 2) "&emsp;"]
                              else [repeat_str (Z.to_nat nb) "&nbsp;"] else []) = 0.
Proof.
  destruct (Z.ltb 0 nb), (Z.eqb c 0); rewrite ?nbr_one; try done;
    [rewrite (proj1 (repeat_not_br _)) | rewrite (proj2 (repeat_not_br _))]; done.
Qed.

(** A token adds no bare line break, and leaves the comment flag and
    [token] for the line's end. *)
Lemma token_step_ok s t s' :
  v_ok s -> token_step s t = HpOk s' ->
  v_ok s' /\ nbr (hp_writes s') = nbr (hp_writes s) /\
  hp_prev_comment s' = bool_decide (ct_type t = C_COMMENT) /\ hp_token s' = Some t /\
  hp_nb_br_after_comment s' = hp_nb_br_after_comment s /\ hp_actual_line s' = hp_actual_line s.
Proof.
  intros Hv. unfold token_step. cbv zeta.
  set (sp := if Z.ltb 0 _ then _ else _). assert (Hsp : nbr sp = 0) by apply spaces_nbr.
  set (sv := if hp_prev_comment s && _ then _ else _).
  assert (Hsv : forall w, sv.2 = Some w -> String.eqb br_nl w = false).
  { subst sv. destruct (_ && _); cbn; [intros w Hw; inversion Hw; reflexivity | apply Hv]. }
  destruct sv as [style v].
  destruct (token_chain s _ style v t) as [[st' [w|]]|e] eqn:Hch; intros Heq; try discriminate.
  injection Heq as <-. apply token_chain_not_br in Hch.
  assert (Hw : String.eqb br_nl w = false) by (destruct Hch as [->|Hw]; [by apply Hsv | exact Hw]).
  cbn [hp_writes hp_prev_comment hp_token hp_nb_br_after_comment hp_actual_line hp_v].
  split; [intros v0 [= <-]; exact Hw|]. rewrite !nbr_app, Hsp, nbr_one, Hw, tok_name_c_comment.
  repeat split; lia.
Qed.

Lemma tokens_step_ok s ts s' :
  v_ok s -> tokens_step s ts = HpOk s' ->
  v_ok s' /\ nbr (hp_writes s') = nbr (hp_writes s) /\
  hp_nb_br_after_comment s' = hp_nb_br_after_comment s /\ hp_actual_line s' = hp_actual_line s /\
  (hp_prev_comment s', hp_token s') =
    match last ts with
    | Some t => (bool_decide (ct_type t = C_COMMENT), Some t)
    | None => (hp_prev_comment s, hp_token s)
    end.
Proof.
  revert s. induction ts as [|t ts IH]; intros s Hv; cbn [tokens_step]; [by intros [= <-]|].
  destruct (token_step s t) as [s1|] eqn:Ht; [|discriminate]. intros Hs.
  destruct (token_step_ok _ _ _ Hv Ht) as (Hv1 & Hn1 & Hc1 & Ht1 & Hb1 & Ha1).
  destruct (IH _ Hv1 Hs) as (Hv2 & Hn2 & Hb2 & Ha2 & Hl2).
  rewrite <- Hn1, <- Hb1, <- Ha1. do 4 (split; [done|]).
  rewrite Hl2, Hc1, Ht1. destruct ts as [|t' ts]; [reflexivity|].
  change (last (t :: t' :: ts)) with (last (t' :: ts)).
  destruct (last (t' :: ts)) eqn:E; [done|]. by apply last_None in E.
Qed.

Lemma line_end_plain s :
  hp_prev_comment s = false ->
  hp_writes (line_end s) = app (hp_writes s) [br_nl] /\ hp_prev_comment (line_end s) = false /\
  hp_token (line_end s) = hp_token s /\ hp_v (line_end s) = hp_v s /\
  hp_nb_br_after_comment (line_end s) = hp_nb_br_after_comment s /\ hp_actual_line (line_end s) = hp_actual_line s.
Proof. unfold line_end. by intros ->. Qed.

(** After a comment [T], with [nb0] the lines counted before this one:
    one more line, and a break once the comment's breaks are used up *)
Lemma line_end_comment s T nb0 :
  hp_prev_comment s = true -> hp_token s = Some T ->
  nb0 = match hp_actual_line s with
        | Some a => if Nat.eqb (ct_line T) a then hp_nb_br_after_comment s else 0%Z
        | None => hp_nb_br_after_comment s
        end ->
  nbr (hp_writes (line_end s)) = nbr (hp_writes s) + (if Z.leb (Z.of_nat (count_br (ct_value T))) nb0 then 1 else 0) /\
  hp_prev_comment (line_end s) = true /\ hp_token (line_end s) = Some T /\ hp_v (line_end s) = hp_v s /\
  hp_nb_br_after_comment (line_end s) = (nb0 + 1)%Z /\ hp_actual_line (line_end s) = Some (ct_line T).
Proof.
  intros Hc HT ->. unfold line_end. rewrite Hc, HT. cbn [hp_writes hp_prev_comment hp_token hp_v
    hp_nb_br_after_comment hp_actual_line].
  set (nb0 := match hp_actual_line s with Some _ => _ | None => _ end).
  rewrite nbr_app. split; [|by repeat split].
  destruct (Z.ltb_spec 0 (nb0 + 1 - Z.of_nat (count_br (ct_value T)) - 1)) as [Hp|Hp].
  - rewrite Z.div_same by lia. rewrite nbr_one.
    replace (String.eqb br_nl (repeat_str (Z.to_nat 1) br_nl)) with true by reflexivity.
    destruct (Z.leb_spec (Z.of_nat (count_br (ct_value T))) nb0); lia.
  - destruct (Z.eqb_spec (nb0 + 1 - Z.of_nat (count_br (ct_value T)) - 1) 0);
      destruct (Z.leb_spec (Z.of_nat (count_br (ct_value T))) nb0);
      rewrite ?nbr_one, ?String.eqb_refl; cbn [nbr List.filter length]; lia.
Qed.

Lemma comments_fit_app a b :
  comments_fit (a ++ b) = true ->
  comments_fit a = true /\ comments_fit b = true /\
  (forall x y, last a = Some x -> head b = Some y -> ct_line x + comment_br x <= ct_line y).
Proof.
  induction a as [|t a IH]; [done|]. intros H.
  destruct a as [|t' a].
  - destruct b as [|y b]; [done|]. cbn [app comments_fit] in H. apply andb_true_iff in H as [Hle Hb].
    apply Nat.leb_le in Hle. split; [done|]. split; [done|]. by intros ? ? [= <-] [= <-].
  - cbn [app comments_fit] in H. apply andb_true_iff in H as [Hle H].
    destruct (IH H) as (Ha & Hb & Hl). split; [|done].
    change (Nat.leb (ct_line t + comment_br t) (ct_line t') && comments_fit (t' :: a) = true).
    by rewrite Hle, Ha.
Qed.

(** The comments of one line: only the last one can carry breaks *)
Lemma csum_line l ts t :
  Forall (fun u => ct_line u = l) ts -> comments_fit ts = true -> last ts = Some t -> csum ts = comment_br t.
Proof.
  unfold csum. induction ts as [|u ts IH]; [done|]. intros Hl Hf Hlast.
  apply Forall_cons in Hl as [Hu Hl]. destruct ts as [|u' ts].
  - injection Hlast as <-. simpl. lia.
  - cbn [comments_fit] in Hf. apply andb_true_iff in Hf as [Hle Hf]. apply Nat.leb_le in Hle.
    apply Forall_cons in Hl as [Hu' Hl']. cbn [map sum_nat foldr].
    specialize (IH (Forall_cons_2 _ _ _ Hu' Hl') Hf Hlast). cbn [map sum_nat foldr] in IH. lia.
Qed.

Lemma csum_app a b : csum (a ++ b) = csum a + csum b.
Proof. unfold csum. by rewrite map_app, sum_nat_app. Qed.

Lemma page_tokens_S d m : page_tokens d (S m) = app (page_tokens d m) (default [] (d !! S m)).
Proof. unfold page_tokens. rewrite seq_S, flat_map_app. simpl. by rewrite app_nil_r. Qed.

Lemma code_loop_S d m : code_loop d (S m) = line_step d (code_loop d m) (S m).
Proof. unfold code_loop. by rewrite seq_S, fold_left_app. Qed.

Lemma tok_dict_wf_spec d l ts :
  tok_dict_wf d = true -> d !! l = Some ts -> ts <> [] /\ 1 <= l /\ Forall (fun t => ct_line t = l) ts.
Proof.
  unfold tok_dict_wf. rewrite forallb_forall. intros H Hl.
  apply elem_of_map_to_list, list_elem_of_In in Hl. apply H in Hl. cbn in Hl.
  apply andb_true_iff in Hl as [Hl Hf]. apply andb_true_iff in Hl as [Hn H1].
  split; [by destruct ts|]. split; [by apply Nat.leb_le|].
  apply Forall_forall. intros t Ht. apply forallb_forall with (x := t) in Hf; [|by apply list_elem_of_In].
  by apply Nat.eqb_eq.
Qed.

Lemma v_ok_line_end s : v_ok s -> v_ok (line_end s).
Proof.
  intros Hv v. unfold line_end. destruct (hp_prev_comment s); [|apply Hv].
  destruct (hp_token s); [apply Hv|apply Hv].
Qed.

(** A line without tokens *)
Lemma br_inv_blank m toks s : br_inv m toks s -> br_inv (S m) toks (line_end s).
Proof.
  intros (Hv & Ht & Hpc & Hna & Ha & Hc). destruct (hp_prev_comment s) eqn:Ec.
  - destruct Hc as (T & HT & HTy & HL & HaT & Hnb & Hsum).
    destruct (line_end_comment s T _ Ec HT eq_refl) as (Hn' & Hc' & Ht' & _ & Hnb' & Ha').
    rewrite HaT, Nat.eqb_refl in Hn', Hnb'. rewrite Hnb in Hn', Hnb'.
    split; [by apply v_ok_line_end|]. split; [by rewrite Ht', <- Ht|].
    split; [rewrite Hc', Ht'; by rewrite bool_decide_true|].
    split; [by rewrite Ha'|]. split; [rewrite Ha'; intros a [= <-]; lia|].
    rewrite Hc'. exists T. do 4 (split; [done || lia|]). split; [rewrite Hnb'; lia|].
    rewrite Hn'. destruct (Z.leb_spec (Z.of_nat (count_br (ct_value T))) (Z.of_nat (m + 1 - ct_line T))); lia.
  - destruct (line_end_plain s Ec) as (Hw & Hc' & Ht' & _ & Hnb' & Ha').
    split; [by apply v_ok_line_end|]. split; [by rewrite Ht'|]. split; [by rewrite Hc', Ht'|].
    rewrite Hnb', Ha', Hc'.
    split; [done|]. split; [intros a Hs; specialize (Ha a Hs); lia|].
    rewrite Hw, nbr_app, nbr_one, String.eqb_refl. lia.
Qed.

(** A line with tokens: the breaks of a comment before it are used up,
    and the line's own comment, if it ends the line, starts a new count *)
Lemma br_inv_tokens m toks s ts s1 :
  br_inv m toks s -> ts <> [] -> Forall (fun t => ct_line t = S m) ts -> comments_fit (toks ++ ts) = true ->
  tokens_step (reset_column s) ts = HpOk s1 -> br_inv (S m) (toks ++ ts) (line_end s1).
Proof.
  intros (Hv & Ht & _ & Hna & Ha & Hc) Hne Hl Hfit Hs.
  destruct (comments_fit_app _ _ Hfit) as (_ & Hfts & Hlink).
  destruct (tokens_step_ok (reset_column s) ts s1 Hv Hs) as (Hv1 & Hn1 & Hb1 & Ha1 & Hl1). cbn [reset_column hp_writes hp_nb_br_after_comment hp_actual_line hp_prev_comment hp_token] in Hn1, Hb1, Ha1, Hl1.
  assert (Hbefore : nbr (hp_writes s) + csum toks = m).
  { destruct (hp_prev_comment s) eqn:Ec; [|done].
    destruct Hc as (T & HT & HTy & HL & _ & _ & Hsum). rewrite Hsum.
    destruct ts as [|t0 ts']; [done|]. apply Forall_cons in Hl as [Ht0 _].
    specialize (Hlink T t0 ltac:(by rewrite <- Ht) eq_refl). unfold comment_br in Hlink.
    rewrite bool_decide_true in Hlink by done. lia. }
  destruct (last ts) as [t|] eqn:Hlast; [|by apply last_None in Hlast].
  assert (Hts : csum ts = comment_br t) by (by apply (csum_line (S m))).
  assert (Htl : ct_line t = S m).
  { apply last_Some_elem_of in Hlast. rewrite Forall_forall in Hl. by apply Hl. }
  assert (Hlt : last (toks ++ ts) = Some t) by (by rewrite last_app, Hlast).
  injection Hl1 as Hc1 Ht1. unfold br_inv. rewrite csum_app, Hts. unfold comment_br in *.
  destruct (bool_decide (ct_type t = C_COMMENT)) eqn:Hty.
  - apply bool_decide_eq_true in Hty.
    destruct (line_end_comment s1 t _ Hc1 Ht1 eq_refl) as (Hn' & Hc' & Ht' & _ & Hnb' & Ha').
    assert (Hnb0 : match hp_actual_line s1 with
                   | Some a => if Nat.eqb (ct_line t) a then hp_nb_br_after_comment s1 else 0%Z
                   | None => hp_nb_br_after_comment s1
                   end = 0%Z).
    { rewrite Ha1, Hb1. destruct (hp_actual_line s) as [a|] eqn:Ea; [|by apply Hna].
      specialize (Ha a eq_refl). rewrite Htl. by rewrite (proj2 (Nat.eqb_neq (S m) a)) by lia. }
    rewrite Hnb0 in Hn', Hnb'.
    split; [by apply v_ok_line_end|]. split; [by rewrite Ht', Hlt|].
    split; [rewrite Hc', Ht'; by rewrite bool_decide_true|]. split; [by rewrite Ha'|].
    split; [rewrite Ha'; intros a [= <-]; lia|]. rewrite Hc'. exists t. rewrite Htl in Ha' |- *.
    do 4 (split; [done || lia|]). split; [rewrite Hnb'; lia|].
    rewrite Hn', Hn1. destruct (Z.leb_spec (Z.of_nat (count_br (ct_value t))) 0); lia.
  - destruct (line_end_plain s1 Hc1) as (Hw & Hc' & Ht' & _ & Hnb' & Ha').
    split; [by apply v_ok_line_end|]. split; [by rewrite Ht', Ht1, Hlt|].
    split; [by rewrite Hc', Ht', Ht1, Hty|].
    rewrite Hnb', Ha', Hc', Ha1, Hb1. split; [done|]. split; [intros a Hs'; specialize (Ha a Hs'); lia|].
    rewrite Hw, nbr_app, nbr_one, String.eqb_refl, Hn1. lia.
Qed.

Lemma page_tokens_prefix d m n : m <= n -> exists r, page_tokens d n = app (page_tokens d m) r.
Proof.
  intros Hm. exists (flat_map (fun l => default [] (d !! l)) (seq (1 + m) (n - m))).
  unfold page_tokens. rewrite <- flat_map_app, <- seq_app. do 2 f_equal. lia.
Qed.

Lemma code_loop_inv d n :
  tok_dict_wf d = true -> comments_fit (page_tokens d n) = true ->
  forall m s, m <= n -> code_loop d m = HpOk s -> br_inv m (page_tokens d m) s.
Proof.
  intros Hwf Hfit. induction m as [|m IH]; intros s Hm Hs.
  - injection Hs as <-. unfold br_inv. cbn. repeat split; try done; by intros ? ?.
  - rewrite code_loop_S in Hs. destruct (code_loop d m) as [s0|s0 e]; [|discriminate].
    specialize (IH s0 ltac:(lia) eq_refl). rewrite page_tokens_S. cbn [line_step] in Hs.
    destruct (d !! S m) as [ts|] eqn:Ed; cbn [default].
    + destruct (tokens_step (reset_column s0) ts) as [s1|] eqn:Et; [|discriminate]. injection Hs as <-.
      destruct (tok_dict_wf_spec _ _ _ Hwf Ed) as (Hne & _ & Hl).
      apply (br_inv_tokens m _ s0 ts s1); try done.
      destruct (page_tokens_prefix d (S m) n Hm) as [r Hr]. rewrite Hr, page_tokens_S, Ed in Hfit.
      by apply comments_fit_app in Hfit as [? _].
    + injection Hs as <-. rewrite app_nil_r. by apply br_inv_blank.
Qed.

Lemma last_line_spec d n :
  last_line d = Some n -> (exists ts, d !! n = Some ts) /\ (forall k ts, d !! k = Some ts -> k <= n).
Proof.
  unfold last_line. destruct (map_to_list d) as [|[k0 ts0] kvs] eqn:E; [discriminate|]. intros [= <-].
  destruct (foldr_max_spec k0 (map fst kvs)) as [Hin Hle]. cbn [fst]. split.
  - change (k0 :: map fst kvs) with (map fst ((k0, ts0) :: kvs)) in Hin. rewrite <- E in Hin.
    apply list_elem_of_fmap in Hin as ([k ts] & -> & Hk). apply elem_of_map_to_list in Hk. by exists ts.
  - intros k ts Hk. apply elem_of_map_to_list in Hk. rewrite E in Hk.
    rewrite Forall_forall in Hle. apply Hle. change (k0 :: map fst kvs) with (map fst ((k0, ts0) :: kvs)).
    apply list_elem_of_fmap. by exists (k, ts).
Qed.

(** C12: The code of a page keeps the lines of the file: when [tok_dict]
    has the shape [Lexer.init] gives it and every C comment's breaks fit
    before the next token, the breaks the loop writes plus the breaks the
    comments carry are one per line up to the last token's line, plus the
    extra lines of a comment that ends the file. *)
Theorem code_loop_breaks d n s :
  tok_dict_wf d = true -> last_line d = Some n -> comments_fit (page_tokens d n) = true ->
  code_loop d n = HpOk s ->
  nbr (hp_writes s) + csum (page_tokens d n)
  = n - 1 + Nat.max 1 (default 0 (comment_br <$> last (page_tokens d n))).
Proof.
  intros Hwf Hn Hfit Hs.
  destruct (code_loop_inv d n Hwf Hfit n s (le_n n) Hs) as (_ & Ht & Hpc & _ & _ & Hc).
  destruct (last_line_spec d n Hn) as [[ts Hts] _].
  destruct (tok_dict_wf_spec _ _ _ Hwf Hts) as (Hne & H1 & Hl).
  destruct n as [|n']; [lia|]. rewrite page_tokens_S, Hts in Ht, Hc |- *. cbn [default id] in *.
  assert (Hex : exists t, last ts = Some t).
  { destruct (last ts) eqn:E; [by eexists|by apply last_None in E]. }
  destruct Hex as [t Hlast]. rewrite last_app, Hlast in Ht |- *. cbn [fmap option_fmap option_map default].
  assert (Htl : ct_line t = S n').
  { apply last_Some_elem_of in Hlast. rewrite Forall_forall in Hl. by apply Hl. }
  rewrite Ht in Hpc. unfold comment_br. destruct (hp_prev_comment s).
  - destruct Hc as (T & HT & HTy & _ & _ & _ & Hsum). rewrite Ht in HT. injection HT as <-.
    rewrite Hsum, Htl. rewrite bool_decide_true by done. unfold id. lia.
  - rewrite <- Hpc. unfold id. lia.
Qed.

(** A file without tokens: [lines[-1]] raises [IndexError], which the
    [except IndexError: pass] meant for the loop catches, so the page is
    left without its closing tags. *)
Lemma code_writes_no_tokens : code_writes ∅ = ([], None).
Proof. reflexivity. Qed.

End Page.

(** ** Witnesses and examples *)

Lemma code_loop_breaks_witness :
  exists s, code_loop [] [] [] (fun _ => "h") (fun _ => false) (fun _ => 0%N) (fun _ => []) []
              (Some []) ∅ ∅ false (init ex_page) 4 = HpOk s /\
  nbr (hp_writes s) + csum (page_tokens (init ex_page) 4)
  = 4 - 1 + Nat.max 1 (default 0 (comment_br <$> last (page_tokens (init ex_page) 4))).
Proof.
  destruct (code_loop [] [] [] (fun _ => "h") (fun _ => false) (fun _ => 0%N) (fun _ => []) []
              (Some []) ∅ ∅ false (init ex_page) 4) as [s|s e] eqn:E; [|vm_compute in E; discriminate].
  exists s. split; [reflexivity|].
  apply (code_loop_breaks [] [] [] (fun _ => "h") (fun _ => false) (fun _ => 0%N) (fun _ => []) []
           (Some []) ∅ ∅ false (init ex_page) 4 s); [vm_compute; reflexivity..|exact E].
Defined.

(** The page of an include links a call to the line where the main
    file declares the function: [__check_files] sets
    [__func_declarations_dict] from the main file only, and
    [__includes_dxl2html] writes the pages of its includes with it.  The
    call [f(1)] on line 3 of the include gets the anchor [#3], the line of
    [f] in the main file, which on the include's page is the call itself. *)
Example include_page_links_main_decls :
  match code_loop [] [] [] (fun _ => "h") (fun _ => false) (fun _ => 0%N) (fun _ => []) []
          (Some []) (get_func_declarations_file 100 ex_main) ∅ false (init ex_include) 3 with
  | HpOk s => py_in "<a href=#3>f</a>" (String.concat "" (hp_writes s))
  | HpExc _ _ => false
  end = true /\ get_func_declarations_file 100 ex_include = ∅.
Proof. split; vm_compute; reflexivity. Qed.

(** Token values other than comments are written without escaping:
    a string constant [<br>] breaks the line of the page, so a two-line
    file shows three lines and every line after the string is one line
    below its number. *)
Example br_string_shifts_page :
  last_line (init ex_br_string) = Some 2 /\
  match code_loop [] [] [] (fun _ => "h") (fun _ => false) (fun _ => 0%N) (fun _ => []) []
          (Some []) ∅ ∅ false (init ex_br_string) 2 with
  | HpOk s => count_br (String.concat "" (hp_writes s))
  | HpExc _ _ => 0
  end = 3.
Proof. split; vm_compute; reflexivity. Qed.
End Dxl2Html.
