(* ===== verification/IncludeHtml.v ===== *)
(** * IncludeHtml: [StartDoors.__includes_dxl2html]

    After the checks of a main file, [__check_files] writes its HTML page
    and calls [__includes_dxl2html(self.__valid_includes_dict, dxl_file)],
    which visits the file's valid includes: it records, for each include,
    the files that include it ([self.__include_dict], read by the
    dependency report) and counts the visits, then "analyses" the include
    ([analyse_inc]: hash its content into [hash_content.txt], write its
    HTML page, recompute its valid includes) and recurses into it.  In the
    incremental mode ([not self.__complete]) an include whose page already
    exists and whose content hash is the one stored is skipped.  The whole
    loop is inside [try: ... except: pass].

    The state is the record [ih_state]: the attributes the function
    changes and the two pieces of the output directory it reads (the
    pickled [hash_content.txt] and the set of HTML pages).  The recursion
    depth left before Python raises [RuntimeError] is the [depth]
    argument; the exception a call raises on entry is caught by the
    caller's [try], which stops the caller's loop.  Of [__dxl2html] the
    effects read here are modelled: the page it writes and the
    [__get_valid_includes] call it makes. *)

From S2P Require Import Prelude PyRegex DxlLexer Classifier Checks NtPath IncludeResolver Duplicates.
Import Checks IncludeResolver Duplicates.

Module IncludeHtml.

Record ih_state := IH {
  ih_include_dict : gmap string (list string);  (* self.__include_dict *)
  ih_valid : gmap string (list string);         (* self.__valid_includes_dict *)
  ih_hash_dict : gmap string string;            (* self.__hash_content_dict *)
  ih_hash_file : option (gmap string string);   (* txt/hash_content.txt, if it exists *)
  ih_html : gset string;                        (* the pages of dxl_files/ *)
  ih_count_includes : nat;                      (* self.__count_includes *)
  ih_nb_inc_per_file : nat                      (* self.__nb_inc_per_file *)
}.

(** A loop that can stop on an exception, with the state it had then *)
Inductive ih_out := IhOk (s : ih_state) | IhExc (s : ih_state) (e : py_exc).

Definition ih_state_of (o : ih_out) : ih_state := match o with IhOk s => s | IhExc s _ => s end.

(** The include paths of length at most [d + 1] from [a] in the include
    graph [G], where a path whose last call finds no depth left ends the
    loop that makes it: the visits [__includes_dxl2html] makes in the
    complete mode *)
Fixpoint npaths (G : string -> list string) (d : nat) (a : string) : nat :=
  match d with
  | O => match G a with [] => 0 | _ => 1 end
  | S d' => sum_nat (map (fun b => S (npaths G d' b)) (G a))
  end.

(** ** Example inputs *)

(** A stand-in for the SHA-1 digest, injective as the proofs need *)
Definition ex_hash (c : chars) : string := string_of_list_ascii c.

Definition ex_empty : ih_state := IH ∅ ∅ ∅ None ∅ 0 0.

(** Two includes that include each other *)
Definition cycle_read (f : string) : chars :=
  list_ascii_of_string (if String.eqb f "K:\A.inc" then "#include <K:\B.inc>" else "#include <K:\A.inc>").

Definition cycle_graph (f : string) : list string :=
  if String.eqb f "K:\A.inc" then ["K:\B.inc"] else ["K:\A.inc"].

(** [A] includes [B] and [C], which both include [D] *)
Definition diamond_read (f : string) : chars :=
  list_ascii_of_string
    (if String.eqb f "K:\A.inc" then "#include <K:\B.inc>" ++ String nl "#include <K:\C.inc>"
     else if String.eqb f "K:\B.inc" then "#include <K:\D.inc>"
     else if String.eqb f "K:\C.inc" then "#include <K:\D.inc>" else "")%string.

Definition diamond_graph (f : string) : list string :=
  if String.eqb f "K:\A.inc" then ["K:\C.inc"; "K:\B.inc"]
  else if String.eqb f "K:\B.inc" then ["K:\D.inc"]
  else if String.eqb f "K:\C.inc" then ["K:\D.inc"] else [].

(** An incremental run in which [X] includes [Z], [Y] and [W]; the page
    of [Y] and its hash are left from an earlier run *)
Definition ex_incremental : ih_state :=
  IH ∅ {[ "K:\X.dxl" := ["K:\Z.inc"; "K:\Y.inc"; "K:\W.inc"] ]} ∅
     (Some {[ "K:\Y.inc" := "" ]}) {[ "K:\Y.inc_Y.inc" ]} 0 0.

Section IncludeHtml.

(** [os.path.getsize] and [__get_dxl_content] *)
Variable size : string -> N.
Variable read : string -> chars.
(** [os.path.exists] and the DOORS roots, as in [IncludeResolver] *)
Variable path_exists : chars -> bool.
Variable start_paths : list chars.
(** [__get_hash]: [hashlib.sha1(s).hexdigest()] *)
Variable get_hash : chars -> string.
(** [self.__complete] *)
Variable complete : bool.

(** [self.__get_hash(f)+"_"+os.path.basename(f)], the name of [f]'s page *)
Definition html_name (f : string) : string :=
  (get_hash (list_ascii_of_string f) ++ "_" ++ py_basename f)%string.

(** [self.__get_valid_includes(f, content, log_error=False)]: stores the
    list in [__valid_includes_dict] unless the file is too big *)
Definition store_valid (s : ih_state) (f : string) (c : chars) : ih_state :=
  match get_valid_includes path_exists start_paths (size f) c false with
  | Some (l, _) =>
      IH (ih_include_dict s) (<[f := l]> (ih_valid s)) (ih_hash_dict s) (ih_hash_file s)
         (ih_html s) (ih_count_includes s) (ih_nb_inc_per_file s)
  | None => s
  end.

(** [__hash_file_content(f)]: the hash is stored in the dict, and the
    whole dict is pickled over [hash_content.txt] *)
Definition hash_file_content (s : ih_state) (f : string) : ih_state :=
  let d := <[f := get_hash (read f)]> (ih_hash_dict s) in
  IH (ih_include_dict s) (ih_valid s) d (Some d) (ih_html s) (ih_count_includes s) (ih_nb_inc_per_file s).

(** [__compare_hash_content(f, current_hash)]: [open] raises [IOError] when
    the file is missing, [hash_content_dict[f]] raises [KeyError] *)
Definition compare_hash_content (s : ih_state) (f current_hash : string) : py_result bool :=
  match ih_hash_file s with
  | None => PyRaise IOError
  | Some d => match d !! f with
              | None => PyRaise KeyError
              | Some h => PyOk (String.eqb current_hash h)
              end
  end.

(** What [__dxl2html(f, content)] changes that is read here: its own
    [__get_valid_includes] call and the page it writes *)
Definition dxl2html (s : ih_state) (f : string) (c : chars) : ih_state :=
  let s' := store_valid s f c in
  IH (ih_include_dict s') (ih_valid s') (ih_hash_dict s') (ih_hash_file s')
     ({[html_name f]} ∪ ih_html s') (ih_count_includes s') (ih_nb_inc_per_file s').

(** [if not include in self.__include_dict: ... ; append(dxl_file)] and the
    two counters *)
Definition record_include (s : ih_state) (include dxl_file : string) : ih_state :=
  let l := match ih_include_dict s !! include with Some l => l | None => [] end in
  IH (<[include := l ++ [dxl_file]]> (ih_include_dict s)) (ih_valid s) (ih_hash_dict s) (ih_hash_file s)
     (ih_html s) (S (ih_count_includes s)) (S (ih_nb_inc_per_file s)).

(** The body of [analyse_inc] up to its recursive call *)
Definition analyse_prefix (s : ih_state) (include : string) (include_content : chars) : ih_state :=
  store_valid (dxl2html (hash_file_content s include) include include_content) include include_content.

(** One turn of [for include in valid_includes_dict[dxl_file]], with the
    local function [analyse_inc] it calls *)
Definition inc_step (analyse_inc : string -> chars -> ih_state -> ih_out) (dxl_file : string)
           (s : ih_state) (include : string) : ih_out :=
  let s1 := record_include s include dxl_file in
  let include_content := read include in
  let include_scanned := bool_decide (html_name include ∈ ih_html s1) in
  if complete then analyse_inc include include_content s1
  else if include_scanned then
    match compare_hash_content s1 include (get_hash include_content) with
    | PyRaise e => IhExc s1 e
    | PyOk true => IhOk s1   (* continue *)
    | PyOk false => analyse_inc include include_content s1
    end
  else analyse_inc include include_content s1.

(** The [for] loop, left at the first exception *)
Fixpoint inc_loop (analyse_inc : string -> chars -> ih_state -> ih_out) (dxl_file : string)
         (incs : list string) (s : ih_state) : ih_out :=
  match incs with
  | [] => IhOk s
  | include :: rest =>
      match inc_step analyse_inc dxl_file s include with
      | IhOk s' => inc_loop analyse_inc dxl_file rest s'
      | IhExc s' e => IhExc s' e
      end
  end.

(** [__includes_dxl2html(valid_includes_dict, dxl_file)] with [depth]
    nested calls left before [RuntimeError]; [analyse_inc]'s recursive call
    raises it when none is left, and [try: ... except: pass] catches every
    exception of the loop, [KeyError] of [valid_includes_dict[dxl_file]]
    included. *)
Fixpoint includes_dxl2html (depth : nat) (valid_includes_dict : gmap string (list string))
         (dxl_file : string) (s : ih_state) : ih_state :=
  match valid_includes_dict !! dxl_file with
  | None => s
  | Some incs =>
      ih_state_of
        (inc_loop (fun include include_content s =>
                     let s' := analyse_prefix s include include_content in
                     match depth with
                     | O => IhExc s' RuntimeError
                     | S d => IhOk (includes_dxl2html d (ih_valid s') include s')
                     end) dxl_file incs s)
  end.

(** The list [__get_valid_includes] stores for [f] *)
Definition vinc (f : string) : option (list string) :=
  option_map fst (get_valid_includes path_exists start_paths (size f) (read f) false).

(** [hash_content.txt] after a step from [s] to [s']: untouched, or the
    pickle of the whole [self.__hash_content_dict] *)
Definition hash_file_after (s s' : ih_state) : Prop :=
  (ih_hash_file s' = ih_hash_file s /\ ih_hash_dict s' = ih_hash_dict s)
  \/ ih_hash_file s' = Some (ih_hash_dict s').

(** ** Lemmas *)

Lemma record_include_count s i f : ih_count_includes (record_include s i f) = S (ih_count_includes s).
Proof. reflexivity. Qed.

Lemma store_valid_count s f c : ih_count_includes (store_valid s f c) = ih_count_includes s.
Proof. unfold store_valid. by repeat case_match. Qed.

Lemma analyse_prefix_count s i c : ih_count_includes (analyse_prefix s i c) = ih_count_includes s.
Proof.
  unfold analyse_prefix. rewrite store_valid_count. unfold dxl2html. cbn [ih_count_includes].
  by rewrite store_valid_count.
Qed.

Lemma analyse_prefix_valid s i l : vinc i = Some l -> ih_valid (analyse_prefix s i (read i)) !! i = Some l.
Proof.
  unfold vinc, analyse_prefix, store_valid at 1.
  destruct (get_valid_includes _ _ _ (read i) false) as [[l' es]|]; cbn [option_map fst ih_valid];
    intros [= ->]. by rewrite lookup_insert_eq.
Qed.

Section Complete.

Hypothesis Hcomplete : complete = true.
(** The include graph of the files [nodes], closed under [G] *)
Variable G : string -> list string.
Variable nodes : list string.
Hypothesis HG : forall f, f ∈ nodes -> vinc f = Some (G f) /\ Forall (fun b => b ∈ nodes) (G f).

Lemma inc_step_complete F f s b : inc_step F f s b = F b (read b) (record_include s b f).
Proof. unfold inc_step. by rewrite Hcomplete. Qed.

Lemma complete_loop d (IH : forall a vd s, a ∈ nodes -> vd !! a = Some (G a) ->
          ih_count_includes (includes_dxl2html d vd a s) = ih_count_includes s + npaths G d a) f l s :
  Forall (fun b => b ∈ nodes) l ->
  inc_loop (fun include include_content s =>
              IhOk (includes_dxl2html d (ih_valid (analyse_prefix s include include_content)) include
                                      (analyse_prefix s include include_content))) f l s
  = IhOk (ih_state_of (inc_loop (fun include include_content s =>
              IhOk (includes_dxl2html d (ih_valid (analyse_prefix s include include_content)) include
                                      (analyse_prefix s include include_content))) f l s))
  /\ ih_count_includes (ih_state_of (inc_loop (fun include include_content s =>
              IhOk (includes_dxl2html d (ih_valid (analyse_prefix s include include_content)) include
                                      (analyse_prefix s include include_content))) f l s))
     = ih_count_includes s + sum_nat (map (fun b => S (npaths G d b)) l).
Proof.
  revert s. induction l as [|b l IHl]; intros s Hl; simpl; [split; [done|lia]|].
  apply Forall_cons in Hl as [Hb Hl]. rewrite inc_step_complete. cbv beta iota.
  set (s1 := analyse_prefix (record_include s b f) b (read b)).
  destruct (IHl (includes_dxl2html d (ih_valid s1) b s1) Hl) as [-> Hc]. split; [done|].
  rewrite Hc, (IH b) by (first [exact Hb | unfold s1; apply analyse_prefix_valid, (proj1 (HG b Hb))]).
  unfold s1. rewrite analyse_prefix_count, record_include_count. lia.
Qed.

Lemma complete_count d : forall a vd s, a ∈ nodes -> vd !! a = Some (G a) ->
  ih_count_includes (includes_dxl2html d vd a s) = ih_count_includes s + npaths G d a.
Proof.
  induction d as [|d IH]; intros a vd s Ha Hvd; cbn [includes_dxl2html]; rewrite Hvd.
  - cbn [npaths]. destruct (G a) as [|b l]; cbn [inc_loop ih_state_of]; [lia|].
    rewrite inc_step_complete. cbn [ih_state_of].
    rewrite analyse_prefix_count, record_include_count. lia.
  - exact (proj2 (complete_loop d IH a (G a) s (proj2 (HG a Ha)))).
Qed.

(** In the complete mode, on files whose valid includes form the
    graph [G], [__includes_dxl2html] visits every include path from the
    file up to the recursion limit: [__count_includes] grows by exactly
    [npaths], the number of those paths, the last one of a loop that hits
    the limit ending that loop. *)
Theorem includes_complete_count d a vd s :
  a ∈ nodes -> vd !! a = Some (G a) ->
  ih_count_includes (includes_dxl2html d vd a s) = ih_count_includes s + npaths G d a.
Proof. apply complete_count. Qed.

End Complete.

Lemma npaths_cycle G (nodes : list string) d a :
  (forall f, f ∈ nodes -> G f <> [] /\ Forall (fun b => b ∈ nodes) (G f)) -> a ∈ nodes ->
  S d <= npaths G d a.
Proof.
  intros HG. revert a. induction d as [|d IH]; intros a Ha; cbn [npaths];
    destruct (HG a Ha) as [Hne Hin]; destruct (G a) as [|b l]; try congruence.
  - lia.
  - apply Forall_cons in Hin as [Hb _]. specialize (IH b Hb). simpl. lia.
Qed.

Lemma hash_file_after_refl s : hash_file_after s s.
Proof. by left. Qed.

Lemma hash_file_after_trans s1 s2 s3 :
  hash_file_after s1 s2 -> hash_file_after s2 s3 -> hash_file_after s1 s3.
Proof. unfold hash_file_after. intros [[-> ->]|H12] [[-> ->]|H23]; auto. Qed.

Lemma store_valid_hash s f c :
  ih_hash_file (store_valid s f c) = ih_hash_file s /\ ih_hash_dict (store_valid s f c) = ih_hash_dict s.
Proof. unfold store_valid. by repeat case_match. Qed.

Lemma analyse_prefix_hash s i c : ih_hash_file (analyse_prefix s i c) = Some (ih_hash_dict (analyse_prefix s i c)).
Proof.
  unfold analyse_prefix. destruct (store_valid_hash (dxl2html (hash_file_content s i) i c) i c) as [-> ->].
  unfold dxl2html. cbn [ih_hash_file ih_hash_dict].
  by destruct (store_valid_hash (hash_file_content s i) i c) as [-> ->].
Qed.

Lemma inc_loop_hash F f l s :
  (forall i c s, hash_file_after s (ih_state_of (F i c s))) ->
  hash_file_after s (ih_state_of (inc_loop F f l s)).
Proof.
  intros HF. revert s. induction l as [|i l IH]; intros s; cbn [inc_loop]; [apply hash_file_after_refl|].
  assert (Hs : hash_file_after s (ih_state_of (inc_step F f s i))).
  { assert (Hr : hash_file_after s (record_include s i f)) by (by left).
    unfold inc_step. repeat case_match; cbn [ih_state_of]; try exact Hr;
      (eapply hash_file_after_trans; [exact Hr|apply HF]). }
  destruct (inc_step F f s i) as [s'|s' e]; [|done].
  eapply hash_file_after_trans; [exact Hs|apply IH].
Qed.


(** In the complete mode, when every file reached includes some
    file (the includes form a cycle), [__includes_dxl2html] only stops
    at the recursion limit: it makes at least [depth + 1] visits, for
    every depth. *)
Theorem complete_cycle_limit (G : string -> list string) (nodes : list string) d a vd s :
  complete = true ->
  (forall f, f ∈ nodes -> vinc f = Some (G f) /\ G f <> [] /\ Forall (fun b => b ∈ nodes) (G f)) ->
  a ∈ nodes -> vd !! a = Some (G a) ->
  ih_count_includes s + S d <= ih_count_includes (includes_dxl2html d vd a s).
Proof.
  intros Hc HG Ha Hvd.
  rewrite (complete_count Hc G nodes (fun f Hf => conj (proj1 (HG f Hf)) (proj2 (proj2 (HG f Hf)))) d a vd s Ha Hvd).
  pose proof (npaths_cycle G nodes d a (fun f Hf => proj2 (HG f Hf)) Ha). lia.
Qed.

(** After [__includes_dxl2html], [hash_content.txt] is either
    untouched or the pickle of [self.__hash_content_dict], the hashes of
    this run only: the hashes an earlier run stored are lost as soon as
    one include is analysed. *)
Theorem hash_file_this_run depth : forall vd f s, hash_file_after s (includes_dxl2html depth vd f s).
Proof.
  induction depth as [|d IH]; intros vd f s; cbn [includes_dxl2html];
    destruct (vd !! f); try apply hash_file_after_refl; apply inc_loop_hash; intros i c s'; cbn [ih_state_of].
  - right. apply analyse_prefix_hash.
  - eapply hash_file_after_trans; [right; apply analyse_prefix_hash|apply IH].
Qed.

End IncludeHtml.

(** In the incremental mode, when an include [Y] has a page and a
    hash from an earlier run and another include [Z] of the same file is
    analysed first, [__compare_hash_content] raises [KeyError] on [Y]
    (the pickle now holds [Z] only); the bare [except] ends the loop, so
    the next include [W] is never visited nor recorded as included by
    [X]. *)
Example incremental_stale_hash_skips :
  let s := includes_dxl2html (fun _ => 0%N) (fun _ => []) (fun _ => false) [] ex_hash false 100
             (ih_valid ex_incremental) "K:\X.dxl" ex_incremental in
  ih_include_dict s !! "K:\W.inc" = None /\ ih_include_dict s !! "K:\Y.inc" = Some ["K:\X.dxl"]
  /\ ih_count_includes s = 2 /\ ih_hash_file s = Some {[ "K:\Z.inc" := "" ]}.
Proof. vm_compute. repeat split; reflexivity. Qed.

End IncludeHtml.

Import IncludeHtml.

(** ** Witnesses *)

Lemma includes_complete_count_witness :
  ih_count_includes (includes_dxl2html (fun _ => 0%N) diamond_read (fun _ => true) [] ex_hash true 10
                       {[ "K:\A.inc" := diamond_graph "K:\A.inc" ]} "K:\A.inc" ex_empty) = 4.
Proof.
  rewrite (includes_complete_count (fun _ => 0%N) diamond_read (fun _ => true) [] ex_hash true eq_refl
             diamond_graph ["K:\A.inc"; "K:\B.inc"; "K:\C.inc"; "K:\D.inc"]).
  - vm_compute. reflexivity.
  - intros f Hf. repeat (apply elem_of_cons in Hf as [->|Hf]);
      [..|by apply elem_of_nil in Hf]; (split; [vm_compute; reflexivity|repeat constructor]).
  - repeat constructor.
  - vm_compute. reflexivity.
Defined.

Lemma complete_cycle_limit_witness :
  ih_count_includes ex_empty + 11
  <= ih_count_includes (includes_dxl2html (fun _ => 0%N) cycle_read (fun _ => true) [] ex_hash true 10
                          {[ "K:\A.inc" := ["K:\B.inc"] ]} "K:\A.inc" ex_empty).
Proof.
  apply (complete_cycle_limit (fun _ => 0%N) cycle_read (fun _ => true) [] ex_hash true
           cycle_graph ["K:\A.inc"; "K:\B.inc"]).
  - reflexivity.
  - intros f Hf. repeat (apply elem_of_cons in Hf as [->|Hf]);
      [..|by apply elem_of_nil in Hf]; (split; [vm_compute; reflexivity|split; [discriminate|repeat constructor]]).
  - repeat constructor.
  - vm_compute. reflexivity.
Defined.
