(* ===== verification/Menu.v ===== *)
(** * Menu: the menu roots and their directory trees

    [__make_list] keeps the configured menu roots that exist (or lie on
    drive [C] or [D]); for a root that does not exist it calls
    [self.__warn], a method [StartDoors] does not define, so the call
    raises [AttributeError] (a root found on drive [N] through the view
    path is skipped without a warning).  [make_list_spec] gives the
    result of the whole loop: the normalised kept roots, or the exception
    of the first root that is neither kept nor found.  Before a batch, [StartDoors] snapshots each root
    ([__project_dirs], [__addin_dirs], [__extra_dirs]) as a nested
    dictionary: [__make_tree] walks the root with [os.walk] and stores,
    for every directory, a dictionary from file names to full paths and
    from sub-directory names to their own dictionaries.  [__save_tree]
    pickles the list of trees; [__get_dxl_files] reads it back and
    [__dict2list] flattens each tree into the list of [.dxl] paths the
    batch checks.

    Python dictionaries are association lists here, [d[k] = v] replacing
    the value of an existing key in place and appending a new key
    ([dict_set]); [os.walk] is a [Section] variable, and [walk] gives its
    top-down result on a directory tree [dir].  [pickle.dump] followed by
    [pickle.load] returns the list it was given. *)

From S2P Require Import Prelude PyRegex DxlLexer Checks NtPath Duplicates.
Import Checks NtPath Duplicates.

Module Menu.

#[local] Set Warnings "-register-all".

(** ** Python values of the trees: strings and dictionaries *)

Inductive pyval := PStr (s : string) | PDict (es : list (string * pyval)).

(** [d[k] = v] *)
Fixpoint dict_set (k : string) (v : pyval) (es : list (string * pyval)) : list (string * pyval) :=
  match es with
  | [] => [(k, v)]
  | (k', v') :: es' => if String.eqb k' k then (k', v) :: es' else (k', v') :: dict_set k v es'
  end.

(** [dict.get(d, k)] *)
Fixpoint dict_get (k : string) (es : list (string * pyval)) : option pyval :=
  match es with
  | [] => None
  | (k', v') :: es' => if String.eqb k' k then Some v' else dict_get k es'
  end.

(** [parent = dir_path; for folder in ps: parent = dict.get(parent, folder)]
    followed by [parent[k] = v], on the tree [t] that [parent] aliases.
    [dict.get] on a string, or on the [None] it returns for a missing key,
    raises [TypeError], and so does the assignment into either. *)
Fixpoint set_path (ps : list string) (k : string) (v : pyval) (t : pyval) : py_result pyval :=
  match t with
  | PStr _ => PyRaise TypeError
  | PDict es =>
      match ps with
      | [] => PyOk (PDict (dict_set k v es))
      | f :: ps' =>
          match dict_get f es with
          | Some c => pylet c' := set_path ps' k v c in PyOk (PDict (dict_set f c' es))
          | None => PyRaise TypeError
          end
      end
  end.

(** The values [__make_tree] builds are Python dictionaries: no key twice,
    in every dictionary of the tree *)
Fixpoint wf_pyval (v : pyval) : bool :=
  match v with
  | PStr _ => true
  | PDict es => bool_decide (NoDup (map fst es)) && forallb (fun e => wf_pyval e.2) es
  end.

(** ** String helpers: [os.sep], slicing, [rstrip], [rfind], [endswith] *)

Definition sep : string := String bs EmptyString.

(** [s[n:]] *)
Fixpoint str_drop (n : nat) (s : string) : string :=
  match n, s with
  | O, _ => s
  | S n', String _ s' => str_drop n' s'
  | S _, EmptyString => EmptyString
  end.

(** [s.rstrip(os.sep)] *)
Fixpoint rstrip_sep (s : string) : string :=
  match s with
  | EmptyString => EmptyString
  | String c s' =>
      let r := rstrip_sep s' in
      if String.eqb r EmptyString && Ascii.eqb c bs then EmptyString else String c r
  end.

(** [s.rfind(os.sep)], [None] for [-1] *)
Fixpoint rfind_sep (s : string) : option nat :=
  match s with
  | EmptyString => None
  | String c s' =>
      match rfind_sep s' with
      | Some i => Some (S i)
      | None => if Ascii.eqb c bs then Some 0 else None
      end
  end.

(** [start = root_dir.rfind(os.sep) + 1] *)
Definition rfind_start (root_dir : string) : nat :=
  match rfind_sep root_dir with Some i => S i | None => 0 end.

(** [s.endswith(suffix)] *)
Definition endswith (suffix s : string) : bool :=
  (String.length suffix <=? String.length s)
  && String.eqb (str_drop (String.length s - String.length suffix) s) suffix.

(** ** [__make_tree] *)

(** One triple [(path, dirs, files)] of [os.walk] *)
Definition walk_entry : Type := string * list string * list string.

(** [folders = path[start:].split(os.sep)] with [folders[0]] replaced by
    [root_dir] when it is [os.path.basename(root_dir)] *)
Definition folders_of (root_dir : string) (start : nat) (path : string) : list string :=
  match split_on bs (str_drop start path) with
  | f0 :: fs => if String.eqb f0 (py_basename root_dir) then root_dir :: fs else f0 :: fs
  | [] => []
  end.

(** [subdir = {}; for file in files: subdir[file] = path+os.sep+file] *)
Definition subdir_of (path : string) (files : list string) : list (string * pyval) :=
  fold_left (fun es file => dict_set file (PStr (path ++ sep ++ file)%string) es) files [].

(** The body of [for path, dirs, files in os.walk(root_dir)] *)
Definition mt_step (root_dir : string) (start : nat) (acc : py_result pyval) (e : walk_entry) : py_result pyval :=
  pylet dir_path := acc in
  let '(path, _, files) := e in
  if String.prefix "K" path then
    let folders := folders_of root_dir start path in
    set_path (removelast folders) (List.last folders EmptyString) (PDict (subdir_of path files)) dir_path
  else PyOk dir_path.

Section MakeTree.

(** [os.walk] *)
Variable os_walk : string -> list walk_entry.

Definition make_tree (root_dir0 : string) : py_result pyval :=
  let root_dir := rstrip_sep root_dir0 in
  fold_left (mt_step root_dir (rfind_start root_dir)) (os_walk root_dir) (PyOk (PDict [])).

(** [pickle.dump([self.__make_tree(m) for m in dxl_menu], f)]: the list
    that is written, or the exception that stops the comprehension *)
Fixpoint save_tree (dxl_menu : list string) : py_result (list pyval) :=
  match dxl_menu with
  | [] => PyOk []
  | m :: ms => pylet t := make_tree m in pylet ts := save_tree ms in PyOk (t :: ts)
  end.

End MakeTree.

(** [__dict2list(dict_obj, dxl_files_list)]: [for k, v in
    dict_obj.iteritems()], the recursive call appending to the same list.
    It is only called on dictionaries: the [PStr] case (where [iteritems]
    would raise) is never reached. *)
Fixpoint dict2list (dict_obj : pyval) (dxl_files_list : list string) : list string :=
  match dict_obj with
  | PStr _ => dxl_files_list
  | PDict es =>
      fold_left (fun acc kv =>
                   match kv.2 with
                   | PDict _ => dict2list kv.2 acc
                   | PStr s => if endswith ".dxl" kv.1 then acc ++ [s] else acc
                   end) es dxl_files_list
  end.

(** [__get_dxl_files] on the list [pickle.load] returns *)
Definition get_dxl_files (dict_list : list pyval) : list string :=
  fold_left (fun acc d => acc ++ dict2list d []) dict_list [].

(** ** [__make_list]: the menu roots of the configuration *)

(** [os.path.normpath] on a string *)
Definition normpath_s (m : string) : string :=
  string_of_list_ascii (normpath (list_ascii_of_string m)).

Section MakeList.

(** [os.path.isdir] before, and after [clearcase.start_view_of_path(m)] *)
Variable isdir : string -> bool.
Variable view_isdir : string -> bool.

(** [__warn(msg)] (lines 248-251): [__message] prints the warning, then
    [self.__mode] is read, an attribute no code ever sets: the call
    raises [AttributeError] *)
Definition warn (msg : string) : py_result unit := PyRaise AttributeError.

(** [os.path.isdir(m)] at the second test: after the view of a root on
    drive [N] is started *)
Definition found_root (c : ascii) (m : string) : bool :=
  if Ascii.eqb c "N" then view_isdir m else isdir m.

(** One turn of [for m in menu_path]: the roots kept; [m[0]] raises
    [IndexError] on an empty path *)
Definition ml_step (otype : string) (acc : py_result (list string)) (m : string) : py_result (list string) :=
  pylet rval := acc in
  match m with
  | EmptyString => PyRaise IndexError
  | String c _ =>
      if negb (Ascii.eqb c "C" || Ascii.eqb c "D") && negb (isdir m) then
        if found_root c m then PyOk rval
        else pylet _ := warn (otype ++ " path not found: " ++ m)%string in PyOk rval
      else PyOk (rval ++ [normpath_s m])
  end.

Definition make_list (menu_path : list string) (otype : string) : py_result (list string) :=
  fold_left (ml_step otype) menu_path (PyOk []).

(** The roots [__make_list] is meant to keep: those on drive [C] or [D],
    and the existing directories *)
Definition kept_root (m : string) : bool :=
  match m with
  | EmptyString => false
  | String c _ => Ascii.eqb c "C" || Ascii.eqb c "D" || isdir m
  end.

(** The exception a root raises in the loop, if any *)
Definition ml_error (m : string) : option py_exc :=
  match m with
  | EmptyString => Some IndexError
  | String c _ => if kept_root m || found_root c m then None else Some AttributeError
  end.

End MakeList.

(** ** Directory trees and their [os.walk] *)

Inductive dir := Dir (dname : string) (dfiles : list string) (dsubs : list dir).

Definition dname_of (d : dir) : string := let '(Dir n _ _) := d in n.

(** [os.walk(p)], top-down: the directory itself, then each
    sub-directory's walk, joined with [os.sep] *)
Fixpoint walk (p : string) (d : dir) : list walk_entry :=
  let '(Dir _ fs ss) := d in
  (p, map dname_of ss, fs) :: flat_map (fun s => walk (p ++ sep ++ dname_of s)%string s) ss.

(** The dictionary [__make_tree] should build for [d] at [p] *)
Fixpoint tree_of (p : string) (d : dir) : list (string * pyval) :=
  let '(Dir _ fs ss) := d in
  map (fun f => (f, PStr (p ++ sep ++ f)%string)) fs
    ++ map (fun s => (dname_of s, PDict (tree_of (p ++ sep ++ dname_of s)%string s))) ss.

(** The [.dxl] files of [d] at [p], as full paths *)
Fixpoint dxl_files (p : string) (d : dir) : list string :=
  let '(Dir _ fs ss) := d in
  map (fun f => (p ++ sep ++ f)%string) (List.filter (endswith ".dxl") fs)
    ++ flat_map (fun s => dxl_files (p ++ sep ++ dname_of s)%string s) ss.

(** A directory as a file system has it: the names in a directory are
    distinct and hold no separator *)
Definition no_sep (s : string) : bool := negb (existsb (Ascii.eqb bs) (list_ascii_of_string s)).

Fixpoint wf_dir (d : dir) : bool :=
  let '(Dir _ fs ss) := d in
  bool_decide (NoDup (fs ++ map dname_of ss))
    && forallb no_sep (fs ++ map dname_of ss)
    && forallb wf_dir ss.

(** A menu root with a [.dxl] file, a text file and two sub-directories,
    one of them named like a DXL file *)
Definition menu_example : dir :=
  Dir "menus" ["a.dxl"; "b.txt"] [Dir "sub" ["c.dxl"] []; Dir "x.dxl" ["y.dxl"; "z.inc"] []].

(** ** Lemmas *)

(** Induction on directory trees, with the hypothesis on every
    sub-directory *)
Lemma pyval_ind' (P : pyval -> Prop) :
  (forall s, P (PStr s)) -> (forall es, Forall (fun kv => P kv.2) es -> P (PDict es)) -> forall v, P v.
Proof.
  intros Hs Hd. fix IH 1. intros [s|es]; [apply Hs|]. apply Hd.
  induction es as [|[k v] es IHes]; constructor; [apply IH | exact IHes].
Qed.

Lemma dir_ind' (P : dir -> Prop) :
  (forall n fs ss, Forall P ss -> P (Dir n fs ss)) -> forall d, P d.
Proof.
  intros H. fix IH 1. intros [n fs ss]. apply H.
  induction ss as [|s ss IHss]; constructor; [apply IH | exact IHss].
Qed.

Lemma dict_set_fresh k v es : k ∉ map fst es -> dict_set k v es = es ++ [(k, v)].
Proof.
  induction es as [|[k' v'] es IH]; intros Hk; [done|]. simpl in *.
  destruct (String.eqb_spec k' k); [set_solver|]. rewrite IH; set_solver.
Qed.

Lemma dict_get_set_same k v es : dict_get k (dict_set k v es) = Some v.
Proof.
  induction es as [|[k' v'] es IH]; cbn [dict_get dict_set]; [by rewrite String.eqb_refl|].
  destruct (String.eqb_spec k' k); cbn [dict_get]; [by subst; rewrite String.eqb_refl|].
  by rewrite (proj2 (String.eqb_neq k' k)).
Qed.

Lemma dict_set_set_same k v w es : dict_set k v (dict_set k w es) = dict_set k v es.
Proof.
  induction es as [|[k' v'] es IH]; cbn [dict_set]; [by rewrite String.eqb_refl|].
  destruct (String.eqb_spec k' k); cbn [dict_set]; [by subst; rewrite String.eqb_refl|].
  rewrite (proj2 (String.eqb_neq k' k)) by done. by rewrite IH.
Qed.

(** Setting a key below a path just set is setting it in the value set
    there: the aliasing of [parent] into [dir_path] *)
Lemma set_path_snoc ps n es k v t :
  py_bind (set_path ps n (PDict es) t) (set_path (ps ++ [n]) k v)
  = set_path ps n (PDict (dict_set k v es)) t.
Proof.
  revert t. induction ps as [|f ps IH]; intros [s|tes]; try done; simpl.
  - rewrite dict_get_set_same. simpl. by rewrite dict_set_set_same.
  - destruct (dict_get f tes) as [c|]; [|done]. rewrite <- IH.
    destruct (set_path ps n (PDict es) c) as [c1|e]; simpl; [|done].
    rewrite dict_get_set_same. destruct (set_path (ps ++ [n]) k v c1); simpl; [|done].
    by rewrite dict_set_set_same.
Qed.

Lemma mt_step_raise r st l e : fold_left (mt_step r st) l (PyRaise e) = PyRaise e.
Proof. induction l; simpl; auto. Qed.

Lemma mt_fold_bind r st l m :
  fold_left (mt_step r st) l m = py_bind m (fun t => fold_left (mt_step r st) l (PyOk t)).
Proof. destruct m; simpl; [done|]. apply mt_step_raise. Qed.

Lemma subdir_of_app p files es :
  NoDup (map fst es ++ files) ->
  fold_left (fun es file => dict_set file (PStr (p ++ sep ++ file)%string) es) files es
  = es ++ map (fun f => (f, PStr (p ++ sep ++ f)%string)) files.
Proof.
  revert es. induction files as [|f files IH]; intros es Hd; simpl; [by rewrite app_nil_r|].
  rewrite dict_set_fresh.
  - rewrite IH, <- app_assoc; [done|]. rewrite map_app, <- app_assoc. exact Hd.
  - apply NoDup_app in Hd as (_ & Hdisj & _). intros Hin. by apply (Hdisj f Hin); left.
Qed.

Lemma str_length_app (a b : string) : String.length (a ++ b) = String.length a + String.length b.
Proof. induction a; simpl; auto. Qed.

Lemma str_app_cons c (a b : string) : (String c a ++ b)%string = String c (a ++ b).
Proof. reflexivity. Qed.

Lemma str_app_nil_r (a : string) : (a ++ EmptyString)%string = a.
Proof. induction a as [|c a IH]; [done|]. by rewrite str_app_cons, IH. Qed.

Lemma str_app_assoc (a b c : string) : ((a ++ b) ++ c)%string = (a ++ b ++ c)%string.
Proof. induction a as [|x a IH]; [done|]. by rewrite !str_app_cons, IH. Qed.

Lemma str_drop_app n (a b : string) :
  n <= String.length a -> str_drop n (a ++ b) = (str_drop n a ++ b)%string.
Proof.
  revert n. induction a as [|c a IH]; intros [|n] Hn; simpl in *; try done; [lia|].
  apply IH. lia.
Qed.

Lemma split_on_nonempty c s : split_on c s <> [].
Proof. induction s as [|x s IH]; simpl; [done|]. destruct (Ascii.eqb x c), (split_on c s); done. Qed.

Lemma split_on_app_sep (a t : string) :
  split_on bs (a ++ String bs t) = split_on bs a ++ split_on bs t.
Proof.
  induction a as [|x a IH]; simpl; [by rewrite ?Ascii.eqb_refl|].
  rewrite IH. destruct (Ascii.eqb x bs); [done|].
  destruct (split_on bs a) eqn:E; [by apply split_on_nonempty in E|]. done.
Qed.

Lemma no_sep_cons c t : no_sep (String c t) = negb (Ascii.eqb c bs) && no_sep t.
Proof. unfold no_sep. simpl. by rewrite Ascii.eqb_sym, negb_orb. Qed.

Lemma split_on_no_sep t : no_sep t = true -> split_on bs t = [t].
Proof.
  induction t as [|x t IH]; [done|]. rewrite no_sep_cons. simpl.
  destruct (Ascii.eqb x bs); simpl; [done|]. intros H. by rewrite IH.
Qed.

Lemma prefix_app (s1 p x : string) : String.prefix s1 p = true -> String.prefix s1 (p ++ x) = true.
Proof.
  revert s1. induction p as [|c p IH]; intros [|a s1] H;
    simpl in *; try done; [by destruct x|].
  revert H. destruct (Ascii.ascii_dec a c); [apply IH|done].
Qed.

(** Walking into a sub-directory adds its name to [folders] *)
Lemma folders_of_snoc r st p s :
  st <= String.length p -> no_sep s = true ->
  folders_of r st (p ++ sep ++ s) = folders_of r st p ++ [s].
Proof.
  intros Hst Hs. unfold folders_of. rewrite str_drop_app by done.
  change (sep ++ s)%string with (String bs s).
  rewrite split_on_app_sep, (split_on_no_sep s Hs).
  destruct (split_on bs (str_drop st p)) as [|f0 fs] eqn:E; [by apply split_on_nonempty in E|].
  simpl. by destruct (String.eqb f0 (py_basename r)).
Qed.

(** What follows the last separator holds none *)
Lemma rfind_sep_some s i : rfind_sep s = Some i -> i < String.length s /\ no_sep (str_drop (S i) s) = true.
Proof.
  revert i. induction s as [|c s IH]; intros i; simpl; [done|].
  destruct (rfind_sep s) as [j|] eqn:E.
  - intros [= <-]. destruct (IH j eq_refl). split; [lia|done].
  - destruct (Ascii.eqb c bs); [|done]. intros [= <-]. split; [lia|].
    clear IH. induction s as [|x s IH']; simpl in *; [done|].
    destruct (rfind_sep s); [done|]. rewrite no_sep_cons.
    destruct (Ascii.eqb x bs); [done|]. by apply IH'.
Qed.

Lemma rfind_sep_none s : rfind_sep s = None -> no_sep s = true.
Proof.
  induction s as [|c s IH]; simpl; [done|]. destruct (rfind_sep s); [done|].
  rewrite no_sep_cons. destruct (Ascii.eqb c bs); [done|]. by apply IH.
Qed.

Lemma set_path_raise ps k v v' t e : set_path ps k v t = PyRaise e -> set_path ps k v' t = PyRaise e.
Proof.
  revert t. induction ps as [|f ps IH]; intros [s|es]; simpl; try done.
  destruct (dict_get f es) as [c|]; [|done].
  destruct (set_path ps k v c) eqn:E; simpl; [done|]. intros [= <-]. by rewrite (IH c E).
Qed.

(** What [walk_tree] states of one directory *)
Definition walk_ok (r : string) (st : nat) (d : dir) : Prop :=
  forall p ps n t, wf_dir d = true -> String.prefix "K" p = true -> st <= String.length p ->
  folders_of r st p = ps ++ [n] ->
  fold_left (mt_step r st) (walk p d) (PyOk t) = set_path ps n (PDict (tree_of p d)) t.

Lemma wf_dir_cons n fs ss :
  wf_dir (Dir n fs ss) = true <->
  NoDup (fs ++ map dname_of ss) /\ forallb no_sep (fs ++ map dname_of ss) = true /\ forallb wf_dir ss = true.
Proof. simpl. rewrite !andb_true_iff, bool_decide_eq_true. tauto. Qed.

(** The sub-directories of one directory, walked in turn, add their trees
    to its dictionary *)
Lemma walk_subs_fold r st p ps n (ss : list dir) :
  Forall (walk_ok r st) ss -> String.prefix "K" p = true -> st <= String.length p ->
  folders_of r st p = ps ++ [n] -> forallb wf_dir ss = true -> forallb no_sep (map dname_of ss) = true ->
  forall X t, NoDup (map fst X ++ map dname_of ss) ->
  fold_left (mt_step r st) (flat_map (fun s => walk (p ++ sep ++ dname_of s)%string s) ss)
            (set_path ps n (PDict X) t)
  = set_path ps n (PDict (X ++ map (fun s => (dname_of s, PDict (tree_of (p ++ sep ++ dname_of s)%string s))) ss)) t.
Proof.
  intros Hok HK Hst Hf. induction Hok as [|s ss Hs Hok IH]; intros Hwf Hns X t Hnd; simpl.
  { by rewrite app_nil_r. }
  apply andb_true_iff in Hwf as [Hws Hwf]. apply andb_true_iff in Hns as [Hn Hns].
  rewrite fold_left_app, (mt_fold_bind _ _ (walk _ s)).
  destruct (set_path ps n (PDict X) t) as [t1|e] eqn:E; simpl.
  - rewrite Hs; [|done|by apply prefix_app|rewrite !str_length_app; lia|by rewrite folders_of_snoc, Hf].
    pose proof (set_path_snoc ps n X (dname_of s) (PDict (tree_of (p ++ sep ++ dname_of s)%string s)) t) as Hsn.
    rewrite E in Hsn. simpl in Hsn. rewrite Hsn, dict_set_fresh.
    + rewrite IH, <- app_assoc; [done..|]. by rewrite map_app, <- app_assoc.
    + apply NoDup_app in Hnd as (_ & Hd & _). intros Hin. apply (Hd _ Hin). by left.
  - rewrite !mt_step_raise. symmetry. by apply (set_path_raise _ _ _ _ _ _ E).
Qed.

(** Walking a directory sets its tree below its parent's folders *)
Lemma walk_tree r st d : walk_ok r st d.
Proof.
  induction d as [nm fs ss IHss] using dir_ind'.
  intros p ps n t Hwf HK Hst Hf. apply wf_dir_cons in Hwf as (Hnd & Hns & Hws).
  rewrite forallb_app in Hns. apply andb_true_iff in Hns as [_ Hns].
  cbn [walk tree_of fold_left]. unfold mt_step at 2. simpl py_bind.
  rewrite HK, Hf, removelast_last, last_last.
  rewrite <- (walk_subs_fold r st p ps n ss); try done.
  - unfold subdir_of. rewrite (subdir_of_app p fs []); [done|].
    apply NoDup_app in Hnd as (? & _ & _). done.
  - rewrite map_map, map_id. by apply NoDup_app in Hnd as (? & ? & ?); apply NoDup_app.
Qed.

Lemma folders_of_root r : exists k, folders_of r (rfind_start r) r = [k] /\ rfind_start r <= String.length r.
Proof.
  unfold rfind_start, folders_of. destruct (rfind_sep r) as [i|] eqn:E.
  - destruct (rfind_sep_some r i E) as [Hi Hns]. rewrite (split_on_no_sep _ Hns).
    cbv iota beta. destruct (String.eqb _ _); eexists; (split; [reflexivity|lia]).
  - change (str_drop 0 r) with r. rewrite (split_on_no_sep _ (rfind_sep_none r E)).
    cbv iota beta. destruct (String.eqb _ _); eexists; (split; [reflexivity|lia]).
Qed.

Lemma dict2list_files p fs acc :
  fold_left (fun acc kv => match kv.2 with
                           | PDict _ => dict2list kv.2 acc
                           | PStr s => if endswith ".dxl" kv.1 then acc ++ [s] else acc
                           end) (map (fun f => (f, PStr (p ++ sep ++ f)%string)) fs) acc
  = acc ++ map (fun f => (p ++ sep ++ f)%string) (List.filter (endswith ".dxl") fs).
Proof.
  revert acc. induction fs as [|f fs IH]; intros acc; simpl; [by rewrite app_nil_r|].
  rewrite IH. destruct (endswith ".dxl" f); simpl; [by rewrite <- app_assoc|done].
Qed.

(** [__dict2list] of the tree of [d] lists the [.dxl] files of [d] *)
Lemma dict2list_tree p d acc : dict2list (PDict (tree_of p d)) acc = acc ++ dxl_files p d.
Proof.
  revert p acc. induction d as [nm fs ss IHss] using dir_ind'. intros p acc.
  cbn [dict2list tree_of dxl_files]. rewrite fold_left_app, dict2list_files, app_assoc.
  generalize (acc ++ map (fun f => (p ++ sep ++ f)%string) (List.filter (endswith ".dxl") fs)).
  induction IHss as [|s ss Hs _ IH]; intros acc'; cbn [fold_left map flat_map snd fst]; [by rewrite app_nil_r|].
  rewrite Hs, IH. by rewrite app_assoc.
Qed.

Lemma get_dxl_files_fold ts acc :
  fold_left (fun acc d => acc ++ dict2list d []) ts acc = acc ++ flat_map (fun d => dict2list d []) ts.
Proof.
  revert acc. induction ts as [|t ts IH]; intros acc; simpl; [by rewrite app_nil_r|].
  by rewrite IH, app_assoc.
Qed.

Lemma walk_paths p d : Forall (fun e => exists x, e.1.1 = (p ++ x)%string) (walk p d).
Proof.
  revert p. induction d as [nm fs ss IHss] using dir_ind'. intros p. constructor.
  { exists EmptyString. simpl. by rewrite str_app_nil_r. }
  apply Forall_flat_map. eapply Forall_impl; [exact IHss|]. intros s Hs.
  eapply Forall_impl; [apply Hs|]. intros e [x ->]. exists ((sep ++ dname_of s) ++ x)%string.
  by rewrite !str_app_assoc.
Qed.

Lemma prefix_K_cons c (s x : string) : String.prefix "K" (String c s ++ x) = String.prefix "K" (String c EmptyString).
Proof.
  rewrite str_app_cons. cbn [String.prefix].
  destruct (Ascii.ascii_dec "K"%char c); [by destruct (String.append s x)|done].
Qed.

Lemma mt_step_skip r st t path ds fs :
  String.prefix "K" path = false -> mt_step r st (PyOk t) (path, ds, fs) = PyOk t.
Proof. intros H. unfold mt_step. simpl. by rewrite H. Qed.

Lemma dict2list_single k es acc : dict2list (PDict [(k, PDict es)]) acc = dict2list (PDict es) acc.
Proof. reflexivity. Qed.

(** ** The tree of a menu root *)

(** ** The tree is a dictionary of dictionaries *)

Lemma wf_dict es :
  wf_pyval (PDict es) = true <-> NoDup (map fst es) /\ Forall (fun e => wf_pyval e.2 = true) es.
Proof. cbn [wf_pyval]. by rewrite andb_true_iff, bool_decide_eq_true, forallb_forall, List.Forall_forall. Qed.

Lemma dict_set_keys x k v es : x ∈ map fst (dict_set k v es) <-> x = k \/ x ∈ map fst es.
Proof.
  induction es as [|[k' v'] es IH]; cbn [dict_set map fst]; [set_solver|].
  destruct (String.eqb_spec k' k); subst; set_solver.
Qed.

Lemma dict_set_wf k v es :
  wf_pyval v = true -> wf_pyval (PDict es) = true -> wf_pyval (PDict (dict_set k v es)) = true.
Proof.
  rewrite !wf_dict. intros Hv [Hnd Hf]. induction es as [|[k' v'] es IH]; cbn [dict_set map fst].
  - split; repeat constructor; [set_solver|done].
  - cbn [map fst] in Hnd. rewrite NoDup_cons in Hnd. apply Forall_cons in Hf as [Hv' Hf]. destruct Hnd as [Hk' Hnd].
    destruct (String.eqb_spec k' k) as [<-|]; cbn [map fst].
    + split; [by apply NoDup_cons|by constructor].
    + destruct (IH Hnd Hf) as [IH1 IH2]. split; [|by constructor].
      apply NoDup_cons. split; [|done]. rewrite dict_set_keys. set_solver.
Qed.

Lemma dict_get_wf f es c : wf_pyval (PDict es) = true -> dict_get f es = Some c -> wf_pyval c = true.
Proof.
  rewrite wf_dict. intros [_ Hf]. induction Hf as [|[k' v'] es Hv Hf IH]; cbn [dict_get]; [done|].
  destruct (String.eqb k' f); [by intros [= <-]|done].
Qed.

Lemma set_path_wf ps k v t t' :
  wf_pyval v = true -> wf_pyval t = true -> set_path ps k v t = PyOk t' -> wf_pyval t' = true.
Proof.
  intros Hv. revert t t'. induction ps as [|f ps IH]; intros [s|es] t' Ht H; try done; simpl in H.
  - injection H as <-. by apply dict_set_wf.
  - destruct (dict_get f es) as [c|] eqn:Hc; [|done].
    destruct (set_path ps k v c) as [c'|] eqn:Hs; [|done]. injection H as <-.
    apply dict_set_wf; [|done]. apply (IH c); [|done]. by apply (dict_get_wf f es).
Qed.

Lemma subdir_of_wf path files : wf_pyval (PDict (subdir_of path files)) = true.
Proof.
  unfold subdir_of. enough (H : forall es, wf_pyval (PDict es) = true ->
    wf_pyval (PDict (fold_left (fun es file => dict_set file (PStr (path ++ sep ++ file)%string) es) files es)) = true)
    by by apply H.
  induction files as [|f files IH]; intros es Hes; [done|]. cbn [fold_left]. apply IH. by apply dict_set_wf.
Qed.

Lemma mt_fold_wf r st l t t' :
  wf_pyval t = true -> fold_left (mt_step r st) l (PyOk t) = PyOk t' -> wf_pyval t' = true.
Proof.
  revert t. induction l as [|e l IH]; intros t Ht H; cbn [fold_left] in H; [by injection H as <-|].
  destruct (mt_step r st (PyOk t) e) as [t1|] eqn:E; [|by rewrite mt_step_raise in H].
  apply (IH t1); [|done]. destruct e as [[path ds] fs]. cbn [mt_step py_bind] in E.
  destruct (String.prefix "K" path); [|by injection E as <-].
  apply (set_path_wf _ _ _ t _ (subdir_of_wf _ _) Ht E).
Qed.

Lemma make_tree_wf os_walk root0 t : make_tree os_walk root0 = PyOk t -> wf_pyval t = true.
Proof. unfold make_tree. by apply mt_fold_wf. Qed.

(** On the [os.walk] of a directory tree whose names are distinct and
    hold no separator, under a root on drive [K], [__make_tree] returns a
    dictionary with one key, the root's first folder, whose value maps
    every file to its full path and every sub-directory to its own tree. *)
Theorem make_tree_spec os_walk root0 d :
  os_walk (rstrip_sep root0) = walk (rstrip_sep root0) d ->
  String.prefix "K" (rstrip_sep root0) = true -> wf_dir d = true ->
  make_tree os_walk root0
  = PyOk (PDict [(hd EmptyString (folders_of (rstrip_sep root0) (rfind_start (rstrip_sep root0)) (rstrip_sep root0)),
                  PDict (tree_of (rstrip_sep root0) d))]).
Proof.
  unfold make_tree. set (r := rstrip_sep root0). intros Hw HK Hwf. rewrite Hw.
  destruct (folders_of_root r) as (k & Hk & Hst). rewrite Hk.
  rewrite (walk_tree r _ d r [] k (PDict [])); [done..|]. by rewrite Hk.
Qed.

(** [__get_dxl_files] on what [__save_tree] writes for a list of menu
    roots, each walked as a well-formed tree on drive [K], lists exactly
    the [.dxl] files of the trees, each by its full path, once, in some
    order (Python 2 dictionaries have no fixed order). *)
Theorem save_tree_dxl_files os_walk (menu : list (string * dir)) :
  Forall (fun md => os_walk (rstrip_sep md.1) = walk (rstrip_sep md.1) md.2
                    /\ String.prefix "K" (rstrip_sep md.1) = true /\ wf_dir md.2 = true) menu ->
  exists ts, save_tree os_walk (map fst menu) = PyOk ts
             /\ Permutation (get_dxl_files ts) (flat_map (fun md => dxl_files (rstrip_sep md.1) md.2) menu).
Proof.
  induction 1 as [|[m d] menu (Hw & HK & Hwf) _ (ts & Hts & Hp)]; [by exists []|].
  eexists. cbn [save_tree map fst snd]. rewrite (make_tree_spec os_walk m d Hw HK Hwf), Hts.
  split; [done|]. unfold get_dxl_files in *. rewrite get_dxl_files_fold in *.
  cbn [flat_map app fst snd] in *. rewrite dict2list_single, dict2list_tree.
  by apply Permutation_app_head.
Qed.

(** Every tree that [__save_tree] pickles, for any menu roots and
    whatever [os.walk] returns, is a dictionary whose values are paths or
    dictionaries of the same kind, with no key twice in any of them. *)
Theorem save_tree_wf os_walk menu ts :
  save_tree os_walk menu = PyOk ts -> Forall (fun t => wf_pyval t = true) ts.
Proof.
  revert ts. induction menu as [|m menu IH]; intros ts H; cbn [save_tree] in H; [by injection H as <-|].
  destruct (make_tree os_walk m) as [t|] eqn:Ht; [|done]. cbn [py_bind] in H.
  destruct (save_tree os_walk menu) as [ts'|]; [|done]. injection H as <-.
  constructor; [by apply (make_tree_wf os_walk m)|by apply IH].
Qed.

(** [__make_tree] keeps nothing of a root off drive [K] *)
Lemma make_tree_not_K d root0 :
  String.prefix "K" (rstrip_sep root0) = false -> rstrip_sep root0 <> EmptyString ->
  make_tree (fun r => walk r d) root0 = PyOk (PDict []).
Proof.
  unfold make_tree. set (r := rstrip_sep root0). intros HK Hne.
  assert (Hall : Forall (fun e => String.prefix "K" e.1.1 = false) (walk r d)).
  { eapply Forall_impl; [apply walk_paths|]. intros e [x ->].
    destruct r as [|c r']; [done|]. by rewrite prefix_K_cons, <- (prefix_K_cons c r' EmptyString), str_app_nil_r. }
  generalize (PDict []). induction Hall as [|[[path ds] fs] l Hp _ IH]; intros t; [done|].
  cbn [fold_left]. by rewrite mt_step_skip.
Qed.

Lemma ml_step_raise isdir view_isdir otype l e :
  fold_left (ml_step isdir view_isdir otype) l (PyRaise e) = PyRaise e.
Proof. induction l; simpl; auto. Qed.

Lemma make_list_fold isdir view_isdir otype menu r :
  fold_left (ml_step isdir view_isdir otype) menu (PyOk r)
  = match head (omap (ml_error isdir view_isdir) menu) with
    | None => PyOk (r ++ map normpath_s (List.filter (kept_root isdir) menu))
    | Some e => PyRaise e
    end.
Proof.
  revert r. induction menu as [|m menu IH]; intros r; simpl; [by rewrite app_nil_r|].
  destruct m as [|c m']; [apply ml_step_raise|]. unfold ml_error at 1, kept_root at 1 2.
  destruct (Ascii.eqb c "C" || Ascii.eqb c "D"), (isdir (String c m')); simpl;
    try (rewrite IH; simpl; by rewrite <- app_assoc).
  destruct (found_root isdir view_isdir c (String c m')); simpl; [apply IH|apply ml_step_raise].
Qed.

Lemma ml_error_nonempty isdir view_isdir m e :
  m <> EmptyString -> ml_error isdir view_isdir m = Some e -> e = AttributeError.
Proof. destruct m as [|c m']; [done|]. simpl. intros _. case_match; congruence. Qed.

Lemma head_omap_nonempty isdir view_isdir menu m :
  Forall (fun m => m <> EmptyString) menu -> m ∈ menu -> ml_error isdir view_isdir m <> None ->
  head (omap (ml_error isdir view_isdir) menu) = Some AttributeError.
Proof.
  induction 1 as [|m' menu Hm' _ IH]; [by intros ?%elem_of_nil|].
  intros Hin He. simpl. destruct (ml_error isdir view_isdir m') as [e|] eqn:E.
  - simpl. f_equal. by apply (ml_error_nonempty isdir view_isdir m').
  - apply elem_of_cons in Hin as [->|Hin]; [done|]. by apply IH.
Qed.

Lemma rstrip_sep_cons c s : Ascii.eqb c bs = false -> rstrip_sep (String c s) = String c (rstrip_sep s).
Proof. intros H. simpl. by rewrite H, andb_false_r. Qed.

(** A menu root on drive [C] or [D] is kept by [__make_list] with no
    test that it exists, and then [__make_tree] gives it an empty tree:
    none of its files is ever checked, and nothing warns about it. *)
Theorem c_drive_menu_empty isdir view_isdir otype d c s :
  (Ascii.eqb c "C" || Ascii.eqb c "D") = true -> normpath_s (String c s) = String c s ->
  make_list isdir view_isdir [String c s] otype = PyOk [String c s]
  /\ make_tree (fun r => walk r d) (String c s) = PyOk (PDict []).
Proof.
  intros Hc Hn. split.
  - unfold make_list. simpl. rewrite Hc. simpl. by rewrite Hn.
  - assert (Hb : Ascii.eqb c bs = false) by (destruct (Ascii.eqb_spec c bs) as [->|]; [vm_compute in Hc; discriminate|reflexivity]).
    apply make_tree_not_K; rewrite rstrip_sep_cons by exact Hb; [|done].
    rewrite <- (str_app_nil_r (String c _)), prefix_K_cons.
    cbn [String.prefix]. destruct (Ascii.ascii_dec "K"%char c); [subst; done|done].
Qed.

(** [__make_list] keeps, in order and normalised, exactly the roots
    on drive [C] or [D] and the roots that are directories before any
    ClearCase view is started: a root on drive [N] that its view makes
    available is dropped (and silently); any other root that is not a
    directory ends the loop with the exception [__warn] raises, an empty
    root with [IndexError]. *)
Theorem make_list_spec isdir view_isdir menu otype :
  make_list isdir view_isdir menu otype
  = match head (omap (ml_error isdir view_isdir) menu) with
    | None => PyOk (map normpath_s (List.filter (kept_root isdir) menu))
    | Some e => PyRaise e
    end.
Proof. apply make_list_fold. Qed.

(** A configured root that is neither on drive [C] or [D], nor a
    directory, nor made one by its ClearCase view makes [__make_list]
    raise [AttributeError]: [__warn] never returns. *)
Theorem make_list_missing_root isdir view_isdir menu otype m :
  Forall (fun m => m <> EmptyString) menu -> m ∈ menu -> ml_error isdir view_isdir m <> None ->
  make_list isdir view_isdir menu otype = PyRaise AttributeError.
Proof. intros Hne Hin He. rewrite make_list_spec. by rewrite (head_omap_nonempty _ _ _ m). Qed.

End Menu.

Import Menu.

(** ** Witnesses *)

Lemma make_tree_spec_witness :
  wf_dir menu_example = true
  /\ make_tree (fun r => walk r menu_example) "K:\menus\"
     = PyOk (PDict [("K:\menus", PDict (tree_of "K:\menus" menu_example))]).
Proof.
  split; [vm_compute; reflexivity|].
  rewrite (make_tree_spec (fun r => walk r menu_example) "K:\menus\" menu_example);
    [vm_compute; reflexivity|reflexivity|vm_compute; reflexivity|vm_compute; reflexivity].
Defined.

Lemma save_tree_dxl_files_witness :
  exists ts, save_tree (fun r => walk r menu_example) ["K:\menus\"] = PyOk ts
             /\ Permutation (get_dxl_files ts) ["K:\menus\a.dxl"; "K:\menus\sub\c.dxl"; "K:\menus\x.dxl\y.dxl"].
Proof.
  destruct (save_tree_dxl_files (fun r => walk r menu_example) [("K:\menus\", menu_example)]) as (ts & H1 & H2).
  { constructor; [|constructor]. split; [reflexivity|split; vm_compute; reflexivity]. }
  exists ts. split; [exact H1|]. eapply Permutation_trans; [exact H2|]. vm_compute. reflexivity.
Defined.

Lemma save_tree_wf_witness :
  Forall (fun t => wf_pyval t = true)
    (match save_tree (fun r => [(r, [], ["a.dxl"; "a.dxl"]); (r ++ "\sub", [], ["b.dxl"])]%string) ["K:\m"] with
     | PyOk ts => ts | PyRaise _ => [] end).
Proof.
  apply (save_tree_wf (fun r => [(r, [], ["a.dxl"; "a.dxl"]); (r ++ "\sub", [], ["b.dxl"])]%string) ["K:\m"]).
  vm_compute. reflexivity.
Defined.

Lemma c_drive_menu_empty_witness :
  make_list (fun _ => false) (fun _ => false) ["C:\DXL\menus"] "projects" = PyOk ["C:\DXL\menus"]
  /\ make_tree (fun r => walk r menu_example) "C:\DXL\menus" = PyOk (PDict []).
Proof. apply (c_drive_menu_empty (fun _ => false) (fun _ => false) "projects" menu_example "C"%char ":\DXL\menus"); vm_compute; reflexivity. Defined.

Lemma make_list_missing_root_witness :
  make_list (fun _ => false) (fun _ => true) ["N:\views\menus"; "K:\DXL\menus"] "addins" = PyRaise AttributeError.
Proof.
  apply (make_list_missing_root _ _ _ _ "K:\DXL\menus");
    [repeat constructor; discriminate|right; left|vm_compute; discriminate].
Defined.
