(* ===== verification/CmdLine.v ===== *)
(** * CmdLine: the command line of [dxl_scan.py]

    [StartDoors.__init__] builds an [ArgParser] (a wrapper of
    [argparse.ArgumentParser] with [-h] and [-v]) and sets
    [__ini_file]; [__parse_args] calls [__define_args], which declares
    the six options of the program through [ArgParser.add_argument] (the
    suffix of a long option name gives its action: ["="] stores a value,
    ["=[]"] appends one, none is a flag), parses the arguments and sets,
    for each key of the namespace, the attribute [_StartDoors__<key>]
    with ['-'] replaced by ['_'].

    [ArgParse] is the part of [argparse] of Python 2.7 these calls use,
    written after [Lib/argparse.py]: [_check_conflict], the defaults of
    the namespace, [_parse_optional] and [_get_option_tuples] (exact
    option strings, [--opt=value], the prefixes of long options, [-xVALUE]
    and the chains [-cd] of short flags, negative numbers), the pattern
    of [--], [consume_optional] with [nargs=None] and [nargs=0],
    [_get_values] (which removes the first ['--']), the [store],
    [append], [store_true], [help] and [version] actions, the check of
    the required options and the error on arguments left over.  An error
    of the parser is [Exit 2] ([parser.error]); [-h] and [-v] are
    [Exit 0]; the texts printed are not followed.  Positional arguments,
    [nargs] other than [None] and [0], types, choices and mutually
    exclusive groups are not used by the program and not modelled.

    [CmdLine] holds the code of [dxl_scan.py]: [ArgParser.__init__],
    [ArgParser.add_argument], [ArgParser.parse], [StartDoors.__init__]
    (the attributes it sets), [__define_args] and [__parse_args]. *)

From S2P Require Import Prelude PyRegex DxlLexer Checks NtPath Menu.
Import PyRegex DxlLexer Checks NtPath Menu.

Module ArgParse.
#[local] Set Warnings "-register-all".
Local Open Scope string_scope.

(** ** Actions and the values of a namespace *)

Inductive action_kind := Store | Append | StoreTrue | Help | Version (version : string).

(** The values the namespace holds: [None], a [str], a [bool], a [list] *)
Inductive pyarg := ANone | AStr (s : string) | ABool (b : bool) | AList (l : list pyarg).

(** [argparse.SUPPRESS] as a [dest] *)
Definition suppress : string := "==SUPPRESS==".

Record action := Action {
  option_strings : list string;
  dest : string;
  kind : action_kind;
  default : option pyarg;   (** [None] for [default=SUPPRESS] *)
  required : bool;
  help : string
}.

(** [nargs=0]: the actions that take no argument *)
Definition nargs0 (a : action) : bool :=
  match kind a with Store | Append => false | _ => true end.

(** A parser: its actions, in the order they were added (an argument
    group adds to the actions of its parser) *)
Definition parser : Type := list action.

(** [ArgumentParser(add_help=True)] *)
Definition help_action : action :=
  Action ["-h"; "--help"] suppress Help None false "show this help message and exit".
Definition new_parser : parser := [help_action].

(** [self._option_string_actions] *)
Definition option_actions (p : parser) : list (string * action) :=
  flat_map (fun a => map (fun o => (o, a)) (option_strings a)) p.

Definition lookup_option (p : parser) (o : string) : option action :=
  snd <$> List.find (fun oa => String.eqb oa.1 o) (option_actions p).

Definition taken (p : parser) (o : string) : bool :=
  match lookup_option p o with Some _ => true | None => false end.

(** [container.add_argument(...)]: [_check_conflict] raises
    [ArgumentError] on an option string already taken *)
Definition add_action (p : parser) (a : action) : py_result parser :=
  if existsb (taken p) (option_strings a) then PyRaise ArgumentError else PyOk (app p [a]).

(** The invariant [_check_conflict] keeps: each action's option strings
    were free among the actions added before it *)
Fixpoint cf_from (seen p : parser) : bool :=
  match p with
  | [] => true
  | a :: p' => negb (existsb (taken seen) (option_strings a)) && cf_from (app seen [a]) p'
  end.

Definition conflict_free (p : parser) : bool := cf_from [] p.

(** ** Classifying the argument strings *)

(** [s.split('=', 1)] when ['='] is in [s] *)
Fixpoint split_eq (s : string) : option (string * string) :=
  match s with
  | EmptyString => None
  | String c r =>
      if Ascii.eqb c "=" then Some (EmptyString, r)
      else option_map (fun ab => (String c ab.1, ab.2)) (split_eq r)
  end.

Definition digits (s : string) : bool := forallb is_digit (list_ascii_of_string s).

(** [re.compile(r'^-\d+$|^-\d*\.\d+$').match(s)]; [$] also matches
    before a final newline *)
Definition negative_number (s0 : string) : bool :=
  let s := if endswith (String nl EmptyString) s0 then substring 0 (String.length s0 - 1) s0 else s0 in
  match s with
  | String c r =>
      Ascii.eqb c "-" &&
      ((negb (String.eqb r EmptyString) && digits r)
       || match split_on "." r with [a; b] => digits a && negb (String.eqb b EmptyString) && digits b | _ => false end)
  | EmptyString => false
  end.

(** [self._has_negative_number_optionals] *)
Definition has_negative_number_optionals (p : parser) : bool :=
  existsb (fun oa => negative_number oa.1) (option_actions p).

(** An option tuple: the action, the option string, the explicit argument *)
Definition otuple : Type := action * string * option string.

(** [_get_option_tuples(option_string)], on the strings of two or more
    characters starting with ['-'] that [_parse_optional] gives it *)
Definition option_tuples (p : parser) (s : string) : list otuple :=
  match s with
  | String "-" (String "-" _) =>
      let '(prefix, explicit) := match split_eq s with Some (a, b) => (a, Some b) | None => (s, None) end in
      map (fun oa => (oa.2, oa.1, explicit)) (List.filter (fun oa => String.prefix prefix oa.1) (option_actions p))
  | String "-" (String c r) =>
      let short := String "-" (String c EmptyString) in
      omap (fun oa => if String.eqb oa.1 short then Some (oa.2, oa.1, Some r)
                      else if String.prefix s oa.1 then Some (oa.2, oa.1, None) else None)
           (option_actions p)
  | _ => []
  end.

(** What [_parse_optional] makes of an argument string: a positional
    (['A']), an option (['O'], with no action when it is unknown), or
    the error of an ambiguous prefix *)
Inductive popt := PosA | Opt (t : option otuple) | Ambiguous.

Definition parse_optional (p : parser) (s : string) : popt :=
  match s with
  | EmptyString => PosA
  | String c _ =>
      if negb (Ascii.eqb c "-") then PosA else
      match lookup_option p s with
      | Some a => Opt (Some (a, s, None))
      | None =>
          if (String.length s =? 1)%nat then PosA else
          match match split_eq s with
                | Some (o, e) => option_map (fun a => (a, o, Some e)) (lookup_option p o)
                | None => None
                end with
          | Some t => Opt (Some t)
          | None =>
              match option_tuples p s with
              | [t] => Opt (Some t)
              | _ :: _ :: _ => Ambiguous
              | [] =>
                  if negative_number s && negb (has_negative_number_optionals p) then PosA
                  else if py_in " " s then PosA else Opt None
              end
          end
      end
  end.

(** The pattern of the arguments: ['-'] for the first ['--'], ['A']
    for every string after it *)
Inductive arg_class := ClsA | ClsDash | ClsO (t : option otuple).

(** The loop that builds [arg_string_pattern_parts]; [None] when
    [_parse_optional] calls [self.error] on an ambiguous prefix *)
Fixpoint classify (p : parser) (args : list string) : option (list (string * arg_class)) :=
  match args with
  | [] => Some []
  | a :: r =>
      if String.eqb a "--" then Some ((a, ClsDash) :: map (fun b => (b, ClsA)) r)
      else match parse_optional p a with
           | Ambiguous => None
           | PosA => cons (a, ClsA) <$> classify p r
           | Opt t => cons (a, ClsO t) <$> classify p r
           end
  end.

(** ** Consuming the arguments *)

Record pstate := PS {
  ns : gmap string pyarg;            (** the namespace *)
  seen : list (list string);         (** [seen_actions], by option strings *)
  extras : list string               (** the strings left over *)
}.

Inductive pout := PState (st : pstate) | PExit (code : nat) (msg : string) | PRaise (e : py_exc).

Definition after (o : pout) (k : pstate -> pout) : pout :=
  match o with PState st => k st | x => x end.

Fixpoint remove_first (x : string) (l : list string) : list string :=
  match l with [] => [] | y :: l' => if String.eqb x y then l' else y :: remove_first x l' end.

(** [_get_values] for [nargs=None]: [arg_strings.remove('--')], then the
    single string, or the list of what is left *)
Definition get_value (strs : list string) : pyarg :=
  match remove_first "--" strs with [v] => AStr v | l => AList (map AStr l) end.

(** [take_action(action, argument_strings)] *)
Definition take_action (st : pstate) (a : action) (strs : list string) : pout :=
  let st := PS (ns st) (option_strings a :: seen st) (extras st) in
  match kind a with
  | Store => PState (PS (<[dest a := get_value strs]> (ns st)) (seen st) (extras st))
  | Append =>
      (** [_copy.copy(_ensure_value(namespace, self.dest, []))] *)
      match ns st !! dest a with
      | None | Some ANone => PState (PS (<[dest a := AList [get_value strs]]> (ns st)) (seen st) (extras st))
      | Some (AList l) => PState (PS (<[dest a := AList (app l [get_value strs])]> (ns st)) (seen st) (extras st))
      | Some _ => PRaise AttributeError
      end
  | StoreTrue => PState (PS (<[dest a := ABool true]> (ns st)) (seen st) (extras st))
  | Help => PExit 0 "help"
  | Version v => PExit 0 v
  end.

Fixpoint take_all (st : pstate) (acts : list (action * list string)) : pout :=
  match acts with
  | [] => PState st
  | (a, strs) :: acts' => after (take_action st a strs) (fun st' => take_all st' acts')
  end.

(** How the loop of [consume_optional] on an explicit argument ends:
    with the action that takes it, with an action that takes the
    following strings, or with an error *)
Inductive chain_end := ChainArg (a : action) (v : string) | ChainNext (a : action) | ChainErr | ChainExc (e : py_exc).

(** The [while True] loop of [consume_optional] while [explicit_arg is
    not None]: a flag given an explicit argument [-cd] is taken with no
    argument and the rest is read as the option [-d] (when [explicit_arg[1:]]
    is empty, [None]); an argument after [--flag=] is ignored, an error *)
Fixpoint chain (p : parser) (a : action) (o : string) (e : string) : list (action * list string) * chain_end :=
  if negb (nargs0 a) then ([], ChainArg a e) else
  match o with
  | String c0 (String c1 _) =>
      if Ascii.eqb c1 "-" then ([], ChainErr) else
      match e with
      | EmptyString => ([], ChainExc IndexError)
      | String c r =>
          let o' := String c0 (String c EmptyString) in
          match lookup_option p o' with
          | None => ([], ChainErr)
          | Some a' =>
              let '(acts, fin) := match r with EmptyString => ([], ChainNext a') | _ => chain p a' o' r end in
              ((a, []) :: acts, fin)
          end
      end
  | _ => ([], ChainExc IndexError)
  end.

(** The loop of [_parse_known_args]: the strings that are no option go
    to [extras]; an option takes its actions through [consume_optional],
    an action with [nargs=None] the strings the pattern [-*A-*] matches
    after it (at most one ['-'] occurs in a pattern, the first ['--']) *)
Fixpoint consume (p : parser) (l : list (string * arg_class)) (st : pstate) : pout :=
  let extra s st := PS (ns st) (seen st) (app (extras st) [s]) in
  let next acts a r :=
    if nargs0 a then after (take_all st (app acts [(a, [])])) (consume p r)
    else match r with
         | (y, ClsA) :: (z, ClsDash) :: r' => after (take_all st (app acts [(a, [y; z])])) (consume p r')
         | (y, ClsA) :: r' => after (take_all st (app acts [(a, [y])])) (consume p r')
         | (y, ClsDash) :: (z, ClsA) :: (w, ClsDash) :: r' => after (take_all st (app acts [(a, [y; z; w])])) (consume p r')
         | (y, ClsDash) :: (z, ClsA) :: r' => after (take_all st (app acts [(a, [y; z])])) (consume p r')
         | _ => PExit 2 "expected one argument"
         end in
  match l with
  | [] => PState st
  | (s, ClsA) :: r | (s, ClsDash) :: r | (s, ClsO None) :: r => consume p r (extra s st)
  | (s, ClsO (Some (a, o, None))) :: r => next [] a r
  | (s, ClsO (Some (a, o, Some e))) :: r =>
      match chain p a o e with
      | (acts, ChainArg a' v) => after (take_all st (app acts [(a', [v])])) (consume p r)
      | (acts, ChainNext a') => next acts a' r
      | (_, ChainErr) => PExit 2 "ignored explicit argument"
      | (_, ChainExc x) => PRaise x
      end
  end.

(** The namespace before the loop: [setattr(namespace, action.dest,
    action.default)] for each action, unless its dest or its default is
    [SUPPRESS] or the attribute is already set *)
Definition init_ns (p : parser) : gmap string pyarg :=
  fold_left (fun m a =>
               if String.eqb (dest a) suppress then m else
               match default a, m !! dest a with Some v, None => <[dest a := v]> m | _, _ => m end) p ∅.

Inductive outcome := Parsed (n : gmap string pyarg) | Exit (code : nat) (msg : string) | Raised (e : py_exc).

Definition seen_action (st : pstate) (a : action) : bool :=
  bool_decide (option_strings a ∈ seen st).

(** [parser.parse_args(args)]: [parse_known_args], then the error on
    the strings left over *)
Definition parse_args (p : parser) (args : list string) : outcome :=
  match classify p args with
  | None => Exit 2 "ambiguous option"
  | Some l =>
      match consume p l (PS (init_ns p) [] []) with
      | PExit c m => Exit c m
      | PRaise e => Raised e
      | PState st =>
          match List.find (fun a => required a && negb (seen_action st a)) p with
          | Some a => Exit 2 ("argument " ++ String.concat "/" (option_strings a) ++ " is required")
          | None =>
              match extras st with
              | [] => Parsed (ns st)
              | xs => Exit 2 ("unrecognized arguments: " ++ String.concat " " xs)
              end
          end
      end
  end.

End ArgParse.

Import ArgParse.

Module CmdLine.
Local Open Scope string_scope.

(** ** [class ArgParser] *)

(** [ArgParser.__init__(version)]: the parser, [-h] included, and
    [add_argument('-v', '--version', action='version', version=version)] *)
Definition arg_parser (version : string) : py_result parser :=
  add_action new_parser
    (Action ["-v"; "--version"] suppress (Version version) None false "show program's version number and exit").

(** [ArgParser.add_argument(long_opt, desc, short_opt, required, default)];
    [default == None] is [ANone] *)
Definition add_argument (p : parser) (long_opt desc : string) (short_opt : option string) (required : bool)
  (default : pyarg) : py_result parser :=
  let n := String.length long_opt in
  let '(action, long_opt, default) :=
    if endswith "=" long_opt then (Store, substring 0 (n - 1) long_opt, default)
    else if endswith "=[]" long_opt then
      (Append, substring 0 (n - 3) long_opt, match default with ANone => AList [] | d => d end)
    else (StoreTrue, long_opt, match default with ANone => ABool false | d => d end) in
  pylet short_opt := match short_opt with
                     | Some (String _ _ as s) => PyOk s
                     | _ => match long_opt with String c _ => PyOk (String c EmptyString) | EmptyString => PyRaise IndexError end
                     end in
  add_action p (Action ["-" ++ short_opt; "--" ++ long_opt] long_opt action (Some default) required desc).

(** [ArgParser.parse(args)] *)
Definition parse (p : parser) (args : list string) : outcome := parse_args p args.

(** ** [class StartDoors] *)

(** [__VERSION_NUMBER] *)
Definition version_number : string := "1.0".

(** [__ini_file = os.path.splitext(self.__PROGRAM_NAME)[0]+".ini"] *)
Definition ini_file_of (program_name : string) : string :=
  string_of_list_ascii (splitext (list_ascii_of_string program_name)).1 ++ ".ini".

(** The attributes [__init__] sets that hold values, by their mangled
    names *)
Definition init_attrs (program_name : string) : gmap string pyarg :=
  <["_StartDoors__logfile" := AStr EmptyString]>
  (<["_StartDoors__temp_directory" := ANone]>
  (<["_StartDoors__with_traceback" := ABool true]>
  (<["_StartDoors__database" := ANone]>
  (<["_StartDoors__ini_file" := AStr (ini_file_of program_name)]> ∅)))).

(** [__define_args] *)
Definition define_args (ini_file : string) (p : parser) : py_result parser :=
  pylet p := add_argument p "database=" "specify database" None true ANone in
  pylet p := add_argument p "ini-file="
               ("read the file .ini and add dxl menus and dxl addins (default: " ++ ini_file ++ ")")
               None false (AStr ini_file) in
  pylet p := add_argument p "extra-directory=[]" "scan the specified director(y/ies)" None false ANone in
  pylet p := add_argument p "scan-file=[]" "scan the specified dxl file(s)" None false ANone in
  pylet p := add_argument p "complete"
               "scan files and all includes from scratch; the last result directory is saved" None false ANone in
  add_argument p "output=" "custom location for results directory, default to CODE/DOORS_TOOLS/dxl_scan_result"
    None false ANone.

(** [self.__ARG_PARSER] once [__define_args] ran *)
Definition arg_parser_defined (ini_file : string) : py_result parser :=
  pylet p0 := arg_parser version_number in define_args ini_file p0.

(** The options of the program, as [--help] lists them *)
Definition opt_version : action :=
  Action ["-v"; "--version"] suppress (Version version_number) None false "show program's version number and exit".
Definition opt_database : action := Action ["-d"; "--database"] "database" Store (Some ANone) true "specify database".
Definition opt_ini_file (ini_file : string) : action :=
  Action ["-i"; "--ini-file"] "ini-file" Store (Some (AStr ini_file)) false
    ("read the file .ini and add dxl menus and dxl addins (default: " ++ ini_file ++ ")").
Definition opt_extra_directory : action :=
  Action ["-e"; "--extra-directory"] "extra-directory" Append (Some (AList [])) false "scan the specified director(y/ies)".
Definition opt_scan_file : action :=
  Action ["-s"; "--scan-file"] "scan-file" Append (Some (AList [])) false "scan the specified dxl file(s)".
Definition opt_complete : action :=
  Action ["-c"; "--complete"] "complete" StoreTrue (Some (ABool false)) false
    "scan files and all includes from scratch; the last result directory is saved".
Definition opt_output : action :=
  Action ["-o"; "--output"] "output" Store (Some ANone) false
    "custom location for results directory, default to CODE/DOORS_TOOLS/dxl_scan_result".

Definition cmdline_options (ini_file : string) : parser :=
  [help_action; opt_version; opt_database; opt_ini_file ini_file; opt_extra_directory; opt_scan_file; opt_complete;
   opt_output].

(** A command line written option by option, with the short options *)
Record options := Options {
  o_database : string;
  o_ini_file : option string;
  o_extra_directory : list string;
  o_scan_file : list string;
  o_complete : bool;
  o_output : option string
}.

Definition render (o : options) : list string :=
  app ["-d"; o_database o]
  (app (from_option (fun i => ["-i"; i]) [] (o_ini_file o))
  (app (concat (map (fun e => ["-e"; e]) (o_extra_directory o)))
  (app (concat (map (fun f => ["-s"; f]) (o_scan_file o)))
  (app (if o_complete o then ["-c"] else [])
       (from_option (fun v => ["-o"; v]) [] (o_output o)))))).

(** [var_name = key.replace("-", "_").lower()], and the attribute
    [setattr] sets: ["_%s__%s" % (self.__class__.__name__, var_name)] *)
Definition attr_name (key : string) : string :=
  "_StartDoors__" ++ py_lower (replace_char "-" "_" key).

(** [for key, value in opts.__dict__.items(): setattr(...)] *)
Definition set_attrs (attrs : gmap string pyarg) (opts : gmap string pyarg) : gmap string pyarg :=
  fold_left (fun acc kv => <[attr_name kv.1 := kv.2]> acc) (map_to_list opts) attrs.

(** How [__parse_args] ends: the attributes, an exit of the parser, or
    an exception *)
Inductive start := Started (attrs : gmap string pyarg) | Exited (code : nat) (msg : string) | Crashed (e : py_exc).

(** [__parse_args(args)] on the object [__init__] built *)
Definition parse_args_self (program_name : string) (args : list string) : start :=
  let attrs := init_attrs program_name in
  match arg_parser_defined (ini_file_of program_name) with
  | PyRaise e => Crashed e
  | PyOk p =>
      match parse p args with
      | Parsed opts => Started (set_attrs attrs opts)
      | Exit c m => Exited c m
      | Raised e => Crashed e
      end
  end.

End CmdLine.

Import CmdLine.

(** ** The combinators of the parser *)

Lemma after_after o k1 k2 : after (after o k1) k2 = after o (fun st => after (k1 st) k2).
Proof. by destruct o. Qed.

Lemma after_ret o : after o PState = o.
Proof. by destruct o. Qed.

Lemma after_ext o k1 k2 : (forall st, k1 st = k2 st) -> after o k1 = after o k2.
Proof. destruct o; simpl; auto. Qed.

Lemma take_all_app st l1 l2 : take_all st (app l1 l2) = after (take_all st l1) (fun st' => take_all st' l2).
Proof.
  revert st. induction l1 as [|[a strs] l1 IH]; intros st; [done|].
  simpl. rewrite after_after. apply after_ext. intros st'. apply IH.
Qed.

(** The table [__define_args] builds *)
Lemma define_args_table ini : arg_parser_defined ini = PyOk (cmdline_options ini).
Proof. vm_compute. reflexivity. Qed.

Lemma take_all_one st a strs k : after (take_all st [(a, strs)]) k = after (take_action st a strs) k.
Proof. simpl. rewrite after_after. by apply after_ext. Qed.

(** [_get_values] on one string that is not ['--'] *)
Lemma get_value_one v : String.eqb v "--" = false -> get_value [v] = AStr v.
Proof. intros H. unfold get_value. cbn [remove_first]. by rewrite String.eqb_sym, H. Qed.

(** A string that does not start with ['-'] is a positional, not ['--'] *)
Lemma plain_not_dashdash v : String.prefix "-" v = false -> String.eqb v "--" = false.
Proof. intros H. destruct (String.eqb_spec v "--") as [->|]; [discriminate|done]. Qed.

Lemma prefix_dash_cons s : String.prefix "-" (String "-" s) = true.
Proof. by destruct s. Qed.

Lemma prefix_dash_inv c s : String.prefix "-" (String c s) = true -> c = "-"%char.
Proof.
  intros H. change (match Ascii.ascii_dec "-" c with left _ => String.prefix "" s | right _ => false end = true) in H.
  destruct (Ascii.ascii_dec "-"%char c); congruence.
Qed.

Lemma parse_optional_plain p v : String.prefix "-" v = false -> parse_optional p v = PosA.
Proof.
  destruct v as [|c v']; [done|]. intros H. unfold parse_optional.
  destruct (Ascii.eqb_spec c "-"%char) as [->|_]; [by rewrite prefix_dash_cons in H|reflexivity].
Qed.

Lemma parse_optional_exact p s a :
  String.prefix "-" s = true -> lookup_option p s = Some a -> parse_optional p s = Opt (Some (a, s, None)).
Proof.
  destruct s as [|c s']; [done|]. intros H Hl. unfold parse_optional.
  apply prefix_dash_inv in H as ->. by rewrite Hl.
Qed.

#[export] Hint Resolve plain_not_dashdash : dxl.

Section Units.
Variable p : parser.

(** A command line made of units: an option string of [p], the action it
    names, and the string that follows it when the action takes one *)
Notation unit := (string * action * option string)%type.
Notation unit_strings u := (u.1.1 :: option_list u.2).
Notation unit_cls u := ((u.1.1, ClsO (Some (u.1.2, u.1.1, None))) :: map (fun v => (v, ClsA)) (option_list u.2)).

Lemma classify_units (us : list unit) :
  Forall (fun u => String.prefix "-" u.1.1 = true /\ String.eqb u.1.1 "--" = false /\ lookup_option p u.1.1 = Some u.1.2
                   /\ from_option (fun v => String.prefix "-" v = false) True u.2) us ->
  classify p (concat (map (fun u => unit_strings u) us)) = Some (concat (map (fun u => unit_cls u) us)).
Proof.
  induction 1 as [|[[s a] ov] us (Hs & Hdd & Hl & Hv) _ IH]; [done|]. simpl in *.
  rewrite Hdd, (parse_optional_exact p s a Hs Hl).
  destruct ov as [v|]; simpl.
  - rewrite (plain_not_dashdash v Hv), (parse_optional_plain p v Hv), IH. reflexivity.
  - by rewrite IH.
Qed.

Lemma consume_value s a v r st :
  nargs0 a = false -> match r with (_, ClsDash) :: _ => False | _ => True end ->
  consume p ((s, ClsO (Some (a, s, None))) :: (v, ClsA) :: r) st = after (take_all st [(a, [v])]) (consume p r).
Proof. intros Hu Hr. destruct r as [|[z [| |t]] r]; try done; cbn [consume]; by rewrite Hu. Qed.

Lemma consume_flag s a r st :
  nargs0 a = true -> consume p ((s, ClsO (Some (a, s, None))) :: r) st = after (take_all st [(a, [])]) (consume p r).
Proof. intros Hu. cbn [consume]. by rewrite Hu. Qed.

Lemma consume_units_app (us : list unit) rest st :
  Forall (fun u => nargs0 u.1.2 = bool_decide (u.2 = None)) us ->
  match rest with (_, ClsDash) :: _ => False | _ => True end ->
  consume p (app (concat (map (fun u => unit_cls u) us)) rest) st
  = after (take_all st (map (fun u => (u.1.2, option_list u.2)) us)) (consume p rest).
Proof.
  intros Hus Hrest. revert st. induction Hus as [|[[s a] ov] us Hu Hus IH]; intros st; [done|].
  destruct ov as [v|]; simpl in Hu; cbn [concat map app option_list option_rect fst snd].
  - rewrite consume_value by (done || by destruct us as [|[[??]?]?]; [destruct rest as [|[? []] ?]|]).
    rewrite take_all_one. simpl. rewrite after_after. apply after_ext. intros st'. simpl. apply IH.
  - rewrite consume_flag, take_all_one by done. simpl. rewrite after_after. apply after_ext. intros st'. apply IH.
Qed.

Lemma consume_units (us : list unit) st :
  Forall (fun u => nargs0 u.1.2 = bool_decide (u.2 = None)) us ->
  consume p (concat (map (fun u => unit_cls u) us)) st = take_all st (map (fun u => (u.1.2, option_list u.2)) us).
Proof.
  intros Hus. rewrite <- (app_nil_r (concat _)), consume_units_app by done. apply after_ret.
Qed.

Lemma classify_app l1 l2 c1 c2 :
  Forall (fun a => String.eqb a "--" = false) l1 -> classify p l1 = Some c1 -> classify p l2 = Some c2 ->
  classify p (app l1 l2) = Some (app c1 c2).
Proof.
  intros Hl. revert c1. induction Hl as [|a l1 Ha _ IH]; intros c1 H1 H2; simpl in *; [by injection H1 as <-|].
  rewrite Ha in H1 |- *. destruct (parse_optional p a); [| |done];
    destruct (classify p l1) eqn:E; try done; injection H1 as <-; by rewrite (IH _ eq_refl H2).
Qed.

End Units.

(** What [take_all] keeps: the strings left over, and the actions seen *)
Lemma take_all_seen st acts st' :
  take_all st acts = PState st' ->
  extras st' = extras st /\ seen st' = app (rev (map (fun x => option_strings x.1) acts)) (seen st).
Proof.
  revert st. induction acts as [|[a strs] acts IH]; intros st H; simpl in H.
  - by injection H as <-.
  - unfold take_action in H. destruct (kind a); try discriminate;
      repeat case_match; try discriminate; simpl in H; destruct (IH _ H) as [-> ->]; simpl;
      by rewrite <- app_assoc.
Qed.

(** [-e v] repeated: each value appended to the list of the dest *)
Lemma take_appends st a vs l0 :
  kind a = Append -> ns st !! dest a = Some (AList l0) -> Forall (fun v => String.prefix "-" v = false) vs ->
  take_all st (map (fun v => (a, [v])) vs)
  = PState (PS (<[dest a := AList (app l0 (map AStr vs))]> (ns st))
               (app (rev (map (fun _ => option_strings a) vs)) (seen st)) (extras st)).
Proof.
  intros Hk Hl Hvs. revert st l0 Hl. induction Hvs as [|v vs Hv _ IH]; intros st l0 Hl.
  - destruct st as [n sn ex]. simpl in *. by rewrite app_nil_r, insert_id.
  - simpl. unfold take_action. rewrite Hk. simpl. rewrite Hl, get_value_one by auto with dxl. simpl.
    rewrite (IH _ (app l0 [AStr v])) by (simpl; apply lookup_insert_eq). simpl.
    rewrite insert_insert_eq, <- !app_assoc. reflexivity.
Qed.

(** [Store] of one value *)
Lemma take_store st a v :
  kind a = Store -> String.prefix "-" v = false ->
  take_all st [(a, [v])] = PState (PS (<[dest a := AStr v]> (ns st)) (option_strings a :: seen st) (extras st)).
Proof. intros Hk Hv. simpl. unfold take_action. rewrite Hk, get_value_one by auto with dxl. reflexivity. Qed.

Lemma take_flag st a :
  kind a = StoreTrue -> take_all st [(a, [])] = PState (PS (<[dest a := ABool true]> (ns st)) (option_strings a :: seen st) (extras st)).
Proof. intros Hk. simpl. unfold take_action. by rewrite Hk. Qed.

(** [__parse_args] sets [_StartDoors__<key>] to the value of [key] *)
Lemma fold_attrs_other (l : list (string * pyarg)) (acc : gmap string pyarg) x :
  Forall (fun kv => attr_name kv.1 <> x) l ->
  fold_left (fun acc kv => <[attr_name kv.1 := kv.2]> acc) l acc !! x = acc !! x.
Proof.
  intros Hl. revert acc. induction Hl as [|kv l Hkv _ IH]; intros acc; [done|]. simpl.
  by rewrite IH, lookup_insert_ne.
Qed.

Lemma set_attrs_lookup attrs opts k v :
  opts !! k = Some v -> (forall k' v', opts !! k' = Some v' -> attr_name k' = attr_name k -> k' = k) ->
  set_attrs attrs opts !! attr_name k = Some v.
Proof.
  intros Hk Hinj. unfold set_attrs.
  apply elem_of_map_to_list in Hk.
  assert (Hnd := NoDup_fst_map_to_list opts).
  assert (Hi : forall kv, kv ∈ map_to_list opts -> attr_name kv.1 = attr_name k -> kv.1 = k)
    by (intros [k' v'] Hin; apply elem_of_map_to_list in Hin; apply (Hinj k' v' Hin)).
  revert attrs Hk Hnd Hi. generalize (map_to_list opts) as l. intros l attrs Hk Hnd Hi.
  revert attrs. induction l as [|[k1 v1] l IH]; intros attrs; [by apply elem_of_nil in Hk|].
  simpl in Hnd |- *. apply NoDup_cons in Hnd as [Hk1 Hnd].
  apply elem_of_cons in Hk as [Heq|Hk].
  - injection Heq as <- <-. rewrite fold_attrs_other; [apply lookup_insert_eq|].
    apply Forall_forall. intros [k' v'] Hin Ha. apply Hk1.
    assert (Hk' : k' = k) by (apply (Hi (k', v')); [by right|exact Ha]). subst k'.
    by apply (list_elem_of_fmap_2 fst) in Hin.
  - apply IH; [done|done|]. intros kv Hin. apply Hi. by right.
Qed.

(** [take_all] one action at a time *)
Lemma take_all_store_cons st a v acts :
  kind a = Store -> String.prefix "-" v = false ->
  take_all st ((a, [v]) :: acts) = take_all (PS (<[dest a := AStr v]> (ns st)) (option_strings a :: seen st) (extras st)) acts.
Proof. intros Hk Hv. simpl. unfold take_action. by rewrite Hk, get_value_one by auto with dxl. Qed.

Lemma take_all_flag_cons st a acts :
  kind a = StoreTrue ->
  take_all st ((a, []) :: acts) = take_all (PS (<[dest a := ABool true]> (ns st)) (option_strings a :: seen st) (extras st)) acts.
Proof. intros Hk. simpl. unfold take_action. by rewrite Hk. Qed.

Lemma take_all_append_cons st a v l0 acts :
  kind a = Append -> ns st !! dest a = Some (AList l0) -> String.prefix "-" v = false ->
  take_all st ((a, [v]) :: acts)
  = take_all (PS (<[dest a := AList (app l0 [AStr v])]> (ns st)) (option_strings a :: seen st) (extras st)) acts.
Proof. intros Hk Hl Hv. simpl. unfold take_action. rewrite Hk. simpl. rewrite Hl, get_value_one by auto with dxl. reflexivity. Qed.

(** The end of a parse by the parser of [__define_args] whose actions
    are all taken, [-d] among them: the required check passes *)
Ltac parse_finish :=
  cbn [take_all after]; unfold cmdline_options;
  cbn [List.find required help_action opt_version opt_database opt_ini_file opt_extra_directory opt_scan_file
       opt_complete opt_output andb negb];
  match goal with |- context [seen_action ?st opt_database] =>
    let Hs := fresh "Hs" in
    assert (Hs : seen_action st opt_database = true)
      by (unfold seen_action; apply bool_decide_eq_true_2; cbn [seen]; set_solver);
    rewrite Hs
  end;
  cbn [negb extras ns].

Lemma take_all_appends_app st a vs l0 acts :
  kind a = Append -> ns st !! dest a = Some (AList l0) -> Forall (fun v => String.prefix "-" v = false) vs ->
  take_all st (app (map (fun v => (a, [v])) vs) acts)
  = take_all (PS (<[dest a := AList (app l0 (map AStr vs))]> (ns st))
                 (app (rev (map (fun _ => option_strings a) vs)) (seen st)) (extras st)) acts.
Proof. intros Hk Hl Hvs. by rewrite take_all_app, (take_appends st a vs l0). Qed.

(** C14: [__parse_args] on a command line written option by option,
    with values that do not start with ['-'], sets the attributes
    [__doit] reads to exactly the values written: [__database], the
    [__ini_file] given or its default [<program>.ini], the [-e] and [-s]
    values in order, [__complete] as [-c] is present or not, and
    [__output] to the value of [-o] or [None]. *)
Theorem parse_args_roundtrip prog o :
  Forall (fun v => String.prefix "-" v = false)
    (o_database o :: app (option_list (o_ini_file o)) (app (o_extra_directory o) (app (o_scan_file o) (option_list (o_output o))))) ->
  exists attrs, parse_args_self prog (render o) = Started attrs /\
    attrs !! "_StartDoors__database" = Some (AStr (o_database o)) /\
    attrs !! "_StartDoors__ini_file" = Some (AStr (from_option (fun i => i) (ini_file_of prog) (o_ini_file o))) /\
    attrs !! "_StartDoors__extra_directory" = Some (AList (map AStr (o_extra_directory o))) /\
    attrs !! "_StartDoors__scan_file" = Some (AList (map AStr (o_scan_file o))) /\
    attrs !! "_StartDoors__complete" = Some (ABool (o_complete o)) /\
    attrs !! "_StartDoors__output" = Some (from_option AStr ANone (o_output o)).
Proof.
  destruct o as [d io es fs c oo]; simpl. intros Hv.
  apply Forall_cons in Hv as [Hd Hv]. apply Forall_app in Hv as [Hi Hv].
  apply Forall_app in Hv as [He Hv]. apply Forall_app in Hv as [Hf Ho].
  unfold parse_args_self. rewrite define_args_table. generalize (ini_file_of prog) as ini. intros ini.
  set (us := app [("-d", opt_database, Some d)]
            (app (from_option (fun i => [("-i", opt_ini_file ini, Some i)]) [] io)
            (app (map (fun e => ("-e", opt_extra_directory, Some e)) es)
            (app (map (fun f => ("-s", opt_scan_file, Some f)) fs)
            (app (if c then [("-c", opt_complete, None)] else [])
                 (from_option (fun v => [("-o", opt_output, Some v)]) [] oo)))))).
  assert (Hr : render (Options d io es fs c oo) = concat (map (fun u => u.1.1 :: option_list u.2) us)).
  { unfold render, us. simpl. rewrite !map_app, !concat_app, !map_map. by destruct io, c, oo. }
  unfold parse, parse_args. rewrite Hr, classify_units, consume_units.
  3: { unfold us. rewrite !Forall_app.
       split; [repeat constructor; done|]. split; [destruct io; simpl; repeat constructor; by inversion Hi|].
       split; [rewrite Forall_map; eapply Forall_impl; [exact He|]; intros; by repeat split|].
       split; [rewrite Forall_map; eapply Forall_impl; [exact Hf|]; intros; by repeat split|].
       split; [destruct c; repeat constructor|]. destruct oo; simpl; repeat constructor; by inversion Ho. }
  2: { unfold us. rewrite !Forall_app. split; [repeat constructor|]. split; [destruct io; repeat constructor|].
       split; [rewrite Forall_map; by apply Forall_true|]. split; [rewrite Forall_map; by apply Forall_true|].
       split; [destruct c; repeat constructor|]. destruct oo; repeat constructor. }
  unfold us. rewrite !map_app, !map_map.
  destruct io as [i|], c, oo as [v|]; cbn [from_option map app fst snd option_list option_rect].
  all: cbn [option_list option_rect] in Hi, Ho; repeat match goal with H : Forall _ [_] |- _ => apply Forall_inv in H end.
  all: repeat first [ rewrite take_all_store_cons by done
                    | rewrite (take_all_appends_app _ _ _ []) by (done || reflexivity)
                    | rewrite take_all_flag_cons by done ].
  all: parse_finish. all: eexists; split; [reflexivity|]. all: vm_compute; repeat split.
Qed.
(** [__define_args], on the parser [ArgParser.__init__] built,
    declares its six options with no conflicting option string (so no
    [ArgumentError]): the actions, dests and defaults of the table
    [cmdline_options], the option strings pairwise distinct, and the
    dests turned by [__parse_args] into the six attributes [__doit]
    reads. *)
Theorem define_args_options ini :
  arg_parser_defined ini = PyOk (cmdline_options ini) /\
  NoDup (flat_map option_strings (cmdline_options ini)) /\
  map attr_name (drop 2 (map dest (cmdline_options ini))) =
    ["_StartDoors__database"; "_StartDoors__ini_file"; "_StartDoors__extra_directory"; "_StartDoors__scan_file";
     "_StartDoors__complete"; "_StartDoors__output"].
Proof.
  split; [apply define_args_table|]. split; [|reflexivity].
  apply (bool_decide_eq_true_1 _). vm_compute. reflexivity.
Qed.

(** ** Declaring an option *)

Lemma substring_str_drop k s : k <= String.length s -> substring 0 k s +:+ str_drop k s = s.
Proof.
  revert k. induction s as [|c s IH]; intros [|k] Hk; simpl in *; try reflexivity.
  change (String c (substring 0 k s +:+ str_drop k s) = String c s). f_equal. apply IH. lia.
Qed.

(** [s.endswith(suf)] splits [s] as [s[:-len(suf)] + suf] *)
Lemma endswith_split suf s :
  endswith suf s = true -> substring 0 (String.length s - String.length suf) s +:+ suf = s.
Proof.
  unfold endswith. intros [Hl He]%andb_prop. apply Nat.leb_le in Hl. apply String.eqb_eq in He.
  transitivity (substring 0 (String.length s - String.length suf) s +:+ str_drop (String.length s - String.length suf) s);
    [by rewrite He|apply substring_str_drop; lia].
Qed.

Lemma find_app {A} (f : A -> bool) l1 l2 :
  List.find f (l1 ++ l2) = match List.find f l1 with Some x => Some x | None => List.find f l2 end.
Proof. induction l1 as [|x l1 IH]; simpl; [done|]. by destruct (f x). Qed.

Lemma option_actions_app p q : option_actions (p ++ q) = option_actions p ++ option_actions q.
Proof. apply flat_map_app. Qed.

Lemma lookup_option_app_old p a o b :
  lookup_option p o = Some b -> lookup_option (p ++ [a]) o = Some b.
Proof.
  unfold lookup_option. rewrite option_actions_app, find_app.
  by destruct (List.find _ (option_actions p)).
Qed.

Lemma lookup_option_app_new p a o :
  taken p o = false -> o ∈ option_strings a -> lookup_option (p ++ [a]) o = Some a.
Proof.
  unfold taken, lookup_option. rewrite option_actions_app, find_app.
  destruct (List.find _ (option_actions p)); [done|]. intros _ Ho. simpl. rewrite app_nil_r.
  induction (option_strings a) as [|o' os IH]; [set_solver|]. simpl.
  destruct (String.eqb_spec o' o) as [->|Hne]; [done|]. apply IH. set_solver.
Qed.

Lemma cf_from_app seen p a :
  cf_from seen (p ++ [a]) = cf_from seen p && negb (existsb (taken (seen ++ p)) (option_strings a)).
Proof.
  revert seen. induction p as [|b p IH]; intros seen; simpl.
  - by rewrite app_nil_r, andb_true_r.
  - by rewrite IH, <- app_assoc, andb_assoc.
Qed.

(** [_check_conflict] keeps the parser conflict-free: a new action is
    appended, its option strings now look it up, and those already taken
    keep their action *)
Lemma add_action_spec p a p' :
  conflict_free p = true -> add_action p a = PyOk p' ->
  p' = p ++ [a] /\ conflict_free p' = true /\
  (forall o, o ∈ option_strings a -> lookup_option p' o = Some a) /\
  (forall o b, lookup_option p o = Some b -> lookup_option p' o = Some b).
Proof.
  unfold add_action. intros Hcf. destruct (existsb (taken p) (option_strings a)) eqn:E; [discriminate|].
  intros [= <-]. split_and!; [done| |..].
  - unfold conflict_free in *. rewrite cf_from_app, Hcf. simpl. by rewrite E.
  - intros o Ho. apply lookup_option_app_new; [|done].
    apply not_true_is_false. intros Ht. assert (Hx : existsb (taken p) (option_strings a) = true)
      by (apply existsb_exists; exists o; split; [by apply list_elem_of_In|done]). congruence.
  - intros o b. apply lookup_option_app_old.
Qed.

(** C15: [ArgParser.add_argument], on any conflict-free parser and any
    arguments, keeps the parser conflict-free when it returns: it
    appends one action whose option strings now name it, leaves every
    option string already declared to its action, and derives the
    action from the suffix of [long_opt]: ["="] a [store] to the dest
    [long_opt[:-1]], ["=[]"] an [append] to [long_opt[:-3]], none a
    [store_true] to [long_opt] itself; [--dest] is one of its option
    strings. *)
Theorem add_argument_conflict_free p long_opt desc short_opt required default p' :
  conflict_free p = true ->
  add_argument p long_opt desc short_opt required default = PyOk p' ->
  exists a, p' = p ++ [a] /\ conflict_free p' = true /\
    (forall o, o ∈ option_strings a -> lookup_option p' o = Some a) /\
    (forall o b, lookup_option p o = Some b -> lookup_option p' o = Some b) /\
    ("--" +:+ dest a) ∈ option_strings a /\
    (if endswith "=" long_opt then kind a = Store /\ dest a +:+ "=" = long_opt
     else if endswith "=[]" long_opt then kind a = Append /\ dest a +:+ "=[]" = long_opt
     else kind a = StoreTrue /\ dest a = long_opt).
Proof.
  intros Hcf. unfold add_argument.
  destruct (endswith "=" long_opt) eqn:E1; [|destruct (endswith "=[]" long_opt) eqn:E2];
    (destruct (match short_opt with Some (String _ _ as s) => PyOk s | _ => _ end) as [so|]; simpl; [|discriminate]);
    intros H; destruct (add_action_spec _ _ _ Hcf H) as (-> & Hcf' & Hnew & Hold);
    (eexists; split_and!; [reflexivity|exact Hcf'|exact Hnew|exact Hold|simpl; set_solver|..]); simpl;
    try reflexivity; first [exact (endswith_split _ _ E1) | exact (endswith_split _ _ E2)].
Qed.

Lemma add_argument_conflict_free_witness :
  let p := match arg_parser version_number with PyOk p => p | PyRaise _ => [] end in
  let p' := match add_argument p "database=" "specify database" None true ANone with
            | PyOk p' => p' | PyRaise _ => [] end in
  conflict_free p = true /\ add_argument p "database=" "specify database" None true ANone = PyOk p' /\
  exists a, p' = p ++ [a] /\ conflict_free p' = true /\ lookup_option p' "-d" = Some a /\
            kind a = Store /\ dest a +:+ "=" = "database=".
Proof.
  intros p p'.
  assert (Hcf : conflict_free p = true) by (vm_compute; reflexivity).
  assert (Hadd : add_argument p "database=" "specify database" None true ANone = PyOk p')
    by (vm_compute; reflexivity).
  split; [exact Hcf|]. split; [exact Hadd|].
  destruct (add_argument_conflict_free p "database=" "specify database" None true ANone p' Hcf Hadd)
    as (a & Hp & Hcf' & Hnew & _ & _ & Hk).
  change (kind a = Store /\ dest a +:+ "=" = "database=") in Hk.
  assert (Ha : [a] = [Action ["-d"; "--database"] "database" Store (Some ANone) true "specify database"])
    by (apply (app_inv_head p); rewrite <- Hp; vm_compute; reflexivity).
  injection Ha as Ha.
  exists a. split; [exact Hp|]. split; [exact Hcf'|]. split; [|exact Hk].
  apply Hnew. rewrite Ha. simpl. left.
Defined.


(** ** Where the actions of a parse come from *)

Lemma option_actions_in p oa : oa ∈ option_actions p -> oa.2 ∈ p.
Proof.
  intros Hin. apply list_elem_of_In, in_flat_map in Hin as (a & Ha & Hin).
  apply in_map_iff in Hin as (o & <- & _). by apply list_elem_of_In.
Qed.

Lemma lookup_option_in p o a : lookup_option p o = Some a -> a ∈ p.
Proof.
  unfold lookup_option. destruct (List.find _ _) as [oa|] eqn:E; simpl; [|done].
  intros Ha. injection Ha as <-. apply find_some in E as [Hin _]. by apply option_actions_in, list_elem_of_In.
Qed.

Lemma option_tuples_in p s t : t ∈ option_tuples p s -> t.1.1 ∈ p.
Proof.
  unfold option_tuples. repeat case_match; try by intros ?%elem_of_nil.
  all: try (intros Hin%list_elem_of_In; apply in_map_iff in Hin as (oa & <- & Hin);
            apply filter_In in Hin as [Hin _]; apply option_actions_in; by apply list_elem_of_In).
  all: intros (oa & Hin & Ht)%list_elem_of_omap; apply option_actions_in in Hin;
       repeat case_match; by simplify_eq.
Qed.

Lemma parse_optional_in p s t : parse_optional p s = Opt (Some t) -> t.1.1 ∈ p.
Proof.
  unfold parse_optional. repeat case_match; intros Ht; simplify_eq; try done.
  all: repeat match goal with H : option_map _ ?x = Some _ |- _ => destruct x eqn:?; simplify_eq/= end.
  all: cbn [fst]; first [ by eapply lookup_option_in
             | match goal with H : option_tuples ?p ?s = [?t] |- _ => apply (option_tuples_in p s); rewrite H; by left end ].
Qed.

Lemma classify_in p args l :
  classify p args = Some l -> Forall (fun x => match x.2 with ClsO (Some t) => t.1.1 ∈ p | _ => True end) l.
Proof.
  revert l. induction args as [|a args IH]; intros l H; simpl in H; [by injection H as <-|].
  destruct (String.eqb a "--").
  - injection H as <-. constructor; [done|]. apply Forall_forall. by intros x (b & <- & _)%list_elem_of_In%in_map_iff.
  - destruct (parse_optional p a) as [|t|] eqn:E; [| |done];
      destruct (classify p args) eqn:E2; simpl in H; try done; injection H as <-;
      (constructor; [|by apply IH]); [done|]. destruct t; [|done]. by apply parse_optional_in in E.
Qed.

Lemma chain_in p a o e acts fin :
  a ∈ p -> chain p a o e = (acts, fin) ->
  Forall (fun x => x.1 ∈ p) acts /\ match fin with ChainArg a' _ | ChainNext a' => a' ∈ p | _ => True end.
Proof.
  revert a o acts fin. induction e as [|c r IH]; intros a o acts fin Ha H; simpl in H.
  - repeat case_match; simplify_eq; split; by repeat constructor.
  - destruct (negb (nargs0 a)); [simplify_eq; split; by repeat constructor|].
    destruct o as [|c0 [|c1 o']]; try (simplify_eq; split; by repeat constructor).
    destruct (Ascii.eqb c1 "-"); [simplify_eq; split; by repeat constructor|].
    destruct (lookup_option p _) as [a'|] eqn:El; [|simplify_eq; split; by repeat constructor].
    apply lookup_option_in in El. destruct r as [|c' r'].
    + simplify_eq. split; [by repeat constructor|done].
    + destruct (chain p a' _ (String c' r')) as [acts' fin'] eqn:Ec. simplify_eq.
      apply IH in Ec as [H1 H2]; [|done]. split; [by constructor|done].
Qed.

Lemma after_PState o k st' : after o k = PState st' -> exists st1, o = PState st1 /\ k st1 = PState st'.
Proof. destruct o; simpl; [eauto|discriminate|discriminate]. Qed.

(** ** Invariants of a parse *)

Section Invariant.
Variable p : parser.
(** A property of the parser state that every action of [p] and every
    string left over keep *)
Variable I : pstate -> Prop.
Hypothesis take_inv : forall st a strs st', a ∈ p -> I st -> take_action st a strs = PState st' -> I st'.
Hypothesis extra_inv : forall st s, I st -> I (PS (ns st) (seen st) (app (extras st) [s])).

Lemma take_all_inv st acts st' :
  Forall (fun x => x.1 ∈ p) acts -> I st -> take_all st acts = PState st' -> I st'.
Proof.
  intros Hacts. revert st. induction Hacts as [|[a strs] acts Ha _ IH]; intros st Hi H; simpl in H.
  - by injection H as <-.
  - apply after_PState in H as (st1 & H1 & H2). eauto.
Qed.

Lemma take_all_after_inv st acts k st' :
  Forall (fun x => x.1 ∈ p) acts -> I st -> after (take_all st acts) k = PState st' ->
  exists st1, I st1 /\ k st1 = PState st'.
Proof. intros Hacts Hi H. apply after_PState in H as (st1 & H1 & H2). exists st1. split; [|done]. by eapply take_all_inv. Qed.

(** One step of [consume]: the actions taken keep [I], then the
    induction hypothesis on the strings left *)
Ltac consume_step IH :=
  match goal with
  | H : after (take_all _ _) _ = PState _ |- _ =>
      let st1 := fresh "st" in let Hi1 := fresh "Hi" in let Hc := fresh "Hc" in
      apply take_all_after_inv in H as (st1 & Hi1 & Hc);
      [ eapply IH; [ | | exact Hi1 | exact Hc ];
        [ simpl in *; lia
        | let rec peel := first [ assumption
                                | match goal with Hf : Forall _ (_ :: _) |- _ => apply Forall_cons in Hf as [_ Hf] end;
                                  peel ] in peel ]
      | rewrite ?Forall_app; repeat split; repeat constructor; assumption
      | assumption ]
  end.

(** The strings an action with [nargs=None] takes after the option *)
Ltac next_case IH r :=
  match goal with H : (if nargs0 ?x then _ else _) = PState _ |- _ => destruct (nargs0 x) end;
  [consume_step IH|];
  match goal with H : _ = PState _ |- _ =>
    destruct r as [|[? [| |?]] r1]; cbv beta iota in H; try discriminate;
    [ destruct r1 as [|[? [| |?]] ?]
    | destruct r1 as [|[? [| |?]] r2]; cbv beta iota in H; try discriminate; destruct r2 as [|[? [| |?]] ?] ];
    cbv beta iota in H; consume_step IH
  end.

Lemma consume_inv n l st st' :
  (length l <= n)%nat -> Forall (fun x => match x.2 with ClsO (Some t) => t.1.1 ∈ p | _ => True end) l ->
  I st -> consume p l st = PState st' -> I st'.
Proof.
  revert l st. induction n as [|n IH]; intros l st Hn Hl Hi H.
  { destruct l; [by injection H as <-|simpl in Hn; lia]. }
  destruct l as [|[s cls] r]; [by injection H as <-|]. simpl in Hn.
  apply Forall_cons in Hl as [Ha Hr]. simpl in Ha.
  destruct cls as [| |[[[a o] [e|]]|]]; cbn [consume] in H.
  1,2,5: eapply (IH r); [lia|done|by apply extra_inv|done].
  - destruct (chain p a o e) as [acts [a' v|a'| |]] eqn:Ec; try discriminate;
      apply chain_in in Ec as [Hacts Ha']; try done; simpl in H; [consume_step IH|next_case IH r].
  - assert (Hacts : Forall (fun x => x.1 ∈ p) (@nil (action * list string))) by constructor.
    next_case IH r.
Qed.
End Invariant.

(** ** The required [-d]: [__database] is never left at [None] *)

(** The keys [init_ns] sets are dests of the parser *)
Lemma init_ns_keys p k v : init_ns p !! k = Some v -> k ∈ map dest p.
Proof.
  unfold init_ns.
  assert (Hg : forall l (m : gmap string pyarg), (forall a, a ∈ l -> a ∈ p) -> (forall k v, m !! k = Some v -> k ∈ map dest p) ->
                 forall k v, fold_left (fun m a => if String.eqb (dest a) suppress then m else
                                          match default a, m !! dest a with Some v, None => <[dest a := v]> m | _, _ => m end)
                                       l m !! k = Some v -> k ∈ map dest p).
  { induction l as [|a l IH]; intros m Hl Hm; simpl; [done|]. apply IH; [intros; apply Hl; by right|].
    assert (Ha : dest a ∈ map dest p) by (apply list_elem_of_fmap_2, Hl; by left).
    intros k' v'. repeat case_match; try apply Hm. rewrite lookup_insert_Some. intros [[<- _]|[_ ?]]; eauto. }
  apply Hg; [done|]. intros k' v'. by rewrite lookup_empty.
Qed.

(** [_get_values] never gives [None] *)
Lemma get_value_not_none strs : get_value strs <> ANone.
Proof. unfold get_value. repeat case_match; discriminate. Qed.

Section Database.
Variable ini : string.
Notation P := (cmdline_options ini).

(** What a parse by the parser of [__define_args] keeps: once [-d] was
    taken, [database] holds a value other than [None]; the namespace
    holds only dests of the parser *)
Local Notation db_inv st :=
  ((option_strings opt_database ∈ seen st -> exists v, ns st !! "database" = Some v /\ v <> ANone) /\
   (forall k v, ns st !! k = Some v -> k ∈ map dest P)).

Lemma db_take st a strs st' : a ∈ P -> db_inv st -> take_action st a strs = PState st' -> db_inv st'.
Proof.
  intros Ha [Hdb Hk] H.
  assert (Hd : dest a ∈ map dest P) by (by apply list_elem_of_fmap_2).
  assert (Hos : option_strings a = option_strings opt_database -> dest a = "database")
    by (repeat (apply elem_of_cons in Ha as [->|Ha]; [done|]); by apply elem_of_nil in Ha).
  unfold take_action in H. simpl in H.
  destruct (kind a); try discriminate; repeat case_match; try discriminate; injection H as <-; simpl;
    (split; [|intros k v; rewrite lookup_insert_Some; intros [[<- _]|[_ ?]]; eauto]);
    (intros [Heq|Hin]%elem_of_cons;
     [ rewrite <- (Hos (eq_sym Heq)), lookup_insert_eq; eexists; split; [done|]
     | destruct (String.eqb_spec (dest a) "database") as [->|Hne];
       [ rewrite lookup_insert_eq; eexists; split; [done|] | rewrite lookup_insert_ne by done; by apply Hdb ] ]);
    try apply get_value_not_none; discriminate.
Qed.

Lemma parse_database args n :
  parse P args = Parsed n ->
  (exists v, n !! "database" = Some v /\ v <> ANone) /\ (forall k v, n !! k = Some v -> k ∈ map dest P).
Proof.
  unfold parse, parse_args. destruct (classify P args) as [l|] eqn:Ec; [|discriminate].
  destruct (consume P l _) as [st| |] eqn:Hc; try discriminate.
  destruct (List.find _ P) eqn:Ef; [discriminate|]. destruct (extras st); [|discriminate].
  intros H. injection H as <-.
  assert (Hi : db_inv st).
  { eapply (consume_inv P (fun st => db_inv st)); [exact db_take| |apply le_n|by eapply classify_in| |exact Hc].
    - intros st0 s Hi0. exact Hi0.
    - split; [by intros ?%elem_of_nil|apply init_ns_keys]. }
  destruct Hi as [Hdb Hk]. split; [|done]. apply Hdb.
  assert (Hf := List.find_none _ _ Ef opt_database ltac:(simpl; tauto)).
  unfold seen_action in Hf. simpl in Hf. by apply negb_false_iff, bool_decide_eq_true_1 in Hf.
Qed.

End Database.

(** C16: whatever the command line, a run of [__parse_args] that returns
    sets [__database] to a value other than the [None] of [__init__]:
    [-d] is required, and every value [argparse] stores for it is a
    string or a list (the list [[]] when the value is written [--]
    glued to the option, as in [-d=--]). *)
Theorem parse_args_database prog args attrs :
  parse_args_self prog args = Started attrs -> exists v, attrs !! "_StartDoors__database" = Some v /\ v <> ANone.
Proof.
  unfold parse_args_self. rewrite define_args_table. destruct (parse _ args) eqn:E; try discriminate.
  intros H. injection H as <-. apply parse_database in E as [[v [Hv Hne]] Hk]. exists v. split; [|done].
  apply (set_attrs_lookup _ _ "database" v Hv). intros k' v' Hk' Ha. apply Hk in Hk'. cbn in Hk'.
  repeat (apply elem_of_cons in Hk' as [->|Hk']; [try done; by vm_compute in Ha|]). by apply elem_of_nil in Hk'.
Qed.

(** ** Witnesses *)

Lemma parse_args_roundtrip_witness :
  Forall (fun v => String.prefix "-" v = false) ["FBL@srv"; "K:\extra"; "K:\a.dxl"; "out"] /\
  exists attrs,
    parse_args_self "dxl_scan.py" (render (Options "FBL@srv" None ["K:\extra"] ["K:\a.dxl"] true (Some "out")))
    = Started attrs /\
    attrs !! "_StartDoors__database" = Some (AStr "FBL@srv") /\
    attrs !! "_StartDoors__ini_file" = Some (AStr "dxl_scan.ini") /\
    attrs !! "_StartDoors__extra_directory" = Some (AList [AStr "K:\extra"]) /\
    attrs !! "_StartDoors__scan_file" = Some (AList [AStr "K:\a.dxl"]) /\
    attrs !! "_StartDoors__complete" = Some (ABool true) /\
    attrs !! "_StartDoors__output" = Some (AStr "out").
Proof.
  split; [repeat constructor|].
  apply (parse_args_roundtrip "dxl_scan.py" (Options "FBL@srv" None ["K:\extra"] ["K:\a.dxl"] true (Some "out"))).
  repeat constructor.
Defined.

Lemma parse_args_database_witness :
  parse_args_self "dxl_scan.py" ["-d=--"]
  = Started (set_attrs (init_attrs "dxl_scan.py") (<["database" := AList []]> (init_ns (cmdline_options "dxl_scan.ini")))) /\
  exists v, set_attrs (init_attrs "dxl_scan.py") (<["database" := AList []]> (init_ns (cmdline_options "dxl_scan.ini")))
              !! "_StartDoors__database" = Some v /\ v <> ANone.
Proof.
  split; [vm_compute; reflexivity|]. apply (parse_args_database "dxl_scan.py" ["-d=--"]). vm_compute. reflexivity.
Defined.
