(* ===== verification/Batch.v ===== *)
(** * Batch: [StartDoors.__check_files], the loop over the files of a run

    For each file of the list, in order: count it and reset
    [__nb_inc_per_file]; if it is larger than 500,000 bytes, record an
    [OversizeFileError]; otherwise reset its report
    ([self.__report[dxl_file] = []]), resolve its includes, run the
    string-initialisation, system-call, pragma and duplicate-name checks,
    record its function declarations and calls, add its error count to
    [__count_issues], check each of its resolved includes not checked
    before (string initialisation, system calls, pragmas), recording their
    errors under the include's own name, then write its page
    ([__dxl2html]), visit its includes ([__includes_dxl2html], file
    [IncludeHtml]) and store its include count in [__nb_inc_dict].

    The state is the part of [StartDoors] these steps change, as a
    [Record] whose [html] field is the state of [IncludeHtml], so that
    [__valid_includes_dict] is one dictionary shared by the checks and the
    pages.  The file system ([os.path.getsize], [__get_dxl_content],
    [os.path.exists], the output directory a run starts from), the include
    roots, [__get_hash], [self.__complete] and the recursion depth are
    [Section] variables.  [__check_pragmas] can raise; the exception
    leaves [__check_files], so a step returns a [py_result].

    Section [Run] adds what [__check_files] does around the loop: the file
    list (the [-s] list itself, or the [.dxl] files of the saved trees of
    a list file), the hash file [txt/hash_content.txt] read by
    [__check_same_include_content] (an [IOError] when it is absent) and
    the [dxl_menu] handed to [__check_dependencies], bound only when the
    argument is one of the three list files.  The reports written after
    it are not modelled. *)

From stdpp Require Import pretty.
From S2P Require Import Prelude PyRegex DxlLexer Classifier Checks FuncTable NtPath IncludeResolver Duplicates IncludeHtml Menu.
Import PyRegex DxlLexer Classifier Checks FuncTable IncludeResolver Duplicates IncludeHtml Menu.

Module Batch.

(** [self.__add_error(dxl_file, e)] *)
Definition add_error (f : string) (e : error) (report : gmap string (list error)) : gmap string (list error) :=
  <[f := match report !! f with Some es => es | None => [] end ++ [e]]> report.

(** A sequence of [__add_error] calls for one file *)
Definition add_errors (f : string) (es : list error) (report : gmap string (list error)) : gmap string (list error) :=
  foldl (fun r e => add_error f e r) report es.

(** ["File (%d bytes) too big" % fs] *)
Definition too_big_msg (fs : N) : string := "File (" ++ pretty fs ++ " bytes) too big".

Record batch_state := BS {
  report : gmap string (list error);              (** [__report] *)
  html : ih_state;                                (** [__valid_includes_dict], [__include_dict],
                                                      [__hash_content_dict], the two include
                                                      counters and the output directory *)
  checked_includes : list string;                 (** [__checked_includes] *)
  is_error_pragma : bool;                         (** [__is_error_pragma] *)
  fns : fn_state;                                 (** the function tables *)
  count_files : nat;                              (** [__count_files] *)
  count_issues : nat;                             (** [__count_issues] *)
  nb_inc_dict : gmap string nat                   (** [__nb_inc_dict] *)
}.

(** [__new_vars], on an output directory holding [hash_file0] and the
    pages [pages0] of earlier runs *)
Definition batch_init (hash_file0 : option (gmap string string)) (pages0 : gset string) : batch_state :=
  BS ∅ (IH ∅ ∅ ∅ hash_file0 pages0 0 0) [] false fn_init 0 0 ∅.

(** The argument of [__check_files]: the path of a list file, or
    [self.__scan_file] itself in the [-s] mode *)
Inductive txt_arg := TxtPath (p : string) | ScanList (l : list string).

(** [self.__valid_includes_dict[f] = l] *)
Definition set_valid (h : ih_state) (f : string) (l : list string) : ih_state :=
  IH (ih_include_dict h) (<[f := l]> (ih_valid h)) (ih_hash_dict h) (ih_hash_file h) (ih_html h)
     (ih_count_includes h) (ih_nb_inc_per_file h).

(** [self.__nb_inc_per_file = 0] *)
Definition reset_nb_inc (h : ih_state) : ih_state :=
  IH (ih_include_dict h) (ih_valid h) (ih_hash_dict h) (ih_hash_file h) (ih_html h) (ih_count_includes h) 0.

Section Batch.

(** [os.path.getsize] *)
Variable size : string -> N.
(** [__get_dxl_content] *)
Variable read : string -> chars.
(** [os.path.exists] *)
Variable path_exists : chars -> bool.
(** [self.__addin_dirs + self.__project_dirs] *)
Variable start_paths : list chars.
(** [__get_hash], [self.__complete] and the levels of [__includes_dxl2html]
    Python's recursion limit allows *)
Variable get_hash : chars -> string.
Variable complete : bool.
Variable depth : nat.
(** The output directory when the run starts *)
Variable hash_file0 : option (gmap string string).
Variable pages0 : gset string.

(** The body of [for include in self.__valid_includes_dict[dxl_file]] *)
Definition check_include (s : batch_state) (inc : string) : py_result batch_state :=
  if bool_decide (inc ∈ checked_includes s) then PyOk s
  else
    let c := read inc in
    let fs := size inc in
    let r := add_errors inc (check_sys_calls fs c) (add_errors inc (check_string_init fs c) (report s)) in
    pylet pr := check_pragmas fs c in
    PyOk (BS (add_errors inc pr.2 r) (html s) (checked_includes s ++ [inc]) pr.1
             (fns s) (count_files s) (count_issues s) (nb_inc_dict s)).

Fixpoint check_includes (s : batch_state) (incs : list string) : py_result batch_state :=
  match incs with
  | [] => PyOk s
  | inc :: incs' => pylet s' := check_include s inc in check_includes s' incs'
  end.

(** The lexer [__get_called_functions] scans with: the one the scan of
    [__get_func_declarations] left *)
Definition lexer_after (c : chars) : lexer :=
  match tokenize c with Some (_, st) => st | None => fresh_lexer end.

(** The body of [for dxl_file in dxl_files_list] *)
(** After the checks: [self.__dxl2html(dxl_file, dxl_content)],
    [self.__includes_dxl2html(self.__valid_includes_dict, dxl_file)] and
    [self.__nb_inc_dict[dxl_hash] = self.__nb_inc_per_file] *)
Definition html_steps (s : batch_state) (f : string) (c : chars) : batch_state :=
  let h1 := dxl2html size path_exists start_paths get_hash (html s) f c in
  let h2 := includes_dxl2html size read path_exists start_paths get_hash complete depth (ih_valid h1) f h1 in
  BS (report s) h2 (checked_includes s) (is_error_pragma s) (fns s) (count_files s) (count_issues s)
     (<[html_name get_hash f := ih_nb_inc_per_file h2]> (nb_inc_dict s)).

Definition check_file (files : list string) (s0 : batch_state) (f : string) : py_result batch_state :=
  let fs := size f in
  let s := BS (report s0) (reset_nb_inc (html s0)) (checked_includes s0) (is_error_pragma s0)
              (fns s0) (S (count_files s0)) (count_issues s0) (nb_inc_dict s0) in
  if oversize fs then
    PyOk (BS (add_error f (OversizeFileError (too_big_msg fs)) (report s)) (html s)
             (checked_includes s) (is_error_pragma s) (fns s) (count_files s) (count_issues s) (nb_inc_dict s))
  else
    let c := read f in
    let r0 := <[f := []]> (report s) in
    let '(valid, ierrs) := match get_valid_includes path_exists start_paths fs c true with
                           | Some vi => vi
                           | None => ([], [])
                           end in
    let r1 := add_errors f (check_sys_calls fs c) (add_errors f (check_string_init fs c) (add_errors f ierrs r0)) in
    pylet pr := check_pragmas fs c in
    let r2 := add_errors f (check_duplicates f files) (add_errors f pr.2 r1) in
    let fn1 := get_defined_functions f (get_func_declarations_file fs c) (fns s) in
    let fn2 := get_called_functions (lexer_after c) c fn1 in
    let issues := count_issues s + length (match r2 !! f with Some es => es | None => [] end) in
    pylet s1 := check_includes (BS r2 (set_valid (html s) f valid) (checked_includes s) pr.1 fn2
                                   (count_files s) issues (nb_inc_dict s)) valid in
    PyOk (html_steps s1 f c).

Fixpoint check_files_loop (files : list string) (todo : list string) (s : batch_state) : py_result batch_state :=
  match todo with
  | [] => PyOk s
  | f :: todo' => pylet s' := check_file files s f in check_files_loop files todo' s'
  end.

(** [__check_files]: the per-file loop over [dxl_files_list] *)
Definition check_files (files : list string) : py_result batch_state :=
  check_files_loop files files (batch_init hash_file0 pages0).

Section Run.
(** [self.__projects_list], [self.__addins_list], [self.__extra_list] *)
Variables projects_list addins_list extra_list : string.
(** [self.__scan_file], the files given with [-s] ([[]] without it) *)
Variable scan_file : list string.
(** [pickle.load] of the trees a list file holds *)
Variable load_trees : string -> list pyval.
(** The links of the other includes in an [Identical content] error *)
Variable links : list string -> string.

(** [if self.__scan_file: dxl_files_list = self.__scan_file else:
    dxl_files_list = self.__get_dxl_files(txt_filename)]; opening a list
    instead of a path raises [TypeError] *)
Definition dxl_files_of (t : txt_arg) : py_result (list string) :=
  match scan_file with
  | _ :: _ => PyOk scan_file
  | [] => match t with TxtPath p => PyOk (get_dxl_files (load_trees p)) | ScanList _ => PyRaise TypeError end
  end.

(** [dxl_menu] after the [if]/[elif] on [txt_filename]; [None] when no
    branch assigns it *)
Definition dxl_menu_of (t : txt_arg) : option string :=
  match t with
  | TxtPath p =>
      if String.eqb p projects_list then Some "projects"
      else if String.eqb p addins_list then Some "addins"
      else if String.eqb p extra_list then Some "extra"
      else None
  | ScanList _ => None
  end.

(** The global checks after the loop.  [__get_not_called_functions],
    [__report_redefined_functions], [__gen_list_functions] and
    [__check_dependencies] only write pages; [__check_same_include_content]
    loads [txt/hash_content.txt] ([IOError] when no run wrote it) and adds
    its errors; [dxl_menu] unbound raises [UnboundLocalError], a
    [NameError]. *)
Definition check_files_end (t : txt_arg) (s : batch_state) : py_result batch_state :=
  match ih_hash_file (html s) with
  | None => PyRaise IOError
  | Some hash_content_dict =>
      let r := foldl (fun r fe => add_error fe.1 fe.2 r) (report s)
                     (check_same_include_content links hash_content_dict) in
      match dxl_menu_of t with
      | None => PyRaise NameError
      | Some _ => PyOk (BS r (html s) (checked_includes s) (is_error_pragma s) (fns s)
                          (count_files s) (count_issues s) (nb_inc_dict s))
      end
  end.

(** [__check_files(txt_filename)] as a whole, from the state [s0] the
    calls before it left *)
Definition check_files_run_from (s0 : batch_state) (t : txt_arg) : py_result batch_state :=
  pylet files := dxl_files_of t in
  pylet s := check_files_loop files files s0 in
  check_files_end t s.

(** [__check_files(txt_filename)] right after [__new_vars] *)
Definition check_files_run (t : txt_arg) : py_result batch_state :=
  check_files_run_from (batch_init hash_file0 pages0) t.

End Run.

(** ** Lemmas *)

Lemma add_errors_ne g f es r : g <> f -> add_errors g es r !! f = r !! f.
Proof.
  intros Hne. revert r. induction es as [|e es IH]; intros r; [done|]. simpl.
  rewrite IH. unfold add_error. by rewrite lookup_insert_ne.
Qed.

Lemma add_errors_nil f r : add_errors f [] r = r.
Proof. done. Qed.

Lemma check_string_init_oversize fs c : oversize fs = true -> check_string_init fs c = [].
Proof. unfold check_string_init. by intros ->. Qed.

Lemma check_sys_calls_oversize fs c : oversize fs = true -> check_sys_calls fs c = [].
Proof. unfold check_sys_calls. by intros ->. Qed.

Lemma check_pragmas_oversize fs c : oversize fs = true -> check_pragmas fs c = PyOk (false, []).
Proof. unfold check_pragmas. by intros ->. Qed.

Section Frame.
Variable f : string.
Hypothesis f_oversize : oversize (size f) = true.

(** Checking an include leaves the report of an oversize file alone. *)
Lemma check_include_frame s inc s' :
  check_include s inc = PyOk s' -> report s' !! f = report s !! f.
Proof.
  unfold check_include. case_bool_decide; [by intros [= <-]|].
  destruct (decide (inc = f)) as [->|Hne].
  - rewrite check_string_init_oversize, check_sys_calls_oversize, check_pragmas_oversize by done.
    intros [= <-]. done.
  - destruct (check_pragmas _ _) as [[b es]|]; [|done]. intros [= <-]. simpl.
    by rewrite !add_errors_ne by done.
Qed.

Lemma check_includes_frame s incs s' :
  check_includes s incs = PyOk s' -> report s' !! f = report s !! f.
Proof.
  revert s. induction incs as [|inc incs IH]; intros s; simpl; [by intros [= <-]|].
  destruct (check_include s inc) as [s1|] eqn:H1; [|done]. simpl.
  intros H. rewrite (IH _ H). by apply (check_include_frame s inc s1).
Qed.

(** The step of another file leaves the report of an oversize file alone. *)
Lemma check_file_frame files s g s' :
  g <> f -> check_file files s g = PyOk s' -> report s' !! f = report s !! f.
Proof.
  intros Hne. unfold check_file. destruct (oversize (size g)).
  { intros [= <-]. simpl. unfold add_error. by rewrite lookup_insert_ne. }
  destruct (match get_valid_includes _ _ _ _ _ with Some vi => vi | None => ([], []) end) as [valid ierrs].
  destruct (check_pragmas _ _) as [pr|]; [|done]. simpl.
  destruct (check_includes _ _) as [s1|] eqn:H; [|done]. simpl. intros [= <-].
  unfold html_steps. cbn [report]. rewrite (check_includes_frame _ _ _ H). simpl.
  by rewrite !add_errors_ne, lookup_insert_ne by done.
Qed.

Lemma check_file_oversize files s s' :
  check_file files s f = PyOk s' ->
  report s' !! f = Some (match report s !! f with Some es => es | None => [] end ++ [OversizeFileError (too_big_msg (size f))]).
Proof. unfold check_file. rewrite f_oversize. intros [= <-]. simpl. unfold add_error. by rewrite lookup_insert_eq. Qed.

Lemma loop_frame files todo s s' :
  f ∉ todo -> check_files_loop files todo s = PyOk s' -> report s' !! f = report s !! f.
Proof.
  revert s. induction todo as [|g todo IH]; intros s Hf; simpl; [by intros [= <-]|].
  destruct (check_file files s g) as [s1|] eqn:H1; [|done]. simpl. intros H.
  rewrite (IH _ ltac:(set_solver) H). apply (check_file_frame files s g); [set_solver|done].
Qed.

Lemma loop_once files pre post s s' :
  f ∉ pre -> f ∉ post -> report s !! f = None ->
  check_files_loop files (pre ++ f :: post) s = PyOk s' ->
  report s' !! f = Some [OversizeFileError (too_big_msg (size f))].
Proof.
  revert s. induction pre as [|g pre IH]; intros s Hpre Hpost Hnone; simpl.
  - destruct (check_file files s f) as [s1|] eqn:H1; [|done]. simpl. intros H.
    rewrite (loop_frame _ _ _ _ Hpost H), (check_file_oversize _ _ _ H1), Hnone. done.
  - destruct (check_file files s g) as [s1|] eqn:H1; [|done]. simpl. intros H.
    apply (IH s1); [set_solver|done| |done].
    rewrite (check_file_frame files s g s1); [done|set_solver|done].
Qed.

End Frame.

(** A pragma check that raises in a main file aborts the run. *)
Lemma check_file_raises files s f e :
  oversize (size f) = false -> check_pragmas (size f) (read f) = PyRaise e ->
  exists e', check_file files s f = PyRaise e'.
Proof.
  intros Hfs Hp. unfold check_file. rewrite Hfs.
  destruct (match get_valid_includes _ _ _ _ _ with Some vi => vi | None => ([], []) end) as [valid ierrs].
  rewrite Hp. eauto.
Qed.

Lemma loop_raises files todo s f e :
  f ∈ todo -> oversize (size f) = false -> check_pragmas (size f) (read f) = PyRaise e ->
  exists e', check_files_loop files todo s = PyRaise e'.
Proof.
  revert s. induction todo as [|g todo IH]; intros s Hin Hfs Hp; [set_solver|]. simpl.
  destruct (decide (g = f)) as [->|Hne].
  - destruct (check_file_raises files s f e Hfs Hp) as [e' ->]. eauto.
  - destruct (check_file files s g) as [s1|e1]; simpl; [|eauto].
    apply IH; [set_solver|done|done].
Qed.

Lemma occ_one_split f files :
  occ f files = 1 -> exists pre post, files = pre ++ (f :: post) /\ (f ∉ pre) /\ (f ∉ post).
Proof.
  unfold occ. induction files as [|g files IH]; simpl; [discriminate|].
  destruct (String.eqb_spec f g) as [<-|Hne]; simpl.
  - intros [= Hz]. exists [], files. split; [done|]. split; [set_solver|].
    intros Hin%list_elem_of_In. apply length_zero_iff_nil in Hz.
    assert (Hf : In f (List.filter (String.eqb f) files)) by (apply filter_In; by rewrite String.eqb_refl).
    by rewrite Hz in Hf.
  - intros H. destruct (IH H) as (pre & post & -> & Hpre & Hpost).
    exists (g :: pre), post. split; [done|]. split; [set_solver|done].
Qed.

(** *** Every file of the loop is checked *)

(** The keys of [self.__report] only ever grow. *)
Local Notation keeps s s' := (forall g, is_Some (report s !! g) -> is_Some (report s' !! g)).

Lemma add_error_keeps f e r g : is_Some (r !! g) -> is_Some (add_error f e r !! g).
Proof.
  unfold add_error. destruct (decide (f = g)) as [->|Hne];
    [rewrite lookup_insert_eq|rewrite lookup_insert_ne]; eauto.
Qed.

Lemma add_errors_keeps f es r g : is_Some (r !! g) -> is_Some (add_errors f es r !! g).
Proof.
  unfold add_errors. revert r. induction es as [|e es IH]; intros r Hr; simpl; [done|].
  by apply IH, add_error_keeps.
Qed.

Lemma check_include_keeps s inc s' :
  check_include s inc = PyOk s' -> count_files s' = count_files s /\ keeps s s'.
Proof.
  unfold check_include. case_bool_decide; [by intros [= <-]|].
  destruct (check_pragmas _ _) as [pr|]; [|done]. intros [= <-]. simpl.
  split; [done|]. intros g Hg. by do 3 apply add_errors_keeps.
Qed.

Lemma check_includes_keeps s incs s' :
  check_includes s incs = PyOk s' -> count_files s' = count_files s /\ keeps s s'.
Proof.
  revert s. induction incs as [|inc incs IH]; intros s; simpl; [by intros [= <-]|].
  destruct (check_include s inc) as [s1|] eqn:H1; [|done]. simpl. intros H.
  destruct (IH _ H) as [Hc Hk]. destruct (check_include_keeps _ _ _ H1) as [Hc1 Hk1].
  split; [congruence|auto].
Qed.

(** A step that returns counts the file and leaves it in the report
    ([self.__report[dxl_file] = []], or its oversize error). *)
Lemma check_file_keeps files s f s' :
  check_file files s f = PyOk s' ->
  count_files s' = S (count_files s) /\ is_Some (report s' !! f) /\ keeps s s'.
Proof.
  unfold check_file. destruct (oversize (size f)).
  { intros [= <-]. simpl. unfold add_error at 1. rewrite lookup_insert_eq.
    split_and!; [done|eauto|]. intros g Hg. by apply add_error_keeps. }
  destruct (match get_valid_includes _ _ _ _ _ with Some vi => vi | None => ([], []) end) as [valid ierrs].
  destruct (check_pragmas _ _) as [pr|]; [|done]. simpl.
  destruct (check_includes _ _) as [s1|] eqn:H; [|done]. simpl. intros [= <-].
  destruct (check_includes_keeps _ _ _ H) as [Hc Hk]. simpl in Hc.
  unfold html_steps. cbn [report count_files]. split_and!; [done| |].
  - apply Hk. simpl. repeat apply add_errors_keeps. rewrite lookup_insert_eq. eauto.
  - intros g Hg. apply Hk. simpl. repeat apply add_errors_keeps.
    destruct (decide (f = g)) as [->|Hne]; [rewrite lookup_insert_eq; eauto|by rewrite lookup_insert_ne].
Qed.

Lemma loop_progress files todo s :
  (exists s', check_files_loop files todo s = PyOk s' /\ count_files s' = count_files s + length todo /\
              keeps s s' /\ forall f, f ∈ todo -> is_Some (report s' !! f)) \/
  (exists pre f post s1 e, todo = pre ++ f :: post /\ check_files_loop files pre s = PyOk s1 /\
                           check_file files s1 f = PyRaise e /\ check_files_loop files todo s = PyRaise e).
Proof.
  revert s. induction todo as [|f todo IH]; intros s.
  { left. exists s. split_and!; [done|simpl; lia|done|set_solver]. }
  simpl. destruct (check_file files s f) as [s1|e] eqn:H1; simpl.
  - destruct (check_file_keeps _ _ _ _ H1) as (Hc1 & Hf1 & Hk1).
    destruct (IH s1) as [(s' & Hl & Hc & Hk & Hall)|(pre & g & post & s2 & e & -> & Hpre & Hg & Hl)].
    + left. exists s'. split_and!; [done|lia|auto|]. intros g Hg%elem_of_cons.
      destruct Hg as [->|Hg]; auto.
    + right. exists (f :: pre), g, post, s2, e. simpl. rewrite H1. simpl. auto.
  - right. exists [], f, todo, s, e. simpl. rewrite H1. auto.
Qed.

(** ** Claims *)

(** C22: after the per-file loop of [__check_files], a file larger than
    500,000 bytes that occurs once in the list has exactly one error, its
    [OversizeFileError], even when other files of the list include it
    (the include checks find nothing in an oversize file).  The global
    step after the loop ([__check_same_include_content]) is not covered:
    it may add an [Identical content] error to an include. *)
Theorem oversize_report files f s :
  check_files files = PyOk s -> occ f files = 1 -> oversize (size f) = true ->
  report s !! f = Some [OversizeFileError (too_big_msg (size f))].
Proof.
  intros H Hocc Hf. destruct (occ_one_split f files Hocc) as (pre & post & Heq & Hpre & Hpost).
  unfold check_files in H. rewrite Heq in H at 2.
  exact (loop_once f Hf files pre post (batch_init hash_file0 pages0) s Hpre Hpost eq_refl H).
Qed.

(** C21: a [runLim] pragma that makes [__check_pragmas] raise in any
    (not oversize) file of the list aborts the whole run. *)
Theorem check_files_raises files f e :
  f ∈ files -> oversize (size f) = false -> check_pragmas (size f) (read f) = PyRaise e ->
  exists e', check_files files = PyRaise e'.
Proof. intros Hin Hfs Hp. by apply (loop_raises files files (batch_init hash_file0 pages0) f e). Qed.

(** C24: the loop of [__check_files] gets through its list: either it
    ends normally, having counted every file ([__count_files] is the
    length of the list) and left each one in [self.__report], so that
    every file appears in the reports; or it stops with the exception of
    one file of the list, every file before it having been checked. *)
Theorem check_files_progress files :
  (exists s, check_files files = PyOk s /\ count_files s = length files /\
             forall f, f ∈ files -> is_Some (report s !! f)) \/
  (exists pre f post s1 e, files = pre ++ f :: post /\
     check_files_loop files pre (batch_init hash_file0 pages0) = PyOk s1 /\
     check_file files s1 f = PyRaise e /\ check_files files = PyRaise e).
Proof.
  unfold check_files.
  destruct (loop_progress files files (batch_init hash_file0 pages0)) as [(s & H & Hc & _ & Hall)|H].
  - left. exists s. by split_and!.
  - by right.
Qed.

(** From any state, [__check_files] on a list of files never returns
    normally *)
Lemma scan_list_run_fails projects_list addins_list extra_list scan_file load_trees links s0 l s :
  check_files_run_from projects_list addins_list extra_list scan_file load_trees links s0 (ScanList l) <> PyOk s.
Proof.
  unfold check_files_run_from. destruct (dxl_files_of _) as [files|e]; cbn [py_bind]; [|discriminate].
  destruct (check_files_loop _ _ _) as [s1|e]; cbn [py_bind]; [|discriminate].
  unfold check_files_end. destruct (ih_hash_file (html s1)); [|discriminate]. discriminate.
Qed.

(** C23: In the [-s] mode [__doit] calls [__check_files(self.__scan_file)]
    with the list of files itself; no branch of the [if]/[elif] on
    [txt_filename] assigns [dxl_menu], so whatever the files, the run never
    returns normally: it raises before [__check_dependencies] and before
    [__doit] writes any report. *)
Theorem scan_files_run_fails projects_list addins_list extra_list scan_file load_trees links l s :
  check_files_run projects_list addins_list extra_list scan_file load_trees links (ScanList l) <> PyOk s.
Proof. apply scan_list_run_fails. Qed.

End Batch.

Lemma oversize_report_witness :
  let size := fun f : string => if String.eqb f "K:/big.dxl" then 600000%N else 10%N in
  let read := fun f : string => if String.eqb f "a.dxl" then py_src "#include <K:/big.dxl>" else [] in
  exists s, check_files size read (listed_exists ["K:/big.dxl"]) [] ex_hash true 10 None ∅ ["a.dxl"; "K:/big.dxl"] = PyOk s /\
  "K:/big.dxl" ∈ checked_includes s /\ occ "K:/big.dxl" ["a.dxl"; "K:/big.dxl"] = 1 /\
  oversize (size "K:/big.dxl") = true /\
  report s !! "K:/big.dxl" = Some [OversizeFileError (too_big_msg (size "K:/big.dxl"))].
Proof.
  intros size read. eexists. split; [vm_compute; reflexivity|].
  split; [apply (bool_decide_eq_true_1 _); vm_compute; reflexivity|].
  split; [reflexivity|]. split; [reflexivity|].
  eapply (oversize_report size read (listed_exists ["K:/big.dxl"]) [] ex_hash true 10 None ∅ ["a.dxl"; "K:/big.dxl"]);
    [vm_compute; reflexivity | reflexivity | reflexivity].
Defined.

Lemma check_files_raises_witness :
  let size := fun _ : string => 20%N in
  let read := fun f : string => if String.eqb f "a.dxl" then py_src "pragma runLim" else [] in
  "a.dxl" ∈ ["b.dxl"; "a.dxl"] /\ oversize (size "a.dxl") = false /\
  check_pragmas (size "a.dxl") (read "a.dxl") = PyRaise IndexError /\
  exists e', check_files size read (fun _ => false) [] ex_hash true 10 None ∅ ["b.dxl"; "a.dxl"] = PyRaise e'.
Proof.
  intros size read.
  assert (Hin : "a.dxl" ∈ ["b.dxl"; "a.dxl"]) by (right; left).
  assert (Hp : check_pragmas (size "a.dxl") (read "a.dxl") = PyRaise IndexError) by (vm_compute; reflexivity).
  split; [exact Hin|]. split; [reflexivity|]. split; [exact Hp|].
  exact (check_files_raises size read (fun _ => false) [] ex_hash true 10 None ∅ ["b.dxl"; "a.dxl"] "a.dxl" IndexError Hin eq_refl Hp).
Defined.

(** a file scanned as a main file and then included by a later file
    of the list is checked a second time as an include: its
    string-initialisation error is reported twice. *)
Example include_rechecked_twice :
  let read := fun f : string =>
    if String.eqb f "a.dxl" then py_src "#include <K:/b.dxl>
int x"
    else if String.eqb f "K:/b.dxl" then py_src "string x = null;" else [] in
  option_map (fun s => report s !! "K:/b.dxl")
    (match check_files (fun _ => 40%N) read (listed_exists ["K:/b.dxl"]) [] ex_hash true 10 None ∅ ["K:/b.dxl"; "a.dxl"] with
     | PyOk s => Some s | PyRaise _ => None end) =
  Some (Some [Error "Bad string initialization" use_empty_msg 1; Error "Bad string initialization" use_empty_msg 1]).
Proof. vm_compute. reflexivity. Qed.

(** [__is_error_pragma], which the HTML page of a file reads, holds
    the result for the last include checked, not for the file: [a.dxl] has
    its pragma after its include, but after its include [b.inc] is checked
    the flag is off again. *)
Example pragma_flag_overwritten :
  let read := fun f : string =>
    if String.eqb f "a.dxl" then py_src "#include <K:/b.inc>
pragma runLim, 0"
    else if String.eqb f "K:/b.inc" then py_src "int y" else [] in
  check_pragmas 40 (read "a.dxl") = PyOk (true, []) /\
  option_map is_error_pragma
    (match check_files (fun _ => 40%N) read (listed_exists ["K:/b.inc"]) [] ex_hash true 10 None ∅ ["a.dxl"] with
     | PyOk s => Some s | PyRaise _ => None end) = Some false.
Proof. split; vm_compute; reflexivity. Qed.

(** A first run, in a fresh output directory, on files without includes:
    no include is hashed, so [txt/hash_content.txt] does not exist and
    [__check_same_include_content] raises [IOError] after the loop. *)
Example fresh_run_without_includes_ioerror :
  check_files_run (fun _ => 10%N) (fun _ => py_src "int x") (fun _ => false) [] ex_hash true 10 None ∅
    "K:\txt\projects_list.txt" "K:\txt\addins_list.txt" "K:\txt\extra_list.txt" []
    (fun _ => [PDict [("K:\m", PDict [("a.dxl", PStr "K:\m\a.dxl")])]]) (fun _ => "")
    (TxtPath "K:\txt\projects_list.txt") = PyRaise IOError.
Proof. vm_compute. reflexivity. Qed.

End Batch.
