(* ===== verification/Reports.v ===== *)
(** * Reports: the issue reports of [src/dxl-analyzer/dxl_scan.py]

    [__gen_report] writes [report.html]: for each file of
    [self.__report], in the order of [sorted(self.__report.keys())], the
    number of its errors, a link to its page and one [<li>] per error,
    [str(e)], followed by a "Go to error" link to the anchor of the line
    the error names ([re.search("at line \d*", str(e))], then
    [re.split("at line ", ...)[-1]]).  [__gen_report_category(category)]
    writes [report_<category>.html] with, for each file, only the errors
    whose text matches the pattern of the category
    ([re.search(cat_pattern, str(e))]).

    The patterns run through the regular-expression model of [PyRegex];
    [str(e)] is [Error.__str__] and the [__str__] of the other error
    classes.  The template ([get_css], [get_header]), [os.linesep] and
    [__get_hash] are [Section] variables; a page is the list of the
    strings [f.write] receives, in order. *)

From stdpp Require Import sorting pretty.
From S2P Require Import Prelude PyRegex RegexSearch DxlLexer Checks IncludeHtml Batch.
Import PyRegex RegexSearch DxlLexer Checks IncludeHtml Batch.

Module Reports.
Local Open Scope string_scope.

(** ** [str(e)] *)

(** [" at line %d" % self.line] when [self.line > 0] *)
Definition at_line (line : nat) : string :=
  if Nat.ltb 0 line then " at line " ++ pretty line else "".

(** [Error.__str__] (inherited by [IncludeError], [FunctionError] and
    [PragmaError], whose constructors build the message), then
    [DuplicateFileError.__str__] and [OversizeFileError.__str__] *)
Definition error_str (e : error) : string :=
  match e with
  | Error kind message line => kind ++ ": " ++ message ++ at_line line
  | IncludeError path kind line => kind ++ ": " ++ ("when including " ++ path) ++ at_line line
  | FunctionError token kind line => kind ++ ": " ++ token ++ at_line line
  | PragmaError token kind line => kind ++ ": " ++ token ++ at_line line
  | DuplicateFileError message file_path => message ++ ": " ++ file_path
  | OversizeFileError message => message
  end.

(** ** [re.search] and [re.split] with a pattern given as a string *)

(** The compiled pattern ([re.compile] without flags) *)
Definition re_of (pat : string) : re :=
  match compile false (py_src pat) with Some r => r | None => REmpty end.

(** [re.search(pat, s)]: span and groups of the first match *)
Definition re_search (pat : string) (s : string) : option (nat * nat * captures) :=
  let cs := list_ascii_of_string s in
  search_from (S (length cs)) (re_of pat) cs 0.

(** [re.split(pat, s)] for a pattern without groups: the pieces between
    the successive non-empty matches, as [_sre] skips the empty ones *)
Definition re_split (pat : string) (cs : chars) : list chars :=
  let ms := List.filter (fun m => negb (Nat.eqb m.1.1 m.1.2)) (finditer (re_of pat) cs) in
  let '(pieces, last) := foldl (fun acc m => (app acc.1 [slice cs acc.2 m.1.1], m.1.2)) ([], 0) ms in
  app pieces [drop last cs].

(** ** The anchor of an error *)

Definition at_line_src : string := "at line \d*".

(** [match = re.search("at line \d*", str(e))]; if it matched,
    [re.split("at line ", match.group(0))[-1]] *)
Definition error_line (e : error) : option string :=
  let s := error_str e in
  match re_search at_line_src s with
  | Some (b, e', _) =>
      Some (string_of_list_ascii
              (default [] (last (re_split "at line " (slice (list_ascii_of_string s) b e')))))
  | None => None
  end.

(** ** Categories *)

(** The [if]/[elif] chain on [category]; [None] leaves [cat_pattern]
    unbound *)
Definition cat_pattern (category : string) : option string :=
  if String.eqb category "include" then Some "when including"
  else if String.eqb category "pragma" then Some "[pP]ragma|Execution cycle"
  else if String.eqb category "system" then Some "System Call"
  else if String.eqb category "duplication" then Some "Same filename"
  else if String.eqb category "function" then Some "Function defined more than once with the same name"
  else if String.eqb category "include duplication" then Some "Identical content"
  else if String.eqb category "string initialization" then Some "[Ss]tring initialization"
  else None.

(** [if cat_match:] with [cat_match = re.search(cat_pattern, str(e))] *)
Definition cat_match (pat : string) (e : error) : bool :=
  match re_search pat (error_str e) with Some _ => true | None => false end.

(** [el_category]: the loop [for e in el]; an unbound [cat_pattern]
    raises [UnboundLocalError] (a [NameError]) at the first error *)
Definition el_category (category : string) (el : list error) : py_result (list error) :=
  match el with
  | [] => PyOk []
  | _ :: _ =>
      match cat_pattern category with
      | Some pat => PyOk (List.filter (cat_match pat) el)
      | None => PyRaise NameError
      end
  end.

(** The categories [__doit] generates, in order *)
Definition categories : list string :=
  ["pragma"; "include"; "system"; "duplication"; "function"; "include duplication"; "string initialization"].

(** [html_file_path.replace(" ","%20")] *)
Fixpoint replace_space (s : string) : string :=
  match s with
  | EmptyString => EmptyString
  | String c s' => if Ascii.eqb c " " then "%20" ++ replace_space s' else String c (replace_space s')
  end.

(** [sorted(self.__report.keys())]: Python compares [str] bytewise,
    which is [String.le] *)
Definition sorted_keys {A} (r : gmap string A) : list string :=
  merge_sort String.le (map fst (map_to_list r)).

Section Pages.
(** [self.__template.get_css()] and [self.__template.get_header()] *)
Variables css header : string.
(** [os.linesep] *)
Variable linesep : string.
(** [self.__get_hash] *)
Variable get_hash : chars -> string.

(** ["dxl_files/"+self.__get_hash(k)+"_"+os.path.basename(k)+".html"],
    with its spaces replaced, as the [href] is written *)
Definition href_of (k : string) : string :=
  replace_space ("dxl_files/" ++ html_name get_hash k ++ ".html").

(** The writes of one error: [<li>str(e)], and when the error names a
    line, the "Go to error" link and the closing [</li>] *)
Definition error_writes (href : string) (e : error) : list string :=
  ("<li>" ++ error_str e ++ linesep)
  :: match error_line e with
     | Some l => ["<a href='" ++ href ++ "#" ++ l ++ "'>Go to error</a>"; "</li>"]
     | None => []
     end.

(** The page head of [report.html] and of the category pages, up to the
    opening [<ul>] *)
Definition page_head (title meta h1 : string) : list string :=
  ["<html><font face=" ++ qt ++ "helvetica" ++ qt ++ " size=" ++ qt ++ "2" ++ qt ++ "><head><title>" ++ title ++ "</title>";
   meta; css; "</head><body>"; header;
   "<h1 style='padding-left:30px;'>" ++ h1 ++ "</h1>"; "<ul>"].

Definition page_tail : list string := ["</ul>"; "</body></font></html>"].

(** One file of [report.html] *)
Definition report_file (k : string) (el : list error) : list string :=
  app (match el with
       | [] => []
       | _ :: _ => ["<br><br>"; "<b><font color=" ++ qt ++ "red" ++ qt ++ ">" ++ pretty (length el) ++ " found</font> in " ++ "<a href='" ++ href_of k ++ "'>" ++ k ++ "</a></b>"]
       end)
      (concat (map (error_writes (href_of k)) el)).

(** [__gen_report] *)
Definition gen_report (report : gmap string (list error)) : list string :=
  app (page_head "Issues report" "<meta http-equiv='X-UA-Compatible' content='IE=8'/>" "Issues Report")
      (app (concat (map (fun k => report_file k (default [] (report !! k))) (sorted_keys report))) page_tail).

(** One file of [report_<category>.html] *)
Definition category_file (category k : string) (el : list error) : py_result (list string) :=
  pylet elc := el_category category el in
  PyOk (app (match elc with
             | [] => []
             | _ :: _ => ["<br><br>"; "<b><a href='" ++ href_of k ++ "'>" ++ k ++ "</a></b>"]
             end)
            (concat (map (error_writes (href_of k)) elc))).

Fixpoint category_loop (category : string) (report : gmap string (list error)) (ks : list string)
    : py_result (list string) :=
  match ks with
  | [] => PyOk []
  | k :: ks' =>
      pylet w := category_file category k (default [] (report !! k)) in
      pylet ws := category_loop category report ks' in
      PyOk (app w ws)
  end.

(** [__gen_report_category(category)] *)
Definition gen_report_category (category : string) (report : gmap string (list error)) : py_result (list string) :=
  let title := py_capitalize category ++ " issues" in
  pylet body := category_loop category report (sorted_keys report) in
  PyOk (app (page_head title "<meta http-equiv='X-UA-Compatible' content='IE=8' />" title) (app body page_tail)).

End Pages.

(** ** The errors the checks create

    The error objects [StartDoors] builds, by creation site, with the
    category the specification files each diagnostic under: include errors
    ([__get_valid_includes]), system calls ([__check_sys_calls]), null
    string initialisations ([__check_string_init]), forbidden pragmas
    ([__check_pragmas]), duplicate names and contents
    ([__check_duplicates], [__check_same_include_content]). *)
Inductive produced : error -> string -> Prop :=
| pr_include path kind line : produced (IncludeError path kind line) "include"
| pr_sys tok line : produced (FunctionError tok "System Call" line) "system"
| pr_string message line : produced (Error "Bad string initialization" message line) "string initialization"
| pr_xflags tok line : produced (PragmaError tok "Pragma xflags forbidden" line) "pragma"
| pr_cycle tok line : produced (PragmaError tok "Execution cycle not 0" line) "pragma"
| pr_same path : produced (DuplicateFileError "Same filename" path) "duplication"
| pr_identical links : produced (DuplicateFileError "Identical content" links) "include duplication".

(** ** Lemmas *)

Definition all_digits (l : chars) : bool := forallb is_digit l.

Lemma pretty_N_go_digits x s :
  all_digits (list_ascii_of_string s) = true -> all_digits (list_ascii_of_string (pretty_N_go x s)) = true.
Proof.
  revert s. induction (N.lt_wf_0 x) as [x _ IH]; intros s Hs.
  destruct (decide (x = 0%N)) as [->|Hx]; [by rewrite pretty_N_go_0|].
  rewrite pretty_N_go_step by lia. apply IH; [apply N.div_lt; lia|].
  simpl. rewrite Hs, andb_true_r. unfold pretty_N_char. by repeat case_match.
Qed.

(** [str(n)] and ["%d" % n] are made of decimal digits *)
Lemma pretty_N_digits (x : N) : all_digits (list_ascii_of_string (pretty x)) = true.
Proof. unfold pretty, pretty_N. case_decide; [done|]. by apply pretty_N_go_digits. Qed.

Lemma pretty_digits (n : nat) : all_digits (list_ascii_of_string (pretty n)) = true.
Proof. apply pretty_N_digits. Qed.

Lemma digit_run_all D : all_digits D = true -> run_of is_digit D = length D.
Proof. induction D as [|a D IH]; simpl; [done|]. intros [-> H]%andb_prop. by rewrite IH. Qed.

Lemma all_digits_letter D j a : all_digits D = true -> is_digit a = false -> a ∉ drop j D.
Proof.
  intros HD Ha Hin%drop_subseteq. unfold all_digits in HD. rewrite forallb_forall in HD.
  apply list_elem_of_In, HD in Hin. congruence.
Qed.

Lemma re_of_at_line : re_of at_line_src = chain (lit "at line ") digits_star.
Proof. by vm_compute. Qed.

Lemma re_of_at_line_sep : re_of "at line " = chain (lit "at line") (RLit " ").
Proof. by vm_compute. Qed.

Lemma lit_at_line_sep : lit "at line " = app (lit "at line") [RLit " "].
Proof. reflexivity. Qed.

(** Before the [" at line "] that ends the text, no ["at line "] starts,
    when [pre] has none *)
Lemma no_at_line_before P D j :
  occurs (lit "at line") P = false -> j <= length P ->
  accepts (lit "at line ") (drop j (app P (app (list_ascii_of_string " at line ") D))) = false.
Proof.
  intros HP Hj. destruct (decide (j = length P)) as [->|Hne]; [by rewrite drop_app_length|].
  rewrite drop_app_le by lia. set (t := drop j P).
  assert (Hocc : accepts (lit "at line") t = false).
  { destruct (accepts (lit "at line") t) eqn:E; [|done].
    rewrite <- HP. symmetry. apply occurs_spec. by exists j. }
  assert (Ht : 1 <= length t) by (unfold t; rewrite length_drop; lia).
  destruct (Nat.le_gt_cases 8 (length t)) as [Hl|Hl].
  - rewrite accepts_app_long by (simpl; lia). rewrite lit_at_line_sep, accepts_app, Hocc. done.
  - rewrite accepts_app_short by (simpl; lia).
    destruct (decide (length t = 7)) as [H7|H7].
    + rewrite H7. change (take 7 (lit "at line ")) with (lit "at line"). rewrite Hocc. done.
    + rewrite (accepts_app_long _ (list_ascii_of_string " at line ")) by (rewrite length_drop; simpl; lia).
      apply andb_false_intro2.
      destruct (length t) as [|[|[|[|[|[|[|k]]]]]]]; try lia; reflexivity.
Qed.

(** The search for ["at line \d*"] finds the [" at line "] that ends the
    text, and the digits after it *)
Lemma at_line_search P D :
  all_digits D = true -> occurs (lit "at line") P = false ->
  let s := app P (app (list_ascii_of_string " at line ") D) in
  search_from (S (length s)) (re_of at_line_src) s 0 = Some (S (length P), length s, []).
Proof.
  intros HD HP s. rewrite re_of_at_line.
  assert (Hs : length s = length P + 9 + length D) by (unfold s; rewrite !length_app; simpl; lia).
  apply (search_from_first _ _ _ _ _ (length s, [])); [lia|lia|lia| |].
  - intros j' Hj'. rewrite match_at_chain_digits by done. unfold s. by rewrite no_at_line_before; [..|lia].
  - rewrite match_at_chain_digits by done.
    assert (Hd : drop (S (length P)) s = app (list_ascii_of_string "at line ") D).
    { unfold s. rewrite drop_app_ge by lia. by replace (S (length P) - length P) with 1 by lia. }
    rewrite Hd, accepts_app_long by (simpl; lia).
    replace (accepts (lit "at line ") (list_ascii_of_string "at line ")) with true by reflexivity.
    change (length (lit "at line ")) with 8.
    assert (Hd8 : drop (S (length P) + 8) s = D) by (rewrite <- drop_drop, Hd; apply (drop_app_length (list_ascii_of_string "at line "))).
    rewrite Hd8, digit_run_all by done. rewrite Hs. do 2 f_equal. lia.
Qed.

(** [re.split("at line ", "at line " + digits)] *)
Lemma re_split_at_line D :
  all_digits D = true -> re_split "at line " (app (list_ascii_of_string "at line ") D) = [[]; D].
Proof.
  intros HD. unfold re_split. set (x := app (list_ascii_of_string "at line ") D).
  assert (Hx : length x = 8 + length D) by (unfold x; rewrite length_app; reflexivity).
  assert (Hf : finditer (re_of "at line ") x = [(0, 8, [])]).
  { unfold finditer. rewrite re_of_at_line_sep, Hx, finditer_from_S.
    rewrite (search_from_first _ _ _ _ 0 (8, [])); [|lia|lia|lia|intros; lia|].
    2:{ rewrite match_at_chain_single by done. unfold x. rewrite drop_0, <- lit_at_line_sep.
        by rewrite accepts_app_long by (simpl; lia). }
    cbn [fst snd]. rewrite Hx. destruct (Nat.ltb_spec (8 + length D) 8); [lia|].
    replace (8 + length D) with (S (7 + length D)) by lia. rewrite finditer_from_S.
    rewrite search_from_none; [done|simpl; lia|]. intros j Hj. simpl in Hj. rewrite match_at_chain_single by done.
    rewrite <- lit_at_line_sep, accepts_missing with (a := "a"%char); [done|by left|].
    unfold x. replace j with (8 + (j - 8)) by lia. rewrite <- drop_drop, (drop_app_length (list_ascii_of_string "at line ")).
    by apply all_digits_letter. }
  rewrite Hf. cbn. by rewrite drop_0.
Qed.

Lemma slice_to_end (s : chars) b : slice s b (length s) = drop b s.
Proof. unfold slice. apply take_ge. rewrite length_drop. lia. Qed.

(** ** Category patterns *)

Lemma re_of_include : re_of "when including" = chain (lit "when includin") (RLit "g").
Proof. by vm_compute. Qed.
Lemma re_of_pragma :
  re_of "[pP]ragma|Execution cycle" =
  RAlt (chain (RIn false [SLit "p"; SLit "P"] :: lit "ragm") (RLit "a")) (chain (lit "Execution cycl") (RLit "e")).
Proof. by vm_compute. Qed.
Lemma re_of_system : re_of "System Call" = chain (lit "System Cal") (RLit "l").
Proof. by vm_compute. Qed.
Lemma re_of_duplication : re_of "Same filename" = chain (lit "Same filenam") (RLit "e").
Proof. by vm_compute. Qed.
Lemma re_of_function :
  re_of "Function defined more than once with the same name" = chain (lit "Function defined more than once with the same nam") (RLit "e").
Proof. by vm_compute. Qed.
Lemma re_of_identical : re_of "Identical content" = chain (lit "Identical conten") (RLit "t").
Proof. by vm_compute. Qed.
Lemma re_of_string_init :
  re_of "[Ss]tring initialization" = chain (RIn false [SLit "S"; SLit "s"] :: lit "tring initializatio") (RLit "n").
Proof. by vm_compute. Qed.

(** A pattern matching at some position of [str(e)] makes [cat_match] hold *)
Lemma cat_match_at pat e j :
  j <= length (list_ascii_of_string (error_str e)) ->
  match_at (re_of pat) (list_ascii_of_string (error_str e)) j <> None -> cat_match pat e = true.
Proof.
  intros Hj Hm. unfold cat_match, re_search.
  destruct (search_from _ _ _ _) eqn:E; [done|]. exfalso. revert E. by apply (search_from_found _ _ _ _ j); [lia|lia|lia|].
Qed.

(** [str(e)] holds the text [T] after [A] *)
Lemma cat_match_text pat e A T rest :
  list_ascii_of_string (error_str e) = app A (app T rest) ->
  match_at (re_of pat) (app A (app T rest)) (length A) <> None -> cat_match pat e = true.
Proof. intros He Hm. apply (cat_match_at _ _ (length A)); rewrite He; [rewrite !length_app; lia | done]. Qed.

(** Splitting [str(e)] at literal texts *)
Ltac error_text := cbn [error_str]; rewrite ?list_ascii_of_string_app, <- ?app_assoc; reflexivity.

Ltac member := repeat (first [by left | right]).

(** A chain whose text starts at position [length A] *)
Lemma match_at_infix rs r A T rest :
  forallb single (app rs [r]) = true -> length (app rs [r]) <= length T -> accepts (app rs [r]) T = true ->
  match_at (chain rs r) (app A (app T rest)) (length A) <> None.
Proof.
  intros Hs Hl Ha. rewrite match_at_chain_single by done.
  by rewrite drop_app_length, accepts_app_long, Ha by done.
Qed.

Lemma match_at_alt_intro r1 r2 s j :
  match_at r1 s j <> None \/ match_at r2 s j <> None -> match_at (RAlt r1 r2) s j <> None.
Proof. rewrite match_at_alt_split. destruct (match_at r1 s j); [done|]. by intros [?|?]. Qed.

(** A chain needing a character [str(e)] lacks never matches *)
Lemma no_match_missing rs r s a j :
  forallb single (app rs [r]) = true -> RLit a ∈ app rs [r] -> a ∉ s -> match_at (chain rs r) s j = None.
Proof.
  intros Hs Ha Hna. rewrite match_at_chain_single by done.
  rewrite (accepts_missing _ _ a); [done|done|]. intros H%drop_subseteq. contradiction.
Qed.

Lemma cat_match_none pat e :
  (forall j, match_at (re_of pat) (list_ascii_of_string (error_str e)) j = None) -> cat_match pat e = false.
Proof. intros H. unfold cat_match, re_search. rewrite search_from_none; [done|lia|]. auto. Qed.

Lemma not_in_chars (a : ascii) (l : chars) : existsb (Ascii.eqb a) l = false -> a ∉ l.
Proof.
  intros H Hin. apply list_elem_of_In in Hin.
  assert (existsb (Ascii.eqb a) l = true) by (apply existsb_exists; exists a; by rewrite Ascii.eqb_refl). congruence.
Qed.

(** ** Theorems *)

(** C26: The "Go to error" link of an error whose text ends in
    [" at line n"] (a line [n > 0]) points at the anchor [n] of the page,
    the [id] of the tokens of line [n], provided the text before it has no
    ["at line"]: [re.search] takes the first ["at line"], the greedy
    [\d*] takes all the digits of [n] and [re.split(...)[-1]] keeps them. *)
Theorem go_to_error_line e pre n :
  error_str e = pre ++ at_line n -> 0 < n ->
  occurs (lit "at line") (list_ascii_of_string pre) = false ->
  error_line e = Some (pretty n).
Proof.
  intros He Hn Hpre. unfold error_line, re_search. rewrite He.
  unfold at_line. rewrite (proj2 (Nat.ltb_lt 0 n) Hn), !list_ascii_of_string_app.
  pose proof (pretty_digits n) as HD. rewrite at_line_search by done.
  rewrite slice_to_end, drop_app_ge by lia.
  replace (S (length (list_ascii_of_string pre)) - length (list_ascii_of_string pre)) with 1 by lia.
  change (drop 1 (app (list_ascii_of_string " at line ") ?D)) with (app (list_ascii_of_string "at line ") D).
  rewrite re_split_at_line by done. cbn. by rewrite string_of_list_ascii_of_string.
Qed.

Lemma go_to_error_line_witness :
  error_line (PragmaError "pragma runLim,1" "Execution cycle not 0" 123) = Some "123".
Proof.
  apply (go_to_error_line _ "Execution cycle not 0: pragma runLim,1" 123); [reflexivity|lia|reflexivity].
Defined.

(** C25: Every error the checks create is listed on the page of its
    category: for each file, [el_category] keeps it. *)
Theorem produced_error_listed e c el :
  produced e c -> e ∈ el -> exists l, el_category c el = PyOk l /\ e ∈ l.
Proof.
  intros Hp Hin. destruct el as [|e0 el0]; [by apply not_elem_of_nil in Hin|].
  unfold el_category.
  assert (exists pat, cat_pattern c = Some pat /\ cat_match pat e = true) as (pat & -> & Hm).
  { destruct Hp; eexists; split; [reflexivity| |reflexivity| |reflexivity| |reflexivity| |reflexivity| |reflexivity| |reflexivity|].
    - apply (cat_match_text _ _ (list_ascii_of_string (kind ++ ": ")) (list_ascii_of_string "when including")
               (list_ascii_of_string (" " ++ path ++ at_line line))); [error_text|].
      rewrite re_of_include. by apply match_at_infix.
    - apply (cat_match_text _ _ [] (list_ascii_of_string "System Call")
               (list_ascii_of_string (": " ++ tok ++ at_line line))); [error_text|].
      rewrite re_of_system. by apply (match_at_infix _ _ []).
    - apply (cat_match_text _ _ (list_ascii_of_string "Bad ") (list_ascii_of_string "string initialization")
               (list_ascii_of_string (": " ++ message ++ at_line line))); [error_text|].
      rewrite re_of_string_init. by apply match_at_infix.
    - apply (cat_match_text _ _ [] (list_ascii_of_string "Pragma")
               (list_ascii_of_string (" xflags forbidden: " ++ tok ++ at_line line))); [error_text|].
      rewrite re_of_pragma. apply match_at_alt_intro. left. by apply (match_at_infix _ _ []).
    - apply (cat_match_text _ _ [] (list_ascii_of_string "Execution cycle")
               (list_ascii_of_string (" not 0: " ++ tok ++ at_line line))); [error_text|].
      rewrite re_of_pragma. apply match_at_alt_intro. right. by apply (match_at_infix _ _ []).
    - apply (cat_match_text _ _ [] (list_ascii_of_string "Same filename") (list_ascii_of_string (": " ++ path)));
        [error_text|].
      rewrite re_of_duplication. by apply (match_at_infix _ _ []).
    - apply (cat_match_text _ _ [] (list_ascii_of_string "Identical content") (list_ascii_of_string (": " ++ links)));
        [error_text|].
      rewrite re_of_identical. by apply (match_at_infix _ _ []). }
  eexists. split; [reflexivity|]. apply list_elem_of_In, filter_In. split; [by apply list_elem_of_In | done].
Qed.

Lemma produced_error_listed_witness :
  exists l, el_category "include" [IncludeError "K:\lib\a.inc" "Illegal path" 3] = PyOk l /\
            IncludeError "K:\lib\a.inc" "Illegal path" 3 ∈ l.
Proof. apply produced_error_listed; [constructor | left]. Defined.

(** C27: The error of an oversize file, ["File (n bytes) too big"],
    matches none of the category patterns: such a file is listed in
    [report.html] and on no category page. *)
Theorem oversize_on_no_category_page fs c pat :
  cat_pattern c = Some pat -> cat_match pat (OversizeFileError (too_big_msg fs)) = false.
Proof.
  intros Hc. apply cat_match_none. intros j.
  assert (Hna : forall a, is_digit a = false ->
            existsb (Ascii.eqb a) (list_ascii_of_string "File (") = false ->
            existsb (Ascii.eqb a) (list_ascii_of_string " bytes) too big") = false ->
            a ∉ list_ascii_of_string (error_str (OversizeFileError (too_big_msg fs)))).
  { intros a Hd H1 H2. cbn [error_str]. unfold too_big_msg. rewrite !list_ascii_of_string_app, !elem_of_app.
    intros [H|[H|H]]; [by apply (not_in_chars a _ H1) | | by apply (not_in_chars a _ H2)].
    revert H. rewrite <- (drop_0 (list_ascii_of_string (pretty fs))). apply all_digits_letter; [apply pretty_N_digits|done]. }
  unfold cat_pattern in Hc. repeat (destruct (String.eqb _ _); [injection Hc as <-|]); [..|discriminate].
  - rewrite re_of_include. apply (no_match_missing _ _ _ "w"); [done|member|by apply Hna].
  - rewrite re_of_pragma, match_at_alt_split, (no_match_missing _ _ _ "r"), (no_match_missing _ _ _ "x");
      solve [done|member|by apply Hna].
  - rewrite re_of_system. apply (no_match_missing _ _ _ "S"); [done|member|by apply Hna].
  - rewrite re_of_duplication. apply (no_match_missing _ _ _ "S"); [done|member|by apply Hna].
  - rewrite re_of_function. apply (no_match_missing _ _ _ "u"); [done|member|by apply Hna].
  - rewrite re_of_identical. apply (no_match_missing _ _ _ "I"); [done|member|by apply Hna].
  - rewrite re_of_string_init. apply (no_match_missing _ _ _ "z"); [done|member|by apply Hna].
Qed.

Lemma oversize_on_no_category_page_witness :
  cat_match "[Ss]tring initialization" (OversizeFileError (too_big_msg 600001)) = false.
Proof. apply (oversize_on_no_category_page _ "string initialization"). reflexivity. Defined.

(** An include error whose path holds the word [pragma] is listed on
    the pragma page as well as on the include page: the category is read
    from the whole text of the error, path included. *)
Example include_path_on_pragma_page :
  el_category "include" [IncludeError "K:\lib\pragma_utils.inc" "Illegal path" 3]
    = PyOk [IncludeError "K:\lib\pragma_utils.inc" "Illegal path" 3] /\
  el_category "pragma" [IncludeError "K:\lib\pragma_utils.inc" "Illegal path" 3]
    = PyOk [IncludeError "K:\lib\pragma_utils.inc" "Illegal path" 3].
Proof. split; vm_compute; reflexivity. Qed.

(** The anchor is read from the first ["at line"] of the text, so an
    include error on line 42 whose path holds ["at line 7"] links to line
    7. *)
Example go_to_error_path_line :
  error_line (IncludeError "K:\tools\at line 7\x.inc" "Illegal path" 42) = Some "7".
Proof. vm_compute. reflexivity. Qed.

End Reports.
