(* ===== verification/TreePages.v ===== *)
(** * TreePages: the menu tree pages and the list of files

    [__txt2html] writes the page of a menu ([projects_tree.html], ...):
    for each tree [__save_tree] pickled, [__gen_html] walks the nested
    dicts, writes each directory name and, for each [.dxl] file that
    [__file_exec_by_doors] accepts, a link to the file's page.  The file
    is accepted when the lexer marks it ([get_tokens] sets
    [is_exec_by_doors]), when it lies under one of the [-e] directories,
    or when its base name occurs in an [.idx] file of its directory.
    [__list_html_files] then lists the pages of [dxl_files/], naming each
    page by its file name with the hash prefix stripped, and
    [__write_list_files] writes one row per page with the number of
    errors of the file the page's edit batch file names.

    [os.path.getsize], [os.listdir], the reading of files, [__get_hash],
    the template and the per-page tables are [Section] variables; a page
    is the list of the strings [f.write] receives. *)

From stdpp Require Import sorting pretty.
From S2P Require Import Prelude PyRegex RegexSearch DxlLexer Classifier Checks NtPath IncludeHtml Duplicates Menu Reports.
Import PyRegex RegexSearch DxlLexer Classifier Checks NtPath IncludeHtml Duplicates Menu Reports.

Module TreePages.
Local Open Scope string_scope.

(** ** [str.lstrip(chars)] and [str.rstrip(chars)] *)

(** [c in chars] *)
Definition in_chars (set : string) (c : ascii) : bool := existsb (Ascii.eqb c) (list_ascii_of_string set).

(** [s.lstrip(set)]: every leading character found in [set] removed *)
Definition py_lstrip (set s : string) : string :=
  string_of_list_ascii (drop_while (in_chars set) (list_ascii_of_string s)).

(** [s.rstrip(set)] *)
Definition py_rstrip (set s : string) : string :=
  string_of_list_ascii (rev (drop_while (in_chars set) (rev (list_ascii_of_string s)))).

(** [p.startswith(q)] *)
Definition starts_with (q p : chars) : bool := bool_decide (q `prefix_of` p).

(** ** [__file_exec_by_doors] *)

Section Exec.
(** [os.path.getsize] *)
Variable file_size : string -> N.
(** [self.__extra_directory], the directories given with [-e] *)
Variable extra_directory : list string.
(** [os.listdir] *)
Variable listdir : chars -> list chars.
(** [open(p).read()] *)
Variable read_file : chars -> chars.

(** [self.__lexer.is_exec_by_doors] after [get_tokens(dxl_content)] *)
Definition lexer_exec (dxl_content : chars) : bool :=
  match get_tokens dxl_content with Some s => is_exec_by_doors s | None => false end.

(** [for extra_dir in self.__extra_directory: if
    os.path.normpath(dxl_file).startswith(os.path.normpath(extra_dir))] *)
Definition extra_step (f : chars) (e : bool) (extra_dir : string) : bool :=
  if starts_with (normpath (list_ascii_of_string extra_dir)) (normpath f) then true else e.

(** [for filename in list_files]: an [.idx] file naming the file *)
Definition idx_step (f : chars) (e : bool) (filename : chars) : bool :=
  if chars_eqb (splitext filename).2 (list_ascii_of_string ".idx")
  then if py_in (string_of_list_ascii (splitext (basename f)).1)
                (string_of_list_ascii (read_file (app (dirname f) (bs :: filename))))
       then true else e
  else e.

(** [__file_exec_by_doors(dxl_file, dxl_content)] *)
Definition file_exec_by_doors (dxl_file : string) (dxl_content : chars) : bool :=
  if oversize (file_size dxl_file) then false
  else
    let f := list_ascii_of_string dxl_file in
    let e := fold_left (extra_step f) extra_directory (lexer_exec dxl_content) in
    fold_left (idx_step f) (listdir (dirname f)) e.

(** ** [__gen_html] and [__txt2html] *)

(** [__get_dxl_content] *)
Variable get_dxl_content : string -> chars.
(** [self.__get_hash] *)
Variable get_hash : chars -> string.
(** [self.__template.get_css()], [self.__template.get_header()] *)
Variables css header : string.

(** What [__gen_html] writes, with [self.__count_dirs] *)
Record gh_out := GH { gh_writes : list string; gh_count_dirs : nat }.

Definition dir_writes (k : string) : list string :=
  ["<li style='list-style-type: none;'><b>&#9492;&#9472; "; k; "</b></li>"].

Definition link_open (v : string) : string :=
  "<li style='list-style-type: none;'>&#9492;&#9472; <a href='dxl_files/" ++ replace_space (html_name get_hash v) ++ ".html'>".

(** [k.rstrip(".dxl")], the text of a file's link *)
Definition menu_label (k : string) : string := py_rstrip ".dxl" k.

(** The branch of a file: a link when it is a [.dxl] file executable by
    DOORS, [menu_label k] as its text *)
Definition file_writes (k v : string) : list string :=
  if endswith ".dxl" k then
    if file_exec_by_doors v (get_dxl_content v) then [link_open v; menu_label k; "</a></li>"] else []
  else [].

(** [__gen_html(dict_obj, file, includes_list)]; [dict_obj] is one of the
    dicts [__make_tree] builds *)
Fixpoint gen_html (dict_obj : pyval) (o : gh_out) : gh_out :=
  match dict_obj with
  | PStr _ => o
  | PDict es =>
      let o1 := fold_left (fun o kv =>
                  match kv.2 with
                  | PDict _ => gen_html kv.2 (GH (app (gh_writes o) (dir_writes kv.1)) (S (gh_count_dirs o)))
                  | PStr v => GH (app (gh_writes o) (file_writes kv.1 v)) (gh_count_dirs o)
                  end) es (GH (app (gh_writes o) ["<ul>"]) (gh_count_dirs o)) in
      GH (app (gh_writes o1) ["</ul>"]) (gh_count_dirs o1)
  end.

(** The [for path in dxl_menu] loop of [__txt2html], which rebinds
    [dxl_menu] to the name of the last root; an empty list leaves the
    list there, and ["..."+dxl_menu] raises [TypeError] *)
Definition menu_title (dxl_menu : list string) : option string :=
  fold_left (fun _ path =>
               Some (if String.eqb (py_basename path) "project" then "projects"
                     else if String.eqb (py_basename path) "addins" then "addins"
                     else "extra")) dxl_menu None.

(** [__txt2html(txt_filename, ..., html_template, dxl_menu)] on the
    trees [pickle.load] returns *)
Definition txt2html (dict_list : list pyval) (dxl_menu : list string) (count_dirs : nat)
    : py_result gh_out :=
  match menu_title dxl_menu with
  | None => PyRaise TypeError
  | Some title =>
      let o := fold_left (fun o d => gen_html d o) dict_list
                 (GH ["<!DOCTYPE html><html><font face='consolas' size='2'><head><title>DXL files directory - " ++ title ++ "</title>";
                      css; "</head><body>"; header] count_dirs) in
      PyOk (GH (app (gh_writes o) ["</body></font></html>"]) (gh_count_dirs o))
  end.

End Exec.

(** ** [__list_html_files] *)

(** [self.__hash_file_dict[dxl_file] = dxl_file.lstrip(dxl_file[:41])] *)
Definition list_name (dxl_file : string) : string :=
  py_lstrip (string_of_list_ascii (take 41 (list_ascii_of_string dxl_file))) dxl_file.

(** [__hash_file_dict] over [os.listdir(self.__output_dir+"/dxl_files")] *)
Definition hash_file_dict (files_list : list string) : gmap string string :=
  foldl (fun d f => <[f := list_name f]> d) ∅ files_list.

(** ** The edit batch file of a page and [__write_list_files] *)

(** What [__dxl2html] writes to [edit_bat/<page>.bat] for [dxl_file] *)
Definition edit_bat_content (dxl_file : string) : chars :=
  list_ascii_of_string ("cleartool checkout -nc " ++ dxl_file ++ String nl "" ++ "start /min notepad++ " ++ dxl_file).

(** [match_abs_file_path = re.search("(?=notepad).*",edit_bat_content)]
    and, when it matched, [match_abs_file_path.group(0).lstrip("notepad++ ")] *)
Definition bat_path (edit_bat_content : chars) : option string :=
  match re_search "(?=notepad).*" (string_of_list_ascii edit_bat_content) with
  | Some (b, e, _) => Some (py_lstrip "notepad++ " (string_of_list_ascii (slice edit_bat_content b e)))
  | None => None
  end.

(** [s.replace(old, "")] for a non-empty [old]: occurrences removed from
    left to right *)
Fixpoint remove_go (fuel : nat) (old s : string) : string :=
  match fuel, s with
  | O, _ => s
  | _, EmptyString => EmptyString
  | S f, String c s' =>
      if String.prefix old s then remove_go f old (String.substring (String.length old) (String.length s) s)
      else String c (remove_go f old s')
  end.

Definition py_remove (old s : string) : string := remove_go (S (String.length s)) old s.

(** [sorted(self.__hash_file_dict.items(), key=operator.itemgetter(1))] *)
Definition le_value (a b : string * string) : Prop := String.le a.2 b.2.
#[local] Instance le_value_dec : RelDecision le_value.
Proof. intros a b. unfold le_value. apply _. Defined.

Definition by_value (d : gmap string string) : list (string * string) := merge_sort le_value (map_to_list d).

Section ListFiles.
(** [__get_dxl_content] *)
Variable read : string -> chars.
(** [self.__loc_dict], [self.__report], [self.__nb_inc_dict] *)
Variable loc_dict : gmap string nat.
Variable report : gmap string (list error).
Variable nb_inc_dict : gmap string nat.
Variable output_dir : string.
(** [datetime.datetime.fromtimestamp(os.path.getmtime(...)).strftime(...)] of a page *)
Variable last_analysis : string -> string.
Variables css header : string.

(** One row of the table; [abs] is [abs_file_path], [None] while it is
    unbound, and keeps its value from the previous rows when the batch
    file has no [notepad] *)
Definition row_step (acc : py_result (option string * list string)) (it : string * string)
    : py_result (option string * list string) :=
  pylet st := acc in
  let file_with_hash := it.1 in
  let fh := py_remove ".html" file_with_hash in
  let nb_lines := match loc_dict !! fh with Some n => pretty n | None => "-" end in
  let abs := match bat_path (read (output_dir ++ "/edit_bat/" ++ fh ++ ".bat")) with
             | Some a => Some a
             | None => st.1
             end in
  match abs with
  | None => PyRaise NameError
  | Some a =>
      let nb_err := match report !! a with Some el => pretty (length el) | None => "-" end in
      let nb_inc := match nb_inc_dict !! fh with Some n => pretty n | None => "-" end in
      let link := "dxl_files\" ++ file_with_hash in
      PyOk (abs, app st.2
        ["<tr id='tr-list'>"; "<td><a href='" ++ link ++ "'>" ++ py_remove ".html" it.2 ++ "</a></td>";
         "<td>" ++ nb_err ++ "</td>"; "<td>" ++ nb_inc ++ "</td>";
         "<td style='min-width:60px;'>" ++ last_analysis link ++ "</td>"; "<td>" ++ nb_lines ++ "</td>"; "</tr>"])
  end.

(** [__write_list_files(f, embedded)] *)
Definition write_list_files (files_list : list string) (hfd : gmap string string) (embedded : bool)
    : py_result (list string) :=
  let head := app ["<!DOCTYPE html><html><head><title>DXL files</title>";
                   "<meta http-equiv='X-UA-Compatible' content='IE=9' />"; css;
                   "</head><body style='line-height:1.4; min-width:800px;'>"]
              (app (if embedded then []
                    else [header; "<h1 style='margin-left:20px;'>" ++ pretty (length files_list) ++ " DXL files from projects and addins</h1>"])
                   ["<div style='margin:20px;'>"; "<table style='width:100%; background:#FFF;'>";
                    "<tr><th>Filename</th><th>Issues</th><th>Includes</th><th>Last analysis</th><th>Lines of code</th></tr>"]) in
  pylet r := fold_left row_step (by_value hfd) (PyOk (None, [])) in
  PyOk (app head (app r.2 ["</table></div></body></html>"])).

(** [__list_html_files]: [list.html] and [embedded_list.html] *)
Definition list_html_files (files_list : list string) : py_result (list string * list string) :=
  let hfd := hash_file_dict files_list in
  pylet l := write_list_files files_list hfd false in
  pylet e := write_list_files files_list hfd true in
  PyOk (l, e).

End ListFiles.

(** ** Readings of the tests *)

(** The file lies under a [-e] directory *)
Definition under_extra (extra_directory : list string) (f : chars) : bool :=
  existsb (fun d => starts_with (normpath (list_ascii_of_string d)) (normpath f)) extra_directory.

(** The name of an [.idx] file of its directory whose text names the file *)
Definition idx_names (read_file : chars -> chars) (f fn : chars) : bool :=
  chars_eqb (splitext fn).2 (list_ascii_of_string ".idx")
  && py_in (string_of_list_ascii (splitext (basename f)).1)
           (string_of_list_ascii (read_file (app (dirname f) (bs :: fn)))).

Definition idx_named (listdir : chars -> list chars) (read_file : chars -> chars) (f : chars) : bool :=
  existsb (idx_names read_file f) (listdir (dirname f)).

(** The writes that open a link to a file's page *)
Definition link_prefix : string := "<li style='list-style-type: none;'>&#9492;&#9472; <a href='".
Definition is_link (w : string) : bool := String.prefix link_prefix w.

(** [s] holds a [<] *)
Definition has_lt (s : string) : bool := in_chars s "<"%char.

(** No key of the tree holds [<], which Windows file names cannot *)
Fixpoint keys_ok (v : pyval) : bool :=
  match v with
  | PStr _ => true
  | PDict es => forallb (fun kv => negb (has_lt kv.1) && keys_ok kv.2) es
  end.

(** ** Lemmas *)

(** The marker of the lexer never holds (see [Classifier]) *)
Lemma lexer_exec_false c : lexer_exec c = false.
Proof.
  unfold lexer_exec, get_tokens. destruct (tokenize c) as [[ts ?]|]; [|done].
  by destruct (classify_exec_inv ts gt_init ltac:(done)) as (_ & _ & ?).
Qed.

Lemma file_exec_by_doors_eq file_size extra_directory listdir read_file f c :
  file_exec_by_doors file_size extra_directory listdir read_file f c =
  negb (oversize (file_size f))
  && (under_extra extra_directory (list_ascii_of_string f) || idx_named listdir read_file (list_ascii_of_string f)).
Proof.
  unfold file_exec_by_doors. destruct (oversize _); [done|]. simpl.
  rewrite (fold_left_set_true _ (idx_names read_file (list_ascii_of_string f))).
  2:{ intros e fn. unfold idx_step, idx_names. by destruct (chars_eqb _ _), (py_in _ _). }
  rewrite (fold_left_set_true _ (fun d => starts_with (normpath (list_ascii_of_string d)) (normpath (list_ascii_of_string f)))) by done.
  by rewrite lexer_exec_false.
Qed.

Lemma in_chars_elem set c : in_chars set c = true <-> c ∈ list_ascii_of_string set.
Proof.
  unfold in_chars. rewrite existsb_exists, list_elem_of_In. split.
  - intros (x & Hx & Hc). apply Ascii.eqb_eq in Hc. by subst.
  - intros H. exists c. split; [done|]. apply Ascii.eqb_refl.
Qed.

Lemma drop_while_elem f (l : chars) c : c ∈ drop_while f l -> c ∈ l.
Proof. induction l as [|a l IH]; simpl; [done|]. destruct (f a); [|done]. intros H. right. by apply IH. Qed.

(** [rstrip] keeps a prefix of the text *)
Lemma py_rstrip_no_lt set k : has_lt k = false -> has_lt (py_rstrip set k) = false.
Proof.
  unfold has_lt, py_rstrip. intros Hk. destruct (in_chars (string_of_list_ascii _) _) eqn:E; [|done]. exfalso.
  apply in_chars_elem in E. rewrite list_ascii_of_string_of_list_ascii in E.
  apply list_elem_of_In, in_rev, list_elem_of_In, drop_while_elem, list_elem_of_In in E.
  rewrite <- in_rev in E. apply list_elem_of_In, in_chars_elem in E. congruence.
Qed.

Lemma no_lt_not_link w : has_lt w = false -> is_link w = false.
Proof.
  intros H. destruct w as [|a w]; [reflexivity|]. unfold has_lt, in_chars in H. cbn [list_ascii_of_string existsb] in H.
  apply orb_false_iff in H as [Ha _]. apply Ascii.eqb_neq in Ha.
  unfold is_link, link_prefix. cbn [String.prefix]. destruct (ascii_dec "<" a); [contradiction|reflexivity].
Qed.

Lemma link_open_is_link get_hash v : is_link (link_open get_hash v) = true.
Proof. unfold is_link, link_open. replace (_ ++ _) with (link_prefix ++ ("dxl_files/" ++ replace_space (html_name get_hash v) ++ ".html'>")) by reflexivity. by apply prefix_app, prefix_correct. Qed.

Section Links.
Variable file_size : string -> N.
Variable extra_directory : list string.
Variable listdir : chars -> list chars.
Variable read_file : chars -> chars.
Variable get_dxl_content : string -> chars.
Variable get_hash : chars -> string.

Local Notation exec v := (file_exec_by_doors file_size extra_directory listdir read_file v (get_dxl_content v)).
Local Notation gh := (gen_html file_size extra_directory listdir read_file get_dxl_content get_hash).

(** The links written so far are those of the files collected so far *)
Definition links_of (o : gh_out) (acc : list string) : Prop :=
  List.filter is_link (gh_writes o) = map (link_open get_hash) (List.filter (fun v => exec v) acc).

Lemma file_writes_links o acc k v :
  has_lt k = false -> links_of o acc ->
  links_of (GH (app (gh_writes o) (file_writes file_size extra_directory listdir read_file get_dxl_content get_hash k v)) (gh_count_dirs o))
           (if endswith ".dxl" k then app acc [v] else acc).
Proof.
  unfold links_of, file_writes. cbn [gh_writes]. intros Hk Ho. rewrite List.filter_app, Ho.
  destruct (endswith ".dxl" k); [|by rewrite app_nil_r]. rewrite List.filter_app, map_app.
  destruct (file_exec_by_doors _ _ _ _ v _) eqn:E; cbn [List.filter map]; rewrite ?E; [|done].
  rewrite link_open_is_link, no_lt_not_link by (by apply py_rstrip_no_lt). done.
Qed.

Lemma gen_html_links tree o acc :
  keys_ok tree = true -> links_of o acc -> links_of (gh tree o) (dict2list tree acc).
Proof.
  revert o acc. induction tree as [s|es IH] using pyval_ind'; intros o acc Hk Ho; [done|].
  cbn [gen_html dict2list keys_ok] in *. unfold links_of in *. cbn [gh_writes].
  rewrite List.filter_app. simpl. rewrite app_nil_r.
  enough (H : forall o acc, List.filter is_link (gh_writes o) = map (link_open get_hash) (List.filter (fun v => exec v) acc) ->
            List.filter is_link (gh_writes (fold_left (fun o kv => match kv.2 with
                  | PDict _ => gh kv.2 (GH (app (gh_writes o) (dir_writes kv.1)) (S (gh_count_dirs o)))
                  | PStr v => GH (app (gh_writes o) (file_writes file_size extra_directory listdir read_file get_dxl_content get_hash kv.1 v)) (gh_count_dirs o)
                  end) es o)) =
            map (link_open get_hash) (List.filter (fun v => exec v) (fold_left (fun acc kv => match kv.2 with
                  | PDict _ => dict2list kv.2 acc
                  | PStr s => if endswith ".dxl" kv.1 then app acc [s] else acc
                  end) es acc))).
  { apply H. cbn [gh_writes]. by rewrite List.filter_app, Ho, app_nil_r. }
  clear o acc Ho. induction IH as [|[k v] es Hv _ IHes]; intros o acc Ho; [done|].
  cbn [forallb] in Hk. apply andb_prop in Hk as [[Hk Hkv]%andb_prop Hk']. apply negb_true_iff in Hk.
  cbn [fold_left fst snd]. apply IHes; [done|]. destruct v as [s|es'].
  - by apply file_writes_links.
  - apply Hv; [done|]. cbn [gh_writes]. rewrite List.filter_app, Ho. simpl.
    by rewrite no_lt_not_link, app_nil_r by done.
Qed.

(** C28: The tree page of a menu links exactly the [.dxl] files of the
    tree, in the order [__get_dxl_files] lists them, that are at most
    500,000 bytes and lie under a [-e] directory or are named in an [.idx]
    file of their directory: the lexer's marker, never set, adds none, so
    a file that only carries the comments DOORS looks for is left out of
    the menu. *)
Theorem tree_page_links tree n :
  keys_ok tree = true ->
  List.filter is_link (gh_writes (gh tree (GH [] n))) =
  map (link_open get_hash)
      (List.filter (fun v => negb (oversize (file_size v))
                             && (under_extra extra_directory (list_ascii_of_string v)
                                 || idx_named listdir read_file (list_ascii_of_string v)))
                   (dict2list tree [])).
Proof.
  intros Hk. rewrite (gen_html_links tree (GH [] n) []) by done.
  f_equal. apply List.filter_ext. intros v. apply file_exec_by_doors_eq.
Qed.

End Links.

Lemma drop_while_length f (l : chars) : length (drop_while f l) <= length l.
Proof. induction l as [|a l IH]; simpl; [lia|]. destruct (f a); simpl; lia. Qed.

(** [drop_while] leaves its argument alone exactly when the first
    character fails the test *)
Lemma drop_while_id f (l : chars) :
  drop_while f l = l <-> (l = [] \/ exists c l', l = c :: l' /\ f c = false).
Proof.
  destruct l as [|a l]; simpl; [split; auto|]. destruct (f a) eqn:E.
  - split; [intros H; pose proof (drop_while_length f l) as Hl; rewrite H in Hl; simpl in Hl; lia|].
    intros [?|(c & l' & [= <- <-] & Hc)]; congruence.
  - split; [intros _; right; eauto|done].
Qed.

Lemma drop_while_app_all f (x y : chars) : forallb f x = true -> drop_while f (app x y) = drop_while f y.
Proof. induction x as [|a x IH]; simpl; [done|]. intros [-> H]%andb_prop. by apply IH. Qed.

Lemma string_of_list_ascii_eq (l : chars) (s : string) : string_of_list_ascii l = s <-> l = list_ascii_of_string s.
Proof.
  split; intros H; subst; [by rewrite list_ascii_of_string_of_list_ascii | by rewrite string_of_list_ascii_of_string].
Qed.

Lemma last_rev_head (l : chars) : head (rev l) = last l.
Proof. induction l as [|a l IH] using rev_ind; [done|]. by rewrite rev_app_distr, last_snoc. Qed.

(** C30: The menu shows a file [base.dxl] by [k.rstrip(".dxl")], which
    strips every trailing [.], [d], [x] and [l], not the extension: the
    name shown is [base] exactly when [base] is empty or ends with none
    of those characters ("tool.dxl" is shown as "too"). *)
Theorem menu_label_rstrip base :
  menu_label (base ++ ".dxl") = base <->
  (base = "" \/ exists c, last (list_ascii_of_string base) = Some c /\ in_chars ".dxl" c = false).
Proof.
  unfold menu_label, py_rstrip. rewrite string_of_list_ascii_eq, list_ascii_of_string_app, rev_app_distr.
  rewrite drop_while_app_all by reflexivity.
  split.
  - intros H. apply (f_equal (@rev ascii)) in H. rewrite rev_involutive in H.
    apply drop_while_id in H as [H|(c & l' & Hl & Hc)].
    + left. destruct base; [done|]. simpl in H. destruct (rev _); discriminate.
    + right. exists c. split; [|done]. by rewrite <- last_rev_head, Hl.
  - intros Hb. rewrite <- (rev_involutive (list_ascii_of_string base)) at 2. f_equal. apply drop_while_id.
    destruct Hb as [->|(c & Hc & Hf)]; [by left|]. right.
    rewrite <- last_rev_head in Hc. destruct (rev _) as [|a l]; [done|]. injection Hc as ->. eauto.
Qed.

Lemma menu_label_rstrip_witness : menu_label ("main" ++ ".dxl") = "main".
Proof. apply menu_label_rstrip. right. exists "n"%char. split; reflexivity. Defined.

(** [__gen_html] shows [tool.dxl] as [too] *)
Example menu_label_tool : menu_label "tool.dxl" = "too".
Proof. reflexivity. Qed.

(** C31: [__list_html_files] names the page [hash_base.html] by
    [dxl_file.lstrip(dxl_file[:41])], which strips from the front every
    character that occurs in the 40-digit hash or is [_]: the name is the
    base exactly when the base is empty or starts with a character of
    neither. *)
Theorem list_name_lstrip h b :
  length (list_ascii_of_string h) = 40 ->
  list_name (h ++ "_" ++ b) = b <->
  (b = "" \/ exists c b', b = String c b' /\ in_chars (h ++ "_") c = false).
Proof.
  intros Hh. unfold list_name, py_lstrip. rewrite string_of_list_ascii_eq, !list_ascii_of_string_app.
  rewrite app_assoc, take_app_length' by (rewrite length_app, Hh; reflexivity).
  replace (string_of_list_ascii (app (list_ascii_of_string h) (list_ascii_of_string "_"))) with (h ++ "_")
    by (by rewrite <- list_ascii_of_string_app, string_of_list_ascii_of_string).
  rewrite drop_while_app_all.
  2:{ apply forallb_forall. intros c Hc. apply in_chars_elem, list_elem_of_In. by rewrite list_ascii_of_string_app. }
  rewrite drop_while_id. split.
  - intros [H|(c & l' & H & Hc)]; [left; destruct b; done|right].
    exists c, (string_of_list_ascii l'). split; [|done].
    apply (f_equal string_of_list_ascii) in H. rewrite string_of_list_ascii_of_string in H. by rewrite H.
  - intros [->|(c & b' & -> & Hc)]; [by left|right]. exists c, (list_ascii_of_string b'). done.
Qed.

Lemma list_name_lstrip_witness :
  list_name ("da39a3ee5e6b4b0d3255bfef95601890afd80709" ++ "_" ++ "main.dxl.html") = "main.dxl.html".
Proof. apply list_name_lstrip; [reflexivity|]. right. exists "m"%char, "ain.dxl.html". split; reflexivity. Defined.

(** The page of [beef.dxl], whose hash holds [b], [e] and [f], is listed
    as [.dxl.html] *)
Example list_name_beef : list_name ("da39a3ee5e6b4b0d3255bfef95601890afd80709" ++ "_" ++ "beef.dxl.html") = ".dxl.html".
Proof. reflexivity. Qed.

Lemma re_of_notepad : re_of "(?=notepad).*" = RCat (RAhead (chain (lit "notepa") (RLit "d"))) (star RAny).
Proof. by vm_compute. Qed.

Lemma lit_notepad : app (lit "notepa") [RLit "d"] = lit "notepad".
Proof. reflexivity. Qed.

(** Inside [f], and from [f] into the newline after it, no [notepad] starts *)
Lemma notepad_not_in_path F rest j :
  occurs (lit "notepad") F = false -> j < length F ->
  accepts (lit "notepad") (app (drop j F) (nl :: rest)) = false.
Proof.
  intros HF Hj. set (t := drop j F).
  assert (Hocc : accepts (lit "notepad") t = false).
  { destruct (accepts _ t) eqn:E; [|done]. rewrite <- HF. symmetry. apply occurs_spec. by exists j. }
  assert (Ht : 1 <= length t) by (unfold t; rewrite length_drop; lia).
  destruct (Nat.le_gt_cases 7 (length t)) as [Hl|Hl].
  - by rewrite accepts_app_long by (simpl; lia).
  - rewrite accepts_app_short by (simpl; lia). apply andb_false_intro2.
    destruct (length t) as [|[|[|[|[|[|[|k]]]]]]]; try lia; reflexivity.
Qed.

(** C29: Reading back the batch file [__dxl2html] writes for [f]:
    [re.search("(?=notepad).*")] then [lstrip("notepad++ ")] gives [f]
    again, when [f] holds no [notepad], no newline, and does not start
    with one of the characters [n o t e p a d + ] (a drive letter [K:]
    does not). *)
Theorem edit_bat_roundtrip f :
  occurs (lit "notepad") (list_ascii_of_string f) = false ->
  nl ∉ list_ascii_of_string f ->
  (f = "" \/ exists c f', f = String c f' /\ in_chars "notepad++ " c = false) ->
  bat_path (edit_bat_content f) = Some f.
Proof.
  intros Hocc Hnl Hc. unfold bat_path, re_search. rewrite list_ascii_of_string_of_list_ascii, re_of_notepad.
  set (C := list_ascii_of_string "cleartool checkout -nc "). set (F := list_ascii_of_string f).
  set (Z := list_ascii_of_string (String nl "start /min ")). set (N := list_ascii_of_string "notepad++ ").
  assert (Hs : edit_bat_content f = app C (app F (app Z (app N F)))) by
    (unfold edit_bat_content; rewrite !list_ascii_of_string_app; reflexivity).
  rewrite Hs. set (s := app C (app F (app Z (app N F)))).
  assert (Hlen : length s = length C + length F + length Z + length N + length F) by (unfold s; rewrite !length_app; lia).
  assert (HNF : run_of (fun b => negb (is_linebreak b)) (app N F) = length (app N F)).
  { apply (proj1 (run_of_all _ _)). rewrite forallb_app. apply andb_true_intro. split; [reflexivity|].
    apply forallb_forall. intros a Ha%list_elem_of_In.
    destruct (is_linebreak a) eqn:E; [|done]. exfalso. apply Hnl.
    unfold is_linebreak in E. apply Nat.eqb_eq in E. replace nl with a; [done|].
    rewrite <- (ascii_nat_embedding a), E. reflexivity. }
  assert (HdN : drop (length C + length F + length Z) s = app N F).
  { unfold s. rewrite drop_app_ge by lia. replace (length C + length F + length Z - length C) with (length F + length Z) by lia.
    rewrite drop_app_ge by lia. replace (length F + length Z - length F) with (length Z) by lia.
    apply drop_app_length. }
  rewrite (search_from_first _ _ _ _ (length C + length F + length Z) (length s, [])); [| lia | lia | lia | |].
  - cbn [fst snd]. f_equal. unfold slice.
    rewrite HdN.
    rewrite take_ge by (rewrite length_app, Hlen; lia).
    unfold py_lstrip. rewrite list_ascii_of_string_of_list_ascii, drop_while_app_all by reflexivity.
    apply string_of_list_ascii_eq. apply drop_while_id. destruct Hc as [->|(c & f' & -> & Hc)]; [by left|].
    right. exists c, (list_ascii_of_string f'). done.
  - intros j Hj. rewrite match_at_ahead_star with (f := fun b => negb (is_linebreak b)) by done.
    rewrite lit_notepad.
    destruct (Nat.lt_ge_cases j (length C)) as [H1|H1].
    { unfold s. rewrite drop_app_le by lia. rewrite accepts_fail_concrete; [done|by vm_compute|lia]. }
    destruct (Nat.lt_ge_cases j (length C + length F)) as [H2|H2].
    { unfold s. rewrite drop_app_ge, drop_app_le by lia.
      change Z with (nl :: list_ascii_of_string "start /min "). rewrite <- app_comm_cons.
      rewrite notepad_not_in_path; [done|done|lia]. }
    unfold s. rewrite drop_app_ge, drop_app_ge, drop_app_le by lia.
    rewrite accepts_fail_concrete; [done|by vm_compute|]. lia.
  - rewrite match_at_ahead_star with (f := fun b => negb (is_linebreak b)) by done. rewrite lit_notepad.
    rewrite HdN.
    rewrite accepts_app_long by (simpl; lia). replace (accepts (lit "notepad") N) with true by reflexivity.
    rewrite HNF, length_app, Hlen. do 2 f_equal. lia.
Qed.

Lemma edit_bat_roundtrip_witness : bat_path (edit_bat_content "K:\p\main.dxl") = Some "K:\p\main.dxl".
Proof.
  apply edit_bat_roundtrip; [reflexivity | |].
  - vm_compute. intros H. repeat (apply elem_of_cons in H as [H|H]; [discriminate|]). by apply not_elem_of_nil in H.
  - right. exists "K"%char, ":\p\main.dxl". split; reflexivity.
Defined.

Section ListFacts.
Variable read : string -> chars.
Variables loc_dict nb_inc_dict : gmap string nat.
Variable report : gmap string (list error).
Variable output_dir : string.
Variable last_analysis : string -> string.
Variables css header : string.

Lemma row_steps_raise its e :
  fold_left (row_step read loc_dict report nb_inc_dict output_dir last_analysis) its (PyRaise e) = PyRaise e.
Proof. induction its as [|it its IH]; [done|]. exact IH. Qed.

(** [abs_file_path] is only bound by a batch file that names
    [notepad]: when the batch file of the first page of the table (pages
    sorted by their shown name) does not, [__write_list_files] raises
    [UnboundLocalError] and the list of files is not written. *)
Theorem list_files_unbound files_list hfd embedded it rest :
  by_value hfd = it :: rest ->
  bat_path (read (output_dir ++ "/edit_bat/" ++ py_remove ".html" it.1 ++ ".bat")) = None ->
  write_list_files read loc_dict report nb_inc_dict output_dir last_analysis css header files_list hfd embedded
    = PyRaise NameError.
Proof.
  intros Hb Hn. unfold write_list_files. rewrite Hb. cbn [fold_left].
  unfold row_step at 2. cbn [py_bind]. rewrite Hn. cbn [fst]. by rewrite row_steps_raise.
Qed.

End ListFacts.

Lemma list_files_unbound_witness :
  write_list_files (fun _ => []) ∅ ∅ ∅ "out" (fun _ => "") "" "" ["h1_a.dxl.html"]
                   (<["h1_a.dxl.html" := "a.dxl.html"]> ∅) true = PyRaise NameError.
Proof. apply (list_files_unbound _ _ _ _ _ _ _ _ _ _ _ ("h1_a.dxl.html", "a.dxl.html") []); vm_compute; reflexivity. Defined.

(** A page whose batch file is missing or empty shows the number of
    errors of the page listed before it *)
Example list_row_stale_count :
  write_list_files (fun f => if String.eqb f "out/edit_bat/h1_a.dxl.bat" then edit_bat_content "K:\a.dxl" else [])
                   ∅ (<["K:\a.dxl" := [OversizeFileError "x"]]> ∅) ∅ "out" (fun _ => "d") "" ""
                   ["h1_a.dxl.html"; "h2_b.dxl.html"]
                   (<["h1_a.dxl.html" := "a.dxl.html"]> (<["h2_b.dxl.html" := "b.dxl.html"]> ∅)) true
  = PyOk ["<!DOCTYPE html><html><head><title>DXL files</title>";
          "<meta http-equiv='X-UA-Compatible' content='IE=9' />"; "";
          "</head><body style='line-height:1.4; min-width:800px;'>";
          "<div style='margin:20px;'>"; "<table style='width:100%; background:#FFF;'>";
          "<tr><th>Filename</th><th>Issues</th><th>Includes</th><th>Last analysis</th><th>Lines of code</th></tr>";
          "<tr id='tr-list'>"; "<td><a href='dxl_files\h1_a.dxl.html'>a.dxl</a></td>";
          "<td>1</td>"; "<td>-</td>"; "<td style='min-width:60px;'>d</td>"; "<td>-</td>"; "</tr>";
          "<tr id='tr-list'>"; "<td><a href='dxl_files\h2_b.dxl.html'>b.dxl</a></td>";
          "<td>1</td>"; "<td>-</td>"; "<td style='min-width:60px;'>d</td>"; "<td>-</td>"; "</tr>";
          "</table></div></body></html>"].
Proof. vm_compute. reflexivity. Qed.

(** A path holding [notepad] is read back from its batch file as the text
    after that word in the [cleartool] line *)
Example edit_bat_notepad_path : bat_path (edit_bat_content "K:\tools\notepad_utils.dxl") = Some "_utils.dxl".
Proof. vm_compute. reflexivity. Qed.

Definition ex_tree : pyval :=
  PDict [("a", PDict [("tool.dxl", PStr "K:\m\a\tool.dxl")]); ("x.dxl", PStr "K:\m\x.dxl")].

Lemma tree_page_links_witness :
  List.filter is_link (gh_writes (gen_html (fun _ => 10%N) ["K:\m\a"] (fun _ => []) (fun _ => []) (fun _ => [])
                                             (fun _ => "h") ex_tree (GH [] 0)))
  = [link_open (fun _ => "h") "K:\m\a\tool.dxl"].
Proof. rewrite tree_page_links by reflexivity. vm_compute. reflexivity. Defined.

End TreePages.
