(* ===== verification/Template.v ===== *)
(** * Template: [src/dxl-analyzer/template.py]

    The class [Template] returns three strings: the style sheet
    ([get_css]), the menu bar written at the top of every top-level page
    ([get_header]) and the homepage ([get_homepage]), built from the run's
    counters.  Each is one Python literal spread over many lines with
    backslash continuations, which keep the leading blanks of each line;
    each line of the source is one string below, the double quotes of
    HTML written as [qt].  [str(n)] of a count is [pretty n].

    [hrefs] reads the targets of the [href="..."] attributes of a page;
    [Doit] computes those of the menu bar ([Doit.header_hrefs]) and shows
    that a main run writes the files they name. *)

From stdpp Require Import pretty.
From S2P Require Import Prelude NtPath TreePages.
Import NtPath TreePages.

Module Template.
Local Open Scope string_scope.

(** [repr(s)] of a Python 2 [str] of printable characters with no quote
    and no backslash, the only ones [__doit] puts in
    [__scanned_dirs_list] ("Projects", "Addins", "Extra directory") *)
Definition py_repr (s : string) : string := "'" ++ s ++ "'".

(** [str(l)] of a list of such strings *)
Definition py_str_list (l : list string) : string := "[" ++ String.concat ", " (map py_repr l) ++ "]".

(** [str(scanned_dirs_list).strip("[]").replace("'"," ")] *)
Definition dirs_text (l : list string) : string :=
  replace_char "'" " " (py_lstrip "[]" (py_rstrip "[]" (py_str_list l))).

(** [Template.get_css] *)
Definition get_css : string :=
  "<style>" ++
  "            			.main-header a:link{color:white; background-color:transparent; text-decoration:none}" ++
  "            			.main-header a:visited {color:white; background-color:transparent; text-decoration:none}" ++
  "            			.main-header a:hover {color:white; background-color:#4B9FD5; text-decoration:none;}" ++
  "            			.main-header a:active {color:white; background-color:#4B9FD5; text-decoration:none}" ++
  "            			.main-header a{display:block;}" ++
  "            			" ++
  "                        #list-li a:link{text-decoration:none};" ++
  "                        " ++
  "            			* {" ++
  "            				box-sizing: border-box;" ++
  "            			}" ++
  "            			body {" ++
  "            				background: #F0F0F0;" ++
  "            				margin: 0;" ++
  "                            margin-bottom: 10px;" ++
  "            				font-family: sans-serif;" ++
  "            				line-height: 1.2;" ++
  "            			}" ++
  "            			.main-header ul {" ++
  "            				list-style: none;" ++
  "            				padding: 0;" ++
  "            				margin: 0;" ++
  "            			}" ++
  "            			.main-header {" ++
  "                            font-family: helvetica;" ++
  "            				width: 100%;" ++
  "            				background-color:#383838;" ++
  "            				font-size:14px;" ++
  "            			}" ++
  "            			" ++
  "            			.main-header:after {" ++
  "            				content: " ++ qt ++ " " ++ qt ++ ";" ++
  "            				display: table;" ++
  "            				clear: both;" ++
  "            			}" ++
  "            			.main-nav, .drop-nav {" ++
  "            				background: #383838;" ++
  "            			}" ++
  "            			.main-nav {" ++
  "            				float: left;" ++
  "            				border-radius: 4px;" ++
  "            			}" ++
  "            			.main-nav > li {" ++
  "            				float: left;" ++
  "            				border-left: solid 1px #383838;" ++
  "            			}" ++
  "            			.main-nav li:first-child {" ++
  "            				border-left: none;" ++
  "            			}" ++
  "            			.main-nav a {" ++
  "            				color: #FFF;" ++
  "            				display: block;" ++
  "            				padding: 5px 10px;" ++
  "            				text-decoration: none;" ++
  "            			}" ++
  "            			.dropdown, .flyout {" ++
  "            				position: relative;" ++
  "            			}" ++
  "            			.dropdown:after {" ++
  "            				display: block;" ++
  "            				position: absolute;" ++
  "            				top: 38%;" ++
  "            				right: 50%;" ++
  "            			}" ++
  "            			.flyout-nav {" ++
  "            				position: absolute;" ++
  "            				display: none;" ++
  "            				width: 120%;" ++
  "            			}" ++
  "            			.drop-nav {" ++
  "            				background: #383838;" ++
  "            				position: absolute;" ++
  "            				display: none;" ++
  "            				width: 200%;" ++
  "            			}" ++
  "            			" ++
  "            			.dropdown:hover > .drop-nav," ++
  "            			.flyout:hover > .flyout-nav {" ++
  "            				display: block;" ++
  "            			}" ++
  "            			.flyout-nav {" ++
  "            				background: #383838;" ++
  "            				left: 100%;" ++
  "            				top: 0;" ++
  "            			}" ++
  "            			.flyout-nav li:hover a {" ++
  "            				background: #4B9FD5;" ++
  "            			}" ++
  "                        #list-ul {" ++
  "                            list-style-type: none;" ++
  "                            margin:0;" ++
  "                            padding:0px;" ++
  "                            border:1px solid #000;" ++
  "                        }" ++
  "                        #tr-list:nth-child(odd) {" ++
  "                            background: #DBDBDB !important;" ++
  "                        }" ++
  "                        #list-li {" ++
  "                            padding-left:15px;" ++
  "                        }" ++
  "                        table {" ++
  "                            border:1px solid #000;" ++
  "                        }" ++
  "                        th {" ++
  "                            border:1px solid #000;" ++
  "                            text-align:left;" ++
  "                            padding-left:15px;" ++
  "                        }" ++
  "                        td {" ++
  "                            border:1px solid #000;" ++
  "                            margin:0;" ++
  "                            padding-bottom:5px;" ++
  "                            padding-top:5px;" ++
  "                            padding-left:15px;" ++
  "                            padding-right:10px;" ++
  "                        }" ++
  "            		</style>".

(** [Template.get_header]: the menu bar of every top-level page *)
Definition get_header : string :=
  "<div class=" ++ qt ++ "main-header" ++ qt ++ ">" ++
  "     			        " ++
  "            				<ul class=" ++ qt ++ "main-nav" ++ qt ++ ">" ++
  "            					<li><a href=" ++ qt ++ "dxl_scan_home.html" ++ qt ++ ">Home</a></li>" ++
  "            					<li class=" ++ qt ++ "dropdown" ++ qt ++ ">" ++
  "            						<a href=" ++ qt ++ "#" ++ qt ++ ">Menus &#9662;</a>" ++
  "            						<ul class=" ++ qt ++ "drop-nav" ++ qt ++ ">" ++
  "            							<li><a href=" ++ qt ++ "projects_tree.html" ++ qt ++ ">Projects</a></li>" ++
  "            							<li><a href=" ++ qt ++ "addins_tree.html" ++ qt ++ ">Addins</a></li>" ++
  "            							<li><a href=" ++ qt ++ "extra_tree.html" ++ qt ++ ">Extras</a></li>" ++
  "            						</ul>" ++
  "            					</li>" ++
  "                                " ++
  "            					<li><a href=" ++ qt ++ "report.html" ++ qt ++ ">Issues</a></li>" ++
  "            					<li><a href=" ++ qt ++ "dxl_scan.bat" ++ qt ++ ">Start scan script</a></li>" ++
  "            				</ul>" ++
  "            		          " ++
  "            				<!--<span><a href=" ++ qt ++ "dxl_scan_home.html" ++ qt ++ " style=" ++ qt ++ "color:white" ++ qt ++ ">Home</a></span>" ++
  "            				<span style=" ++ qt ++ "padding-left:10px;" ++ qt ++ ">Menus</span>" ++
  "            				<span style=" ++ qt ++ "padding-left:10px" ++ qt ++ ">Issues</span>" ++
  "            				<span style=" ++ qt ++ "position:absolute; right:20px;" ++ qt ++ "><a href=" ++ qt ++ "dxl_scan.bat" ++ qt ++ " style=" ++ qt ++ "color:white;" ++ qt ++ ">Start scan script</a></span>-->" ++
  "                            " ++
  "            		</div>".

(** [Template.get_homepage], the page [__gen_homepage] writes to
    [dxl_scan_home.html] *)
Definition get_homepage (log_file_name : string) (count_lines count_functions count_files count_includes count_dirs count_issues : nat) (last_scan_date user_tgi : string) (scanned_dirs_list : list string) : string :=
  "<!DOCTYPE HTML>" ++
  "            <html><font face=" ++ qt ++ "helvetica" ++ qt ++ " size=" ++ qt ++ "2" ++ qt ++ ">" ++
  "            	" ++
  "            	<head>" ++
  "                    <meta http-equiv=" ++ qt ++ "X-UA-Compatible" ++ qt ++ " content=" ++ qt ++ "IE=9" ++ qt ++ " />" ++
  "            		<title>DXL Scanner</title>" ++
  "                    " ++
  "            		<style>" ++
  "            			a:link{color:black; background-color:transparent; text-decoration:none}" ++
  "            			a:visited {color:black; background-color:transparent; text-decoration:none}" ++
  "            			a:hover {color:white; background-color:#4B9FD5; text-decoration:none;}" ++
  "            			a:active {color:white; background-color:#4B9FD5; text-decoration:none}" ++
  "            			a{display:block;}" ++
  "            			" ++
  "            			#col a:link{color:#4B9FD5; background-color:transparent; text-decoration:underline}" ++
  "            			#col a:visited {color:#4B9FD5; background-color:transparent; text-decoration:underline}" ++
  "            			#col a:hover {color:#CAE3F2; background-color:transparent; text-decoration:underline}" ++
  "            			#col a:active {color:#CAE3F2; background-color:transparent; text-decoration:underline}" ++
  "            			#col a{display:block; font-size:20px;}" ++
  "                        " ++
  "            			* {" ++
  "            				box-sizing: border-box;" ++
  "            			}" ++
  "            			body {" ++
  "            				background: #F0F0F0;" ++
  "            				margin: 0;" ++
  "            				font-family: sans-serif;" ++
  "            				line-height: 1.2;" ++
  "            			}" ++
  "            			ul {" ++
  "            				list-style: none;" ++
  "            				padding: 0;" ++
  "            				margin: 0;" ++
  "            			}" ++
  "            			.main-header {" ++
  "            				width: 100%;" ++
  "            				background-color:#383838;" ++
  "            				font-size:14px;" ++
  "            			}" ++
  "            			" ++
  "            			.main-header:after {" ++
  "            				content: " ++ qt ++ " " ++ qt ++ ";" ++
  "            				display: table;" ++
  "            				clear: both;" ++
  "            			}" ++
  "            			.main-nav, .drop-nav {" ++
  "            				background: #383838;" ++
  "            			}" ++
  "            			.main-nav {" ++
  "            				float: left;" ++
  "            				border-radius: 4px;" ++
  "            			}" ++
  "            			.main-nav > li {" ++
  "            				float: left;" ++
  "            				border-left: solid 1px #383838;" ++
  "            			}" ++
  "            			.main-nav li:first-child {" ++
  "            				border-left: none;" ++
  "            			}" ++
  "            			.main-nav a {" ++
  "            				color: #FFF;" ++
  "            				display: block;" ++
  "            				padding: 5px 10px;" ++
  "            				text-decoration: none;" ++
  "            			}" ++
  "            			.dropdown, .flyout {" ++
  "            				position: relative;" ++
  "            			}" ++
  "            			.dropdown:after {" ++
  "            				display: block;" ++
  "            				position: absolute;" ++
  "            				top: 38%;" ++
  "            				right: 50%;" ++
  "            			}" ++
  "            			.flyout-nav {" ++
  "            				position: absolute;" ++
  "            				display: none;" ++
  "            				width: 120%;" ++
  "            			}" ++
  "            			.drop-nav {" ++
  "            				background: #383838;" ++
  "            				position: absolute;" ++
  "            				display: none;" ++
  "            				width: 200%;" ++
  "            			}" ++
  "            			" ++
  "            			.dropdown:hover > .drop-nav," ++
  "            			.flyout:hover > .flyout-nav {" ++
  "            				display: block;" ++
  "            			}" ++
  "            			.flyout-nav {" ++
  "            				background: #383838;" ++
  "            				left: 100%;" ++
  "            				top: 0;" ++
  "            			}" ++
  "            			.flyout-nav li:hover a {" ++
  "            				background: #4B9FD5;" ++
  "            			}" ++
  "            			" ++
  "            		</style>" ++
  "            	</head>" ++
  "                " ++
  "            	<body>" ++
  "            		<div class=" ++ qt ++ "main-header" ++ qt ++ ">" ++
  "            			" ++
  "            				<ul class=" ++ qt ++ "main-nav" ++ qt ++ ">" ++
  "            					<li><a href=" ++ qt ++ "dxl_scan_home.html" ++ qt ++ ">Home</a></li>" ++
  "            					<li class=" ++ qt ++ "dropdown" ++ qt ++ ">" ++
  "            						<a href=" ++ qt ++ "#" ++ qt ++ ">Menus &#9662;</a>" ++
  "            						<ul class=" ++ qt ++ "drop-nav" ++ qt ++ ">" ++
  "            							<li><a href=" ++ qt ++ "projects_tree.html" ++ qt ++ ">Projects</a></li>" ++
  "            							<li><a href=" ++ qt ++ "addins_tree.html" ++ qt ++ ">Addins</a></li>" ++
  "            							<li><a href=" ++ qt ++ "extra_tree.html" ++ qt ++ ">Extras</a></li>" ++
  "            						</ul>" ++
  "            					</li>" ++
  "                                " ++
  "            					<li><a href=" ++ qt ++ "report.html" ++ qt ++ ">Issues</a></li>" ++
  "            					<li><a href=" ++ qt ++ "dxl_scan.bat" ++ qt ++ ">Start scan script</a></li>" ++
  "            				</ul>" ++
  "            		" ++
  "            		</div>" ++
  "            		<div>" ++
  "            			<div style=" ++ qt ++ "border:2px solid #4B9FD5; border-top:none; width:175px; background-color:#CAE3F2; float:left;" ++ qt ++ ">" ++
  "            				<h3 style=" ++ qt ++ "font-size:20px; padding-left:8px; padding-top:5px;" ++ qt ++ ">DXL Scanner</h3>" ++
  "            				<div class=" ++ qt ++ "menus" ++ qt ++ ">" ++
  "            					<span style=" ++ qt ++ "font-size:14px; font-weight:bold; padding-left:8px;" ++ qt ++ ">Menus</span>" ++
  "                                " ++
  "            					<div class=" ++ qt ++ "projects" ++ qt ++ ">" ++
  "            						<a href=" ++ qt ++ "projects_tree.html" ++ qt ++ " style=" ++ qt ++ "margin-top: 6px; padding-top:3px; padding-bottom:3px; padding-left:25px;" ++ qt ++ ">Projects</a>" ++
  "            					</div>" ++
  "            					<div class=" ++ qt ++ "addins" ++ qt ++ ">" ++
  "            						<a href=" ++ qt ++ "addins_tree.html" ++ qt ++ " style=" ++ qt ++ "padding-top:3px; padding-bottom:3px; padding-left:25px;" ++ qt ++ ">Addins</a>" ++
  "            					</div>" ++
  "            					<div class=" ++ qt ++ "extra" ++ qt ++ ">" ++
  "            						<a href=" ++ qt ++ "extra_tree.html" ++ qt ++ " style=" ++ qt ++ "padding-top:3px; padding-bottom:3px; padding-left:25px;" ++ qt ++ ">Extras</a>" ++
  "            					</div>" ++
  "            				</div>" ++
  "            				<br>" ++
  "            					" ++
  "            				<div class=" ++ qt ++ "list-files" ++ qt ++ ">" ++
  "            					<span style=" ++ qt ++ "font-size:14px; font-weight:bold;" ++ qt ++ ">" ++
  "            						<a href=" ++ qt ++ "list.html" ++ qt ++ " style=" ++ qt ++ "padding-left:8px; padding-top:3px; padding-bottom:3px;" ++ qt ++ ">Files and includes</a>" ++
  "            					</span>" ++
  "            				</div>" ++
  "            				<br>" ++
  "                            <div class=" ++ qt ++ "list-dependencies" ++ qt ++ ">" ++
  "            					<span style=" ++ qt ++ "font-size:14px; font-weight:bold; padding-left:8px;" ++ qt ++ ">Dependencies</span>" ++
  "                                " ++
  "            					<div class=" ++ qt ++ "projects" ++ qt ++ ">" ++
  "            						<a href=" ++ qt ++ "report_dependencies_projects.html" ++ qt ++ " style=" ++ qt ++ "margin-top: 6px; padding-top:3px; padding-bottom:3px; padding-left:25px;" ++ qt ++ ">Projects</a>" ++
  "            					</div>" ++
  "            					<div class=" ++ qt ++ "addins" ++ qt ++ ">" ++
  "            						<a href=" ++ qt ++ "report_dependencies_addins.html" ++ qt ++ " style=" ++ qt ++ "padding-top:3px; padding-bottom:3px; padding-left:25px;" ++ qt ++ ">Addins</a>" ++
  "            					</div>" ++
  "            					<div class=" ++ qt ++ "extra" ++ qt ++ ">" ++
  "            						<a href=" ++ qt ++ "report_dependencies_extra.html" ++ qt ++ " style=" ++ qt ++ "padding-top:3px; padding-bottom:3px; padding-left:25px;" ++ qt ++ ">Extras</a>" ++
  "            					</div>" ++
  "            				</div>" ++
  "                            <br>" ++
  "                            <div class=" ++ qt ++ "list-functions" ++ qt ++ ">" ++
  "            					<span style=" ++ qt ++ "font-size:14px; font-weight:bold;" ++ qt ++ ">" ++
  "            						<a href=" ++ qt ++ "list_functions.html" ++ qt ++ " style=" ++ qt ++ "padding-left:8px; padding-top:3px; padding-bottom:3px;" ++ qt ++ ">Defined functions</a>" ++
  "            					</span>" ++
  "            				</div>" ++
  "            				<br>" ++
  "            					" ++
  "            				<div class=" ++ qt ++ "issues" ++ qt ++ ">" ++
  "            					<span style=" ++ qt ++ "font-size:14px; font-weight:bold; padding-left:8px;" ++ qt ++ ">Issues</span>" ++
  "            					<div class=" ++ qt ++ "report" ++ qt ++ ">" ++
  "            						<a href=" ++ qt ++ "report.html" ++ qt ++ " style=" ++ qt ++ "margin-top: 6px; padding-top:3px; padding-bottom:3px; padding-left:25px;" ++ qt ++ ">Complete report</a>" ++
  "            					</div>" ++
  "            				</div>" ++
  "            				<br>" ++
  "            					" ++
  "            				<div class=" ++ qt ++ "categories" ++ qt ++ ">" ++
  "            					<span style=" ++ qt ++ "font-size:14px; font-weight:bold; padding-left:8px;" ++ qt ++ ">Issues categories</span>" ++
  "            					<div>" ++
  "            						<a href=" ++ qt ++ "report_include.html" ++ qt ++ " style=" ++ qt ++ "margin-top: 6px; padding-top:3px; padding-bottom:3px; padding-left:25px;" ++ qt ++ ">Includes</a>" ++
  "            					</div>" ++
  "            					<div>" ++
  "            						<a href=" ++ qt ++ "report_pragma.html" ++ qt ++ " style=" ++ qt ++ "padding-top:3px; padding-bottom:3px; padding-left:25px;" ++ qt ++ ">Pragma calls</a>" ++
  "            					</div>" ++
  "                                <div>" ++
  "                                    <a href=" ++ qt ++ "report_string%20initialization.html" ++ qt ++ " style=" ++ qt ++ "padding-top:3px; padding-bottom:3px; padding-left:25px;" ++ qt ++ ">String initializations</a>" ++
  "                                </div>" ++
  "            					<div>" ++
  "            						<a href=" ++ qt ++ "report_system.html" ++ qt ++ " style=" ++ qt ++ "padding-top:3px; padding-bottom:3px; padding-left:25px;" ++ qt ++ ">System calls</a>" ++
  "            					</div>" ++
  "                                <div>" ++
  "                                    <a href=" ++ qt ++ "report_cpd.html" ++ qt ++ " style=" ++ qt ++ "padding-top:3px; padding-bottom:3px; padding-left:25px;" ++ qt ++ ">Code duplication</a>" ++
  "                                </div>" ++
  "            					<div>" ++
  "            						<a href=" ++ qt ++ "report_duplication.html" ++ qt ++ " style=" ++ qt ++ "padding-top:3px; padding-bottom:3px; padding-left:25px;" ++ qt ++ ">Duplicated filenames</a>" ++
  "            					</div>" ++
  "                                <div>" ++
  "                                    <a href=" ++ qt ++ "report_include%20duplication.html" ++ qt ++ " style=" ++ qt ++ "padding-top:3px; padding-bottom:3px; padding-left:25px;" ++ qt ++ ">Duplicated includes</a>" ++
  "            					</div>" ++
  "            					<div style=" ++ qt ++ "padding-top:3px; padding-bottom:3px; padding-left:25px;" ++ qt ++ ">Function duplications</div>" ++
  "            					<div>" ++
  "            						<a href=" ++ qt ++ "report_function.html" ++ qt ++ " style=" ++ qt ++ "padding-top:2px; padding-bottom:2px; padding-left:35px;" ++ qt ++ ">&bull; inside a file</a>" ++
  "            					</div>" ++
  "            					<div>" ++
  "            						<a href=" ++ qt ++ "report_function_global.html" ++ qt ++ " style=" ++ qt ++ "padding-top:2px; padding-bottom:2px; padding-left:35px;" ++ qt ++ ">&bull; for different files</a>" ++
  "            					</div>" ++
  "                                <br>" ++
  "                                <div>" ++
  "                                    <a href=" ++ qt ++ "report_function_not_called.html" ++ qt ++ " style=" ++ qt ++ "padding-top:3px; padding-bottom:3px; padding-left:25px;" ++ qt ++ ">Functions defined but not called</a>" ++
  "                                </div>" ++
  "            				</div>" ++
  "            				<br>" ++
  "            				" ++
  "            				<div class=" ++ qt ++ "log" ++ qt ++ ">" ++
  "            					<span style=" ++ qt ++ "font-size:14px; font-weight:bold;" ++ qt ++ ">" ++
  "            						<a href=" ++ qt ++ log_file_name ++ qt ++ " style=" ++ qt ++ "padding-left:8px; padding-top:3px; padding-bottom:3px;" ++ qt ++ ">Last log file</a>" ++
  "            					</span>" ++
  "            				</div>" ++
  "            				<br>" ++
  "            			</div>" ++
  "            			" ++
  "            			<div id=" ++ qt ++ "col" ++ qt ++ " style=" ++ qt ++ "margin:0 auto;" ++ qt ++ ">" ++
  "            				<div style=" ++ qt ++ "float:left; border:1px solid #DCDEDC; background:#FFF; margin:10px; margin-right:1px; padding:5px; font-size:17px; width:35%;" ++ qt ++ ">" ++
  "                                <div>" ++
  "                                    <div style=" ++ qt ++ "float:left; margin:10px; padding-right:20px; padding-bottom:5px;" ++ qt ++ ">" ++
  "                						Lines of code" ++
  "                						<a href=" ++ qt ++ "list.html" ++ qt ++ "><b>" ++ pretty count_lines ++ "</b></a>" ++
  "                						Functions" ++
  "                						<a href=" ++ qt ++ "list_functions.html" ++ qt ++ "><b>" ++ pretty count_functions ++ "</b></a>" ++
  "                					</div>" ++
  "            					   " ++
  "                					<div style=" ++ qt ++ "float:left; margin:10px; padding-bottom:5px;" ++ qt ++ ">" ++
  "                						DXL files" ++
  "                						<a href=" ++ qt ++ "list.html" ++ qt ++ "><b>" ++ pretty count_files ++ "</b></a>" ++
  "                						Includes" ++
  "                						<a href=" ++ qt ++ "list.html" ++ qt ++ "><b>" ++ pretty count_includes ++ "</b></a>" ++
  "                						Directories" ++
  "                						<a><b>" ++ pretty count_dirs ++ "</b></a>" ++
  "                					</div>" ++
  "            				    </div>" ++
  "            				    " ++
  "                				<div style=" ++ qt ++ "left: 175px; border:1px solid #DCDEDC; background:#FFF; margin-top:170px; margin-right:1px; margin-left:10px; padding:5px; font-size:17px; width:35%; position:absolute;" ++ qt ++ ">" ++
  "                					<div style=" ++ qt ++ "float:left; margin:10px; padding-right:20px; padding-bottom:5px;" ++ qt ++ ">" ++
  "                						Issues" ++
  "                						<a href=" ++ qt ++ "report.html" ++ qt ++ "><b>" ++ pretty count_issues ++ "</b></a>" ++
  "                					</div>" ++
  "                                    <!--<div style=" ++ qt ++ "float:left; margin:10px; padding-bottom:5px;" ++ qt ++ ">" ++
  "                                        Duplications" ++
  "                						<a href=" ++ qt ++ "report_cpd.html" ++ qt ++ "><b>dup%</b></a>" ++
  "                                    </div>-->" ++
  "                				</div>" ++
  "            				</div>" ++
  "                            " ++
  "                            <div style=" ++ qt ++ "float:left; border:1px solid #DCDEDC; background:#FFF; margin:10px; padding:5px; font-size:17px; width:36%;" ++ qt ++ ">" ++
  "            					<div style=" ++ qt ++ "margin:10px;" ++ qt ++ ">" ++
  "            						Last scan <br>" ++
  "            						<span style=" ++ qt ++ "font-size:20px;" ++ qt ++ "><b>" ++ last_scan_date ++ "</b></span>" ++
  "            					</div>" ++
  "            					<div style=" ++ qt ++ "margin:10px;" ++ qt ++ ">" ++
  "                                    Last scan by user <br>" ++
  "            						<span style=" ++ qt ++ "font-size:20px;" ++ qt ++ "><b>" ++ user_tgi ++ "</b></span>" ++
  "            					</div>" ++
  "            					<div style=" ++ qt ++ "margin:10px;" ++ qt ++ ">" ++
  "            						Scanned directories <br>" ++
  "            						<span style=" ++ qt ++ "font-size:20px;" ++ qt ++ "><b>" ++ dirs_text scanned_dirs_list ++ "</b></span>" ++
  "            					</div>" ++
  "            				</div>" ++
  "            				" ++
  "            				<div style=" ++ qt ++ "left: 175px; border:1px solid #DCDEDC; background:#FFF; margin-top:280px; margin-right:1px; margin-left:10px; padding:5px; font-size:17px; width:74%; position:absolute;" ++ qt ++ ">" ++
  "					           <div style=" ++ qt ++ "margin:0px; padding-right:5px; padding-bottom:5px;" ++ qt ++ ">" ++
  "						          <iframe src=" ++ qt ++ "embedded_list.html" ++ qt ++ " style=" ++ qt ++ "width: 100%; height: 700px" ++ qt ++ " scrolling=" ++ qt ++ "yes" ++ qt ++ " marginwidth=" ++ qt ++ "0" ++ qt ++ " marginheight=" ++ qt ++ "0" ++ qt ++ " frameborder=" ++ qt ++ "1" ++ qt ++ " vspace=" ++ qt ++ "0" ++ qt ++ " hspace=" ++ qt ++ "0" ++ qt ++ "></iframe>" ++
  "					           </div>" ++
  "				            </div>" ++
  "            				" ++
  "            			</div>" ++
  "            		</div>" ++
  "            " ++
  "            	</body>" ++
  "            </font></html>".

(** The targets of the [href="..."] attributes of a text, in order *)
Fixpoint hrefs (l : chars) : list string :=
  match l with
  | [] => []
  | _ :: l' =>
      match strip_prefix (list_ascii_of_string ("href=" ++ qt)) l with
      | Some rest => string_of_list_ascii (take_while (fun c => negb (Ascii.eqb c dq)) rest) :: hrefs l'
      | None => hrefs l'
      end
  end.

End Template.
