(* ===== verification/FuncPages.v ===== *)
(** * FuncPages: the function and dependency reports

    After its loop [__check_files] writes four pages from the tables the
    loop filled: [report_function_not_called.html]
    ([__get_not_called_functions]: each name of
    [__defined_functions_dict] absent from [__called_functions], with the
    files declaring it), [report_function_global.html] and
    [list_functions.html] ([__write_list_functions] with [report] true,
    through [__report_redefined_functions], and false, through
    [__gen_list_functions]: the names declared in more than one file, and
    all the names), and [report_dependencies_<menu>.html]
    ([__check_dependencies]: each include of [__include_dict] with the
    files that include it).

    A page is its path and the list of the strings [f.write] receives, in
    order; the dicts are walked in the order of [map_to_list], the order
    [FuncTable.not_called_functions] and [FuncTable.redefined_functions]
    use.  The theorems read the names back from the pages with
    [announced], a reader of the lines of the form [pre + name + suf],
    and show that the pages name exactly the functions the tables select. *)

From S2P Require Import Prelude NtPath IncludeHtml Menu FuncTable Reports Template.
Import IncludeHtml Menu FuncTable Reports Template.

Module FuncPages.
Local Open Scope string_scope.

(** A file the output directory receives: its path and its writes *)
Definition page : Type := string * list string.

(** ["\n"] *)
Definition lf : string := String nl EmptyString.

(** The names a page announces with the lines [pre + name + suf] *)
Definition announced (pre suf : string) (ws : list string) : list string :=
  omap (between pre suf) ws.

(** The lines that announce a function on each page *)
Definition nc_pre : string := "Function <b>".
Definition nc_suf : string := "</b> defined but never called in:".
Definition dup_pre : string := "<br><li>Function <b>".
Definition dup_suf : string := "</b> defined more than once with the same name in : </li>" ++ lf.
Definition all_pre : string := "<li><b>".
Definition all_suf : string := "</b> defined in:</li>".

Section Pages.
(** [self.__template.get_css()], [self.__template.get_header()] *)
Variables css header : string.
(** [self.__get_hash] *)
Variable get_hash : chars -> string.
(** [self.__output_dir] *)
Variable output_dir : string.

(** The head the four pages write, with single quotes in [<font>] *)
Definition page_head_sq (title h1 : string) : list string :=
  ["<html><font face='helvetica' size='2'><head><title>" ++ title ++ "</title>";
   "<meta http-equiv='X-UA-Compatible' content='IE=8' />"; css; "</head><body>"; header;
   "<h1 style='padding-left:30px;'>" ++ h1 ++ "</h1>"; "<ul>"].

(** [<li><a href='dxl_files/<hash>_<basename>.html'>normpath(f)</a></li>]
    then [eol] (["\n"] on two pages, nothing on the third) *)
Definition file_item (eol f : string) : string :=
  "<li><a href='" ++ href_of get_hash f ++ "'>" ++ normpath_s f ++ "</a></li>" ++ eol.

(** [__get_not_called_functions]: one turn of
    [for defined_func, dxl_file_list in self.__defined_functions_dict.items()] *)
Definition not_called_entry (called : list string) (kv : string * list string) : list string :=
  let dxl_file_list_html := map (file_item lf) kv.2 in
  if bool_decide (kv.1 ∈ called) then []
  else app ["<ul>"; nc_pre ++ kv.1 ++ nc_suf] (app dxl_file_list_html ["</ul>"; "<br>"]).

Definition get_not_called_functions (s : fn_state) : page :=
  (output_dir ++ "/report_function_not_called.html",
   app (page_head_sq "Functions not called" "Functions not called issues")
       (app (concat (map (not_called_entry (called_functions s)) (map_to_list (defined_functions s))))
            page_tail)).

(** [__write_list_functions(f, report)]: one turn of its loop *)
Definition list_entry (report : bool) (kv : string * list string) : list string :=
  let links := map (file_item EmptyString) kv.2 in
  if report then
    if (1 <? length kv.2)%nat then app [dup_pre ++ kv.1 ++ dup_suf; "<ul>"] (app links ["</ul>"]) else []
  else app [all_pre ++ kv.1 ++ all_suf; "<ul>"] (app links ["</ul>"]).

(** The title and the heading, the same text *)
Definition list_title (report : bool) : string :=
  if report then "Function duplications in multiples files" else "Functions defined in DXL files".

Definition write_list_functions (report : bool) (s : fn_state) : list string :=
  app (page_head_sq (list_title report) (list_title report))
      (app (concat (map (list_entry report) (map_to_list (defined_functions s)))) page_tail).

(** [__gen_list_functions] *)
Definition gen_list_functions (s : fn_state) : page :=
  (output_dir ++ "/list_functions.html", write_list_functions false s).

(** [__report_redefined_functions] *)
Definition report_redefined_functions (s : fn_state) : page :=
  (output_dir ++ "/report_function_global.html", write_list_functions true s).

(** [__check_dependencies(dxl_menu, include_dict)]: one turn of its loop *)
Definition dependency_entry (kv : string * list string) : list string :=
  app ["<br><li><a href='" ++ href_of get_hash kv.1 ++ "'>" ++ normpath_s kv.1 ++ "</a> included in :</li>" ++ lf;
       "<ul>"]
      (app (map (file_item lf) kv.2) ["</ul>"]).

Definition check_dependencies (dxl_menu : string) (include_dict : gmap string (list string)) : page :=
  (output_dir ++ "/report_dependencies_" ++ dxl_menu ++ ".html",
   app (page_head_sq ("Dependencies in " ++ dxl_menu ++ " directories") "Dependencies")
       (app (concat (map dependency_entry (map_to_list include_dict))) page_tail)).

End Pages.

(** ** Reading the pages back *)

Lemma announced_app pre suf ws1 ws2 :
  announced pre suf (app ws1 ws2) = app (announced pre suf ws1) (announced pre suf ws2).
Proof. apply omap_app. Qed.

Lemma announced_concat pre suf wss :
  announced pre suf (concat wss) = concat (map (announced pre suf) wss).
Proof. apply omap_concat. Qed.

Lemma announced_nil pre suf ws : Forall (fun w => between pre suf w = None) ws -> announced pre suf ws = [].
Proof. induction 1 as [|w ws Hw _ IH]; [done|]. unfold announced. by rewrite omap_cons, Hw. Qed.

Lemma announced_one pre suf k : announced pre suf [pre ++ k ++ suf] = [k].
Proof. unfold announced. by rewrite omap_cons, between_app. Qed.

#[export] Hint Rewrite announced_app announced_concat announced_one : dxl_rw.

(** The links of files never announce a function *)
Lemma announced_file_items get_hash pre suf eol l :
  (forall f, between pre suf (file_item get_hash eol f) = None) ->
  announced pre suf (map (file_item get_hash eol) l) = [].
Proof. intros Hf. apply announced_nil, Forall_forall. intros w (f & <- & _)%list_elem_of_In%in_map_iff. apply Hf. Qed.

(** A concatenation of per-entry blocks, each announcing its key or nothing *)
Lemma concat_map_select {B} (p : string * B -> bool) (l : list (string * B)) :
  concat (map (fun kv => if p kv then [kv.1] else []) l) = map fst (List.filter p l).
Proof. induction l as [|kv l IH]; [done|]. simpl. destruct (p kv); simpl; by rewrite IH. Qed.

(** Each page of the real template: its head and its tail announce nothing *)
Ltac page_quiet := vm_compute; reflexivity.
(** The head and the tail of a page announce nothing *)
Ltac quiet_parts :=
  repeat match goal with
  | |- context [announced ?p ?q (page_head_sq ?a ?b ?c ?d)] =>
      rewrite (_ : announced p q (page_head_sq a b c d) = []) by page_quiet
  | |- context [announced ?p ?q page_tail] => rewrite (_ : announced p q page_tail = []) by page_quiet
  end.
(** An entry once its links are gone: the announcing line and fixed tags *)
Ltac entry_rest := unfold announced; rewrite !omap_cons, between_app; reflexivity.

Lemma not_called_entry_announced get_hash called kv :
  announced nc_pre nc_suf (not_called_entry get_hash called kv) =
  if negb (bool_decide (kv.1 ∈ called)) then [kv.1] else [].
Proof.
  unfold not_called_entry. case_bool_decide; [done|].
  rewrite !announced_app, announced_file_items by (intros; page_quiet). entry_rest.
Qed.

Lemma list_entry_announced get_hash kv :
  announced dup_pre dup_suf (list_entry get_hash true kv) = if (1 <? length kv.2)%nat then [kv.1] else [].
Proof.
  unfold list_entry. destruct (1 <? length kv.2)%nat; [|done].
  rewrite !announced_app, announced_file_items by (intros; page_quiet). entry_rest.
Qed.

Lemma list_entry_all_announced get_hash kv :
  announced all_pre all_suf (list_entry get_hash false kv) = [kv.1].
Proof.
  unfold list_entry.
  rewrite !announced_app, announced_file_items by (intros; page_quiet). entry_rest.
Qed.

(** C35: the page of functions not called names, in the order of the
    table, exactly the names of [__defined_functions_dict] that are not
    in [__called_functions]: the page and [not_called_functions] select
    the same functions. *)
Theorem not_called_page_names get_hash output_dir s :
  announced nc_pre nc_suf (get_not_called_functions get_css get_header get_hash output_dir s).2 =
  map fst (not_called_functions s).
Proof.
  unfold get_not_called_functions, not_called_functions; simpl.
  rewrite !announced_app, announced_concat, map_map.
  rewrite (map_ext _ _ (not_called_entry_announced get_hash _)), concat_map_select.
  quiet_parts.
  by rewrite app_nil_r.
Qed.

(** C36: the page of function duplications ([report=True]) names, in the
    order of the table, exactly the names that [__defined_functions_dict]
    maps to a list of more than one file. *)
Theorem redefined_page_names get_hash output_dir s :
  announced dup_pre dup_suf (report_redefined_functions get_css get_header get_hash output_dir s).2 =
  map fst (redefined_functions s).
Proof.
  unfold report_redefined_functions, write_list_functions, redefined_functions; simpl.
  rewrite !announced_app, announced_concat, map_map.
  rewrite (map_ext _ _ (list_entry_announced get_hash)), concat_map_select.
  quiet_parts.
  by rewrite app_nil_r.
Qed.

(** The list of functions names every declared function, in the order of
    the table *)
Theorem list_functions_names get_hash output_dir s :
  announced all_pre all_suf (gen_list_functions get_css get_header get_hash output_dir s).2 =
  map fst (map_to_list (defined_functions s)).
Proof.
  unfold gen_list_functions, write_list_functions; simpl.
  rewrite !announced_app, announced_concat, map_map.
  rewrite (map_ext _ _ (list_entry_all_announced get_hash)).
  quiet_parts.
  rewrite app_nil_r. simpl. clear. induction (map_to_list _) as [|kv l IH]; [done|]. simpl. by rewrite IH.
Qed.

End FuncPages.
