(* ===== verification/Cpd.v ===== *)
(** * Cpd: the code duplication check of [__doit]

    [__gen_cpd_bat] writes [dxl_cpd_runner.bat], one PMD/CPD command per
    scanned root directory, each redirecting its XML output to
    [cpd/cpd_<path_mod>.xml], where [path_mod] is the path with its colons
    removed and its backslashes turned into underscores.  [__doit] runs the
    batch file, then [__gen_cpd_report] writes [report_cpd.html]: for each
    root again, the size of [cpd/cpd_<path_mod>.xml] is read and the root
    is listed when the report holds more than 1024 bytes.  Both walk the
    root lists of the list files that exist (projects, addins, extra) and
    skip the root [K:\CODE\DOORS_TOOLS\PROD].

    [os.path.exists] of the list files and [os.path.getsize] of the XML
    files (an [OSError] when the file is missing) are [Section]
    variables.  The report is written inside [with open(..., "wb")]: the
    writes made before an exception stay in the file, so the result of
    [gen_cpd_report] is the path and a [wres], the writes and the
    exception that left the block, if any. *)

From S2P Require Import Prelude Checks Reports FuncPages.
Import Checks Reports FuncPages.

Module Cpd.
Local Open Scope string_scope.

(** The root both functions skip; the literal of [__gen_cpd_report] is not
    raw but [\C], [\D] and [\P] are no escapes in Python 2, so the two
    literals are the same string *)
Definition prod_root : string := "K:\CODE\DOORS_TOOLS\PROD".

(** [path.replace(":","").replace("\\","_")] *)
Definition path_mod (path : string) : string := replace_char "\" "_" (replace_char ":" EmptyString path).

(** The XML file of a root: [cpd/cpd_<path_mod>.xml] *)
Definition cpd_xml (path : string) : string := "cpd/" ++ "cpd_" ++ path_mod path ++ ".xml".

(** The start of the write of a command that names its output file *)
Definition redirect_pre : string :=
  " --language dxl --skip-lexical-errors --skip-duplicate-files --format xml --encoding utf-8 > ".

(** The writes to a file opened by [with open(path, "wb") as f], and how
    the block ended: an exception leaves the writes made before it, the
    [with] statement closing the file on the way out *)
Inductive wres := WOk (ws : list string) | WRaise (ws : list string) (e : py_exc).

Section Cpd.
(** [os.path.exists] *)
Variable path_exists : string -> bool.
(** [self.__projects_list], [self.__addins_list], [self.__extra_list] *)
Variables projects_list addins_list extra_list : string.
(** [self.__project_dirs], [self.__addin_dirs], [self.__extra_dirs] *)
Variables project_dirs addin_dirs extra_dirs : list string.

(** [path_dir_list]: the roots of each list file that exists *)
Definition path_dir_list : list (list string) :=
  fold_left (fun acc d =>
               if path_exists d then
                 if String.eqb d projects_list then app acc [project_dirs]
                 else if String.eqb d addins_list then app acc [addin_dirs]
                 else if String.eqb d extra_list then app acc [extra_dirs]
                 else acc
               else acc)
            [projects_list; addins_list; extra_list] [].

(** The writes of one root in [dxl_cpd_runner.bat] *)
Definition bat_lines (path : string) : list string :=
  if String.eqb path prod_root then []
  else let path_mod := path_mod path in
       ["java -Xmx1024m -classpath cpd/bin net.sourceforge.pmd.cpd.CPD --minimum-tokens 20";
        " --files " ++ path;
        " --language dxl --skip-lexical-errors --skip-duplicate-files --format xml --encoding utf-8 > cpd/cpd_" ++ path_mod ++ ".xml" ++ lf ++ lf].

(** [__gen_cpd_bat]: the batch file, in the working directory *)
Definition gen_cpd_bat : page :=
  ("dxl_cpd_runner.bat",
   app ["@echo off" ++ lf ++ lf; "CD /D %~dp0" ++ lf ++ lf]
       (concat (map (fun path_dir => concat (map bat_lines path_dir)) path_dir_list))).

(** [os.path.getsize]; [None] when the file does not exist ([OSError]) *)
Variable getsize : string -> option N.
Variables css header : string.
Variable output_dir : string.

(** The writes of the first lines of [report_cpd.html], before the loop *)
Definition cpd_head : list string :=
  ["<html><font face=" ++ qt ++ "helvetica" ++ qt ++ " size=" ++ qt ++ "2" ++ qt ++ "><head><title>CPD reports</title>";
   "<meta http-equiv='X-UA-Compatible' content='IE=8' />"; css; "</head><body>"; header;
   "<h1 style='padding-left:30px;'>CPD reports for each directory</h1>";
   "<ul style='line-height:1.5 !important; font-size:15px;'>Code duplications in :<br><br>"].

(** One turn of [for path in path_dir] in [__gen_cpd_report], inside
    [with open(...) as f]: an exception ends the loop with the writes
    made so far *)
Definition report_step (acc : wres) (path : string) : wres :=
  match acc with
  | WRaise _ _ => acc
  | WOk ws =>
      if String.eqb path prod_root then WOk ws
      else
        let report_path := cpd_xml path in
        match getsize report_path with
        | None => WRaise ws OSError
        | Some report_size =>
            if (1024 <? report_size)%N then
              let path_link := "../" ++ report_path in
              WOk (app ws ["<li style='margin-left:20px;'><a href=" ++ path_link ++ ">" ++ path ++ "</a></li>"])
            else WOk ws
        end
  end.

(** [__gen_cpd_report]: the path of [report_cpd.html] and its writes,
    ending in the exception that left the [with] block, if any; the file
    was opened before the first write, so it holds those writes either
    way *)
Definition gen_cpd_report : string * wres :=
  (output_dir ++ "/report_cpd.html",
   match fold_left report_step (concat path_dir_list) (WOk cpd_head) with
   | WOk ws => WOk (app ws page_tail)
   | r => r
   end).

End Cpd.

(** ** The runner and the report agree *)

(** The files the runner writes: the targets of its redirections *)
Definition bat_targets (bat : page) : list string := announced redirect_pre (lf ++ lf) bat.2.

Lemma not_prod (p : string) : (negb (String.eqb p prod_root) = true) <-> p <> prod_root.
Proof. rewrite negb_true_iff, String.eqb_neq. done. Qed.

Lemma bat_lines_targets p :
  announced redirect_pre (lf ++ lf) (bat_lines p) = if String.eqb p prod_root then [] else [cpd_xml p].
Proof.
  unfold bat_lines. destruct (String.eqb p prod_root); [done|].
  unfold announced. rewrite !omap_cons.
  assert (E : " --language dxl --skip-lexical-errors --skip-duplicate-files --format xml --encoding utf-8 > cpd/cpd_"
                 ++ path_mod p ++ ".xml" ++ lf ++ lf = redirect_pre ++ cpd_xml p ++ lf ++ lf)
    by (unfold cpd_xml; rewrite !string_app_assoc; reflexivity).
  rewrite E.
  rewrite between_app. reflexivity.
Qed.

Section Agree.
Variable path_exists : string -> bool.
Variables projects_list addins_list extra_list : string.
Variables project_dirs addin_dirs extra_dirs : list string.
Variable getsize : string -> option N.
Variables css header output_dir : string.

Local Notation roots :=
  (concat (path_dir_list path_exists projects_list addins_list extra_list project_dirs addin_dirs extra_dirs)).
Local Notation bat :=
  (gen_cpd_bat path_exists projects_list addins_list extra_list project_dirs addin_dirs extra_dirs).
Local Notation report :=
  (gen_cpd_report path_exists projects_list addins_list extra_list project_dirs addin_dirs extra_dirs
     getsize css header output_dir).

(** The runner writes the XML file of every root but [prod_root], in order *)
Lemma bat_targets_roots :
  bat_targets bat = map cpd_xml (List.filter (fun p => negb (String.eqb p prod_root)) roots).
Proof.
  unfold bat_targets, gen_cpd_bat. cbn [snd].
  assert (E : announced redirect_pre (lf ++ lf) ["@echo off" ++ lf ++ lf; "CD /D %~dp0" ++ lf ++ lf] = [])
    by reflexivity.
  rewrite announced_app, E, announced_concat, map_map. simpl. clear.
  induction (path_dir_list _ _ _ _ _ _ _) as [|ps pss IH]; [done|]. simpl.
  rewrite announced_concat, map_map, List.filter_app, map_app, IH. f_equal.
  clear. induction ps as [|p ps IH]; [done|]. simpl. rewrite bat_lines_targets, IH.
  by destruct (String.eqb p prod_root).
Qed.

Lemma report_steps_raise l ws e : fold_left (report_step getsize) l (WRaise ws e) = WRaise ws e.
Proof. induction l; simpl; [done|]. apply IHl. Qed.

Lemma report_steps_ok l ws :
  (forall p, p ∈ l -> p <> prod_root -> is_Some (getsize (cpd_xml p))) ->
  exists ws', fold_left (report_step getsize) l (WOk ws) = WOk (ws ++ ws').
Proof.
  revert ws. induction l as [|p l IH]; intros ws Hl; [exists []; by rewrite app_nil_r|].
  cbn [fold_left]. unfold report_step at 2.
  destruct (String.eqb p prod_root) eqn:E; [apply IH; set_solver|].
  apply String.eqb_neq in E. destruct (Hl p) as [sz Hsz]; [set_solver|done|]. rewrite Hsz.
  destruct (1024 <? sz)%N.
  - match goal with |- context [WOk (app ws [?row])] =>
      destruct (IH (app ws [row])) as [ws' ->]; [set_solver|] end.
    rewrite <- app_assoc. eauto.
  - apply IH. set_solver.
Qed.

Lemma report_steps_missing l ws p :
  p ∈ l -> p <> prod_root -> getsize (cpd_xml p) = None ->
  exists ws', fold_left (report_step getsize) l (WOk ws) = WRaise (ws ++ ws') OSError.
Proof.
  revert ws. induction l as [|q l IH]; intros ws Hp Hne Hnone; [set_solver|]. cbn [fold_left]. unfold report_step at 2.
  apply elem_of_cons in Hp as [->|Hp].
  - apply String.eqb_neq in Hne. rewrite Hne, Hnone, report_steps_raise. exists []. by rewrite app_nil_r.
  - destruct (String.eqb q prod_root); [by apply IH|].
    destruct (getsize (cpd_xml q)) as [sz|]; [|rewrite report_steps_raise; exists []; by rewrite app_nil_r].
    destruct (1024 <? sz)%N; [|by apply IH].
    match goal with |- context [WOk (app ws [?row])] =>
      destruct (IH (app ws [row]) Hp Hne Hnone) as [ws' ->] end.
    rewrite <- app_assoc. eauto.
Qed.

Lemma elem_of_bat_targets t :
  t ∈ bat_targets bat <-> exists p, t = cpd_xml p /\ p ∈ roots /\ p <> prod_root.
Proof.
  rewrite bat_targets_roots, list_elem_of_In, in_map_iff. setoid_rewrite filter_In.
  setoid_rewrite <- list_elem_of_In. setoid_rewrite not_prod. naive_solver.
Qed.

(** C37: when the runner has produced every file its batch file
    redirects to, [__gen_cpd_report] writes its whole page: the head, a
    row per listed root and the tail. *)
Theorem cpd_report_total :
  (forall t, t ∈ bat_targets bat -> is_Some (getsize t)) ->
  exists rows, report = (output_dir ++ "/report_cpd.html", WOk (cpd_head css header ++ rows ++ page_tail)).
Proof.
  intros Hall. unfold gen_cpd_report.
  destruct (report_steps_ok roots (cpd_head css header)) as [ws ->].
  - intros p Hp Hne. apply Hall, elem_of_bat_targets. eauto.
  - exists ws. by rewrite <- app_assoc.
Qed.

(** When one file the batch file redirects to is missing (the runner
    failed for that root), [os.path.getsize] raises [OSError] inside the
    [with] block: [report_cpd.html] is left with its head and the rows
    of the roots before, without its tail *)
Lemma cpd_report_missing t :
  t ∈ bat_targets bat -> getsize t = None ->
  exists rows, report = (output_dir ++ "/report_cpd.html", WRaise (cpd_head css header ++ rows) OSError).
Proof.
  intros (p & -> & Hp & Hne)%elem_of_bat_targets Hnone. unfold gen_cpd_report.
  destruct (report_steps_missing _ (cpd_head css header) p Hp Hne Hnone) as [ws ->]. eauto.
Qed.

(** [path_dir_list] reads [os.path.exists] of the three list files only *)
Lemma path_dir_list_ext (ex ex' : string -> bool) :
  ex projects_list = ex' projects_list -> ex addins_list = ex' addins_list -> ex extra_list = ex' extra_list ->
  path_dir_list ex projects_list addins_list extra_list project_dirs addin_dirs extra_dirs =
  path_dir_list ex' projects_list addins_list extra_list project_dirs addin_dirs extra_dirs.
Proof. intros H1 H2 H3. unfold path_dir_list. simpl. by rewrite H1, H2, H3. Qed.

Lemma gen_cpd_report_ext (ex1 ex2 : string -> bool) :
  ex1 projects_list = ex2 projects_list -> ex1 addins_list = ex2 addins_list -> ex1 extra_list = ex2 extra_list ->
  gen_cpd_report ex1 projects_list addins_list extra_list project_dirs addin_dirs extra_dirs getsize css header output_dir =
  gen_cpd_report ex2 projects_list addins_list extra_list project_dirs addin_dirs extra_dirs getsize css header output_dir.
Proof. intros H1 H2 H3. unfold gen_cpd_report. by rewrite (path_dir_list_ext ex1 ex2). Qed.

End Agree.

Lemma path_mod_cons c p :
  path_mod (String c p) =
  (if Ascii.eqb c ":" then EmptyString else if Ascii.eqb c "092"%char then "_" else String c EmptyString) ++ path_mod p.
Proof.
  unfold path_mod. cbn [replace_char]. destruct (Ascii.eqb c ":"); [done|].
  cbn [String.append replace_char]. by destruct (Ascii.eqb c "092"%char).
Qed.

(** C38: [path_mod] turns backslashes into underscores: two roots whose paths
    differ only by an underscore in place of a backslash share one XML
    file, which the second command of the runner overwrites. *)
Theorem cpd_xml_underscore p : cpd_xml (replace_char "_" "\" p) = cpd_xml p.
Proof.
  unfold cpd_xml. do 3 f_equal. induction p as [|c p IH]; [done|]. cbn [replace_char].
  destruct (Ascii.eqb c "_") eqn:E.
  - apply Ascii.eqb_eq in E as ->. change ("\" ++ replace_char "_" "\" p) with (String "092"%char (replace_char "_" "\" p)).
    rewrite !path_mod_cons, IH. reflexivity.
  - by rewrite !path_mod_cons, IH.
Qed.

Lemma cpd_report_total_witness :
  (forall t, t ∈ bat_targets (gen_cpd_bat (fun _ => true) "p.txt" "a.txt" "e.txt" ["K:\P"] ["K:\A"] []) ->
             is_Some ((fun _ : string => Some 2000%N) t)) /\
  exists rows, gen_cpd_report (fun _ => true) "p.txt" "a.txt" "e.txt" ["K:\P"] ["K:\A"] [] (fun _ => Some 2000%N)
                 EmptyString EmptyString "out" =
               ("out" ++ "/report_cpd.html", WOk (cpd_head EmptyString EmptyString ++ rows ++ page_tail)).
Proof.
  assert (H : forall t, t ∈ bat_targets (gen_cpd_bat (fun _ => true) "p.txt" "a.txt" "e.txt" ["K:\P"] ["K:\A"] []) ->
                        is_Some ((fun _ : string => Some 2000%N) t)) by (intros; eexists; reflexivity).
  split; [exact H|]. exact (cpd_report_total _ _ _ _ _ _ _ _ _ _ _ H).
Defined.

End Cpd.
