(* ===== verification/Doit.v ===== *)
(** * Doit: [StartDoors.__doit], the run as a whole

    [__doit] reads the menu roots from the configuration, builds the lists
    of root directories ([__make_list]), and then takes one of three
    branches: with [-s] it checks the given files; with [-e] it saves the
    tree of the extra directories, checks their files and writes their
    tree page; otherwise it saves the trees of the project and addin
    roots, checks the project files and then the addin files (one
    [__new_vars] before both, so the second check goes on from the state
    the first left), writes the two tree pages, runs the code duplication
    check, and writes the homepage, the issue reports and the list of
    files.

    The state is the output directory (the text files, as the list of the
    strings written to each, and the pickled list files) with the state of
    [__check_files] ([Batch]) and [__count_dirs].  A call that raises
    stops the run: the outcome is [Crash] with the files written before
    that call.  The configuration reader, the file system the checks read,
    the dates and the user, the lines counted by [__dxl2html]
    ([__count_lines], [__loc_dict]) and the sizes of the XML files after
    the runner ran are [Section] variables. *)

From stdpp Require Import pretty.
From S2P Require Import Prelude Checks NtPath FuncTable IncludeHtml Menu Batch Reports TreePages Template FuncPages Cpd.
Import Checks NtPath FuncTable IncludeHtml Menu Batch Reports TreePages Template FuncPages Cpd.

Module Doit.
Local Open Scope string_scope.

(** ** The menu roots of the configuration *)

(** [s.upper()] of a Python 2 [str]: the ASCII lower-case letters *)
Definition py_upper (s : string) : string :=
  string_of_list_ascii
    (map (fun c => let n := nat_of_ascii c in if ((97 <=? n) && (n <=? 122))%nat then ascii_of_nat (n - 32)%nat else c)
         (list_ascii_of_string s)).

(** [l.remove(x)]: the first [x] taken out; [ValueError] when there is none *)
Fixpoint list_remove (x : string) (l : list string) : py_result (list string) :=
  match l with
  | [] => PyRaise ValueError
  | y :: l' => if String.eqb x y then PyOk l' else pylet r := list_remove x l' in PyOk (y :: r)
  end.

(** The local variables of [__doit] that are lists of roots, by name *)
Definition locals : Type := list (string * list string).

Fixpoint local_get (name : string) (env : locals) : option (list string) :=
  match env with
  | [] => None
  | (n, l) :: env' => if String.eqb n name then Some l else local_get name env'
  end.

Fixpoint local_set (name : string) (l : list string) (env : locals) : locals :=
  match env with
  | [] => []
  | (n, l0) :: env' => if String.eqb n name then (n, l) :: env' else (n, l0) :: local_set name l env'
  end.

(** The statement [name.remove(x)]: [NameError] when [name] is no local
    variable *)
Definition remove_stmt (env : locals) (st : string * string) : py_result locals :=
  match local_get st.1 env with
  | None => PyRaise NameError
  | Some l => pylet l' := list_remove st.2 l in PyOk (local_set st.1 l' env)
  end.

(** [try: <statements> except: pass]: the statements run in order until
    one raises; the removals made before it stay, the lists being changed
    in place *)
Fixpoint try_except_pass (env : locals) (stmts : list (string * string)) : locals :=
  match stmts with
  | [] => env
  | st :: stmts' =>
      match remove_stmt env st with
      | PyOk env' => try_except_pass env' stmts'
      | PyRaise _ => env
      end
  end.

(** The body of the [try] of [__doit], as written *)
Definition prod_removals : list (string * string) :=
  [("project_menu_path", "K:\CODE\DOORS_TOOLS\PROD\OTHER\Project");
   ("addins_menu_path", "K:\CODE\DOORS_TOOLS\PROD\COMMON\LIB\DOORS_9");
   ("addins_menu_path", "K:\CODE\DOORS_TOOLS\PROD\PTO")].

Section Config.
(** [cl.params_of_section(section, admin=True)] of the configuration file *)
Variable params_of_section : string -> list string.
(** [self.__database] *)
Variable database : string.

(** [projects_menu_path] and [addins_menu_path] after the loop on
    [[port_name, "GLOBAL"]] *)
Definition config_menu_paths : list string * list string :=
  let ditems := split_on "@" database in
  let port_name := py_upper (hd EmptyString ditems) in
  fold_left (fun acc prefix =>
               (app acc.1 (params_of_section (prefix ++ "_PROJECTS")),
                app acc.2 (params_of_section (prefix ++ "_ADDINS"))))
            [port_name; "GLOBAL"] ([], []).

(** The two lists after [if "K:\\CODE\\DOORS_TOOLS\\PROD" in addins_menu_path:
    try: ... except: pass] *)
Definition menu_paths : list string * list string :=
  let '(projects_menu_path, addins_menu_path) := config_menu_paths in
  if bool_decide ("K:\CODE\DOORS_TOOLS\PROD" ∈ addins_menu_path) then
    let env := try_except_pass [("projects_menu_path", projects_menu_path); ("addins_menu_path", addins_menu_path)]
                               prod_removals in
    (default [] (local_get "projects_menu_path" env), default [] (local_get "addins_menu_path" env))
  else (projects_menu_path, addins_menu_path).

End Config.

(** ** The state of a run *)

Record dstate := DS {
  files : gmap string (list string);   (** each text file written, with the strings written to it *)
  lists : gmap string (list pyval);    (** the list files, with the trees [__save_tree] pickled *)
  bst : batch_state;                   (** the state [__check_files] reads and changes *)
  count_dirs : nat                     (** [self.__count_dirs] *)
}.

(** How a run ends: normally, or with an exception out of a call; the
    files are those written before the call that raised *)
Inductive outcome := Done (d : dstate) | Crash (d : dstate) (e : py_exc).

Definition lift (d : dstate) (r : py_result dstate) : outcome :=
  match r with PyOk d' => Done d' | PyRaise e => Crash d e end.

Definition andthen (o : outcome) (k : dstate -> outcome) : outcome :=
  match o with Done d => k d | Crash d e => Crash d e end.

Notation "'dostep' x := o 'in' k" := (andthen o (fun x => k))
  (at level 10, x name, o at level 100, k at level 200) : dxl_scope.

(** [with open(path, "wb") as f: f.write(...) ...] *)
Definition write (p : page) (d : dstate) : dstate := DS (<[p.1 := p.2]> (files d)) (lists d) (bst d) (count_dirs d).

(** The files of [pgs] written in order *)
Definition write_all (pgs : list page) (d : dstate) : dstate := fold_left (fun d p => write p d) pgs d.

Definition with_bst (s : batch_state) (d : dstate) : dstate := DS (files d) (lists d) s (count_dirs d).

(** [os.path.exists] of a file of the output directory *)
Definition exists_file (d : dstate) (p : string) : bool :=
  bool_decide (is_Some (lists d !! p)) || bool_decide (is_Some (files d !! p)).

(** [__new_vars]: the tables and counters reset; the output directory
    ([txt/hash_content.txt], the pages of [dxl_files/]) stays *)
Definition new_vars (d : dstate) : dstate :=
  DS (files d) (lists d) (batch_init (ih_hash_file (html (bst d))) (ih_html (html (bst d)))) 0.

Section Run.
(** The configuration file and the arguments: [-d], [-o] (the empty
    string without it), [-s], [-e] *)
Variable params_of_section : string -> list string.
Variables database output : string.
Variables scan_file extra_directory : list string.
(** The file system: [os.path.isdir] before and after a view is started,
    [os.walk], [os.path.getsize], the reading of a file, [os.path.exists]
    on the include paths, [os.listdir], the edit batch files of the output
    directory *)
Variables isdir view_isdir : string -> bool.
Variable os_walk : string -> list walk_entry.
Variable size : string -> N.
Variable read : string -> chars.
Variable path_exists : chars -> bool.
Variable listdir : chars -> list chars.
Variable read_out : string -> chars.
(** [__get_hash], [-c], the depth [__includes_dxl2html] reaches, the links
    of an [Identical content] error *)
Variable get_hash : chars -> string.
Variable complete : bool.
Variable depth : nat.
Variable links : list string -> string.
(** [os.path.getsize] of the XML files once [dxl_cpd_runner.bat] ran *)
Variable cpd_size : string -> option N.
(** The output directory before the run: its text files, its list files,
    [txt/hash_content.txt] and the pages of [dxl_files/] *)
Variable files0 : gmap string (list string).
Variable lists0 : gmap string (list pyval).
Variable hash_file0 : option (gmap string string).
Variable pages0 : gset string.
(** The dates ([now.strftime("%m%d")], [now.strftime("_%m%d_%H%M%S")],
    [__last_scan_date]), [__user_tgi], [os.linesep], and what
    [__dxl2html] counts ([__count_lines], [__loc_dict]) and the dates of
    the pages, which the model does not follow *)
Variables today_date complete_date last_scan_date user_tgi linesep : string.
Variable count_lines : nat.
Variable loc_dict : gmap string nat.
Variable last_analysis : string -> string.

(** [self.__output_dir] *)
Definition output_dir : string := if String.eqb output "" then "dxl_scan_result" else output.

Definition projects_list : string := output_dir ++ "/txt/projects_list.txt".
Definition addins_list : string := output_dir ++ "/txt/addins_list.txt".
Definition extra_list : string := output_dir ++ "/txt/extra_list.txt".
Definition projects_includes_list : string := output_dir ++ "/txt/projects_includes_list.txt".
Definition addins_includes_list : string := output_dir ++ "/txt/addins_includes_list.txt".
Definition extra_includes_list : string := output_dir ++ "/txt/extra_includes_list.txt".
Definition projects_tree : string := output_dir ++ "/projects_tree.html".
Definition addins_tree : string := output_dir ++ "/addins_tree.html".
Definition extra_tree : string := output_dir ++ "/extra_tree.html".

(** [self.__log_file_name = os.path.join(log_dir, "log"+complete_date+".txt")] *)
Definition log_file_name : string :=
  string_of_list_ascii (join (list_ascii_of_string ("logs/" ++ today_date))
                             (list_ascii_of_string ("log" ++ complete_date ++ ".txt"))).

(** The three [__make_list] calls *)
Definition root_dirs : py_result (list string * list string * list string) :=
  let '(projects_menu_path, addins_menu_path) := menu_paths params_of_section database in
  pylet p := make_list isdir view_isdir projects_menu_path "projects" in
  pylet a := make_list isdir view_isdir addins_menu_path "addins" in
  pylet e := make_list isdir view_isdir extra_directory "extra" in
  PyOk (p, a, e).

(** The pages [__check_files] writes after its loop; [dxl_menu] names the
    dependency page.  The first two are written before
    [__check_same_include_content], which changes only [__report], so the
    final state gives them. *)
Definition check_pages (dxl_menu : string) (s : batch_state) : list page :=
  [get_not_called_functions get_css get_header get_hash output_dir (fns s);
   report_redefined_functions get_css get_header get_hash output_dir (fns s);
   gen_list_functions get_css get_header get_hash output_dir (fns s);
   check_dependencies get_css get_header get_hash output_dir dxl_menu (ih_include_dict (html s))].

Section Branches.
(** [self.__project_dirs], [self.__addin_dirs], [self.__extra_dirs] *)
Variables project_dirs addin_dirs extra_dirs : list string.

(** [self.__addin_dirs + self.__project_dirs], where includes are searched *)
Definition start_paths : list chars := map list_ascii_of_string (app addin_dirs project_dirs).

(** [__save_tree(txt_filename, dxl_menu)] *)
Definition save_tree_to (txt : string) (dirs : list string) (d : dstate) : py_result dstate :=
  pylet ts := save_tree os_walk dirs in
  PyOk (DS (files d) (<[txt := ts]> (lists d)) (bst d) (count_dirs d)).

(** [__check_files(txt)], from the state of [d], with its pages *)
Definition check_files_to (t : txt_arg) (d : dstate) : py_result dstate :=
  let load_trees := fun p => default [] (lists d !! p) in
  pylet s := check_files_run_from size read path_exists start_paths get_hash complete depth
               projects_list addins_list extra_list scan_file load_trees links (bst d) t in
  let dxl_menu := default EmptyString (dxl_menu_of projects_list addins_list extra_list t) in
  PyOk (write_all (check_pages dxl_menu s) (with_bst s d)).

(** [pickle.dump(..._files_includes_list, f)]: the list of references to
    [__valid_includes_dict] that [__gen_html] is handed and never reads;
    its content is not followed *)
Definition dump_includes (p : string) (d : dstate) : dstate := write (p, []) d.

(** [__txt2html(txt, includes, html_template, dirs)]; [pickle.load] of
    a missing file raises [IOError] *)
Definition txt2html_to (txt includes html_template : string) (dirs : list string) (d : dstate) : py_result dstate :=
  match lists d !! txt, files d !! includes with
  | Some dict_list, Some _ =>
      pylet o := txt2html size extra_directory listdir (fun p => read (string_of_list_ascii p)) read get_hash
                   get_css get_header dict_list dirs (count_dirs d) in
      PyOk (DS (<[html_template := gh_writes o]> (files d)) (lists d) (bst d) (gh_count_dirs o))
  | _, _ => PyRaise IOError
  end.

(** [__gen_cpd_bat()], [os.system("dxl_cpd_runner.bat")], [__gen_cpd_report()] *)
Definition cpd_bat (d : dstate) : page :=
  gen_cpd_bat (exists_file d) projects_list addins_list extra_list project_dirs addin_dirs extra_dirs.

Definition cpd_report_to (d : dstate) : outcome :=
  let '(path, r) := gen_cpd_report (exists_file d) projects_list addins_list extra_list project_dirs addin_dirs
                      extra_dirs cpd_size get_css get_header output_dir in
  match r with
  | WOk ws => Done (write (path, ws) d)
  | WRaise ws e => Crash (write (path, ws) d) e
  end.

(** [self.__scanned_dirs_list] after the loop on the three list files *)
Definition scanned_dirs (d : dstate) : list string :=
  omap (fun pn => if exists_file d pn.1 then Some pn.2 else None)
       [(projects_list, "Projects"); (addins_list, "Addins"); (extra_list, "Extra directory")].

(** [__gen_homepage()]: the homepage and [dxl_scan.bat] *)
Definition gen_homepage (scanned : list string) (d : dstate) : dstate :=
  let s := bst d in
  let homepage := get_homepage log_file_name count_lines (count_functions (fns s)) (count_files s)
                    (ih_count_includes (html s)) (count_dirs d) (count_issues s) last_scan_date user_tgi scanned in
  write (output_dir ++ "/dxl_scan.bat",
         ["@echo off"; lf; "CD /D %~dp0 " ++ lf;
          "R:\AMS_afr_A400M\ESPACE_TRAVAIL_COMMON\WP5_SupportMultiLoad\INSTALLS\pypy\pypy.exe dxl_scan.py -i start_doors.ini -d FBL_SSDD"])
        (write (output_dir ++ "/dxl_scan_home.html", [homepage]) d).

(** [for category in categories: self.__gen_report_category(category)] *)
Fixpoint categories_to (cs : list string) (d : dstate) : outcome :=
  match cs with
  | [] => Done d
  | c :: cs' =>
      match gen_report_category get_css get_header linesep get_hash c (report (bst d)) with
      | PyOk ws => categories_to cs' (write (output_dir ++ "/report_" ++ c ++ ".html", ws) d)
      | PyRaise e => Crash d e
      end
  end.

(** [__list_html_files()], on [os.listdir(output_dir + "/dxl_files")] *)
Definition list_html_to (d : dstate) : py_result dstate :=
  let s := bst d in
  let files_list := map (fun n => n ++ ".html") (elements (ih_html (html s))) in
  pylet le := list_html_files read_out loc_dict (report s) (nb_inc_dict s) output_dir last_analysis
                get_css get_header files_list in
  PyOk (write (output_dir ++ "/embedded_list.html", le.2) (write (output_dir ++ "/list.html", le.1) d)).

(** The main branch, up to the two tree pages *)
Definition main_checks (d0 : dstate) : outcome :=
  dostep d1 := lift d0 (save_tree_to projects_list project_dirs d0) in
  dostep d2 := lift d1 (save_tree_to addins_list addin_dirs d1) in
  let d3 := new_vars d2 in
  dostep d4 := lift d3 (check_files_to (TxtPath projects_list) d3) in
  let d5 := dump_includes projects_includes_list d4 in
  dostep d6 := lift d5 (check_files_to (TxtPath addins_list) d5) in
  let d7 := dump_includes addins_includes_list d6 in
  dostep d8 := lift d7 (txt2html_to projects_list projects_includes_list projects_tree project_dirs d7) in
  lift d8 (txt2html_to addins_list addins_includes_list addins_tree addin_dirs d8).

(** The main branch after the tree pages: the code duplication check,
    the homepage, the reports and the list of files *)
Definition main_reports (d9 : dstate) : outcome :=
  let d10 := write (cpd_bat d9) d9 in
  dostep d10' := cpd_report_to d10 in
  let d11 := gen_homepage (scanned_dirs d10') d10' in
  let d12 := write (output_dir ++ "/report.html", gen_report get_css get_header linesep get_hash (report (bst d11))) d11 in
  dostep d13 := categories_to categories d12 in
  lift d13 (list_html_to d13).

Definition doit_main (d0 : dstate) : outcome := andthen (main_checks d0) main_reports.

(** The [-e] branch; its second [__make_list] call gives [extra_dirs]
    again *)
Definition doit_extra (d0 : dstate) : outcome :=
  let d1 := new_vars d0 in
  dostep d2 := lift d1 (save_tree_to extra_list extra_dirs d1) in
  dostep d3 := lift d2 (check_files_to (TxtPath extra_list) d2) in
  let d4 := dump_includes extra_includes_list d3 in
  lift d4 (txt2html_to extra_list extra_includes_list extra_tree extra_dirs d4).

(** The [-s] branch *)
Definition doit_scan (d0 : dstate) : outcome :=
  let d1 := new_vars d0 in
  lift d1 (check_files_to (ScanList scan_file) d1).

End Branches.

(** [__doit]: the log file [output_dir + os.sep + log_file_name] is
    opened after the three [__make_list] calls (its lines, timestamps,
    are not followed) *)
Definition doit : outcome :=
  let d0 := DS files0 lists0 (batch_init hash_file0 pages0) 0 in
  match root_dirs with
  | PyRaise e => Crash d0 e
  | PyOk (project_dirs, addin_dirs, extra_dirs) =>
      let d1 := write (output_dir ++ String bs EmptyString ++ log_file_name, []) d0 in
      match scan_file, extra_directory with
      | _ :: _, _ => doit_scan project_dirs addin_dirs d1
      | [], _ :: _ => doit_extra project_dirs addin_dirs extra_dirs d1
      | [], [] => doit_main project_dirs addin_dirs extra_dirs d1
      end
  end.

End Run.

(** ** A small installation

    One project root [K:\P] holding [a.dxl] and one addin root [K:\A]
    holding [b.dxl], both [int x]; an output directory [out] that an
    earlier run left with its hash file; the runner's XML outputs all of
    2000 bytes, or all missing. *)

Definition ex_params (section : string) : list string :=
  if String.eqb section "FBL_PROJECTS" then ["K:\P"]
  else if String.eqb section "FBL_ADDINS" then ["K:\A"] else [].

(** A configuration whose project list keeps a root that is gone *)
Definition ex_params_stale (section : string) : list string :=
  if String.eqb section "FBL_PROJECTS" then ["K:\P"; "K:\old"] else ex_params section.

Definition ex_isdir (m : string) : bool := String.eqb m "K:\P" || String.eqb m "K:\A".

Definition ex_walk (r : string) : list walk_entry :=
  if String.eqb r "K:\P" then walk r (Dir "P" ["a.dxl"] [])
  else if String.eqb r "K:\A" then walk r (Dir "A" ["b.dxl"] []) else [].

Definition ex_read (f : string) : chars := list_ascii_of_string "int x".

Definition ex_edit_bat (p : string) : chars :=
  list_ascii_of_string ("cleartool checkout -nc K:\P\a.dxl" ++ lf ++ "start /min notepad++ K:\P\a.dxl").

(** The outcome's files *)
Definition state_of (o : outcome) : dstate := match o with Done d => d | Crash d _ => d end.

(** ** Lemmas on runs *)

(** A run only adds files: what existed stays *)
Definition grows (d d' : dstate) : Prop := forall p, is_Some (files d !! p) -> is_Some (files d' !! p).

Lemma grows_refl d : grows d d.
Proof. by intros p. Qed.

Lemma grows_trans d1 d2 d3 : grows d1 d2 -> grows d2 d3 -> grows d1 d3.
Proof. intros H1 H2 p Hp. by apply H2, H1. Qed.

Lemma write_grows pg d : grows d (write pg d).
Proof. intros p Hp. unfold write; simpl. destruct (decide (pg.1 = p)) as [->|Hne]; [by rewrite lookup_insert_eq|by rewrite lookup_insert_ne]. Qed.

Lemma write_has p ws d : is_Some (files (write (p, ws) d) !! p).
Proof. unfold write; simpl. by rewrite lookup_insert_eq. Qed.

#[export] Hint Resolve grows_refl write_grows write_has : dxl.

Lemma PyOk_inj {A} (a b : A) : PyOk a = PyOk b -> a = b.
Proof. by intros [=]. Qed.

Lemma andthen_Done o k d : andthen o k = Done d -> exists d', o = Done d' /\ k d' = Done d.
Proof. destruct o; simpl; [eauto | discriminate]. Qed.

Lemma lift_Done d r d' : lift d r = Done d' -> r = PyOk d'.
Proof. destruct r; simpl; congruence. Qed.

(** Taking a [Done] run apart, step by step *)
Ltac done_steps :=
  repeat match goal with
  | H : andthen _ _ = Done _ |- _ => apply andthen_Done in H as (? & ? & ?)
  | H : lift _ _ = Done _ |- _ => apply lift_Done in H
  end.

Section RunLemmas.
Variable params_of_section : string -> list string.
Variables database output : string.
Variables scan_file extra_directory : list string.
Variables isdir view_isdir : string -> bool.
Variable os_walk : string -> list walk_entry.
Variable size : string -> N.
Variable read : string -> chars.
Variable path_exists : chars -> bool.
Variable listdir : chars -> list chars.
Variable read_out : string -> chars.
Variable get_hash : chars -> string.
Variable complete : bool.
Variable depth : nat.
Variable links : list string -> string.
Variable cpd_size : string -> option N.
Variables today_date complete_date last_scan_date user_tgi linesep : string.
Variable count_lines : nat.
Variable loc_dict : gmap string nat.
Variable last_analysis : string -> string.
Variables project_dirs addin_dirs extra_dirs : list string.

Local Notation main_checks :=
  (main_checks output scan_file extra_directory os_walk size read path_exists listdir get_hash complete depth links
     project_dirs addin_dirs).
Local Notation main_reports :=
  (main_reports output read_out get_hash cpd_size today_date complete_date last_scan_date user_tgi linesep
     count_lines loc_dict last_analysis project_dirs addin_dirs extra_dirs).
Local Notation doit_main :=
  (doit_main output scan_file extra_directory os_walk size read path_exists listdir read_out get_hash complete depth
     links cpd_size today_date complete_date last_scan_date user_tgi linesep count_lines loc_dict last_analysis
     project_dirs addin_dirs extra_dirs).
Local Notation od := (output_dir output).

Lemma txt2html_to_has txt inc tpl dirs d d' :
  txt2html_to extra_directory size read listdir get_hash txt inc tpl dirs d = PyOk d' ->
  is_Some (files d' !! tpl) /\ grows d d'.
Proof.
  unfold txt2html_to. destruct (lists d !! txt), (files d !! inc); try discriminate.
  destruct (txt2html _ _ _ _ _ _ _ _ _ _ _) as [o|]; simpl; [|discriminate]. intros [= <-]. simpl.
  split; [by rewrite lookup_insert_eq|]. intros p Hp. simpl.
  destruct (decide (tpl = p)) as [->|Hne]; [by rewrite lookup_insert_eq|by rewrite lookup_insert_ne].
Qed.

Lemma save_tree_to_grows txt dirs d d' : save_tree_to os_walk txt dirs d = PyOk d' -> grows d d'.
Proof. unfold save_tree_to. destruct (save_tree _ _); simpl; [intros [= <-]|discriminate]. by intros p. Qed.

Lemma fold_write_grows pgs d : grows d (write_all pgs d).
Proof.
  unfold write_all. revert d. induction pgs as [|pg pgs IH]; intros d; simpl; [apply grows_refl|].
  eapply grows_trans; [apply write_grows|apply IH].
Qed.

Lemma check_files_to_grows t d d' :
  check_files_to output scan_file size read path_exists get_hash complete depth links project_dirs addin_dirs t d = PyOk d' ->
  grows d d'.
Proof.
  unfold check_files_to. destruct (check_files_run_from _ _ _ _ _ _ _ _ _ _ _ _ _ _ _) as [s|]; cbn [py_bind]; [|discriminate].
  intros H%PyOk_inj. subst d'. eapply grows_trans; [|apply fold_write_grows]. by intros p.
Qed.

Lemma main_checks_trees d0 d9 :
  main_checks d0 = Done d9 ->
  is_Some (files d9 !! projects_tree output) /\ is_Some (files d9 !! addins_tree output).
Proof.
  unfold Doit.main_checks. intros H. done_steps.
  match goal with
  | H1 : txt2html_to _ _ _ _ _ _ _ (projects_tree _) _ _ = PyOk ?d8,
    H2 : txt2html_to _ _ _ _ _ _ _ (addins_tree _) _ ?d8 = PyOk _ |- _ =>
      apply txt2html_to_has in H1 as [Hp _]; apply txt2html_to_has in H2 as [Ha Hg]
  end.
  split; [by apply Hg|done].
Qed.

Lemma categories_to_grows cs d d' :
  categories_to output get_hash linesep cs d = Done d' -> grows d d'.
Proof.
  revert d. induction cs as [|c cs IH]; intros d; simpl; [intros [= <-]; apply grows_refl|].
  destruct (gen_report_category _ _ _ _ _ _); [|discriminate]. intros H.
  eapply grows_trans; [apply write_grows|]. by apply IH.
Qed.

Lemma list_html_to_grows d d' :
  list_html_to output read_out loc_dict last_analysis d = PyOk d' -> grows d d'.
Proof.
  unfold list_html_to. destruct (list_html_files _ _ _ _ _ _ _ _ _); simpl; [|discriminate].
  intros [= <-]. eapply grows_trans; apply write_grows.
Qed.

Lemma cpd_report_to_grows d d' :
  cpd_report_to output cpd_size project_dirs addin_dirs extra_dirs d = Done d' -> grows d d'.
Proof.
  unfold cpd_report_to. destruct (gen_cpd_report _ _ _ _ _ _ _ _ _ _ _) as [path [ws|ws e]]; [|discriminate].
  intros [= <-]. apply write_grows.
Qed.

(** What [main_reports] writes and keeps *)
Lemma main_reports_pages d9 d :
  main_reports d9 = Done d ->
  grows d9 d /\ is_Some (files d !! (od ++ "/dxl_scan_home.html")) /\
  is_Some (files d !! (od ++ "/dxl_scan.bat")) /\ is_Some (files d !! (od ++ "/report.html")).
Proof.
  unfold Doit.main_reports. intros H. done_steps.
  match goal with
  | Hc : cpd_report_to _ _ _ _ _ _ = Done _, Hk : categories_to _ _ _ _ _ = Done ?d13,
    Hl : list_html_to _ _ _ _ ?d13 = PyOk _ |- _ =>
      apply cpd_report_to_grows in Hc; apply categories_to_grows in Hk; apply list_html_to_grows in Hl;
      pose proof (grows_trans _ _ _ Hk Hl) as Hg; clear Hk Hl
  end.
  unfold gen_homepage in *. repeat split.
  - eapply grows_trans; [apply write_grows|]. eapply grows_trans; [eassumption|].
    do 3 (eapply grows_trans; [apply write_grows|]). exact Hg.
  - apply Hg, write_grows, write_grows, write_has.
  - apply Hg, write_grows, write_has.
  - apply Hg, write_has.
Qed.

End RunLemmas.

(** The targets of the links of the menu bar *)
Lemma header_hrefs :
  hrefs (list_ascii_of_string get_header) =
  ["dxl_scan_home.html"; "#"; "projects_tree.html"; "addins_tree.html"; "extra_tree.html"; "report.html";
   "dxl_scan.bat"; "dxl_scan_home.html"; "dxl_scan.bat"].
Proof. vm_compute. reflexivity. Qed.

(** The list files are not the batch file of the runner *)
Lemma list_files_not_bat output :
  "dxl_cpd_runner.bat" <> projects_list output /\ "dxl_cpd_runner.bat" <> addins_list output /\
  "dxl_cpd_runner.bat" <> extra_list output.
Proof.
  unfold projects_list, addins_list, extra_list.
  split; [|split]; apply not_eq_sym, string_app_suffix_neq, (bool_decide_eq_false_1 _); vm_compute; reflexivity.
Qed.

Lemma exists_file_write pg d p : pg.1 <> p -> exists_file (write pg d) p = exists_file d p.
Proof. intros Hne. unfold exists_file, write; simpl. by rewrite lookup_insert_ne. Qed.

(** C32: the removal of the [PROD] roots that [__doit] means to make
    ("Avoid analyzing and writing errors twice") never happens: its
    [try] block starts with [project_menu_path.remove(...)], a name that is
    no variable of [__doit] (the list is [projects_menu_path]); the
    [NameError] is swallowed by [except: pass] before any removal, and the
    roots scanned are those of the configuration, whatever it holds. *)
Theorem prod_roots_never_removed params_of_section database :
  menu_paths params_of_section database = config_menu_paths params_of_section database.
Proof.
  unfold menu_paths. destruct (config_menu_paths _ _) as [p a]. by case_bool_decide.
Qed.

Section Claims.
Variables output : string.
Variables scan_file extra_directory : list string.
Variable os_walk : string -> list walk_entry.
Variable size : string -> N.
Variable read : string -> chars.
Variable path_exists : chars -> bool.
Variable listdir : chars -> list chars.
Variable read_out : string -> chars.
Variable get_hash : chars -> string.
Variable complete : bool.
Variable depth : nat.
Variable links : list string -> string.
Variable cpd_size : string -> option N.
Variables today_date complete_date last_scan_date user_tgi linesep : string.
Variable count_lines : nat.
Variable loc_dict : gmap string nat.
Variable last_analysis : string -> string.
Variables project_dirs addin_dirs extra_dirs : list string.

Local Notation main_checks :=
  (main_checks output scan_file extra_directory os_walk size read path_exists listdir get_hash complete depth links
     project_dirs addin_dirs).
Local Notation doit_main :=
  (doit_main output scan_file extra_directory os_walk size read path_exists listdir read_out get_hash complete depth
     links cpd_size today_date complete_date last_scan_date user_tgi linesep count_lines loc_dict last_analysis
     project_dirs addin_dirs extra_dirs).
Local Notation cpd_bat := (cpd_bat output project_dirs addin_dirs extra_dirs).

(** C33: when the checks and the tree pages went through but the CPD
    runner did not produce one of the XML files its batch file redirects
    to, the main run stops with [OSError] inside [__gen_cpd_report]: the
    batch file is written, [report_cpd.html] holds only its head and the
    rows of the roots before the missing file, and the homepage,
    [report.html] and the category reports are not written (those of an
    earlier run stay). *)
Theorem cpd_missing_crashes_run d0 d9 t :
  main_checks d0 = Done d9 ->
  t ∈ bat_targets (cpd_bat d9) -> cpd_size t = None ->
  exists rows, doit_main d0 =
    Crash (write (output_dir output ++ "/report_cpd.html", app (cpd_head get_css get_header) rows) (write (cpd_bat d9) d9)) OSError.
Proof.
  intros H9 Ht Hn. unfold Doit.doit_main. rewrite H9. cbn [andthen]. unfold Doit.main_reports, cpd_report_to.
  destruct (list_files_not_bat output) as (Hp & Ha & He).
  rewrite (gen_cpd_report_ext _ _ _ _ _ _ _ _ _ _ (exists_file (write (cpd_bat d9) d9)) (exists_file d9))
    by (apply exists_file_write; simpl; done).
  unfold cpd_bat, Doit.cpd_bat in Ht |- *.
  destruct (cpd_report_missing (exists_file d9) _ _ _ _ _ _ cpd_size get_css get_header (output_dir output) t Ht Hn) as [rows ->]. eauto.
Qed.

(** C34: after a main run that ends normally, every link of the menu bar
    written at the top of each page, but ["#"] and ["extra_tree.html"],
    names a file of the output directory: the homepage and its batch
    file, the two tree pages and [report.html].  The main run never
    writes [extra_tree.html] (example [main_run_no_extra_tree]). *)
Theorem main_run_header_links d0 d h :
  doit_main d0 = Done d ->
  h ∈ hrefs (list_ascii_of_string get_header) -> h <> "#" -> h <> "extra_tree.html" ->
  is_Some (files d !! (output_dir output ++ "/" ++ h)).
Proof.
  unfold Doit.doit_main. intros H Hh H1 H2. apply andthen_Done in H as (d9 & Hc & Hr).
  apply main_checks_trees in Hc as [Hpt Hat]. apply main_reports_pages in Hr as (Hg & Hhome & Hbat & Hrep).
  rewrite header_hrefs in Hh.
  repeat (apply elem_of_cons in Hh as [->|Hh]; [first [done | apply Hg; done | done]|]).
  by apply elem_of_nil in Hh.
Qed.

End Claims.

Section Roots.
Variable params_of_section : string -> list string.
Variables database output : string.
Variables scan_file extra_directory : list string.
Variables isdir view_isdir : string -> bool.
Variable os_walk : string -> list walk_entry.
Variable size : string -> N.
Variable read : string -> chars.
Variable path_exists : chars -> bool.
Variable listdir : chars -> list chars.
Variable read_out : string -> chars.
Variable get_hash : chars -> string.
Variable complete : bool.
Variable depth : nat.
Variable links : list string -> string.
Variable cpd_size : string -> option N.
Variable files0 : gmap string (list string).
Variable lists0 : gmap string (list pyval).
Variable hash_file0 : option (gmap string string).
Variable pages0 : gset string.
Variables today_date complete_date last_scan_date user_tgi linesep : string.
Variable count_lines : nat.
Variable loc_dict : gmap string nat.
Variable last_analysis : string -> string.

(** C13: a project root of the configuration that is neither on drive
    [C] or [D], nor a directory, nor made one by its ClearCase view ends
    the whole run with the [AttributeError] of [__warn], before the log
    file or any page is written: one stale line of the configuration
    file stops every report. *)
Theorem missing_root_crashes_run m :
  Forall (fun m => m <> EmptyString) (menu_paths params_of_section database).1 ->
  m ∈ (menu_paths params_of_section database).1 -> ml_error isdir view_isdir m <> None ->
  doit params_of_section database output scan_file extra_directory isdir view_isdir os_walk size read
    path_exists listdir read_out get_hash complete depth links cpd_size files0 lists0 hash_file0 pages0
    today_date complete_date last_scan_date user_tgi linesep count_lines loc_dict last_analysis
  = Crash (DS files0 lists0 (batch_init hash_file0 pages0) 0) AttributeError.
Proof.
  intros Hne Hin He. unfold doit, root_dirs.
  destruct (menu_paths params_of_section database) as [pm am]; simpl in *.
  unfold make_list. rewrite make_list_fold, (head_omap_nonempty _ _ _ m Hne Hin He). reflexivity.
Qed.

End Roots.

Lemma prod_roots_never_removed_example :
  menu_paths (fun s => if String.eqb s "GLOBAL_ADDINS"
                       then ["K:\CODE\DOORS_TOOLS\PROD"; "K:\CODE\DOORS_TOOLS\PROD\PTO"] else [])
             "fbl@srv" = ([], ["K:\CODE\DOORS_TOOLS\PROD"; "K:\CODE\DOORS_TOOLS\PROD\PTO"]).
Proof. vm_compute. reflexivity. Qed.

(** The installation of [ex_params], in an output directory with a hash
    file and nothing else *)
Definition ex_d0 : dstate := DS ∅ ∅ (batch_init (Some ∅) ∅) 0.

Lemma cpd_missing_crashes_run_witness :
  let d9 := state_of (main_checks "out" [] [] ex_walk (fun _ => 10%N) ex_read (fun _ => false) (fun _ => [])
                        ex_hash false 10 (fun _ => EmptyString) ["K:\P"] ["K:\A"] ex_d0) in
  main_checks "out" [] [] ex_walk (fun _ => 10%N) ex_read (fun _ => false) (fun _ => [])
    ex_hash false 10 (fun _ => EmptyString) ["K:\P"] ["K:\A"] ex_d0 = Done d9 /\
  "cpd/cpd_K_P.xml" ∈ bat_targets (cpd_bat "out" ["K:\P"] ["K:\A"] [] d9) /\
  exists rows,
  doit_main "out" [] [] ex_walk (fun _ => 10%N) ex_read (fun _ => false) (fun _ => []) ex_edit_bat ex_hash false 10
    (fun _ => EmptyString) (fun _ => None) "1109" "_1109_101010" "09/11/26 - 10:10" "u1" lf 0 ∅ (fun _ => EmptyString)
    ["K:\P"] ["K:\A"] [] ex_d0 =
  Crash (write (output_dir "out" ++ "/report_cpd.html", app (cpd_head get_css get_header) rows)
           (write (cpd_bat "out" ["K:\P"] ["K:\A"] [] d9) d9)) OSError.
Proof.
  intros d9.
  assert (H9 : main_checks "out" [] [] ex_walk (fun _ => 10%N) ex_read (fun _ => false) (fun _ => [])
                 ex_hash false 10 (fun _ => EmptyString) ["K:\P"] ["K:\A"] ex_d0 = Done d9) by (vm_compute; reflexivity).
  assert (Ht : "cpd/cpd_K_P.xml" ∈ bat_targets (cpd_bat "out" ["K:\P"] ["K:\A"] [] d9))
    by (apply (bool_decide_eq_true_1 _); vm_compute; reflexivity).
  split; [exact H9|]. split; [exact Ht|].
  exact (cpd_missing_crashes_run "out" [] [] ex_walk (fun _ => 10%N) ex_read (fun _ => false) (fun _ => []) ex_edit_bat
           ex_hash false 10 (fun _ => EmptyString) (fun _ => None) "1109" "_1109_101010" "09/11/26 - 10:10" "u1" lf 0 ∅
           (fun _ => EmptyString) ["K:\P"] ["K:\A"] [] ex_d0 d9 _ H9 Ht eq_refl).
Defined.

Lemma main_run_header_links_witness :
  let d := state_of (doit_main "out" [] [] ex_walk (fun _ => 10%N) ex_read (fun _ => false) (fun _ => []) ex_edit_bat
                       ex_hash false 10 (fun _ => EmptyString) (fun _ => Some 2000%N) "1109" "_1109_101010"
                       "09/11/26 - 10:10" "u1" lf 0 ∅ (fun _ => EmptyString) ["K:\P"] ["K:\A"] [] ex_d0) in
  doit_main "out" [] [] ex_walk (fun _ => 10%N) ex_read (fun _ => false) (fun _ => []) ex_edit_bat
    ex_hash false 10 (fun _ => EmptyString) (fun _ => Some 2000%N) "1109" "_1109_101010"
    "09/11/26 - 10:10" "u1" lf 0 ∅ (fun _ => EmptyString) ["K:\P"] ["K:\A"] [] ex_d0 = Done d /\
  "report.html" ∈ hrefs (list_ascii_of_string get_header) /\
  is_Some (files d !! (output_dir "out" ++ "/" ++ "report.html")).
Proof.
  intros d.
  assert (Hd : doit_main "out" [] [] ex_walk (fun _ => 10%N) ex_read (fun _ => false) (fun _ => []) ex_edit_bat
                 ex_hash false 10 (fun _ => EmptyString) (fun _ => Some 2000%N) "1109" "_1109_101010"
                 "09/11/26 - 10:10" "u1" lf 0 ∅ (fun _ => EmptyString) ["K:\P"] ["K:\A"] [] ex_d0 = Done d)
    by (vm_compute; reflexivity).
  assert (Hh : "report.html" ∈ hrefs (list_ascii_of_string get_header))
    by (apply (bool_decide_eq_true_1 _); vm_compute; reflexivity).
  split; [exact Hd|]. split; [exact Hh|].
  exact (main_run_header_links "out" [] [] ex_walk (fun _ => 10%N) ex_read (fun _ => false) (fun _ => []) ex_edit_bat
           ex_hash false 10 (fun _ => EmptyString) (fun _ => Some 2000%N) "1109" "_1109_101010" "09/11/26 - 10:10" "u1" lf
           0 ∅ (fun _ => EmptyString) ["K:\P"] ["K:\A"] [] ex_d0 d "report.html" Hd Hh ltac:(done) ltac:(done)).
Defined.

(** a main run that goes through, in an output directory without
    [extra_tree.html], leaves it without: the "Extras" link of the menu
    bar of every page leads nowhere. *)
Example main_run_no_extra_tree :
  match doit ex_params "fbl@srv" "out" [] [] ex_isdir ex_isdir ex_walk (fun _ => 10%N) ex_read (fun _ => false)
          (fun _ => []) ex_edit_bat ex_hash false 10 (fun _ => EmptyString) (fun _ => Some 2000%N) ∅ ∅ (Some ∅) ∅
          "1109" "_1109_101010" "09/11/26 - 10:10" "u1" lf 0 ∅ (fun _ => EmptyString) with
  | Done d => files d !! "out/extra_tree.html" = None /\ is_Some (files d !! "out/report.html")
  | Crash _ _ => False
  end.
Proof. vm_compute. split; [reflexivity | eexists; reflexivity]. Qed.

Lemma missing_root_crashes_run_witness :
  doit ex_params_stale "fbl@srv" "out" [] [] ex_isdir ex_isdir ex_walk (fun _ => 10%N) ex_read (fun _ => false)
    (fun _ => []) ex_edit_bat ex_hash false 10 (fun _ => EmptyString) (fun _ => Some 2000%N) ∅ ∅ (Some ∅) ∅
    "1109" "_1109_101010" "09/11/26 - 10:10" "u1" lf 0 ∅ (fun _ => EmptyString)
  = Crash (DS ∅ ∅ (batch_init (Some ∅) ∅) 0) AttributeError.
Proof.
  apply (missing_root_crashes_run _ _ _ _ _ _ _ _ _ _ _ _ _ _ _ _ _ _ _ _ _ _ _ _ _ _ _ _ _ _ "K:\old");
    [vm_compute; repeat constructor; discriminate | vm_compute; right; left | vm_compute; discriminate].
Defined.

End Doit.
