(* ===== verification/ScanScripts.v ===== *)
(** * ScanScripts: the batch files of the output and the runs they start

    [__dxl2html] writes, for every DXL file [f], the batch file
    [scan_bat/<hash>_<basename>.bat] holding
    [dxl_scan.py -i start_doors.ini -d FBL-SSDD -s <f>], and a page whose
    head links to it ("Scan this file"); [__gen_homepage] writes
    [dxl_scan.bat], whose last line starts [pypy.exe dxl_scan.py -i
    start_doors.ini -d FBL_SSDD].  Running a batch file hands its line to
    the program through the command line: [cmd] and the C runtime split
    it into words at blanks, and Python gives the words after the script
    to [__parse_args] ([CmdLine]), whose attributes decide the branch of
    [__doit] and, through [__database], the sections of the configuration
    file read ([Doit.config_menu_paths]).

    The splitting is modelled for lines without double quotes and without
    the characters [cmd] treats specially ([&|<>^%]): words are the
    maximal runs of characters other than space and tab, which is what
    the C runtime of Windows makes of such a line (a backslash is then an
    ordinary character).  The theorems carry that hypothesis on the file
    names. *)

From stdpp Require Import pretty.
From S2P Require Import Prelude Checks NtPath Duplicates IncludeHtml Menu CmdLine Doit.
Import Checks NtPath Duplicates IncludeHtml Menu ArgParse CmdLine Doit.

Module ScanScripts.
Local Open Scope string_scope.

(** ** What [__dxl2html] writes before the code *)

Section Head.
(** [__get_hash], [self.__output_dir], [os.path.getsize],
    [os.path.abspath] and [drives.fix_subst_path] *)
Variable get_hash : chars -> string.
Variable output_dir : string.
Variable getsize : string -> N.
Variable abspath : string -> string.
Variable fix_subst_path : string -> string.

(** [edit_bat = self.__output_dir+"/edit_bat/%s.bat" % dxl_file_basename] *)
Definition edit_bat_path (dxl_file : string) : string :=
  output_dir ++ "/edit_bat/" ++ html_name get_hash dxl_file ++ ".bat".

(** [scan_bat = self.__output_dir+"/scan_bat/%s.bat" % dxl_file_basename] *)
Definition scan_bat_path (dxl_file : string) : string :=
  output_dir ++ "/scan_bat/" ++ html_name get_hash dxl_file ++ ".bat".

(** [f.write("dxl_scan.py -i start_doors.ini -d FBL-SSDD -s "+dxl_file)] *)
Definition scan_bat_writes (dxl_file : string) : list string :=
  ["dxl_scan.py -i start_doors.ini -d FBL-SSDD -s " ++ dxl_file].

(** The writes of the page up to the line numbers *)
Definition dxl_page_head (dxl_file : string) : list string :=
  let base := py_basename dxl_file in
  ["<!DOCTYPE html>";
   "<html><font face='consolas' size='2'><head><title>" ++ base ++ "</title>";
   "<meta http-equiv=" ++ qt ++ "X-UA-Compatible" ++ qt ++ " content=" ++ qt ++ "IE=8" ++ qt ++ "/>";
   "</head><body style='margin:0;'>";
   "<div style=" ++ qt ++ "border:1.5px solid #4B9FD5; padding-left:20px; font-family:helvetica;" ++ qt ++ ">";
   "<p>File: " ++ base ++ " - Size: " ++ pretty (getsize dxl_file) ++ " bytes";
   " - <a href=" ++ abspath (scan_bat_path dxl_file) ++ ">Scan this file</a></p>";
   "<p>Open original DXL file: <a href=" ++ qt ++ "file:///" ++ fix_subst_path dxl_file ++ qt ++ ">" ++ dxl_file
     ++ "</a> - ";
   "<a href=" ++ abspath (edit_bat_path dxl_file) ++ ">Edit file</a></p></div>";
   "<br>" ++ String nl EmptyString].

End Head.

(** ** The command line of a batch file *)

Definition is_blank (c : ascii) : bool := Ascii.eqb c " " || Ascii.eqb c "009"%char.

(** [cmd] special characters, the double quote, and the line break
    that ends a command *)
Definition is_cmd_special (c : ascii) : bool :=
  existsb (Ascii.eqb c) ["&"; "|"; "<"; ">"; "^"; "%"; dq; nl]%char.

(** A word the line can carry as it is *)
Definition plain_word (w : string) : bool :=
  negb (String.eqb w EmptyString) && forallb (fun c => negb (is_blank c || is_cmd_special c)) (list_ascii_of_string w).

Fixpoint split_blanks (s : string) : list string :=
  match s with
  | EmptyString => [EmptyString]
  | String c s' =>
      if is_blank c then EmptyString :: split_blanks s'
      else match split_blanks s' with
           | w :: ws => String c w :: ws
           | [] => [String c EmptyString]
           end
  end.

(** The words of a line *)
Definition argv_of (line : string) : list string :=
  List.filter (fun w => negb (String.eqb w EmptyString)) (split_blanks line).

(** [sys.argv[1:]]: the words after the script *)
Fixpoint script_args (argv : list string) : list string :=
  match argv with
  | [] => []
  | w :: argv' => if endswith ".py" w then argv' else script_args argv'
  end.

(** The lines of what a batch file holds, and its last line *)
Definition bat_last_line (ws : list string) : string :=
  List.last (split_on nl (String.concat EmptyString ws)) EmptyString.

(** ** Lemmas *)

Lemma split_blanks_plain w :
  forallb (fun c => negb (is_blank c)) (list_ascii_of_string w) = true -> split_blanks w = [w].
Proof.
  induction w as [|c w IH]; [done|]. simpl. intros [Hc Hw]%andb_true_iff.
  apply negb_true_iff in Hc. by rewrite Hc, IH.
Qed.

Lemma split_on_plain c0 w :
  forallb (fun c => negb (Ascii.eqb c c0)) (list_ascii_of_string w) = true -> split_on c0 w = [w].
Proof.
  induction w as [|c w IH]; [done|]. simpl. intros [Hc Hw]%andb_true_iff.
  apply negb_true_iff in Hc. by rewrite Hc, IH.
Qed.

(** A plain word holds no blank and no line break, and is not empty *)
Lemma plain_word_parts w :
  plain_word w = true ->
  String.eqb w EmptyString = false /\
  forallb (fun c => negb (is_blank c)) (list_ascii_of_string w) = true /\
  forallb (fun c => negb (Ascii.eqb c nl)) (list_ascii_of_string w) = true.
Proof.
  unfold plain_word. intros [Hne Hw]%andb_true_iff. apply negb_true_iff in Hne. split; [done|].
  rewrite !forallb_forall in *. split; intros c Hc; specialize (Hw c Hc); apply negb_true_iff in Hw;
    apply orb_false_iff in Hw as [Hb Hs]; apply negb_true_iff; [done|].
  destruct (Ascii.eqb_spec c nl) as [->|]; [discriminate|done].
Qed.

(** The line of the scan batch file of [f], split *)
Lemma scan_bat_args f :
  plain_word f = true ->
  script_args (argv_of (bat_last_line (scan_bat_writes f))) = ["-i"; "start_doors.ini"; "-d"; "FBL-SSDD"; "-s"; f].
Proof.
  intros (Hne & Hb & Hn)%plain_word_parts. unfold bat_last_line, scan_bat_writes. cbn [String.concat].
  rewrite split_on_plain; [|rewrite list_ascii_of_string_app, forallb_app, Hn; reflexivity].
  unfold argv_of. cbn [List.last]. simpl split_blanks. rewrite split_blanks_plain by done.
  cbn [List.filter]. change (EmptyString +:+ f) with f. rewrite Hne. reflexivity.
Qed.

Lemma split_blanks_word_app w r :
  forallb (fun c => negb (is_blank c)) (list_ascii_of_string w) = true ->
  split_blanks (w ++ String " " r) = w :: split_blanks r.
Proof.
  induction w as [|c w IH]; [done|]. simpl. intros [Hc Hw]%andb_true_iff.
  apply negb_true_iff in Hc. by rewrite Hc, IH.
Qed.

(** The units of the scan batch file's command line *)
Local Notation scan_units ini f :=
  [("-i", opt_ini_file ini, Some "start_doors.ini"); ("-d", opt_database, Some "FBL-SSDD");
   ("-s", opt_scan_file, Some f)].

(** C17: the batch file [__dxl2html] writes beside the page of a file
    [f] (a path of one word, not starting with ['-']) starts
    [__doit] on the [-s] branch for [f] alone, with the configuration
    [start_doors.ini] and the database [FBL-SSDD]. *)
Theorem scan_bat_runs f :
  plain_word f = true -> String.prefix "-" f = false ->
  exists attrs, parse_args_self "dxl_scan.py" (script_args (argv_of (bat_last_line (scan_bat_writes f)))) = Started attrs /\
    attrs !! "_StartDoors__database" = Some (AStr "FBL-SSDD") /\
    attrs !! "_StartDoors__ini_file" = Some (AStr "start_doors.ini") /\
    attrs !! "_StartDoors__scan_file" = Some (AList [AStr f]) /\
    attrs !! "_StartDoors__extra_directory" = Some (AList []).
Proof.
  intros Hw Hf. rewrite scan_bat_args by done.
  unfold parse_args_self. rewrite define_args_table. unfold parse, parse_args.
  rewrite (classify_units _ (scan_units (ini_file_of "dxl_scan.py") f)) by (repeat constructor; done).
  rewrite consume_units by repeat constructor. cbn [map fst snd option_list option_rect].
  rewrite take_all_store_cons, take_all_store_cons, (take_all_append_cons _ _ _ []) by (done || reflexivity).
  parse_finish. eexists; split; [reflexivity|]. vm_compute. repeat split.
Qed.

(** The line of the scan batch file of a path with one space *)
Lemma scan_bat_args_space a b :
  plain_word a = true -> plain_word b = true ->
  script_args (argv_of (bat_last_line (scan_bat_writes (a ++ " " ++ b))))
  = ["-i"; "start_doors.ini"; "-d"; "FBL-SSDD"; "-s"; a; b].
Proof.
  intros (Hnea & Hba & Hna)%plain_word_parts (Hneb & Hbb & Hnb)%plain_word_parts. unfold bat_last_line, scan_bat_writes.
  cbn [String.concat].
  rewrite split_on_plain; [|rewrite !list_ascii_of_string_app, !forallb_app, Hna, Hnb; reflexivity].
  unfold argv_of. cbn [List.last]. simpl split_blanks.
  change (EmptyString +:+ a +:+ " " +:+ b) with (a +:+ String " " b).
  rewrite split_blanks_word_app, split_blanks_plain by done.
  cbn [List.filter]. rewrite Hnea, Hneb. reflexivity.
Qed.

(** C18: the scan batch file of a path holding a space does not scan
    it: [dxl2html] writes the path unquoted, the command line splits it
    in two, and [argparse] refuses the second half as an unrecognized
    argument ([parser.error], exit status 2) before [__doit] runs. *)
Theorem scan_bat_space_refused a b :
  plain_word a = true -> plain_word b = true -> String.prefix "-" a = false -> String.prefix "-" b = false ->
  parse_args_self "dxl_scan.py" (script_args (argv_of (bat_last_line (scan_bat_writes (a ++ " " ++ b)))))
  = Exited 2 ("unrecognized arguments: " ++ b).
Proof.
  intros Ha Hb Hpa Hpb. rewrite scan_bat_args_space by done.
  unfold parse_args_self. rewrite define_args_table. unfold parse, parse_args.
  rewrite (classify_app _ ["-i"; "start_doors.ini"; "-d"; "FBL-SSDD"; "-s"; a] [b]
             (concat (map (fun u => (u.1.1, ClsO (Some (u.1.2, u.1.1, None))) :: map (fun v => (v, ClsA)) (option_list u.2))
                          (scan_units (ini_file_of "dxl_scan.py") a))) [(b, ClsA)]);
    [| repeat constructor; by apply plain_not_dashdash
     | apply (classify_units _ (scan_units (ini_file_of "dxl_scan.py") a)); repeat constructor; done
     | simpl; by rewrite plain_not_dashdash, parse_optional_plain].
  rewrite consume_units_app by (repeat constructor || done). cbn [map fst snd option_list option_rect].
  rewrite take_all_store_cons, take_all_store_cons, (take_all_append_cons _ _ _ []) by (done || reflexivity).
  cbn [consume]. parse_finish. reflexivity.
Qed.


(** the two scan scripts of one output name two databases: the
    [dxl_scan.bat] of the homepage runs the full scan ([__doit] with
    neither [-s] nor [-e]) on [FBL_SSDD], the scan script of every page
    runs on [FBL-SSDD]; [__doit] reads the menu roots of the sections
    [<database>_PROJECTS] and [<database>_ADDINS], so a file scanned
    from its page is checked against the roots of other sections of
    [start_doors.ini] than the full scan used. *)
Theorem scan_scripts_sections output today_date complete_date last_scan_date user_tgi count_lines scanned d :
  exists ws attrs,
    files (gen_homepage output today_date complete_date last_scan_date user_tgi count_lines scanned d)
      !! (output_dir output ++ "/dxl_scan.bat") = Some ws /\
    parse_args_self "dxl_scan.py" (script_args (argv_of (bat_last_line ws))) = Started attrs /\
    attrs !! "_StartDoors__database" = Some (AStr "FBL_SSDD") /\
    attrs !! "_StartDoors__scan_file" = Some (AList []) /\
    attrs !! "_StartDoors__extra_directory" = Some (AList []) /\
    forall params_of_section,
      config_menu_paths params_of_section "FBL_SSDD"
      = (app (params_of_section "FBL_SSDD_PROJECTS") (params_of_section "GLOBAL_PROJECTS"),
         app (params_of_section "FBL_SSDD_ADDINS") (params_of_section "GLOBAL_ADDINS")) /\
      config_menu_paths params_of_section "FBL-SSDD"
      = (app (params_of_section "FBL-SSDD_PROJECTS") (params_of_section "GLOBAL_PROJECTS"),
         app (params_of_section "FBL-SSDD_ADDINS") (params_of_section "GLOBAL_ADDINS")).
Proof.
  eexists. exists (match parse_args_self "dxl_scan.py" ["-i"; "start_doors.ini"; "-d"; "FBL_SSDD"] with
              | Started a => a | _ => ∅ end).
  split; [unfold gen_homepage, write; cbn [files]; apply lookup_insert_eq|].
  split; [vm_compute; reflexivity|]. split; [vm_compute; reflexivity|]. split; [vm_compute; reflexivity|].
  split; [vm_compute; reflexivity|]. intros params. split; reflexivity.
Qed.

End ScanScripts.

Import ScanScripts.

(** ** Witnesses *)

Lemma scan_bat_runs_witness :
  plain_word "K:\DXL\lib\a.dxl" = true /\ String.prefix "-" "K:\DXL\lib\a.dxl" = false /\
  exists attrs,
    parse_args_self "dxl_scan.py" (script_args (argv_of (bat_last_line (scan_bat_writes "K:\DXL\lib\a.dxl"))))
    = Started attrs /\
    attrs !! "_StartDoors__database" = Some (AStr "FBL-SSDD") /\
    attrs !! "_StartDoors__ini_file" = Some (AStr "start_doors.ini") /\
    attrs !! "_StartDoors__scan_file" = Some (AList [AStr "K:\DXL\lib\a.dxl"]) /\
    attrs !! "_StartDoors__extra_directory" = Some (AList []).
Proof.
  split; [reflexivity|]. split; [reflexivity|]. apply scan_bat_runs; reflexivity.
Defined.

Lemma scan_bat_space_refused_witness :
  plain_word "K:\My" = true /\ plain_word "Files\a.dxl" = true /\
  String.prefix "-" "K:\My" = false /\ String.prefix "-" "Files\a.dxl" = false /\
  parse_args_self "dxl_scan.py" (script_args (argv_of (bat_last_line (scan_bat_writes ("K:\My" ++ " " ++ "Files\a.dxl")))))
  = Exited 2 ("unrecognized arguments: " ++ "Files\a.dxl").
Proof.
  split; [reflexivity|]. split; [reflexivity|]. split; [reflexivity|]. split; [reflexivity|].
  apply scan_bat_space_refused; reflexivity.
Defined.
